(** * RobustIRC core: command handlers and output stream

    A shallow embedding of the IRC command handlers of package [ircserver]
    (the file that declares the [Commands] table and the [cmd*] methods) and
    of the output stream exercised by the tests of package [outputstream],
    followed by the properties established about them.

    Conventions of the embedding:
    - a Go [*Session] is its key in the store [heap]; a [*channel] is its key
      in [channels]. Dereferencing a nil pointer, indexing a slice out of
      range and every other Go run-time panic is the result [None];
    - a handler [func (i *IRCServer) cmdX(s, reply, msg)] becomes
      [cmdX i s reply msg : option (IRCServer * Replyctx)], with the server
      and the reply context passed through explicitly;
    - Go maps are [gmap]s, maps used as sets ([Channels], [invitedTo]) are
      [gset]s, the per-letter flag arrays are the set of letters whose flag
      is true. *)

From Stdlib Require Import ZArith Ascii String List Lia DecimalString.
From stdpp Require Import gmap strings list fin_maps sets.

Local Open Scope string_scope.

(** ** Go library functions used by the handlers *)

Module strings.

(** [strings.Split(s, sep)] for a one-byte separator (every call site
    passes [","]): the pieces between the separators, the empty string
    included, so that [Split "" ","] is [[""]]. *)
Fixpoint Split (s : string) (sep : ascii) : list string :=
  match s with
  | EmptyString => [""]
  | String ch rest =>
      if Ascii.eqb ch sep then "" :: Split rest sep
      else match Split rest sep with
           | piece :: pieces => String ch piece :: pieces
           | [] => [String ch ""]
           end
  end.

(** [strings.Join(elems, sep)]. *)
Fixpoint Join (elems : list string) (sep : string) : string :=
  match elems with
  | [] => ""
  | [e] => e
  | e :: rest => e +:+ sep +:+ Join rest sep
  end.

(** [sort.Strings]: ascending byte-wise order (insertion sort; the order
    of equal strings cannot be observed). *)
Fixpoint insertSorted (x : string) (l : list string) : list string :=
  match l with
  | [] => [x]
  | y :: l' => if String.leb x y then x :: l else y :: insertSorted x l'
  end.

Definition Sort (l : list string) : list string :=
  fold_right insertSorted [] l.

End strings.

Module strconv.
(** [strconv.FormatInt(n, 10)], also the verb [%d] of [fmt.Sprintf]. *)
Definition FormatInt (n : Z) : string := NilZero.string_of_int (Z.to_int n).
End strconv.

(** [string(b)] for a byte [b]: the UTF-8 encoding of the code point [b]. *)
Definition stringOfByte (b : ascii) : string :=
  let n := N_of_ascii b in
  if (n <? 128)%N then String b ""
  else String (ascii_of_N (192 + N.shiftr n 6))
         (String (ascii_of_N (128 + N.land n 63)) "").

(** [for _, char := range s]: the runes of [s], each given as [string(char)],
    its UTF-8 encoding. A byte that does not start a well-formed sequence is
    the rune U+FFFD of width one. *)
Module utf8.

Definition RuneError : string :=
  String (ascii_of_N 239) (String (ascii_of_N 191) (String (ascii_of_N 189) "")).

Definition between (lo hi : N) (b : ascii) : bool :=
  ((lo <=? N_of_ascii b) && (N_of_ascii b <=? hi))%N.

Definition cont : ascii → bool := between 128 191.

(** The accepted range of the second byte, by first byte. *)
Definition second (b0 : ascii) : ascii → bool :=
  let n := N_of_ascii b0 in
  if (n =? 224)%N then between 160 191
  else if (n =? 237)%N then between 128 159
  else if (n =? 240)%N then between 144 191
  else if (n =? 244)%N then between 128 143
  else cont.

(** Width in bytes of the rune that starts [s], 0 when it is malformed. *)
Definition width (s : string) : nat :=
  match s with
  | String b0 rest =>
      if between 0 127 b0 then 1%nat
      else if between 194 223 b0 then
        match rest with
        | String b1 _ => if cont b1 then 2%nat else 0%nat
        | _ => 0%nat
        end
      else if between 224 239 b0 then
        match rest with
        | String b1 (String b2 _) =>
            if second b0 b1 && cont b2 then 3%nat else 0%nat
        | _ => 0%nat
        end
      else if between 240 244 b0 then
        match rest with
        | String b1 (String b2 (String b3 _)) =>
            if second b0 b1 && cont b2 && cont b3 then 4%nat else 0%nat
        | _ => 0%nat
        end
      else 0%nat
  | EmptyString => 0%nat
  end.

Fixpoint take (n : nat) (s : string) : string :=
  match n, s with
  | S n', String b rest => String b (take n' rest)
  | _, _ => ""
  end.

(** [skip] counts the continuation bytes of the current rune still to be
    passed over. *)
Fixpoint runesFrom (skip : nat) (s : string) : list string :=
  match s with
  | EmptyString => []
  | String b rest =>
      match skip with
      | S k => runesFrom k rest
      | O =>
          match width s with
          | O => RuneError :: runesFrom 0 rest
          | S k => take (S k) s :: runesFrom k rest
          end
      end
  end.

Definition runes (s : string) : list string := runesFrom 0 s.

End utf8.

(** ** Protocol messages (package irc) *)

Module irc.

Record Prefix := mkPrefix { Name : string; User : string; Host : string }.

(** [Prefix] is a pointer in the source; [None] is nil. *)
Record Message := mkMessage {
  prefix : option Prefix;
  Command : string;
  Params : list string
}.

(** [Trailing] returns the last parameter, if any. *)
Definition Trailing (m : Message) : string := List.last (Params m) "".

Definition RPL_WELCOME := "001".
Definition RPL_YOURHOST := "002".
Definition RPL_CREATED := "003".
Definition RPL_MYINFO := "004".
Definition RPL_AWAY := "301".
Definition RPL_CHANNELMODEIS := "324".
Definition RPL_NOTOPIC := "331".
Definition RPL_TOPIC := "332".
Definition RPL_INVITING := "341".
Definition RPL_NAMREPLY := "353".
Definition RPL_ENDOFNAMES := "366".
Definition RPL_ENDOFBANLIST := "368".
Definition RPL_MOTD := "372".
Definition RPL_MOTDSTART := "375".
Definition RPL_ENDOFMOTD := "376".
Definition RPL_YOUREOPER := "381".
Definition ERR_NOSUCHNICK := "401".
Definition ERR_NOSUCHCHANNEL := "403".
Definition ERR_NONICKNAMEGIVEN := "431".
Definition ERR_ERRONEUSNICKNAME := "432".
Definition ERR_NICKNAMEINUSE := "433".
Definition ERR_USERNOTINCHANNEL := "441".
Definition ERR_NOTONCHANNEL := "442".
Definition ERR_USERONCHANNEL := "443".
Definition ERR_NEEDMOREPARAMS := "461".
Definition ERR_PASSWDMISMATCH := "464".
Definition ERR_UNKNOWNMODE := "472".
Definition ERR_INVITEONLYCHAN := "473".
Definition ERR_NOPRIVILEGES := "481".
Definition ERR_CHANOPRIVSNEEDED := "482".
Definition ERR_USERSDONTMATCH := "502".
Definition ERROR := "ERROR".
Definition INVITE := "INVITE".
Definition JOIN := "JOIN".
Definition KICK := "KICK".
Definition KILL := "KILL".
Definition MODE := "MODE".
Definition NAMES := "NAMES".
Definition NICK := "NICK".
Definition NOTICE := "NOTICE".
Definition PART := "PART".
Definition PRIVMSG := "PRIVMSG".
Definition QUIT := "QUIT".
Definition TOPIC := "TOPIC".

End irc.

(** ** Data model *)

(** [types.RobustId]. *)
Record RobustId := mkRobustId { Id : Z; Reply : Z }.

#[global] Instance RobustId_eq_dec : EqDecision RobustId.
Proof. solve_decision. Defined.

#[global] Instance RobustId_countable : Countable RobustId :=
  inj_countable' (λ r, (Id r, Reply r)) (λ p, mkRobustId p.1 p.2)
    (λ r, match r with mkRobustId _ _ => eq_refl end).

(** A [time.Time] is its count of nanoseconds since the Unix epoch; a
    [time.Duration] is a count of nanoseconds. *)
Module time.
Definition Time := Z.
(** [time.Time{}], January 1 of year 1. *)
Definition zero : Time := (-62135596800 * 1000000000)%Z.
Definition IsZero (t : Time) : bool := (t =? zero)%Z.
Definition After (t u : Time) : bool := (u <? t)%Z.
Definition Add (t : Time) (d : Z) : Time := (t + d)%Z.
Definition UnixNano (t : Time) : Z := t.
Definition Unix (t : Time) : Z := (t / 1000000000)%Z.
End time.

(** Case-folded names: the types [lcNick] and [lcChan]. *)
Abbreviation lcNick := string.
Abbreviation lcChan := string.

Record Session := mkSession {
  sId : RobustId;
  Nick : string;
  Username : string;
  Realname : string;
  smodes : gset ascii;
  AwayMsg : string;
  Operator : bool;
  loggedIn : bool;
  Pass : string;
  svid : string;
  Channels : gset lcChan;
  invitedTo : gset lcChan;
  LastActivity : time.Time;
  ircPrefix : irc.Prefix
}.

(** [nicks] maps a member to its permission array
    [*[maxChanMemberStatus]bool], whose only index in use is [chanop]. *)
Record channel := mkChannel {
  name : string;
  cnicks : gmap lcNick bool;
  cmodes : gset ascii;
  topicNick : string;
  topicTime : time.Time;
  topic : string
}.

Record svshold := mkSvshold {
  added : time.Time;
  duration : Z;
  reason : string
}.

(** [heap] holds the [Session] objects by pointer: a handler keeps using its
    [*Session] after the session has left the table [sessions]. *)
Record IRCServer := mkIRCServer {
  heap : gmap RobustId Session;
  sessions : gset RobustId;
  nicks : gmap lcNick RobustId;
  channels : gmap lcChan channel;
  svsholds : gmap lcNick svshold;
  ServerPrefix : irc.Prefix;
  ServerCreation : time.Time;
  Operators : list (string * string)
}.

(** Field updates, [x.f = v] in the source. *)
Definition setNick (v : string) (s : Session) : Session :=
  mkSession (sId s) v (Username s) (Realname s) (smodes s) (AwayMsg s)
    (Operator s) (loggedIn s) (Pass s) (svid s) (Channels s) (invitedTo s)
    (LastActivity s) (ircPrefix s).
Definition setSmodes (v : gset ascii) (s : Session) : Session :=
  mkSession (sId s) (Nick s) (Username s) (Realname s) v (AwayMsg s)
    (Operator s) (loggedIn s) (Pass s) (svid s) (Channels s) (invitedTo s)
    (LastActivity s) (ircPrefix s).
Definition setOperator (v : bool) (s : Session) : Session :=
  mkSession (sId s) (Nick s) (Username s) (Realname s) (smodes s) (AwayMsg s)
    v (loggedIn s) (Pass s) (svid s) (Channels s) (invitedTo s)
    (LastActivity s) (ircPrefix s).
Definition setLoggedIn (v : bool) (s : Session) : Session :=
  mkSession (sId s) (Nick s) (Username s) (Realname s) (smodes s) (AwayMsg s)
    (Operator s) v (Pass s) (svid s) (Channels s) (invitedTo s)
    (LastActivity s) (ircPrefix s).
Definition setPass (v : string) (s : Session) : Session :=
  mkSession (sId s) (Nick s) (Username s) (Realname s) (smodes s) (AwayMsg s)
    (Operator s) (loggedIn s) v (svid s) (Channels s) (invitedTo s)
    (LastActivity s) (ircPrefix s).
Definition setChannels (v : gset lcChan) (s : Session) : Session :=
  mkSession (sId s) (Nick s) (Username s) (Realname s) (smodes s) (AwayMsg s)
    (Operator s) (loggedIn s) (Pass s) (svid s) v (invitedTo s)
    (LastActivity s) (ircPrefix s).
Definition setInvitedTo (v : gset lcChan) (s : Session) : Session :=
  mkSession (sId s) (Nick s) (Username s) (Realname s) (smodes s) (AwayMsg s)
    (Operator s) (loggedIn s) (Pass s) (svid s) (Channels s) v
    (LastActivity s) (ircPrefix s).
Definition setIrcPrefix (v : irc.Prefix) (s : Session) : Session :=
  mkSession (sId s) (Nick s) (Username s) (Realname s) (smodes s) (AwayMsg s)
    (Operator s) (loggedIn s) (Pass s) (svid s) (Channels s) (invitedTo s)
    (LastActivity s) v.

Definition setCnicks (v : gmap lcNick bool) (c : channel) : channel :=
  mkChannel (name c) v (cmodes c) (topicNick c) (topicTime c) (topic c).
Definition setCmodes (v : gset ascii) (c : channel) : channel :=
  mkChannel (name c) (cnicks c) v (topicNick c) (topicTime c) (topic c).
Definition setTopic (nick : string) (t : time.Time) (text : string)
    (c : channel) : channel :=
  mkChannel (name c) (cnicks c) (cmodes c) nick t text.

Definition setHeap (v : gmap RobustId Session) (i : IRCServer) : IRCServer :=
  mkIRCServer v (sessions i) (nicks i) (channels i) (svsholds i)
    (ServerPrefix i) (ServerCreation i) (Operators i).
Definition setSessions (v : gset RobustId) (i : IRCServer) : IRCServer :=
  mkIRCServer (heap i) v (nicks i) (channels i) (svsholds i)
    (ServerPrefix i) (ServerCreation i) (Operators i).
Definition setNicks (v : gmap lcNick RobustId) (i : IRCServer) : IRCServer :=
  mkIRCServer (heap i) (sessions i) v (channels i) (svsholds i)
    (ServerPrefix i) (ServerCreation i) (Operators i).
Definition setChannelMap (v : gmap lcChan channel) (i : IRCServer) : IRCServer :=
  mkIRCServer (heap i) (sessions i) (nicks i) v (svsholds i)
    (ServerPrefix i) (ServerCreation i) (Operators i).
Definition setSvsholds (v : gmap lcNick svshold) (i : IRCServer) : IRCServer :=
  mkIRCServer (heap i) (sessions i) (nicks i) (channels i) v
    (ServerPrefix i) (ServerCreation i) (Operators i).

(** A write through a [*Session] or a [*channel]. *)
Definition updSession (s : RobustId) (f : Session → Session)
    (i : IRCServer) : IRCServer :=
  setHeap (alter f s (heap i)) i.
Definition updChannel (k : lcChan) (f : channel → channel)
    (i : IRCServer) : IRCServer :=
  setChannelMap (alter f k (channels i)) i.

(** Flag arrays: [modes[ch] = v] and the read [modes[ch]]. *)
Definition setFlag (ch : ascii) (v : bool) (m : gset ascii) : gset ascii :=
  if v then {[ch]} ∪ m else m ∖ {[ch]}.
Definition flag (m : gset ascii) (ch : ascii) : bool := bool_decide (ch ∈ m).

(** [for mode := 'A'; mode < 'z'; mode++ { if modes[mode] { modestr +=
    string(mode) } }], started from ["+"]. *)
Definition modeLetters : list ascii :=
  List.map (λ n, ascii_of_nat n) (seq 65 57).
Definition modestrOf (m : gset ascii) : string :=
  "+" +:+ string_of_list_ascii (List.filter (flag m) modeLetters).


(** ** Replies *)

(** The delivery interest of an output message: an explicit set of sessions,
    or the server links (services). *)
Inductive Interest :=
  | ForSessions (ids : gset RobustId)
  | ForServices.

Record OutputMessage := mkOutputMessage {
  oId : RobustId;
  InterestingFor : Interest;
  Data : irc.Message
}.

(** [Replyctx]: the fields the handlers read ([msgid], [replyid]) and the
    messages produced so far. *)
Record Replyctx := mkReplyctx {
  msgid : Z;
  replyid : Z;
  Messages : list OutputMessage
}.

(** ** What the handlers use and this file does not declare

    Functions of other packages and files ([types], the parser of package
    irc) and what the server reads from its configuration, which no handler
    writes, taken as parameters. [verifyCaptcha] ([true] for a nil error) and
    [generateCaptchaURL] are the opaque verification collaborator;
    [nextReplyid] is what sending a message does to [replyid]. *)
Class Env := {
  NickToLower : string → lcNick;
  ChanToLower : string → lcChan;
  IsValidNickname : string → bool;
  IsValidChannel : string → bool;
  IsServicesNickname : string → bool;
  extractPassword : string → string → string;
  ParseMessage : string → irc.Message;
  TimeString : time.Time → string;
  prefixOf : Session → irc.Prefix;
  captchaRequiredForLogin : bool;
  captchaConfigured : bool;
  verifyCaptcha : Session → string → bool;
  generateCaptchaURL : Session → string → string;
  ChannelLimit : N;
  maxChannelLen : string;
  maxNickLen : string;
  nextReplyid : Z → Z
}.

(** Loops with and without an early [return]. *)
Inductive ctl (A : Type) :=
  | Next (a : A)
  | Return (a : A).
Arguments Next {A} a.
Arguments Return {A} a.

Fixpoint forEach {A B} (body : A → B → option A) (l : list B) (a : A)
    : option A :=
  match l with
  | [] => Some a
  | x :: l' => a' ← body a x; forEach body l' a'
  end.

Fixpoint forEachCtl {A B} (body : A → B → option (ctl A)) (l : list B) (a : A)
    : option (ctl A) :=
  match l with
  | [] => Some (Next a)
  | x :: l' =>
      r ← body a x;
      match r with
      | Next a' => forEachCtl body l' a'
      | Return a' => Some (Return a')
      end
  end.

Section Handlers.

Context {E : Env}.

(** [s.updateIrcPrefix()]. *)
Definition updateIrcPrefix (s : Session) : Session :=
  setIrcPrefix (prefixOf s) s.

(** *** Sending *)

Definition send (reply : Replyctx) (interest : Interest) (msg : irc.Message)
    : Replyctx :=
  let r := nextReplyid (replyid reply) in
  mkReplyctx (msgid reply) r
    (Messages reply ++ [mkOutputMessage (mkRobustId (msgid reply) r) interest msg]).

(** Modelled from the spec: [sendUser] (declared with [IRCServer], not under
    src/). A reply "addressed back to the requesting session only": the
    interest set is the one session. *)
Definition sendUser (s : RobustId) (reply : Replyctx) (msg : irc.Message)
    : Replyctx :=
  send reply (ForSessions {[s]}) msg.

(** The sessions that are members of [c] at the time of the call. *)
Definition members (i : IRCServer) (c : channel) : gset RobustId :=
  set_omap (λ n, nicks i !! n) (dom (cnicks c)).

(** Modelled from the spec: [sendChannel] (not under src/). The notification
    goes to the membership of the channel as it is when the message is
    synthesized. *)
Definition sendChannel (i : IRCServer) (c : channel) (reply : Replyctx)
    (msg : irc.Message) : Replyctx :=
  send reply (ForSessions (members i c)) msg.

(** The members of the channels in the channel set of [s]. *)
Definition commonChannelMembers (i : IRCServer) (s : Session) : gset RobustId :=
  set_bind (λ k, match channels i !! k with
                 | Some c => members i c
                 | None => ∅
                 end) (Channels s).

(** Modelled from the spec: [sendCommonChannels] (not under src/). The
    notification goes to the membership, at the time of the call, of every
    channel the session is in. *)
Definition sendCommonChannels (i : IRCServer) (s : Session) (reply : Replyctx)
    (msg : irc.Message) : Replyctx :=
  send reply (ForSessions (commonChannelMembers i s)) msg.

(** Modelled from the spec: [sendServices] (not under src/): the message is
    also delivered to the services link. *)
Definition sendServices (reply : Replyctx) (msg : irc.Message) : Replyctx :=
  send reply ForServices msg.

(** *** Directory maintenance *)

(** Modelled from the spec: [maybeDeleteChannel] (not under src/). "A channel
    with zero members does not persist — it is removed the instant its
    membership becomes empty." *)
Definition maybeDeleteChannel (i : IRCServer) (k : lcChan) : IRCServer :=
  match channels i !! k with
  | Some c =>
      if decide (cnicks c = ∅) then setChannelMap (delete k (channels i)) i
      else i
  | None => i
  end.

(** Modelled from the spec: [DeleteSession] (not under src/). "Destruction
    must cascade-remove the session from every channel's membership and from
    the nickname index"; a channel left without members is removed; the
    session leaves the session table. The object stays readable through the
    pointer the handler holds. *)
Definition DeleteSession (i : IRCServer) (s : RobustId) (id : Z)
    : option IRCServer :=
  sess ← heap i !! s;
  let n := NickToLower (Nick sess) in
  let left := (λ c, setCnicks (delete n (cnicks c)) c) <$> channels i in
  Some (setSessions (sessions i ∖ {[s]})
          (setNicks (delete n (nicks i))
             (setChannelMap (filter (λ kc, cnicks kc.2 ≠ ∅) left) i))).

(** *** MOTD, OPER and the login sequence *)

Definition srvMsg (i : IRCServer) (cmd : string) (params : list string)
    : irc.Message :=
  irc.mkMessage (Some (ServerPrefix i)) cmd params.

Definition cmdMotd (i : IRCServer) (s : RobustId) (reply : Replyctx)
    (msg : irc.Message) : option (IRCServer * Replyctx) :=
  sess ← heap i !! s;
  let reply := sendUser s reply (srvMsg i irc.RPL_MOTDSTART
    [Nick sess; "- " +:+ irc.Name (ServerPrefix i) +:+ " Message of the day -"]) in
  let reply := sendUser s reply (srvMsg i irc.RPL_MOTD
    [Nick sess; "- No MOTD configured yet."]) in
  let reply := sendUser s reply (srvMsg i irc.RPL_ENDOFMOTD
    [Nick sess; "End of MOTD command"]) in
  Some (i, reply).

Definition cmdOper (i : IRCServer) (s : RobustId) (reply : Replyctx)
    (msg : irc.Message) : option (IRCServer * Replyctx) :=
  sess ← heap i !! s;
  name ← irc.Params msg !! 0%nat;
  password ← irc.Params msg !! 1%nat;
  let authenticated :=
    existsb (λ op, bool_decide (op.1 = name) && bool_decide (op.2 = password))
      (Operators i) in
  if negb authenticated then
    Some (i, sendUser s reply (srvMsg i irc.ERR_PASSWDMISMATCH
                [Nick sess; "Password incorrect"]))
  else
    let i := updSession s (λ x, setSmodes (setFlag "o" true (smodes x))
                                   (setOperator true x)) i in
    sess ← heap i !! s;
    let modestr := modestrOf (smodes sess) in
    let reply := sendUser s reply (srvMsg i irc.RPL_YOUREOPER
      [Nick sess; "You are now an IRC operator"]) in
    let m := srvMsg i irc.MODE [Nick sess; modestr] in
    let reply := sendServices (sendUser s reply m) m in
    Some (i, reply).

(** [captchaChallengesSent.Inc()] updates a process-wide metric that no
    handler reads; it is left out. *)
Definition maybeLogin (i : IRCServer) (s : RobustId) (reply : Replyctx)
    (msg : irc.Message) : option (IRCServer * Replyctx) :=
  sess ← heap i !! s;
  if loggedIn sess then Some (i, reply)
  else if bool_decide (Nick sess = "") || bool_decide (Username sess = "") then
    Some (i, reply)
  else if captchaRequiredForLogin
          && negb (verifyCaptcha sess (extractPassword (Pass sess) "captcha"))
  then
    let captchaUrl :=
      generateCaptchaURL sess
        ("login:" +:+ strconv.FormatInt (time.UnixNano (LastActivity sess)) +:+ ":") in
    Some (i, sendUser s reply (srvMsg i irc.NOTICE
                [Nick sess; "To login, please go to " +:+ captchaUrl]))
  else
    let i := updSession s (setLoggedIn true) i in
    let reply := sendUser s reply (srvMsg i irc.RPL_WELCOME
      [Nick sess; "Welcome to RobustIRC!"]) in
    let reply := sendUser s reply (srvMsg i irc.RPL_YOURHOST
      [Nick sess; "Your host is " +:+ irc.Name (ServerPrefix i)]) in
    let reply := sendUser s reply (srvMsg i irc.RPL_CREATED
      [Nick sess; "This server was created " +:+ TimeString (ServerCreation i)]) in
    let reply := sendUser s reply (srvMsg i irc.RPL_MYINFO
      [Nick sess; irc.Name (ServerPrefix i) +:+ " v1 i nstix"]) in
    let reply := sendUser s reply (srvMsg i "005"
      ["CHANTYPES=#"; "CHANNELLEN=" +:+ maxChannelLen; "NICKLEN=" +:+ maxNickLen;
       "MODES=1"; "PREFIX=(o)@"; "KNOCK"; "are supported by this server"]) in
    let reply := sendServices reply (irc.mkMessage None irc.NICK
      [Nick sess; "1"; "1"; Username sess; irc.Host (ircPrefix sess);
       irc.Name (ServerPrefix i); svid sess; "+"; Realname sess]) in
    let reply :=
      let pass := extractPassword (Pass sess) "nickserv" in
      if bool_decide (pass = "") then reply
      else sendServices reply (irc.mkMessage (Some (ircPrefix sess)) irc.PRIVMSG
             ["NickServ"; "IDENTIFY " +:+ pass]) in
    '(i, reply) ←
      (let pass := extractPassword (Pass sess) "oper" in
       if bool_decide (pass = "") then Some (i, reply)
       else
         let parsed := ParseMessage ("OPER " +:+ pass) in
         if bool_decide (1 < length (irc.Params parsed))%nat
         then cmdOper i s reply parsed
         else Some (i, reply));
    let i := updSession s (setPass "") i in
    cmdMotd i s reply msg.

(** *** NICK *)

(** The loop over [i.channels] of [cmdNick]: the permissions stored under the
    old key move to the new key, the old key is deleted. *)
Definition rekeyMember (oldNick newNick : lcNick) (c : channel) : channel :=
  let moved :=
    match cnicks c !! oldNick with
    | Some perms => <[newNick := perms]> (cnicks c)
    | None => cnicks c
    end in
  setCnicks (delete oldNick moved) c.

Definition cmdNick (i : IRCServer) (s : RobustId) (reply : Replyctx)
    (msg : irc.Message) : option (IRCServer * Replyctx) :=
  sess ← heap i !! s;
  let oldPrefix := ircPrefix sess in
  let nick := default "" (irc.Params msg !! 0%nat) in
  if bool_decide (nick = "") then
    Some (i, sendUser s reply (srvMsg i irc.ERR_NONICKNAMEGIVEN
                ["No nickname given"]))
  else
  let dest := if loggedIn sess then Nick sess else "*" in
  let onlyCapsChanged :=
    loggedIn sess && bool_decide (NickToLower nick = NickToLower dest) in
  if negb (IsValidNickname nick) then
    Some (i, sendUser s reply (srvMsg i irc.ERR_ERRONEUSNICKNAME
                [dest; nick; "Erroneous nickname"]))
  else if (bool_decide (is_Some (nicks i !! NickToLower nick))
           && negb onlyCapsChanged) || IsServicesNickname nick then
    Some (i, sendUser s reply (srvMsg i irc.ERR_NICKNAMEINUSE
                [dest; nick; "Nickname is already in use"]))
  else
  let held := svsholds i !! NickToLower nick in
  let refused :=
    match held with
    | Some hold =>
        if negb (time.After (LastActivity sess)
                   (time.Add (added hold) (duration hold)))
        then Some hold else None
    | None => None
    end in
  match refused with
  | Some hold =>
      Some (i, sendUser s reply (srvMsg i irc.ERR_ERRONEUSNICKNAME
                  [dest; nick; "Erroneous Nickname: " +:+ reason hold]))
  | None =>
      (* The SVSHOLD expired, so remove it. *)
      let i := match held with
               | Some _ => setSvsholds (delete (NickToLower nick) (svsholds i)) i
               | None => i
               end in
      let oldNick := NickToLower (Nick sess) in
      let i := updSession s (setNick nick) i in
      let i := setNicks (<[NickToLower nick := s]> (nicks i)) i in
      let i :=
        if negb (bool_decide (oldNick = "")) && negb onlyCapsChanged then
          let i := setNicks (delete oldNick (nicks i)) i in
          setChannelMap (rekeyMember oldNick (NickToLower nick) <$> channels i) i
        else i in
      let i := updSession s updateIrcPrefix i in
      if negb (bool_decide (oldNick = "")) then
        sess' ← heap i !! s;
        let m := irc.mkMessage (Some oldPrefix) irc.NICK [nick] in
        let reply := sendUser s reply m in
        let reply := sendCommonChannels i sess' reply m in
        let reply := sendServices reply m in
        Some (i, reply)
      else maybeLogin i s reply msg
  end.

(** *** Mode strings *)

Record modeCmd := mkModeCmd { Mode : string; Param : string }.

(** [s[n]] on a string: the byte at index [n]. *)
Definition byteAt (n : nat) (s : string) : option ascii := String.get n s.

(** [modeCmds.IRCParams]. *)
Definition IRCParams (cmds : list modeCmd) : option (list string) :=
  signs ← mapM (λ m, byteAt 0 (Mode m)) cmds;
  letters ← mapM (λ m, byteAt 1 (Mode m)) cmds;
  let tagged := zip signs (zip letters cmds) in
  let add := List.filter (λ x, Ascii.eqb x.1 "+") tagged in
  let remove := List.filter (λ x, negb (Ascii.eqb x.1 "+")) tagged in
  let render (sign : string) (l : list (ascii * (ascii * modeCmd))) :=
    match l with
    | [] => ("", [])
    | _ =>
        (sign +:+ String.concat "" (List.map (λ x, stringOfByte x.2.1) l),
         List.filter (λ p, negb (bool_decide (p = "")))
           (List.map (λ x, Param x.2.2) l))
    end in
  let '(addStr, addParams) := render "+" add in
  let '(removeStr, removeParams) := render "-" remove in
  Some ((addStr +:+ removeStr) :: (addParams ++ removeParams)%list).

(** One iteration of the loop of [normalizeModes]; [char] is [string(char)]
    and the loop variables are [adding], [modearg] and [results]. *)
Definition normalizeStep (params : list string)
    (st : bool * nat * list modeCmd) (char : string)
    : bool * nat * list modeCmd :=
  let '(adding, modearg, results) := st in
  if bool_decide (char = "+") || bool_decide (char = "-") then
    (bool_decide (char = "+"), modearg, results)
  else
    let takesParam := bool_decide (char = "o") || bool_decide (char = "d") in
    let param :=
      if takesParam then default "" (params !! modearg) else "" in
    let modearg := if takesParam then S modearg else modearg in
    let mode := mkModeCmd ((if adding then "+" else "-") +:+ char) param in
    (adding, modearg, (results ++ [mode])%list).

Definition normalizeModes (msg : irc.Message) : list modeCmd :=
  match irc.Params msg with
  | _ :: modestr :: _ =>
      (fold_left (normalizeStep (irc.Params msg)) (utf8.runes modestr)
         (true, 2%nat, [])).2
  | _ => []
  end.

(** *** MODE *)

Definition isFlagLetter (char : ascii) : bool :=
  Ascii.eqb char "t" || Ascii.eqb char "s" || Ascii.eqb char "i"
  || Ascii.eqb char "n".

(** The body of the loop over the changes of a channel MODE; the loop
    variables are the server, the reply context and [queryOnly]. *)
Definition modeStep (s : RobustId) (nick channelname : string) (k : lcChan)
    (isChanOp : bool) (st : IRCServer * Replyctx * bool) (mode : modeCmd)
    : option (ctl (IRCServer * Replyctx * bool)) :=
  let '(i, reply, queryOnly) := st in
  char ← byteAt 1 (Mode mode);
  if negb (bool_decide (Mode mode = "+b")) then
    (* Non-query modes *)
    let queryOnly := false in
    if negb isChanOp then
      Some (Return (i, sendUser s reply (srvMsg i irc.ERR_CHANOPRIVSNEEDED
                         [nick; channelname; "You're not channel operator"]),
                    queryOnly))
    else
      sign ← byteAt 0 (Mode mode);
      let newvalue := Ascii.eqb sign "+" in
      if isFlagLetter char then
        Some (Next (updChannel k (λ c, setCmodes (setFlag char newvalue (cmodes c)) c) i,
                    reply, queryOnly))
      else if Ascii.eqb char "x" then
        if captchaConfigured then
          Some (Next (updChannel k (λ c, setCmodes (setFlag char newvalue (cmodes c)) c) i,
                      reply, queryOnly))
        else
          Some (Next (i, sendUser s reply (srvMsg i irc.NOTICE
                           [nick; "Cannot set mode +x, no CaptchaURL/CaptchaHMACSecret configured"]),
                      queryOnly))
      else if Ascii.eqb char "o" then
        c ← channels i !! k;
        let target := Param mode in
        match cnicks c !! NickToLower target with
        | None =>
            Some (Next (i, sendUser s reply (srvMsg i irc.ERR_USERNOTINCHANNEL
                             [nick; target; channelname; "They aren't on that channel"]),
                        queryOnly))
        | Some perms =>
            (* If the user already is a chanop, silently do nothing. *)
            if negb (Bool.eqb perms newvalue) then
              Some (Next (updChannel k (λ c, setCnicks
                            (<[NickToLower target := newvalue]> (cnicks c)) c) i,
                          reply, queryOnly))
            else Some (Next (i, reply, queryOnly))
        end
      else
        Some (Next (i, sendUser s reply (srvMsg i irc.ERR_UNKNOWNMODE
                         [nick; stringOfByte char; "is unknown mode char to me"]),
                    queryOnly))
  else
    (* Query modes *)
    if Ascii.eqb char "b" then
      Some (Next (i, sendUser s reply (srvMsg i irc.RPL_ENDOFBANLIST
                       [nick; channelname; "End of Channel Ban List"]),
                  queryOnly))
    else
      Some (Next (i, sendUser s reply (srvMsg i irc.ERR_UNKNOWNMODE
                       [nick; stringOfByte char; "is unknown mode char to me"]),
                  queryOnly)).

(** The body of the loop over the changes of a user MODE. *)
Definition userModeStep (target : RobustId) (i : IRCServer) (mode : modeCmd)
    : option IRCServer :=
  char ← byteAt 1 (Mode mode);
  sign ← byteAt 0 (Mode mode);
  let newvalue := Ascii.eqb sign "+" in
  if Ascii.eqb char "i" then
    Some (updSession target (λ x, setSmodes (setFlag char newvalue (smodes x)) x) i)
  else Some i.

Definition cmdMode (i : IRCServer) (s : RobustId) (reply : Replyctx)
    (msg : irc.Message) : option (IRCServer * Replyctx) :=
  sess ← heap i !! s;
  channelname ← irc.Params msg !! 0%nat;
  if bool_decide (ChanToLower channelname ∈ Channels sess) then
    (* Channel must exist, the user is in it. *)
    let k := ChanToLower channelname in
    c ← channels i !! k;
    let modes := normalizeModes msg in
    if bool_decide (length modes = 0%nat) then
      Some (i, sendUser s reply (srvMsg i irc.RPL_CHANNELMODEIS
                  [Nick sess; channelname; modestrOf (cmodes c)]))
    else
      perms ← cnicks c !! NickToLower (Nick sess);
      let isChanOp := perms || Operator sess in
      forEachCtl (modeStep s (Nick sess) channelname k isChanOp) modes
        (i, reply, true) ≫= λ r : ctl (IRCServer * Replyctx * bool),
      match r with
      | Return (i, reply, _) => Some (i, reply)
      | Next (i, reply, queryOnly) =>
          if queryOnly then Some (i, reply)
          else if (0 <? replyid reply)%Z then Some (i, reply)
          else
            c ← channels i !! k;
            params ← IRCParams modes;
            let m := irc.mkMessage (Some (ircPrefix sess)) irc.MODE
                       (channelname :: params) in
            Some (i, sendServices (sendChannel i c reply m) m)
      end
  else
    let nick := NickToLower channelname in
    match nicks i !! nick with
    | Some target =>
        session ← heap i !! target;
        if negb (bool_decide (nick = NickToLower (Nick sess)))
           && negb (Operator sess) then
          Some (i, sendUser s reply (srvMsg i irc.ERR_USERSDONTMATCH
                      [Nick sess; "Can't change mode for other users"]))
        else
          let modes := normalizeModes msg in
          if bool_decide (length modes = 0%nat) then
            let m := irc.mkMessage (Some (ircPrefix sess)) irc.MODE
                       [Nick session; modestrOf (smodes session)] in
            Some (i, sendServices (sendUser s reply m) m)
          else
            i ← forEach (userModeStep target) modes i;
            params ← IRCParams modes;
            modeStr ← params !! 0%nat;
            let m := irc.mkMessage (Some (ircPrefix sess)) irc.MODE
                       [Nick session; modeStr] in
            Some (i, sendServices (sendUser target reply m) m)
    | None =>
        Some (i, sendUser s reply (srvMsg i irc.ERR_NOTONCHANNEL
                    [Nick sess; channelname; "You're not on that channel"]))
    end.

(** *** TOPIC and NAMES *)

(** [c.modes['t'] && !c.nicks[NickToLower(s.Nick)][chanop]]: the member
    lookup is only made when [t] is set, and then indexes the permission
    array of a member that must exist. *)
Definition topicLocked (c : channel) (n : lcNick) : option bool :=
  if flag (cmodes c) "t" then perms ← cnicks c !! n; Some (negb perms)
  else Some false.

Definition cmdTopic (i : IRCServer) (s : RobustId) (reply : Replyctx)
    (msg : irc.Message) : option (IRCServer * Replyctx) :=
  sess ← heap i !! s;
  chname ← irc.Params msg !! 0%nat;
  let k := ChanToLower chname in
  match channels i !! k with
  | None =>
      Some (i, sendUser s reply (srvMsg i irc.ERR_NOSUCHCHANNEL
                  [Nick sess; chname; "No such channel"]))
  | Some c =>
      if bool_decide (irc.Trailing msg = "")
         && bool_decide (length (irc.Params msg) = 2%nat) then
        (* "TOPIC :", i.e. unset the topic. *)
        topicLocked c (NickToLower (Nick sess)) ≫= λ locked : bool,
        if locked then
          Some (i, sendUser s reply (srvMsg i irc.ERR_CHANOPRIVSNEEDED
                      [Nick sess; chname; "You're not channel operator"]))
        else
          let i := updChannel k (setTopic "" time.zero "") i in
          c ← channels i !! k;
          let reply := sendChannel i c reply
            (irc.mkMessage (Some (ircPrefix sess)) irc.TOPIC
               [chname; irc.Trailing msg]) in
          let reply := sendServices reply
            (irc.mkMessage (Some (irc.mkPrefix (Nick sess) "" "")) irc.TOPIC
               [chname; Nick sess; "0"; irc.Trailing msg]) in
          Some (i, reply)
      else if negb (bool_decide (k ∈ Channels sess)) then
        Some (i, sendUser s reply (srvMsg i irc.ERR_NOTONCHANNEL
                    [Nick sess; chname; "You're not on that channel"]))
      else if bool_decide (length (irc.Params msg) = 1%nat) then
        (* "TOPIC", i.e. get the topic. *)
        if time.IsZero (topicTime c) then
          Some (i, sendUser s reply (srvMsg i irc.RPL_NOTOPIC
                      [Nick sess; chname; "No topic is set"]))
        else
          let reply := sendUser s reply (srvMsg i irc.RPL_TOPIC
            [Nick sess; chname; topic c]) in
          let reply := sendUser s reply (srvMsg i "333"
            [Nick sess; chname; topicNick c;
             strconv.FormatInt (time.Unix (topicTime c))]) in
          Some (i, reply)
      else
        topicLocked c (NickToLower (Nick sess)) ≫= λ locked : bool,
        if locked then
          Some (i, sendUser s reply (srvMsg i irc.ERR_CHANOPRIVSNEEDED
                      [Nick sess; chname; "You're not channel operator"]))
        else
          let i := updChannel k
            (setTopic (Nick sess) (LastActivity sess) (irc.Trailing msg)) i in
          c ← channels i !! k;
          let reply := sendChannel i c reply
            (irc.mkMessage (Some (ircPrefix sess)) irc.TOPIC
               [chname; irc.Trailing msg]) in
          let reply := sendServices reply
            (irc.mkMessage (Some (irc.mkPrefix (Nick sess) "" "")) irc.TOPIC
               [chname; topicNick c; strconv.FormatInt (time.Unix (topicTime c));
                irc.Trailing msg]) in
          Some (i, reply)
  end.

Definition cmdNames (i : IRCServer) (s : RobustId) (reply : Replyctx)
    (msg : irc.Message) : option (IRCServer * Replyctx) :=
  sess ← heap i !! s;
  let found :=
    match irc.Params msg with
    | channelname :: _ =>
        match channels i !! ChanToLower channelname with
        | Some c => Some (channelname, c)
        | None => None
        end
    | [] => None
    end in
  match found with
  | Some (channelname, c) =>
      names ← mapM (λ np : lcNick * bool,
                      id ← nicks i !! np.1;
                      member ← heap i !! id;
                      Some ((if np.2 then "@" else "") +:+ Nick member))
                 (map_to_list (cnicks c));
      let reply := sendUser s reply (srvMsg i irc.RPL_NAMREPLY
        [Nick sess; "="; channelname; strings.Join (strings.Sort names) " "]) in
      let reply := sendUser s reply (srvMsg i irc.RPL_ENDOFNAMES
        [Nick sess; channelname; "End of /NAMES list."]) in
      Some (i, reply)
  | None =>
      Some (i, sendUser s reply (srvMsg i irc.RPL_ENDOFNAMES
                  [Nick sess; "*"; "End of /NAMES list."]))
  end.

(** *** JOIN *)

(** The channel a first JOIN creates: [c.modes['n']] and [c.modes['t']] are
    set, every other field has its zero value. *)
Definition newChannel (channelname : string) : channel :=
  mkChannel channelname ∅ {["n"%char; "t"%char]} "" time.zero "".

(** The body of the loop of [cmdJoin] over the channel names is given in two
    parts. [joinGate] is the chain of [if]s on the looked-up channel: either
    the JOIN is refused, with the replies sent, and the loop [continue]s, or
    it goes on, with the server (in which a channel that did not exist has
    been created) and [modesmsg]. *)
Definition joinGate (i : IRCServer) (s : RobustId) (sess : Session)
    (reply : Replyctx) (key channelname : string)
    : Replyctx + IRCServer * option irc.Message :=
  let k := ChanToLower channelname in
  match channels i !! k with
  | None =>
      let got := N.of_nat (size (channels i)) in
      let limit := ChannelLimit in
      if (limit <=? got)%N && (0 <? limit)%N then
        inl (sendUser s reply (srvMsg i irc.ERR_NOSUCHCHANNEL
               [Nick sess; channelname; "No such channel"]))
      else
        inr (setChannelMap (<[k := newChannel channelname]> (channels i)) i,
             Some (srvMsg i "MODE" [channelname; "+nt"]))
  | Some c =>
      if flag (cmodes c) "i" && negb (bool_decide (k ∈ invitedTo sess)) then
        inl (sendUser s reply (srvMsg i irc.ERR_INVITEONLYCHAN
               [Nick sess; name c; "Cannot join channel (+i)"]))
      else if flag (cmodes c) "x" && negb (bool_decide (k ∈ invitedTo sess)) then
        if negb (verifyCaptcha sess key) then
          let captchaUrl :=
            generateCaptchaURL sess
              ("join:" +:+ strconv.FormatInt (time.UnixNano (LastActivity sess))
               +:+ ":" +:+ name c) in
          let reply := sendUser s reply (srvMsg i irc.NOTICE
            [Nick sess; "To join " +:+ name c +:+ ", please go to " +:+ captchaUrl]) in
          inl (sendUser s reply (srvMsg i irc.ERR_INVITEONLYCHAN
                 [Nick sess; name c;
                  "Cannot join channel (+x). Please go to " +:+ captchaUrl]))
        else inr (i, None)
      else inr (i, None)
  end.

(** [joinEnter] is the rest of the body, from "Invites are only valid once";
    [ok] is whether the channel existed when it was looked up. *)
Definition joinEnter (i : IRCServer) (s : RobustId) (reply : Replyctx)
    (channelname : string) (ok : bool) (modesmsg : option irc.Message)
    : option (IRCServer * Replyctx) :=
  let k := ChanToLower channelname in
  sess ← heap i !! s;
  c ← channels i !! k;
  (* Invites are only valid once. *)
  let i :=
    if flag (cmodes c) "i" || flag (cmodes c) "x"
    then updSession s (λ x, setInvitedTo (invitedTo x ∖ {[k]}) x) i
    else i in
  let n := NickToLower (Nick sess) in
  if bool_decide (is_Some (cnicks c !! n)) then Some (i, reply)
  else
    let i := updChannel k (λ c, setCnicks (<[n := false]> (cnicks c)) c) i in
    (* If the channel did not exist before, the first joining user becomes a
       channel operator. *)
    let i :=
      if negb ok
      then updChannel k (λ c, setCnicks (<[n := true]> (cnicks c)) c) i
      else i in
    let i := updSession s (λ x, setChannels ({[k]} ∪ Channels x) x) i in
    c ← channels i !! k;
    sess ← heap i !! s;
    let reply := sendChannel i c reply
      (irc.mkMessage (Some (ircPrefix sess)) irc.JOIN [channelname]) in
    let reply :=
      match modesmsg with
      | Some m => sendChannel i c reply m
      | None => reply
      end in
    chanop ← cnicks c !! n;
    let prefix := if chanop : bool then "@" else "" in
    let reply := sendServices reply (srvMsg i "SJOIN"
      ["1"; channelname; prefix +:+ Nick sess]) in
    (* Channel joins integrate the output of MODE, TOPIC and NAMES. *)
    '(i, reply) ← cmdMode i s reply (irc.mkMessage None irc.MODE [channelname]);
    '(i, reply) ← cmdTopic i s reply (irc.mkMessage None irc.TOPIC [channelname]);
    cmdNames i s reply (irc.mkMessage None irc.NAMES [channelname]).

Definition joinOne (s : RobustId) (keys : list string)
    (st : IRCServer * Replyctx) (item : nat * string)
    : option (IRCServer * Replyctx) :=
  let '(i, reply) := st in
  let '(idx, channelname) := item in
  sess ← heap i !! s;
  let key := default "" (keys !! idx) in
  if negb (IsValidChannel channelname) then
    Some (i, sendUser s reply (srvMsg i irc.ERR_NOSUCHCHANNEL
                [Nick sess; channelname; "No such channel"]))
  else
    let ok := bool_decide (is_Some (channels i !! ChanToLower channelname)) in
    match joinGate i s sess reply key channelname with
    | inl reply => Some (i, reply)
    | inr (i, modesmsg) => joinEnter i s reply channelname ok modesmsg
    end.

Definition cmdJoin (i : IRCServer) (s : RobustId) (reply : Replyctx)
    (msg : irc.Message) : option (IRCServer * Replyctx) :=
  let keys :=
    match irc.Params msg with
    | _ :: ks :: _ => strings.Split ks ","
    | _ => []
    end in
  names ← irc.Params msg !! 0%nat;
  forEach (joinOne s keys) (imap pair (strings.Split names ",")) (i, reply).

(** *** KICK, PART, QUIT, KILL *)

Definition cmdKick (i : IRCServer) (s : RobustId) (reply : Replyctx)
    (msg : irc.Message) : option (IRCServer * Replyctx) :=
  sess ← heap i !! s;
  channelname ← irc.Params msg !! 0%nat;
  let k := ChanToLower channelname in
  match channels i !! k with
  | None =>
      Some (i, sendUser s reply (srvMsg i irc.ERR_NOSUCHCHANNEL
                  [Nick sess; channelname; "No such nick/channel"]))
  | Some c =>
      match cnicks c !! NickToLower (Nick sess) with
      | None =>
          Some (i, sendUser s reply (srvMsg i irc.ERR_NOTONCHANNEL
                      [Nick sess; channelname; "You're not on that channel"]))
      | Some perms =>
          if negb perms then
            Some (i, sendUser s reply (srvMsg i irc.ERR_CHANOPRIVSNEEDED
                        [Nick sess; channelname; "You're not channel operator"]))
          else
            target ← irc.Params msg !! 1%nat;
            if negb (bool_decide (is_Some (cnicks c !! NickToLower target))) then
              Some (i, sendUser s reply (srvMsg i irc.ERR_USERNOTINCHANNEL
                          [Nick sess; target; channelname;
                           "They aren't on that channel"]))
            else
              (* Must exist since c.nicks contains the nick. *)
              let session := nicks i !! NickToLower target in
              let m := irc.mkMessage (Some (ircPrefix sess)) irc.KICK
                         [channelname; target; irc.Trailing msg] in
              let reply := sendServices (sendChannel i c reply m) m in
              let i := updChannel k (λ c, setCnicks
                         (delete (NickToLower target) (cnicks c)) c) i in
              let i := maybeDeleteChannel i k in
              kicked ← session;
              _ ← heap i !! kicked;
              let i := updSession kicked
                         (λ x, setChannels (Channels x ∖ {[k]}) x) i in
              Some (i, reply)
      end
  end.

(** The body of the loop of [cmdPart] over the channel names. *)
Definition partOne (s : RobustId) (st : IRCServer * Replyctx)
    (channelname : string) : option (IRCServer * Replyctx) :=
  let '(i, reply) := st in
  sess ← heap i !! s;
  let k := ChanToLower channelname in
  match channels i !! k with
  | None =>
      Some (i, sendUser s reply (srvMsg i irc.ERR_NOSUCHCHANNEL
                  [Nick sess; channelname; "No such channel"]))
  | Some c =>
      if negb (bool_decide (is_Some (cnicks c !! NickToLower (Nick sess)))) then
        Some (i, sendUser s reply (srvMsg i irc.ERR_NOTONCHANNEL
                    [Nick sess; channelname; "You're not on that channel"]))
      else
        let m := irc.mkMessage (Some (ircPrefix sess)) irc.PART [channelname] in
        let reply := sendServices (sendChannel i c reply m) m in
        let i := updChannel k (λ c, setCnicks
                   (delete (NickToLower (Nick sess)) (cnicks c)) c) i in
        let i := maybeDeleteChannel i k in
        let i := updSession s (λ x, setChannels (Channels x ∖ {[k]}) x) i in
        Some (i, reply)
  end.

Definition cmdPart (i : IRCServer) (s : RobustId) (reply : Replyctx)
    (msg : irc.Message) : option (IRCServer * Replyctx) :=
  names ← irc.Params msg !! 0%nat;
  forEach (partOne s) (strings.Split names ",") (i, reply).

Definition cmdQuit (i : IRCServer) (s : RobustId) (reply : Replyctx)
    (msg : irc.Message) : option (IRCServer * Replyctx) :=
  i ← DeleteSession i s (msgid reply);
  sess ← heap i !! s;
  if loggedIn sess then
    let m := irc.mkMessage (Some (ircPrefix sess)) irc.QUIT [irc.Trailing msg] in
    let reply := sendServices (sendCommonChannels i sess reply m) m in
    let reply := sendUser s reply (irc.mkMessage None irc.ERROR
      ["Closing Link: " +:+ Nick sess +:+ "[" +:+ irc.Host (ircPrefix sess)
       +:+ "] (" +:+ irc.Trailing msg +:+ ")"]) in
    Some (i, reply)
  else Some (i, reply).

Definition cmdKill (i : IRCServer) (s : RobustId) (reply : Replyctx)
    (msg : irc.Message) : option (IRCServer * Replyctx) :=
  sess ← heap i !! s;
  if bool_decide (length (irc.Params msg) < 2)%nat then
    Some (i, sendUser s reply (srvMsg i irc.ERR_NEEDMOREPARAMS
                [Nick sess; irc.Command msg; "Not enough parameters"]))
  else if negb (Operator sess) then
    Some (i, sendUser s reply (srvMsg i irc.ERR_NOPRIVILEGES
                [Nick sess; "Permission Denied - You're not an IRC operator"]))
  else
    target ← irc.Params msg !! 0%nat;
    match nicks i !! NickToLower target with
    | None =>
        Some (i, sendUser s reply (srvMsg i irc.ERR_NOSUCHNICK
                    [Nick sess; target; "No such nick/channel"]))
    | Some killed =>
        i ← DeleteSession i killed (msgid reply);
        session ← heap i !! killed;
        sess ← heap i !! s;
        let m := irc.mkMessage (Some (ircPrefix session)) irc.QUIT
                   ["Killed by " +:+ Nick sess +:+ ": " +:+ irc.Trailing msg] in
        let reply := sendServices (sendCommonChannels i session reply m) m in
        let reply := sendUser killed reply
          (irc.mkMessage (Some (ircPrefix sess)) irc.KILL
             [Nick session;
              "ircd!" +:+ irc.Host (ircPrefix sess) +:+ "!" +:+ Nick sess
              +:+ " (" +:+ irc.Trailing msg +:+ ")"]) in
        let reply := sendUser killed reply (irc.mkMessage None irc.ERROR
          ["Closing Link: " +:+ Nick session +:+ "["
           +:+ irc.Host (ircPrefix session) +:+ "] (Killed (" +:+ Nick sess
           +:+ " (" +:+ irc.Trailing msg +:+ ")))"]) in
        Some (i, reply)
    end.

(** *** INVITE *)

Definition cmdInvite (i : IRCServer) (s : RobustId) (reply : Replyctx)
    (msg : irc.Message) : option (IRCServer * Replyctx) :=
  sess ← heap i !! s;
  nickname ← irc.Params msg !! 0%nat;
  channelname ← irc.Params msg !! 1%nat;
  let k := ChanToLower channelname in
  let notOn := Some (i, sendUser s reply (srvMsg i irc.ERR_NOTONCHANNEL
                 [Nick sess; channelname; "You're not on that channel"])) in
  match channels i !! k with
  | None => notOn
  | Some c =>
      match cnicks c !! NickToLower (Nick sess) with
      | None => notOn
      | Some perms =>
          match nicks i !! NickToLower nickname with
          | None =>
              Some (i, sendUser s reply (srvMsg i irc.ERR_NOSUCHNICK
                          [Nick sess; nickname; "No such nick/channel"]))
          | Some invited =>
              session ← heap i !! invited;
              if bool_decide (is_Some (cnicks c !! NickToLower nickname)) then
                Some (i, sendUser s reply (srvMsg i irc.ERR_USERONCHANNEL
                            [Nick sess; Nick session; name c;
                             "is already on channel"]))
              else if flag (cmodes c) "i" && negb perms then
                Some (i, sendUser s reply (srvMsg i irc.ERR_CHANOPRIVSNEEDED
                            [Nick sess; name c; "You're not channel operator"]))
              else
                let i := updSession invited
                           (λ x, setInvitedTo ({[k]} ∪ invitedTo x) x) i in
                let reply := sendUser s reply (srvMsg i irc.RPL_INVITING
                  [Nick sess; Nick session; name c]) in
                let m := irc.mkMessage (Some (ircPrefix sess)) irc.INVITE
                           [Nick session; name c] in
                let reply := sendServices (sendUser invited reply m) m in
                let reply := sendChannel i c reply (srvMsg i irc.NOTICE
                  [name c; Nick sess +:+ " invited " +:+ nickname
                           +:+ " into the channel."]) in
                let reply :=
                  if negb (bool_decide (AwayMsg session = "")) then
                    sendUser s reply (srvMsg i irc.RPL_AWAY
                      [Nick sess; nickname; AwayMsg session])
                  else reply in
                Some (i, reply)
          end
      end
  end.

End Handlers.

(** ** The command table *)

(** The methods a table entry can name in its [Func] field. *)
Inductive method :=
  | M_cmdPing | M_cmdNick | M_cmdUser | M_cmdJoin | M_cmdPart | M_cmdKick
  | M_cmdQuit | M_cmdPrivmsg | M_cmdMode | M_cmdWho | M_cmdOper | M_cmdKill
  | M_cmdAway | M_cmdTopic | M_cmdMotd | M_cmdWhois | M_cmdList | M_cmdInvite
  | M_cmdUserhost | M_cmdNames | M_cmdKnock | M_cmdIson | M_cmdServiceAlias
  | M_panic | M_cmdPass.

(** [MinParams] ensures that enough parameters were specified:
    [irc.ERR_NEEDMOREPARAMS] is returned in case less than [MinParams]
    parameters were found, otherwise [Func] is called. *)
Record ircCommand := mkIrcCommand { Func : method; MinParams : nat }.

(** The assignments of [init], in their order. [panicCommand] is whether
    ROBUSTIRC_TESTING_ENABLE_PANIC_COMMAND is "1" in the environment. *)
Definition commandList (panicCommand : bool) : list (string * ircCommand) :=
  [ ("PING", mkIrcCommand M_cmdPing 0);
    ("NICK", mkIrcCommand M_cmdNick 0);
    ("USER", mkIrcCommand M_cmdUser 3);
    ("JOIN", mkIrcCommand M_cmdJoin 1);
    ("PART", mkIrcCommand M_cmdPart 1);
    ("KICK", mkIrcCommand M_cmdKick 2);
    ("QUIT", mkIrcCommand M_cmdQuit 0);
    ("PRIVMSG", mkIrcCommand M_cmdPrivmsg 0);
    ("NOTICE", mkIrcCommand M_cmdPrivmsg 0);
    ("MODE", mkIrcCommand M_cmdMode 1);
    ("WHO", mkIrcCommand M_cmdWho 0);
    ("OPER", mkIrcCommand M_cmdOper 2);
    ("KILL", mkIrcCommand M_cmdKill 1);
    ("AWAY", mkIrcCommand M_cmdAway 0);
    ("TOPIC", mkIrcCommand M_cmdTopic 1);
    ("MOTD", mkIrcCommand M_cmdMotd 0);
    ("WHOIS", mkIrcCommand M_cmdWhois 1);
    ("LIST", mkIrcCommand M_cmdList 0);
    ("INVITE", mkIrcCommand M_cmdInvite 2);
    ("USERHOST", mkIrcCommand M_cmdUserhost 1);
    ("NAMES", mkIrcCommand M_cmdNames 0);
    ("KNOCK", mkIrcCommand M_cmdKnock 1);
    ("ISON", mkIrcCommand M_cmdIson 1);
    ("NICKSERV", mkIrcCommand M_cmdServiceAlias 0);
    ("CHANSERV", mkIrcCommand M_cmdServiceAlias 0);
    ("OPERSERV", mkIrcCommand M_cmdServiceAlias 0);
    ("MEMOSERV", mkIrcCommand M_cmdServiceAlias 0);
    ("HOSTSERV", mkIrcCommand M_cmdServiceAlias 0);
    ("BOTSERV", mkIrcCommand M_cmdServiceAlias 0);
    ("NS", mkIrcCommand M_cmdServiceAlias 0);
    ("CS", mkIrcCommand M_cmdServiceAlias 0);
    ("OS", mkIrcCommand M_cmdServiceAlias 0);
    ("MS", mkIrcCommand M_cmdServiceAlias 0);
    ("HS", mkIrcCommand M_cmdServiceAlias 0);
    ("BS", mkIrcCommand M_cmdServiceAlias 0) ]
  ++ (if panicCommand then [("PANIC", mkIrcCommand M_panic 0)] else [])
  ++ [ ("PASS", mkIrcCommand M_cmdPass 0) ].

Definition Commands (panicCommand : bool) : gmap string ircCommand :=
  list_to_map (commandList panicCommand).

(** What the dispatcher does with a message. *)
Inductive dispatched :=
  | Ignored
  | NeedMoreParams
  | Invoke (f : method).

(** Modelled from the spec: the verb lookup and the parameter-count gate of
    the dispatcher ([ProcessMessage], not under src/). "Verb lookup:
    case-sensitive on a fixed command table; unknown verbs are silently
    ignored"; "each table entry declares a minimum parameter count; if unmet,
    the handler is never invoked and a single need more parameters reply is
    synthesized addressed to the caller". *)
Definition dispatch (cmds : gmap string ircCommand) (msg : irc.Message)
    : dispatched :=
  match cmds !! irc.Command msg with
  | None => Ignored
  | Some cmd =>
      if (length (irc.Params msg) <? MinParams cmd)%nat then NeedMoreParams
      else Invoke (Func cmd)
  end.

(** A handler as the table stores it. *)
Definition handlerFn : Type :=
  IRCServer → RobustId → Replyctx → irc.Message → option (IRCServer * Replyctx).

(** Modelled from the spec: [ProcessMessage] (not under src/), over the
    methods [run] the table entries name. The reply of the gate has the
    parameters [cmdKill] gives its own "Not enough parameters" reply. *)
Definition ProcessMessage `{Env} (run : method → handlerFn)
    (cmds : gmap string ircCommand) (i : IRCServer) (s : RobustId)
    (reply : Replyctx) (msg : irc.Message) : option (IRCServer * Replyctx) :=
  match dispatch cmds msg with
  | Ignored => Some (i, reply)
  | NeedMoreParams =>
      sess ← heap i !! s;
      Some (i, sendUser s reply (srvMsg i irc.ERR_NEEDMOREPARAMS
                  [Nick sess; irc.Command msg; "Not enough parameters"]))
  | Invoke f => run f i s reply msg
  end.

(** ** The output stream (package outputstream) *)

Module outputstream.

(** [outputstream.Message]: its id and its payload. *)
Record Message := mkMessage { MId : RobustId; Data : string }.

(** Modelled from the spec: the state of the stream (outputstream.go is not
    under src/): "an ordered sequence of Output Messages plus a last assigned
    id pointer". The sequence is kept as the batches in the order they were
    added, each under the primary id its messages share. *)
Record OutputStream := mkOutputStream {
  batches : list (Z * list Message);
  lastSeen : RobustId
}.

Definition NewOutputStream : OutputStream := mkOutputStream [] (mkRobustId 0 0).

Definition keys (os : OutputStream) : list Z := (batches os).*1.

(** The retained window is the list of stored batches; its logical head is
    its first batch. *)
Definition head (os : OutputStream) : option Z := List.head (keys os).

Definition stored (os : OutputStream) (id : RobustId) : bool :=
  bool_decide (Id id ∈ keys os).

(** Modelled from the spec: [Add] "appends a contiguous run of Output
    Messages sharing one primary id; updates the last id marker". With no
    message there is nothing to append. *)
Definition Add (os : OutputStream) (msgs : list Message) : OutputStream :=
  match msgs with
  | [] => os
  | m :: _ =>
      mkOutputStream (batches os ++ [(Id (MId m), msgs)])
        (MId (List.last msgs m))
  end.

(** Modelled from the spec: [LastSeen] "returns the id of the most recently
    added batch, or the zero-id if none". *)
Definition LastSeen (os : OutputStream) : RobustId := lastSeen os.

(** Modelled from the spec: [Get] is "non-blocking, returns the batch stored
    at exactly id, or not-found if it was deleted or never existed". The
    batch is found by the primary id. *)
Definition Get (os : OutputStream) (id : RobustId) : option (list Message) :=
  snd <$> List.find (λ b, (b.1 =? Id id)%Z) (batches os).

(** Modelled from the spec: [GetNext] "returns the first stored batch whose
    id strictly follows lastSeenId, if one already exists; otherwise blocks".
    [None] is the blocked call. *)
Definition GetNext (os : OutputStream) (lastSeenId : RobustId)
    : option (list Message) :=
  snd <$> List.find (λ b, (Id lastSeenId <? b.1)%Z) (batches os).

(** Modelled from the spec: [Delete] "removes the stored batch at id", and is
    fatal ([None]) where nothing is stored at [id]: "deleting the same id
    twice, or an id below the retained window, is fatal", "nonexistent
    Delete". The further sentence of the spec, that deleting anything other
    than the head of the retained window is fatal, is [DeleteHeadOnly];
    [TestDeleteMiddle] tells the two apart. *)
Definition Delete (os : OutputStream) (id : RobustId) : option OutputStream :=
  if stored os id then
    Some (mkOutputStream (List.filter (λ b, negb (b.1 =? Id id)%Z) (batches os))
            (lastSeen os))
  else None.

(** Modelled from the spec: [Delete] with "deleting anything other than the
    current logical head of the retained window is a fatal invariant
    violation" taken literally. *)
Definition DeleteHeadOnly (os : OutputStream) (id : RobustId)
    : option OutputStream :=
  if bool_decide (head os = Some (Id id)) then Delete os id else None.

(** *** The tests of the package, read as programs over the stream *)

(** How a test ends: it passes, it calls [t.Fatalf] at a line, or a panic
    outside the deferred [recover] ends it at a line. *)
Inductive outcome :=
  | Passed
  | Fatalf (line : nat)
  | Panic (line : nat).

Definition addEmptyMsg (os : OutputStream) (id reply : Z) : OutputStream :=
  Add os [mkMessage (mkRobustId id reply) ""].

Definition firstId (msgs : list Message) : option RobustId :=
  MId <$> List.head msgs.

(** [testBlocking]: the call of [GetNext] must not return before the [Add],
    and must return the added batch after it. The result is the stream after
    the [Add], or the line of the failure. *)
Definition testBlocking (os : OutputStream) (lastseen want : RobustId)
    : OutputStream + nat :=
  match GetNext os lastseen with
  | Some _ => inr 30%nat
  | None =>
      let os := Add os [mkMessage want ""] in
      match GetNext os lastseen with
      | None => inr 43%nat
      | Some msgs =>
          if bool_decide (firstId msgs = Some want) then inl os else inr 39%nat
      end
  end.

(** [TestDeleteMiddle], over the implementation [del] of [Delete]. *)
Definition TestDeleteMiddle
    (del : OutputStream → RobustId → option OutputStream) : outcome :=
  let os := NewOutputStream in
  let os := addEmptyMsg os 1 1 in
  let os := addEmptyMsg os 2 1 in
  let os := addEmptyMsg os 3 1 in
  match del os (mkRobustId 2 0) with
  | None => Panic 97
  | Some os =>
  match Get os (mkRobustId 3 0) with
  | None => Fatalf 103
  | Some msgs =>
  if negb (bool_decide (firstId msgs = Some (mkRobustId 3 1))) then Fatalf 106 else
  match Get os (mkRobustId 23 0) with
  | Some _ => Fatalf 112
  | None =>
  match GetNext os (mkRobustId 2 1) with
  | None => Fatalf 119
  | Some msgs =>
  if negb (bool_decide (firstId msgs = Some (mkRobustId 3 1))) then Fatalf 121 else
  match GetNext os (mkRobustId 1 1) with
  | None => Fatalf 124
  | Some msgs =>
  if negb (bool_decide (firstId msgs = Some (mkRobustId 3 1))) then Fatalf 126 else
  match firstId msgs with
  | None => Panic 131
  | Some seen =>
  match del os (mkRobustId 3 0) with
  | None => Panic 129
  | Some os =>
  match testBlocking os seen (mkRobustId 4 1) with
  | inr line => Fatalf line
  | inl os =>
  match del os (mkRobustId 1 0) with
  | None => Panic 133
  | Some os =>
  match del os (mkRobustId 4 0) with
  | None => Panic 134
  | Some os =>
  match testBlocking os seen (mkRobustId 5 1) with
  | inr line => Fatalf line
  | inl os =>
  match del os (mkRobustId 5 0) with
  | None => Panic 142
  | Some os =>
  match del os (mkRobustId 0 0) with
  | None => Passed
  | Some _ => Fatalf 145
  end end end end end end end end end end end end end.

(** *** Notions used to state the properties of the stream *)

(** The primary ids of the stored batches increase strictly along the
    sequence, as they do when the producer adds in increasing order. *)
Fixpoint increasing (l : list Z) : bool :=
  match l with
  | x :: l' =>
      match l' with
      | y :: _ => (x <? y)%Z && increasing l'
      | [] => true
      end
  | [] => true
  end.

(** [GetNext os lastSeenId] returns the stored batch with the least id among
    those whose id is strictly greater than [lastSeenId]. *)
Definition returnsEarliest (os : OutputStream) (lastSeenId : RobustId) : Prop :=
  ∃ b0 : Z * list Message,
    GetNext os lastSeenId = Some b0.2
    ∧ b0 ∈ batches os
    ∧ (Id lastSeenId < b0.1)%Z
    ∧ ∀ b : Z * list Message,
        b ∈ batches os → (Id lastSeenId < b.1)%Z → (b0.1 ≤ b.1)%Z.

(** The head-only rule, said of an implementation [del] of [Delete]: every
    [Delete] of an id other than the head of the retained window is fatal. *)
Definition fatalUnlessHead
    (del : OutputStream → RobustId → option OutputStream) : Prop :=
  ∀ os id, head os ≠ Some (Id id) → del os id = None.

(** The stream of [TestDeleteMiddle] after its three calls of
    [addEmptyMsg]. *)
Definition oneTwoThree : OutputStream :=
  addEmptyMsg (addEmptyMsg (addEmptyMsg NewOutputStream 1 1) 2 1) 3 1.

End outputstream.

(** ** Notions used to state the properties of the handlers *)

Section Notions.

Context {E : Env}.

(** What a change of a channel MODE asks for: its sign, its letter, and
    whether it is the query [+b]. *)
Definition signOf (m : modeCmd) : bool :=
  match byteAt 0 (Mode m) with
  | Some sign => Ascii.eqb sign "+"
  | None => false
  end.
Definition letterOf (m : modeCmd) : ascii :=
  default "000"%char (byteAt 1 (Mode m)).
Definition isQuery (m : modeCmd) : bool := bool_decide (Mode m = "+b").

(** The letters a channel MODE knows: the flags [t], [s], [i], [n], the
    captcha flag [x], the member flag [o]; and the query [+b]. A change is
    unknown when it falls to the [default] case of its [switch]. *)
Definition isUnknownMode (m : modeCmd) : bool :=
  if isQuery m then negb (Ascii.eqb (letterOf m) "b")
  else negb (isFlagLetter (letterOf m) || Ascii.eqb (letterOf m) "x"
             || Ascii.eqb (letterOf m) "o").

(** The value of the flag [ch] after the changes [modes], applied in order
    from the value [v]: each change of [ch] sets it, the others leave it. *)
Definition changeOf (ch : ascii) (m : modeCmd) : option bool :=
  if negb (isQuery m) && Ascii.eqb (letterOf m) ch then Some (signOf m)
  else None.
Definition flagAfter (ch : ascii) (modes : list modeCmd) (v : bool) : bool :=
  fold_left (λ v m, default v (changeOf ch m)) modes v.

(** The same for the operator bit of the member [n]: the changes are those
    of letter [o] whose parameter folds to [n]. *)
Definition opChangeOf (n : lcNick) (m : modeCmd) : option bool :=
  if negb (isQuery m) && Ascii.eqb (letterOf m) "o"
     && bool_decide (NickToLower (Param m) = n)
  then Some (signOf m) else None.
Definition opAfter (n : lcNick) (modes : list modeCmd) (v : bool) : bool :=
  fold_left (λ v m, default v (opChangeOf n m)) modes v.

(** Whether the handler writes the flag [ch] at all. *)
Definition settable (ch : ascii) : bool :=
  isFlagLetter ch || (Ascii.eqb ch "x" && captchaConfigured).

(** The addressee and the payload of an output message. *)
Definition delivery (o : OutputMessage) : Interest * irc.Message :=
  (InterestingFor o, Data o).

(** The replies with a given command among [l]. *)
Definition repliesWith (cmd : string) (l : list OutputMessage)
    : list (Interest * irc.Message) :=
  delivery <$> List.filter (λ o, String.eqb (irc.Command (Data o)) cmd) l.

(** The unknown-mode reply for the change [m], to the requester [s]. *)
Definition unknownModeReply (i : IRCServer) (s : RobustId) (nick : string)
    (m : modeCmd) : Interest * irc.Message :=
  (ForSessions {[s]},
   srvMsg i irc.ERR_UNKNOWNMODE
     [nick; stringOfByte (letterOf m); "is unknown mode char to me"]).

(** A change as [normalizeModes] builds it: a sign and at least one byte. *)
Definition wfMode (m : modeCmd) : Prop :=
  ∃ sign b rest, Mode m = String sign (String b rest).

(** Two servers that differ at most in the channel stored under [k]. *)
Definition sameBut (k : lcChan) (i i' : IRCServer) : Prop :=
  heap i' = heap i ∧ sessions i' = sessions i ∧ nicks i' = nicks i
  ∧ svsholds i' = svsholds i ∧ ServerPrefix i' = ServerPrefix i
  ∧ ServerCreation i' = ServerCreation i ∧ Operators i' = Operators i
  ∧ ∀ k', k' ≠ k → channels i' !! k' = channels i !! k'.

(** Two servers with the same nickname index, channels and holds, whose
    sessions have the same nicknames. *)
Definition sameNames (i i' : IRCServer) : Prop :=
  nicks i' = nicks i ∧ channels i' = channels i ∧ svsholds i' = svsholds i
  ∧ ∀ t, Nick <$> heap i' !! t = Nick <$> heap i !! t.

(** A member key that leads, through the nickname index, to a session. *)
Definition resolves (i : IRCServer) (n : lcNick) : Prop :=
  is_Some (nicks i !! n ≫= λ id, heap i !! id).

(** Every member of the channel resolves. *)
Definition membersKnown (i : IRCServer) (c : channel) : Prop :=
  map_Forall (λ n _, resolves i n) (cnicks c).


(** The first message a handler adds to the reply context. *)
Definition firstNew (reply reply' : Replyctx) : option OutputMessage :=
  Messages reply' !! length (Messages reply).


End Notions.

(** ** A small network on which the statements below are exercised *)

Module Example.

Definition lowerByte (c : ascii) : ascii :=
  let n := nat_of_ascii c in
  if (65 <=? n)%nat && (n <=? 90)%nat then ascii_of_nat (n + 32) else c.

Fixpoint lower (s : string) : string :=
  match s with
  | EmptyString => ""
  | String c rest => String (lowerByte c) (lower rest)
  end.

(** ASCII case folding, channel names that start with [#], no captcha
    collaborator, no channel limit, and a reply counter that counts. *)
Definition env : Env := {|
  NickToLower := lower;
  ChanToLower := lower;
  IsValidNickname := λ s, negb (String.eqb s "");
  IsValidChannel := String.prefix "#";
  IsServicesNickname := λ s, String.eqb (lower s) "nickserv";
  extractPassword := λ _ _, "";
  ParseMessage := λ s, irc.mkMessage None s [];
  TimeString := λ _, "";
  prefixOf := λ s, irc.mkPrefix (Nick s) (Username s) "robust/0x1";
  captchaRequiredForLogin := false;
  captchaConfigured := false;
  verifyCaptcha := λ _ _, false;
  generateCaptchaURL := λ _ _, "";
  ChannelLimit := 0%N;
  maxChannelLen := "50";
  maxNickLen := "30";
  nextReplyid := Z.succ
|}.

(** The same network with room for one channel only. *)
Definition envLimit1 : Env := {|
  NickToLower := lower;
  ChanToLower := lower;
  IsValidNickname := λ s, negb (String.eqb s "");
  IsValidChannel := String.prefix "#";
  IsServicesNickname := λ s, String.eqb (lower s) "nickserv";
  extractPassword := λ _ _, "";
  ParseMessage := λ s, irc.mkMessage None s [];
  TimeString := λ _, "";
  prefixOf := λ s, irc.mkPrefix (Nick s) (Username s) "robust/0x1";
  captchaRequiredForLogin := false;
  captchaConfigured := false;
  verifyCaptcha := λ _ _, false;
  generateCaptchaURL := λ _ _, "";
  ChannelLimit := 1%N;
  maxChannelLen := "50";
  maxNickLen := "30";
  nextReplyid := Z.succ
|}.

Definition alice : RobustId := mkRobustId 1 0.
Definition bob : RobustId := mkRobustId 2 0.

(** A logged-in session, last active at time 100. *)
Definition user (id : RobustId) (nick : string) (channels invited : gset lcChan)
    : Session :=
  mkSession id nick "u" "r" ∅ "" false true "" "" channels invited 100%Z
    (irc.mkPrefix nick "u" "robust/0x1").

Definition serverPrefix : irc.Prefix := irc.mkPrefix "robustirc.net" "" "".

(** Alice and bob, no channel. *)
Definition lobby : IRCServer :=
  mkIRCServer {[alice := user alice "Alice" ∅ ∅; bob := user bob "bob" ∅ ∅]}
    {[alice; bob]} {["alice" := alice; "bob" := bob]} ∅ ∅ serverPrefix 0%Z [].

(** Alice alone on #test, which she created. *)
Definition aliceAlone : IRCServer :=
  mkIRCServer
    {[alice := user alice "Alice" {["#test"]} ∅; bob := user bob "bob" ∅ ∅]}
    {[alice; bob]} {["alice" := alice; "bob" := bob]}
    {["#test" := mkChannel "#test" {["alice" := true]} {["n"%char; "t"%char]}
                   "" time.zero ""]}
    ∅ serverPrefix 0%Z [].

(** Alice (operator) and bob on #test. *)
Definition both : IRCServer :=
  mkIRCServer
    {[alice := user alice "Alice" {["#test"]} ∅;
      bob := user bob "bob" {["#test"]} ∅]}
    {[alice; bob]} {["alice" := alice; "bob" := bob]}
    {["#test" := mkChannel "#test" {["alice" := true; "bob" := false]}
                   {["n"%char; "t"%char]} "" time.zero ""]}
    ∅ serverPrefix 0%Z [].

(** Alice and bob on #test, Alice being an IRC operator as well. *)
Definition bothWithOper : IRCServer :=
  mkIRCServer
    {[alice := setOperator true (user alice "Alice" {["#test"]} ∅);
      bob := user bob "bob" {["#test"]} ∅]}
    {[alice; bob]} {["alice" := alice; "bob" := bob]}
    {["#test" := mkChannel "#test" {["alice" := true; "bob" := false]}
                   {["n"%char; "t"%char]} "" time.zero ""]}
    ∅ serverPrefix 0%Z [].

(** Alice alone on #test, which is invite-only; bob has been invited. *)
Definition inviteOnly : IRCServer :=
  mkIRCServer
    {[alice := user alice "Alice" {["#test"]} ∅;
      bob := user bob "bob" ∅ {["#test"]}]}
    {[alice; bob]} {["alice" := alice; "bob" := bob]}
    {["#test" := mkChannel "#test" {["alice" := true]}
                   {["i"%char; "n"%char; "t"%char]} "" time.zero ""]}
    ∅ serverPrefix 0%Z [].

(** The lobby with a hold on the nickname carol, placed at time [added] for
    [duration]; the sessions were last active at time 100. *)
Definition lobbyWithHold (added duration : Z) : IRCServer :=
  mkIRCServer {[alice := user alice "Alice" ∅ ∅; bob := user bob "bob" ∅ ∅]}
    {[alice; bob]} {["alice" := alice; "bob" := bob]} ∅
    {["carol" := mkSvshold added duration "reserved"]} serverPrefix 0%Z [].

Definition reply0 : Replyctx := mkReplyctx 7 0 [].

Definition line (cmd : string) (params : list string) : irc.Message :=
  irc.mkMessage None cmd params.


End Example.

(** ** The other client handlers and the handlers of the services link *)

(** Further constants of package irc. *)
Definition RPL_USERHOST := "302".
Definition RPL_ISON := "303".
Definition RPL_UNAWAY := "305".
Definition RPL_NOWAWAY := "306".
Definition RPL_WHOISUSER := "311".
Definition RPL_WHOISSERVER := "312".
Definition RPL_WHOISOPERATOR := "313".
Definition RPL_ENDOFWHO := "315".
Definition RPL_WHOISIDLE := "317".
Definition RPL_ENDOFWHOIS := "318".
Definition RPL_WHOISCHANNELS := "319".
Definition RPL_LIST := "322".
Definition RPL_LISTEND := "323".
Definition RPL_WHOREPLY := "352".
Definition ERR_CANNOTSENDTOCHAN := "404".
Definition ERR_NOORIGIN := "409".
Definition ERR_NORECIPIENT := "411".
Definition ERR_NOTEXTTOSEND := "412".
Definition ERR_UMODEUNKNOWNFLAG := "501".
Definition PONG := "PONG".
Definition PASS := "PASS".

(** Further field updates. *)
Definition setUsername (v : string) (s : Session) : Session :=
  mkSession (sId s) (Nick s) v (Realname s) (smodes s) (AwayMsg s)
    (Operator s) (loggedIn s) (Pass s) (svid s) (Channels s) (invitedTo s)
    (LastActivity s) (ircPrefix s).
Definition setRealname (v : string) (s : Session) : Session :=
  mkSession (sId s) (Nick s) (Username s) v (smodes s) (AwayMsg s)
    (Operator s) (loggedIn s) (Pass s) (svid s) (Channels s) (invitedTo s)
    (LastActivity s) (ircPrefix s).
Definition setAwayMsg (v : string) (s : Session) : Session :=
  mkSession (sId s) (Nick s) (Username s) (Realname s) (smodes s) v
    (Operator s) (loggedIn s) (Pass s) (svid s) (Channels s) (invitedTo s)
    (LastActivity s) (ircPrefix s).
Definition setSvid (v : string) (s : Session) : Session :=
  mkSession (sId s) (Nick s) (Username s) (Realname s) (smodes s) (AwayMsg s)
    (Operator s) (loggedIn s) (Pass s) v (Channels s) (invitedTo s)
    (LastActivity s) (ircPrefix s).

(** [time.Unix(sec, 0)]. *)
Definition timeOfUnix (sec : Z) : time.Time := (sec * 1000000000)%Z.

(** What these handlers use from outside the files under src/, taken as
    parameters: the Go library functions [strings.TrimSpace],
    [strings.ToUpper], [time.ParseDuration] and [strconv.ParseInt] (the right
    injection is the text of the error), the method [String] of [irc.Prefix],
    [sendChannelButOne], declared with [IRCServer], and the idle time
    [cmdWhois] prints for a session, [strconv.FormatInt(int64(
    s.LastActivity.Sub(session.LastNonPing).Seconds()), 10)], which is
    computed from a field of the session, [LastNonPing], that the record
    [Session] does not carry. *)
Class Outside := {
  TrimSpace : string → string;
  ToUpper : string → string;
  ParseDuration : string → Z + string;
  ParseInt : string → Z + string;
  PrefixString : irc.Prefix → string;
  sendChannelButOne :
    IRCServer → channel → RobustId → Replyctx → irc.Message → Replyctx;
  whoisIdle : IRCServer → RobustId → RobustId → string
}.

Section ClientHandlers.

Context {E : Env} {O : Outside}.

(** *** PING, USER, AWAY, PASS *)

Definition cmdPing (i : IRCServer) (s : RobustId) (reply : Replyctx)
    (msg : irc.Message) : option (IRCServer * Replyctx) :=
  sess ← heap i !! s;
  match irc.Params msg with
  | [] =>
      Some (i, sendUser s reply (srvMsg i ERR_NOORIGIN
                  [Nick sess; "No origin specified"]))
  | origin :: _ => Some (i, sendUser s reply (srvMsg i PONG [origin]))
  end.

Definition cmdUser (i : IRCServer) (s : RobustId) (reply : Replyctx)
    (msg : irc.Message) : option (IRCServer * Replyctx) :=
  _ ← heap i !! s;
  username ← irc.Params msg !! 0%nat;
  (* We keep the username and realname. *)
  let i := updSession s (setUsername username) i in
  let i := updSession s (setRealname (irc.Trailing msg)) i in
  let i := updSession s updateIrcPrefix i in
  maybeLogin i s reply msg.

Definition cmdAway (i : IRCServer) (s : RobustId) (reply : Replyctx)
    (msg : irc.Message) : option (IRCServer * Replyctx) :=
  _ ← heap i !! s;
  let i := updSession s (setAwayMsg (TrimSpace (irc.Trailing msg))) i in
  sess ← heap i !! s;
  if negb (bool_decide (AwayMsg sess = "")) then
    Some (i, sendUser s reply (srvMsg i RPL_NOWAWAY
                [Nick sess; "You have been marked as being away"]))
  else
    Some (i, sendUser s reply (srvMsg i RPL_UNAWAY
                [Nick sess; "You are no longer marked as being away"])).

(** The keys a stored password can start with. *)
Definition passKeys : list string :=
  ["nickserv="; "services="; "network="; "oper="; "session="; "captcha="].

(** The value [cmdPass] leaves in [s.Pass] before it calls [maybeLogin]. *)
Definition keyedPass (old : string) (params : list string) : string :=
  let pass :=
    if bool_decide (0 < length params)%nat then strings.Join params " "
    else old in
  if forallb (λ key, negb (String.prefix key pass)) passKeys
  then "nickserv=" +:+ pass
  else pass.

Definition cmdPass (i : IRCServer) (s : RobustId) (reply : Replyctx)
    (msg : irc.Message) : option (IRCServer * Replyctx) :=
  sess ← heap i !! s;
  let i := updSession s (setPass (keyedPass (Pass sess) (irc.Params msg))) i in
  maybeLogin i s reply msg.

(** *** PRIVMSG, NOTICE and the service aliases *)

(** [for channelname := range session.Channels { if _, ok :=
    s.Channels[channelname]; ok { common = true; break } }]. *)
Definition shareChannel (session s : Session) : bool :=
  existsb (λ k, bool_decide (k ∈ Channels s)) (elements (Channels session)).

Definition cmdPrivmsg (i : IRCServer) (s : RobustId) (reply : Replyctx)
    (msg : irc.Message) : option (IRCServer * Replyctx) :=
  sess ← heap i !! s;
  match irc.Params msg with
  | [] =>
      Some (i, sendUser s reply (srvMsg i ERR_NORECIPIENT
                  [Nick sess; "No recipient given (PRIVMSG)"]))
  | [_] =>
      Some (i, sendUser s reply (srvMsg i ERR_NOTEXTTOSEND
                  [Nick sess; "No text to send"]))
  | target :: _ :: _ =>
      if String.prefix "#" target then
        match channels i !! ChanToLower target with
        | None =>
            Some (i, sendUser s reply (srvMsg i irc.ERR_NOSUCHCHANNEL
                        [Nick sess; target; "No such channel"]))
        | Some c =>
            if negb (bool_decide (is_Some (cnicks c !! NickToLower (Nick sess))))
               && flag (cmodes c) "n" then
              Some (i, sendUser s reply (srvMsg i ERR_CANNOTSENDTOCHAN
                          [Nick sess; name c; "Cannot send to channel"]))
            else
              Some (i, sendChannelButOne i c s reply
                         (irc.mkMessage (Some (ircPrefix sess)) (irc.Command msg)
                            [target; irc.Trailing msg]))
        end
      else
        match nicks i !! NickToLower target with
        | None =>
            Some (i, sendUser s reply (srvMsg i irc.ERR_NOSUCHNICK
                        [Nick sess; target; "No such nick/channel"]))
        | Some to =>
            session ← heap i !! to;
            (* To message invisible users, you must share a channel with
               them. *)
            if flag (smodes session) "i" && negb (shareChannel session sess) then
              Some (i, reply)
            else
              let reply := sendUser to reply
                (irc.mkMessage (Some (ircPrefix sess)) (irc.Command msg)
                   [target; irc.Trailing msg]) in
              if negb (bool_decide (AwayMsg session = ""))
                 && bool_decide (irc.Command msg = irc.PRIVMSG) then
                Some (i, sendUser s reply (srvMsg i irc.RPL_AWAY
                            [Nick sess; target; AwayMsg session]))
              else Some (i, reply)
        end
  end.

(** The map literal of [cmdServiceAlias]. *)
Definition aliases : list (string * string) :=
  [ ("NICKSERV", "PRIVMSG NickServ :");
    ("NS", "PRIVMSG NickServ :");
    ("CHANSERV", "PRIVMSG ChanServ :");
    ("CS", "PRIVMSG ChanServ :");
    ("OPERSERV", "PRIVMSG OperServ :");
    ("OS", "PRIVMSG OperServ :");
    ("MEMOSERV", "PRIVMSG MemoServ :");
    ("MS", "PRIVMSG MemoServ :");
    ("HOSTSERV", "PRIVMSG HostServ :");
    ("HS", "PRIVMSG HostServ :");
    ("BOTSERV", "PRIVMSG BotServ :");
    ("BS", "PRIVMSG BotServ :") ].

(** The loop over the map runs its body for the one key equal to
    [strings.ToUpper(msg.Command)], if there is one: a lookup. *)
Definition cmdServiceAlias (i : IRCServer) (s : RobustId) (reply : Replyctx)
    (msg : irc.Message) : option (IRCServer * Replyctx) :=
  match (list_to_map aliases : gmap string string) !! ToUpper (irc.Command msg) with
  | Some expanded =>
      cmdPrivmsg i s reply
        (ParseMessage (expanded +:+ strings.Join (irc.Params msg) " "))
  | None => Some (i, reply)
  end.

(** *** WHO, LIST, USERHOST, ISON, KNOCK *)

(** The body of the second loop of [cmdWho], over the sorted nicknames. *)
Definition whoReply (i : IRCServer) (s : RobustId) (nick channelname : string)
    (reply : Replyctx) (member : string) : option Replyctx :=
  id ← nicks i !! NickToLower member;
  session ← heap i !! id;
  let prefix := ircPrefix session in
  let goneStatus := if negb (bool_decide (AwayMsg session = "")) then "G" else "H" in
  Some (sendUser s reply (srvMsg i RPL_WHOREPLY
          [nick; channelname; irc.User prefix; irc.Host prefix;
           irc.Name (ServerPrefix i); irc.Name prefix; goneStatus;
           "0 " +:+ Realname session])).

Definition cmdWho (i : IRCServer) (s : RobustId) (reply : Replyctx)
    (msg : irc.Message) : option (IRCServer * Replyctx) :=
  sess ← heap i !! s;
  match irc.Params msg with
  | [] =>
      Some (i, sendUser s reply (srvMsg i RPL_ENDOFWHO
                  [Nick sess; "End of /WHO list"]))
  | channelname :: _ =>
      let lastmsg := srvMsg i RPL_ENDOFWHO
                       [Nick sess; channelname; "End of /WHO list"] in
      match channels i !! ChanToLower channelname with
      | None => Some (i, sendUser s reply lastmsg)
      | Some c =>
          if flag (cmodes c) "s"
             && negb (bool_decide (is_Some (cnicks c !! NickToLower (Nick sess))))
          then Some (i, sendUser s reply lastmsg)
          else
            names ← mapM (λ np : lcNick * bool,
                            id ← nicks i !! np.1;
                            member ← heap i !! id;
                            Some (Nick member))
                       (map_to_list (cnicks c));
            reply ← forEach (whoReply i s (Nick sess) channelname)
                            (strings.Sort names) reply;
            Some (i, sendUser s reply lastmsg)
      end
  end.

(** The body of the loop of [cmdList] over the selected channels. *)
Definition listReply (i : IRCServer) (s : RobustId) (sess : Session)
    (reply : Replyctx) (k : lcChan) : option Replyctx :=
  c ← channels i !! k;
  if flag (cmodes c) "s" && negb (Operator sess)
     && negb (bool_decide (k ∈ Channels sess))
  then Some reply
  else
    Some (sendUser s reply (srvMsg i RPL_LIST
            [Nick sess; name c; strconv.FormatInt (Z.of_nat (size (cnicks c)));
             topic c])).

(** The channels [cmdList] goes through: those of the first parameter that
    exist, in the order given, or all channels, sorted. *)
Definition listed (i : IRCServer) (params : list string) : list lcChan :=
  match params with
  | names :: _ =>
      List.filter (λ k, bool_decide (is_Some (channels i !! k)))
        (List.map (λ ch, ChanToLower (TrimSpace ch)) (strings.Split names ","))
  | [] => strings.Sort (map_to_list (channels i)).*1
  end.

Definition cmdList (i : IRCServer) (s : RobustId) (reply : Replyctx)
    (msg : irc.Message) : option (IRCServer * Replyctx) :=
  sess ← heap i !! s;
  reply ← forEach (listReply i s sess) (listed i (irc.Params msg)) reply;
  Some (i, sendUser s reply (srvMsg i RPL_LISTEND [Nick sess; "End of LIST"])).

(** The entry of [cmdUserhost] for one parameter, if its nickname is in the
    index. *)
Definition userhostOf (i : IRCServer) (nickname : string)
    : option (option string) :=
  match nicks i !! NickToLower nickname with
  | None => Some None
  | Some id =>
      session ← heap i !! id;
      let awayPrefix := if negb (bool_decide (AwayMsg session = "")) then "-" else "+" in
      let nick := if Operator session then Nick session +:+ "*" else Nick session in
      Some (Some (nick +:+ "=" +:+ awayPrefix +:+ PrefixString (ircPrefix session)))
  end.

Definition cmdUserhost (i : IRCServer) (s : RobustId) (reply : Replyctx)
    (msg : irc.Message) : option (IRCServer * Replyctx) :=
  sess ← heap i !! s;
  found ← mapM (userhostOf i) (irc.Params msg);
  Some (i, sendUser s reply (srvMsg i RPL_USERHOST
              [Nick sess; strings.Join (omap id found) " "])).

(** The entry of [cmdIson] for one parameter. *)
Definition isonOf (i : IRCServer) (nickname : string) : option (option string) :=
  match nicks i !! NickToLower nickname with
  | None => Some None
  | Some id => session ← heap i !! id; Some (Some (Nick session))
  end.

Definition cmdIson (i : IRCServer) (s : RobustId) (reply : Replyctx)
    (msg : irc.Message) : option (IRCServer * Replyctx) :=
  sess ← heap i !! s;
  found ← mapM (isonOf i) (irc.Params msg);
  Some (i, sendUser s reply (srvMsg i RPL_ISON
              [Nick sess; strings.Join (omap id found) " "])).

(** *** WHOIS *)

(** The body of the loop of [cmdWhois] over the channels of the session asked
    about: nothing for a secret channel the requester may not see, the name
    of the channel otherwise, behind [@] for a channel operator. *)
Definition whoisChannel (i : IRCServer) (sess session : Session) (k : lcChan)
    : option (option string) :=
  c ← channels i !! k;
  if flag (cmodes c) "s" && negb (Operator sess)
     && negb (bool_decide (k ∈ Channels sess))
  then Some None
  else
    perms ← cnicks c !! NickToLower (Nick session);
    Some (Some ((if perms : bool then "@" else "") +:+ name c)).

Definition cmdWhois (i : IRCServer) (s : RobustId) (reply : Replyctx)
    (msg : irc.Message) : option (IRCServer * Replyctx) :=
  sess ← heap i !! s;
  target ← irc.Params msg !! 0%nat;
  match nicks i !! NickToLower target with
  | None =>
      Some (i, sendUser s reply (srvMsg i irc.ERR_NOSUCHNICK
                  [Nick sess; target; "No such nick/channel"]))
  | Some id =>
      session ← heap i !! id;
      let reply := sendUser s reply (srvMsg i RPL_WHOISUSER
        [Nick sess; Nick session; irc.User (ircPrefix session);
         irc.Host (ircPrefix session); "*"; Realname session]) in
      found ← mapM (whoisChannel i sess session) (elements (Channels session));
      let channels := strings.Sort (omap (λ x, x) found) in
      let reply :=
        if bool_decide (0 < length channels)%nat then
          sendUser s reply (srvMsg i RPL_WHOISCHANNELS
            [Nick sess; Nick session; strings.Join channels " "])
        else reply in
      let reply := sendUser s reply (srvMsg i RPL_WHOISSERVER
        [Nick sess; Nick session; irc.Name (ServerPrefix i); "RobustIRC"]) in
      let reply :=
        if Operator session then
          sendUser s reply (srvMsg i RPL_WHOISOPERATOR
            [Nick sess; Nick session; "is an IRC operator"])
        else reply in
      let reply :=
        if negb (bool_decide (AwayMsg session = "")) then
          sendUser s reply (srvMsg i irc.RPL_AWAY
            [Nick sess; Nick session; AwayMsg session])
        else reply in
      let idle := whoisIdle i s id in
      let signon := strconv.FormatInt (time.Unix (Id (sId session))) in
      let reply := sendUser s reply (srvMsg i RPL_WHOISIDLE
        [Nick sess; Nick session; idle; signon; "seconds idle, signon time"]) in
      let reply :=
        if flag (smodes session) "r" then
          sendUser s reply (srvMsg i "307"
            [Nick sess; Nick session; "user has identified to services"])
        else reply in
      Some (i, sendUser s reply (srvMsg i RPL_ENDOFWHOIS
                  [Nick sess; Nick session; "End of /WHOIS list"]))
  end.

Definition cmdKnock (i : IRCServer) (s : RobustId) (reply : Replyctx)
    (msg : irc.Message) : option (IRCServer * Replyctx) :=
  sess ← heap i !! s;
  channelname ← irc.Params msg !! 0%nat;
  match channels i !! ChanToLower channelname with
  | None =>
      Some (i, sendUser s reply (srvMsg i "480"
                  [Nick sess; "Cannot knock on " +:+ channelname
                              +:+ " (Channel does not exist)"]))
  | Some c =>
      if negb (flag (cmodes c) "i") then
        Some (i, sendUser s reply (srvMsg i "480"
                    [Nick sess; "Cannot knock on " +:+ channelname
                                +:+ " (Channel is not invite only)"]))
      else
        let reason :=
          if bool_decide (1 < length (irc.Params msg))%nat
          then strings.Join (drop 1 (irc.Params msg)) " "
          else "no reason specified" in
        let reply := sendChannel i c reply (srvMsg i irc.NOTICE
          [name c; "[Knock] by " +:+ PrefixString (ircPrefix sess)
                   +:+ " (" +:+ reason +:+ ")"]) in
        Some (i, sendUser s reply (srvMsg i irc.NOTICE
                    [Nick sess; "Knocked on " +:+ name c]))
  end.

End ClientHandlers.

(** *** The handlers of the services link (server_commands.go) *)

Section ServerHandlers.

Context {E : Env} {O : Outside}.

Definition servicesPrefix (prefix : irc.Prefix) : irc.Prefix :=
  irc.mkPrefix (irc.Name prefix) "services" "services".

(** [msg.Prefix.Name]: reading through a nil [Prefix] panics. *)
Definition prefixName (msg : irc.Message) : option string :=
  irc.Name <$> irc.prefix msg.


(** The body of the loop of [cmdServerMode] over the changes. *)
Definition serverModeStep (k : lcChan) (channelname : string)
    (msg : irc.Message) (st : IRCServer * Replyctx) (mode : modeCmd)
    : option (IRCServer * Replyctx) :=
  let '(i, reply) := st in
  char ← byteAt 1 (Mode mode);
  sign ← byteAt 0 (Mode mode);
  let newvalue := Ascii.eqb sign "+" in
  if Ascii.eqb char "t" || Ascii.eqb char "s" || Ascii.eqb char "r"
     || Ascii.eqb char "i" then
    Some (updChannel k (λ c, setCmodes (setFlag char newvalue (cmodes c)) c) i,
          reply)
  else if Ascii.eqb char "o" then
    c ← channels i !! k;
    let nick := Param mode in
    match cnicks c !! NickToLower nick with
    | None =>
        from ← prefixName msg;
        Some (i, sendServices reply (srvMsg i irc.ERR_USERNOTINCHANNEL
                    [from; nick; channelname; "They aren't on that channel"]))
    | Some perms =>
        (* If the user already is a chanop, silently do nothing. *)
        if negb (Bool.eqb perms newvalue) then
          Some (updChannel k (λ c, setCnicks
                  (<[NickToLower nick := newvalue]> (cnicks c)) c) i, reply)
        else Some (i, reply)
    end
  else
    from ← prefixName msg;
    Some (i, sendServices reply (srvMsg i irc.ERR_UNKNOWNMODE
                [from; stringOfByte char; "is unknown mode char to me"])).

Definition cmdServerMode (i : IRCServer) (s : RobustId) (reply : Replyctx)
    (msg : irc.Message) : option (IRCServer * Replyctx) :=
  channelname ← irc.Params msg !! 0%nat;
  let k := ChanToLower channelname in
  match channels i !! k with
  | None =>
      from ← prefixName msg;
      Some (i, sendServices reply (srvMsg i irc.ERR_NOSUCHCHANNEL
                  [from; channelname; "No such nick/channel"]))
  | Some _ =>
      let modes := normalizeModes msg in
      forEach (serverModeStep k channelname msg) modes (i, reply)
        ≫= λ st : IRCServer * Replyctx,
      let '(i, reply) := st in
      if (0 <? replyid reply)%Z then Some (i, reply)
      else
        c ← channels i !! k;
        from ← irc.prefix msg;
        params ← IRCParams modes;
        Some (i, sendChannel i c reply
                   (irc.mkMessage (Some (servicesPrefix from)) irc.MODE
                      (channelname :: params)))
  end.

Definition cmdServerSvshold (i : IRCServer) (s : RobustId) (reply : Replyctx)
    (msg : irc.Message) : option (IRCServer * Replyctx) :=
  sess ← heap i !! s;
  (* SVSHOLD <nick> [<expirationtimerelative> :<reason>] *)
  name ← irc.Params msg !! 0%nat;
  let nick := NickToLower name in
  if bool_decide (1 < length (irc.Params msg))%nat then
    seconds ← irc.Params msg !! 1%nat;
    match ParseDuration (seconds +:+ "s") with
    | inr err =>
        Some (i, sendServices reply (srvMsg i irc.NOTICE
                    [irc.Name (ircPrefix sess); "Invalid duration: " +:+ err]))
    | inl duration =>
        Some (setSvsholds
                (<[nick := mkSvshold (LastActivity sess) duration
                             (irc.Trailing msg)]> (svsholds i)) i,
              reply)
    end
  else Some (setSvsholds (delete nick (svsholds i)) i, reply).




(** The body of the loop of [cmdServerSvsmode] over the changes. *)
Definition svsmodeStep (target : RobustId) (st : IRCServer * Replyctx)
    (mode : modeCmd) : option (IRCServer * Replyctx) :=
  let '(i, reply) := st in
  sign ← byteAt 0 (Mode mode);
  let newvalue := Ascii.eqb sign "+" in
  char ← byteAt 1 (Mode mode);
  if Ascii.eqb char "d" then
    Some (updSession target (setSvid (Param mode)) i, reply)
  else if Ascii.eqb char "r" then
    (* Store registered flag *)
    Some (updSession target
            (λ x, setSmodes (setFlag char newvalue (smodes x)) x) i, reply)
  else
    Some (i, sendServices reply (srvMsg i ERR_UMODEUNKNOWNFLAG
                ["*"; "Unknown MODE flag"])).

Definition cmdServerSvsmode (i : IRCServer) (s : RobustId) (reply : Replyctx)
    (msg : irc.Message) : option (IRCServer * Replyctx) :=
  _ ← heap i !! s;
  name ← irc.Params msg !! 0%nat;
  match nicks i !! NickToLower name with
  | None =>
      Some (i, sendServices reply (srvMsg i irc.ERR_NOSUCHNICK
                  ["*"; name; "No such nick/channel"]))
  | Some target =>
      modestr ← irc.Params msg !! 1%nat;
      if negb (String.prefix "+" modestr) && negb (String.prefix "-" modestr) then
        Some (i, sendServices reply (srvMsg i ERR_UMODEUNKNOWNFLAG
                    ["*"; "Unknown MODE flag"]))
      else
        '(i, reply) ← forEach (svsmodeStep target) (normalizeModes msg) (i, reply);
        session ← heap i !! target;
        sess ← heap i !! s;
        Some (i, sendUser target reply
                   (irc.mkMessage (Some (ircPrefix sess)) irc.MODE
                      [Nick session; modestrOf (smodes session)]))
  end.

Definition cmdServerSvsnick (i : IRCServer) (s : RobustId) (reply : Replyctx)
    (msg : irc.Message) : option (IRCServer * Replyctx) :=
  (* e.g. "SVSNICK blArgh Guest30503 :1425036445" *)
  newName ← irc.Params msg !! 1%nat;
  if negb (IsValidNickname newName) then
    Some (i, sendServices reply (srvMsg i irc.ERR_ERRONEUSNICKNAME
                ["*"; newName; "Erroneous nickname"]))
  else
    oldName ← irc.Params msg !! 0%nat;
    match nicks i !! NickToLower oldName with
    | None =>
        Some (i, sendServices reply (srvMsg i irc.ERR_NOSUCHNICK
                    ["*"; oldName; "No such nick/channel"]))
    | Some renamed =>
        session ← heap i !! renamed;
        let oldPrefix := ircPrefix session in
        let oldNick := NickToLower oldName in
        let i := updSession renamed (setNick newName) i in
        let i := setNicks (<[NickToLower newName := renamed]> (nicks i)) i in
        let i := setNicks (delete oldNick (nicks i)) i in
        let i := setChannelMap
                   (rekeyMember oldNick (NickToLower newName) <$> channels i) i in
        let i := updSession renamed updateIrcPrefix i in
        session ← heap i !! renamed;
        let m := irc.mkMessage (Some oldPrefix) irc.NICK [Nick session] in
        let reply := sendUser renamed reply m in
        let reply := sendCommonChannels i session reply m in
        Some (i, sendServices reply m)
    end.





Definition cmdServerTopic (i : IRCServer) (s : RobustId) (reply : Replyctx)
    (msg : irc.Message) : option (IRCServer * Replyctx) :=
  (* e.g. ":ChanServ TOPIC #chaos-hd ChanServ 0 :" *)
  chname ← irc.Params msg !! 0%nat;
  let k := ChanToLower chname in
  match channels i !! k with
  | None =>
      from ← prefixName msg;
      Some (i, sendServices reply (srvMsg i irc.ERR_NOSUCHCHANNEL
                  [from; chname; "No such channel"]))
  | Some _ =>
      if bool_decide (irc.Trailing msg = "")
         && bool_decide (length (irc.Params msg) = 2%nat) then
        (* "TOPIC :", i.e. unset the topic. *)
        let i := updChannel k (setTopic "" time.zero "") i in
        c ← channels i !! k;
        from ← irc.prefix msg;
        Some (i, sendChannel i c reply
                   (irc.mkMessage (Some (servicesPrefix from)) irc.TOPIC
                      [chname; irc.Trailing msg]))
      else
        stamp ← irc.Params msg !! 2%nat;
        match ParseInt stamp with
        | inr err =>
            Some (i, sendServices reply (srvMsg i irc.ERR_NEEDMOREPARAMS
                        ["*"; chname; "Could not parse timestamp: " +:+ err]))
        | inl ts =>
            setter ← irc.Params msg !! 1%nat;
            let i := updChannel k
                       (setTopic setter (timeOfUnix ts) (irc.Trailing msg)) i in
            c ← channels i !! k;
            from ← irc.prefix msg;
            Some (i, sendChannel i c reply
                       (irc.mkMessage (Some (servicesPrefix from)) irc.TOPIC
                          [chname; irc.Trailing msg]))
        end
  end.

Definition cmdServerPrivmsg (i : IRCServer) (s : RobustId) (reply : Replyctx)
    (msg : irc.Message) : option (IRCServer * Replyctx) :=
  match irc.Params msg with
  | [] =>
      from ← prefixName msg;
      Some (i, sendServices reply (srvMsg i ERR_NORECIPIENT
                  [from; "No recipient given (" +:+ irc.Command msg +:+ ")"]))
  | target :: _ =>
      if bool_decide (irc.Trailing msg = "") then
        from ← prefixName msg;
        Some (i, sendServices reply (srvMsg i ERR_NOTEXTTOSEND
                    [from; "No text to send"]))
      else if String.prefix "#" target then
        match channels i !! ChanToLower target with
        | None =>
            from ← prefixName msg;
            Some (i, sendServices reply (srvMsg i irc.ERR_NOSUCHCHANNEL
                        [from; target; "No such channel"]))
        | Some c =>
            from ← irc.prefix msg;
            Some (i, sendChannel i c reply
                       (irc.mkMessage (Some (servicesPrefix from))
                          (irc.Command msg) [target; irc.Trailing msg]))
        end
      else
        match nicks i !! NickToLower target with
        | None =>
            from ← prefixName msg;
            Some (i, sendServices reply (srvMsg i irc.ERR_NOSUCHNICK
                        [from; target; "No such nick/channel"]))
        | Some to =>
            from ← irc.prefix msg;
            Some (i, sendUser to reply
                       (irc.mkMessage (Some (servicesPrefix from))
                          (irc.Command msg) [target; irc.Trailing msg]))
        end
  end.

Definition cmdServerInvite (i : IRCServer) (s : RobustId) (reply : Replyctx)
    (msg : irc.Message) : option (IRCServer * Replyctx) :=
  nickname ← irc.Params msg !! 0%nat;
  channelname ← irc.Params msg !! 1%nat;
  match nicks i !! NickToLower nickname with
  | None =>
      from ← prefixName msg;
      Some (i, sendServices reply (srvMsg i irc.ERR_NOSUCHNICK
                  [from; nickname; "No such nick/channel"]))
  | Some invited =>
      let k := ChanToLower channelname in
      match channels i !! k with
      | None =>
          from ← prefixName msg;
          Some (i, sendServices reply (srvMsg i irc.ERR_NOSUCHCHANNEL
                      [from; channelname; "No such channel"]))
      | Some c =>
          session ← heap i !! invited;
          if bool_decide (is_Some (cnicks c !! NickToLower nickname)) then
            from ← prefixName msg;
            Some (i, sendServices reply (srvMsg i irc.ERR_USERONCHANNEL
                        [from; Nick session; name c; "is already on channel"]))
          else
            let i := updSession invited
                       (λ x, setInvitedTo ({[k]} ∪ invitedTo x) x) i in
            from ← irc.prefix msg;
            let reply := sendServices reply (srvMsg i irc.RPL_INVITING
              [irc.Name from; nickname; name c]) in
            let reply := sendUser invited reply
              (irc.mkMessage (Some (servicesPrefix from)) irc.INVITE
                 [Nick session; name c]) in
            Some (i, sendChannel i c reply (srvMsg i irc.NOTICE
                       [name c; irc.Name from +:+ " invited " +:+ nickname
                                +:+ " into the channel."]))
      end
  end.

End ServerHandlers.

(** ** Notions used to state the further properties *)

(** *** Mode strings *)

(** A rune that sets the sign of the changes after it. *)
Definition isSign (r : string) : bool :=
  bool_decide (r = "+") || bool_decide (r = "-").

(** The sign in force after the runes [pre], from the sign [sign]: that of
    the last sign rune among them. A mode string starts with [+] in force. *)
Definition signFrom (sign : string) (pre : list string) : string :=
  fold_left (λ sign r, if isSign r then r else sign) pre sign.
Definition signAfter (pre : list string) : string := signFrom "+" pre.

(** A change whose letter takes a parameter. *)
Definition takesParam (m : modeCmd) : bool :=
  bool_decide (Mode m = "+o") || bool_decide (Mode m = "-o")
  || bool_decide (Mode m = "+d") || bool_decide (Mode m = "-d").

(** The changes of the runes [runes], read from the left with [sign] in
    force and [modearg] the index of the next parameter. *)
Fixpoint changesFrom (params : list string) (runes : list string)
    (sign : string) (modearg : nat) : list modeCmd :=
  match runes with
  | [] => []
  | r :: rest =>
      if isSign r then changesFrom params rest r modearg
      else if bool_decide (r = "o") || bool_decide (r = "d") then
        mkModeCmd (sign +:+ r) (default "" (params !! modearg))
        :: changesFrom params rest sign (S modearg)
      else mkModeCmd (sign +:+ r) "" :: changesFrom params rest sign modearg
  end.

(** A change as a MODE line states it: a sign and one ASCII letter, with a
    parameter exactly when the letter is [o] or [d]. *)
Definition canonical (m : modeCmd) : bool :=
  match Mode m with
  | String sign (String b "") =>
      (Ascii.eqb sign "+" || Ascii.eqb sign "-")
      && (N_of_ascii b <? 128)%N
      && negb (Ascii.eqb b "+") && negb (Ascii.eqb b "-")
      && (if Ascii.eqb b "o" || Ascii.eqb b "d"
          then negb (bool_decide (Param m = ""))
          else bool_decide (Param m = ""))
  | _ => false
  end.

(** The changes that add, [mode.Mode[0] == '+']. *)
Definition isAdd (m : modeCmd) : bool :=
  match byteAt 0 (Mode m) with
  | Some sign => Ascii.eqb sign "+"
  | None => false
  end.
(** The sign byte of a change. *)
Definition signByte (m : modeCmd) : ascii :=
  default "000"%char (byteAt 0 (Mode m)).

(** The parameters [IRCParams] writes for the changes [l]: those that are
    not empty. *)
Definition writtenParams (l : list modeCmd) : list string :=
  List.filter (λ p, negb (bool_decide (p = ""))) (List.map Param l).

(** The string of one byte. *)
Definition oneByte (b : ascii) : string := String b "".

(** The bytes [IRCParams] writes for the changes [l] of one sign: nothing
    when there is none, the sign and the letters otherwise. *)
Definition blockBytes (sign : ascii) (l : list modeCmd) : list ascii :=
  match l with
  | [] => []
  | _ => sign :: List.map letterOf l
  end.
Definition modeBlock (sign : string) (l : list modeCmd) : string :=
  match l with
  | [] => ""
  | _ => sign +:+ string_of_list_ascii (List.map letterOf l)
  end.
(** The flags a MODE of the services link writes. *)
Definition servicesFlag (ch : ascii) : bool :=
  Ascii.eqb ch "t" || Ascii.eqb ch "s" || Ascii.eqb ch "r" || Ascii.eqb ch "i".

(** *** The directory *)

(** The nickname index is keyed by the folded nicknames of the sessions it
    leads to. *)
Definition indexed `{Env} (i : IRCServer) : Prop :=
  ∀ n id member,
    nicks i !! n = Some id → heap i !! id = Some member →
    NickToLower (Nick member) = n.

(** Whether the session [sess] may see the channel [c] stored under [k] in
    the answers to LIST: the channel is not secret, or the session is an IRC
    operator or on the channel. *)
Definition visibleTo (sess : Session) (k : lcChan) (c : channel) : Prop :=
  flag (cmodes c) "s" = false ∨ Operator sess = true ∨ k ∈ Channels sess.

(** The messages of [l] are addressed to the session [s] alone. *)
Definition onlyTo (s : RobustId) (l : list OutputMessage) : Prop :=
  Forall (λ o, InterestingFor o = ForSessions {[s]}) l.
(** Two servers with the same memberships: the same nickname index and
    session table, the same members on every channel, and the same nickname
    and channel set for every session. *)
Definition sameMembership (i i' : IRCServer) : Prop :=
  nicks i' = nicks i ∧ sessions i' = sessions i
  ∧ (∀ k, (λ c, dom (cnicks c)) <$> channels i' !! k
          = (λ c, dom (cnicks c)) <$> channels i !! k)
  ∧ (∀ t, Channels <$> heap i' !! t = Channels <$> heap i !! t)
  ∧ (∀ t, Nick <$> heap i' !! t = Nick <$> heap i !! t).

(** The member [n] is on the channel under [k]. *)
Definition onChannel (i : IRCServer) (k : lcChan) (n : lcNick) : Prop :=
  ∃ c, channels i !! k = Some c ∧ is_Some (cnicks c !! n).




(** [i'] is [i] after the session [t], a member under [n], has entered
    ([on]) or left the channel under [k], and nothing else of the
    memberships has changed. *)
Definition moved (on : bool) (k : lcChan) (n : lcNick) (t : RobustId)
    (i i' : IRCServer) : Prop :=
  nicks i' = nicks i ∧ sessions i' = sessions i
  ∧ (∀ k' m, k' ≠ k → onChannel i' k' m ↔ onChannel i k' m)
  ∧ (∀ m, onChannel i' k m
          ↔ if on then m = n ∨ onChannel i k m else m ≠ n ∧ onChannel i k m)
  ∧ (∀ t', t' ≠ t → Channels <$> heap i' !! t' = Channels <$> heap i !! t')
  ∧ (∀ t', Nick <$> heap i' !! t' = Nick <$> heap i !! t')
  ∧ (∃ sess sess', heap i !! t = Some sess ∧ heap i' !! t = Some sess'
       ∧ Channels sess'
         = if on then {[k]} ∪ Channels sess else Channels sess ∖ {[k]}).

(** ** The small network, with the library functions and more sessions *)

Module Scenario.

Definition upperByte (c : ascii) : ascii :=
  let n := nat_of_ascii c in
  if (97 <=? n)%nat && (n <=? 122)%nat then ascii_of_nat (n - 32) else c.

Fixpoint upper (s : string) : string :=
  match s with
  | EmptyString => ""
  | String c rest => String (upperByte c) (upper rest)
  end.

Fixpoint trimLeft (l : list ascii) : list ascii :=
  match l with
  | " "%char :: rest => trimLeft rest
  | _ => l
  end.

Definition trim (s : string) : string :=
  string_of_list_ascii
    (rev (trimLeft (rev (trimLeft (list_ascii_of_string s))))).

(** A decimal number without sign. *)
Definition parseDecimal (s : string) : Z + string :=
  match NilEmpty.uint_of_string s with
  | Some u => inl (Z.of_uint u)
  | None => inr ("parsing " +:+ s +:+ ": invalid syntax")
  end.

(** Seconds only: a decimal number followed by [s], in nanoseconds. *)
Definition parseSeconds (s : string) : Z + string :=
  match rev (list_ascii_of_string s) with
  | "s"%char :: digits =>
      match parseDecimal (string_of_list_ascii (rev digits)) with
      | inl n => inl (n * 1000000000)%Z
      | inr _ => inr ("time: invalid duration " +:+ s)
      end
  | _ => inr ("time: invalid duration " +:+ s)
  end.

(** ASCII upper case, trimming of blanks, decimal numbers, durations in
    seconds, prefixes written [name!user@host], a [sendChannelButOne] that
    addresses the members of the channel but the one, and sessions that are
    never idle. *)
Definition outside : Outside := {|
  TrimSpace := trim;
  ToUpper := upper;
  ParseDuration := parseSeconds;
  ParseInt := parseDecimal;
  PrefixString := λ p, irc.Name p +:+ "!" +:+ irc.User p +:+ "@" +:+ irc.Host p;
  sendChannelButOne := λ i c but reply msg,
    send (E := Example.env) reply
      (ForSessions (members i c ∖ {[but]})) msg;
  whoisIdle := λ _ _ _, "0"
|}.

Definition carol : RobustId := mkRobustId 3 0.

(** A session that has sent nothing yet. *)
Definition newcomer (id : RobustId) : Session :=
  mkSession id "" "" "" ∅ "" false false "" "" ∅ ∅ 100%Z (irc.mkPrefix "" "" "").

(** Alice alone on #test; carol has just connected. *)
Definition arrival : IRCServer :=
  mkIRCServer
    {[Example.alice := Example.user Example.alice "Alice" {["#test"]} ∅;
      carol := newcomer carol]}
    {[Example.alice; carol]} {["alice" := Example.alice]}
    {["#test" := mkChannel "#test" {["alice" := true]} {["n"%char; "t"%char]}
                   "" time.zero ""]}
    ∅ Example.serverPrefix 0%Z [].

(** The lobby of a network with one operator account. *)
Definition staffed : IRCServer :=
  mkIRCServer
    {[Example.alice := Example.user Example.alice "Alice" ∅ ∅;
      Example.bob := Example.user Example.bob "bob" ∅ ∅]}
    {[Example.alice; Example.bob]}
    {["alice" := Example.alice; "bob" := Example.bob]} ∅ ∅
    Example.serverPrefix 0%Z [("root", "secret")].

(** Alice on the secret channel #ops and, with bob, on #test. *)
Definition hidden : IRCServer :=
  mkIRCServer
    {[Example.alice := Example.user Example.alice "Alice" {["#ops"; "#test"]} ∅;
      Example.bob := Example.user Example.bob "bob" {["#test"]} ∅]}
    {[Example.alice; Example.bob]}
    {["alice" := Example.alice; "bob" := Example.bob]}
    {["#ops" := mkChannel "#ops" {["alice" := true]}
                  {["n"%char; "s"%char; "t"%char]} "" time.zero "";
      "#test" := mkChannel "#test" {["alice" := true; "bob" := false]}
                   {["n"%char; "t"%char]} "" time.zero ""]}
    ∅ Example.serverPrefix 0%Z [].

(** The prefix of a message of the services link. *)
Definition chanserv : irc.Prefix := irc.mkPrefix "ChanServ" "" "".

End Scenario.

(** * Properties *)

(** ** The parameter-count gate *)

Section Gate.

Context {E : Env}.



(** The entry of KILL declares one parameter, and its handler asks for two:
    with no parameter the gate answers, with one parameter the handler is
    invoked and answers itself. *)
Lemma KILL_entry (panicCommand : bool) :
  Commands panicCommand !! "KILL" = Some (mkIrcCommand M_cmdKill 1).
Proof. by destruct panicCommand. Qed.

Lemma KILL_one_parameter (run : method → handlerFn) (panicCommand : bool)
    (i : IRCServer) (s : RobustId) (sess : Session) (reply : Replyctx)
    (p : option irc.Prefix) (target : string) :
  run M_cmdKill = cmdKill →
  heap i !! s = Some sess →
  dispatch (Commands panicCommand) (irc.mkMessage p "KILL" [target])
  = Invoke M_cmdKill
  ∧ ProcessMessage run (Commands panicCommand) i s reply
      (irc.mkMessage p "KILL" [target])
    = Some (i, sendUser s reply (srvMsg i irc.ERR_NEEDMOREPARAMS
                  [Nick sess; "KILL"; "Not enough parameters"])).
Proof.
  intros Hrun Hs.
  assert (dispatch (Commands panicCommand) (irc.mkMessage p "KILL" [target])
          = Invoke M_cmdKill) as Hd.
  { unfold dispatch. cbn [irc.Command]. by rewrite KILL_entry. }
  split; [exact Hd|].
  unfold ProcessMessage. rewrite Hd, Hrun. unfold cmdKill. by rewrite Hs.
Qed.

End Gate.


(** ** The output stream *)

Section Stream.

Import outputstream.

Lemma increasing_cons (x : Z) (l : list Z) :
  increasing (x :: l) = true →
  increasing l = true ∧ ∀ y, y ∈ l → (x < y)%Z.
Proof.
  revert x. induction l as [|y l IH]; intros x H.
  - split; [done|]. intros y Hy. by apply elem_of_nil in Hy.
  - cbn in H. apply andb_true_iff in H as [Hxy Hl].
    apply Z.ltb_lt in Hxy. split; [exact Hl|].
    intros z Hz. apply elem_of_cons in Hz as [->|Hz]; [done|].
    destruct (IH y Hl) as [_ Hall]. specialize (Hall z Hz). lia.
Qed.

Lemma increasing_filter (P : Z → bool) (l : list Z) :
  increasing l = true → increasing (List.filter P l) = true.
Proof.
  induction l as [|x l IH]; [done|]. intros H.
  destruct (increasing_cons _ _ H) as [Hl Hall].
  cbn [List.filter]. destruct (P x); [|by apply IH].
  specialize (IH Hl).
  destruct (List.filter P l) as [|y l'] eqn:Hf; [done|].
  cbn. apply andb_true_iff. split; [|exact IH].
  apply Z.ltb_lt, Hall.
  assert (y ∈ List.filter P l) as Hy by (rewrite Hf; left).
  apply list_elem_of_In, filter_In in Hy as [Hy _].
  by apply list_elem_of_In.
Qed.

Lemma keys_filter (P : Z → bool) (l : list (Z * list Message)) :
  (List.filter (λ b, P b.1) l).*1 = List.filter P (l.*1).
Proof.
  induction l as [|[k v] l IH]; [done|].
  cbn. destruct (P k); cbn; by rewrite IH.
Qed.

(** [Delete] keeps the ids increasing, and keeps every batch but the one
    deleted. *)
Lemma Delete_increasing (os os' : OutputStream) (id : RobustId) :
  Delete os id = Some os' →
  increasing (keys os) = true → increasing (keys os') = true.
Proof.
  unfold Delete. destruct (stored os id); [|done].
  intros [= <-] H. unfold keys. cbn [batches].
  rewrite (keys_filter (λ k, negb (k =? Id id)%Z)).
  by apply increasing_filter.
Qed.

Lemma Delete_keeps (os os' : OutputStream) (id : RobustId)
    (b : Z * list Message) :
  Delete os id = Some os' → b ∈ batches os → b.1 ≠ Id id → b ∈ batches os'.
Proof.
  unfold Delete. destruct (stored os id); [|done].
  intros [= <-] Hb Hne. cbn [batches].
  apply list_elem_of_In, filter_In. split; [by apply list_elem_of_In|].
  apply negb_true_iff, Z.eqb_neq, Hne.
Qed.

(** On increasing ids the first batch after [lastSeenId] is the least. *)
Lemma find_first_is_least (l : list (Z * list Message)) (p : Z)
    (b : Z * list Message) :
  increasing (l.*1) = true → b ∈ l → (p < b.1)%Z →
  ∃ b0, List.find (λ b, (p <? b.1)%Z) l = Some b0
        ∧ b0 ∈ l ∧ (p < b0.1)%Z
        ∧ ∀ b', b' ∈ l → (p < b'.1)%Z → (b0.1 ≤ b'.1)%Z.
Proof.
  induction l as [|x l IH]; intros Hinc Hb Hp.
  - by apply elem_of_nil in Hb.
  - cbn [fmap list_fmap] in Hinc.
    destruct (increasing_cons _ _ Hinc) as [Hl Hall].
    cbn [List.find]. destruct (p <? x.1)%Z eqn:Hx.
    + exists x. split; [done|]. split; [left|].
      split; [by apply Z.ltb_lt|].
      intros b' Hb' _. apply elem_of_cons in Hb' as [->|Hb']; [lia|].
      assert (x.1 < b'.1)%Z; [|lia].
      apply Hall, list_elem_of_fmap. by exists b'.
    + apply elem_of_cons in Hb as [->|Hb].
      { apply Z.ltb_ge in Hx. lia. }
      destruct (IH Hl Hb Hp) as (b0 & Hfind & Hin & Hlt & Hmin).
      exists b0. split; [done|]. split; [by right|]. split; [done|].
      intros b' Hb' Hp'. apply elem_of_cons in Hb' as [->|Hb'].
      { apply Z.ltb_ge in Hx. lia. }
      by apply Hmin.
Qed.

Lemma GetNext_returnsEarliest (os : OutputStream) (lastSeenId : RobustId)
    (b : Z * list Message) :
  increasing (keys os) = true → b ∈ batches os → (Id lastSeenId < b.1)%Z →
  returnsEarliest os lastSeenId.
Proof.
  intros Hinc Hb Hlt.
  destruct (find_first_is_least _ _ _ Hinc Hb Hlt) as (b0 & Hf & Hrest).
  exists b0. split; [|exact Hrest]. unfold GetNext. by rewrite Hf.
Qed.

(** C9. When a stored batch has an id strictly greater than [lastSeenId],
    [GetNext] returns the earliest such batch; and it still does after a
    [Delete] of any other id, whether [lastSeenId] lies before or after the
    deleted id or is the deleted id itself. *)
Theorem GetNext_returns_earliest_successor (os : OutputStream)
    (lastSeenId : RobustId) (b : Z * list Message) :
  increasing (keys os) = true →
  b ∈ batches os →
  (Id lastSeenId < b.1)%Z →
  returnsEarliest os lastSeenId
  ∧ ∀ (deleted : RobustId) (os' : OutputStream),
      Delete os deleted = Some os' → Id deleted ≠ b.1 →
      returnsEarliest os' lastSeenId.
Proof.
  intros Hinc Hb Hlt. split.
  - by eapply GetNext_returnsEarliest.
  - intros deleted os' Hdel Hne.
    eapply GetNext_returnsEarliest; [|by eapply Delete_keeps|done].
    by eapply Delete_increasing.
Qed.

Lemma GetNext_returns_earliest_successor_witness :
  increasing (keys oneTwoThree) = true
  ∧ (3%Z, [mkMessage (mkRobustId 3 1) ""]) ∈ batches oneTwoThree
  ∧ (Id (mkRobustId 2 1) < 3)%Z
  ∧ returnsEarliest oneTwoThree (mkRobustId 2 1)
  ∧ ∀ (deleted : RobustId) (os' : OutputStream),
      Delete oneTwoThree deleted = Some os' → Id deleted ≠ 3%Z →
      returnsEarliest os' (mkRobustId 2 1).
Proof.
  assert (increasing (keys oneTwoThree) = true) as H1 by reflexivity.
  assert ((3%Z, [mkMessage (mkRobustId 3 1) ""]) ∈ batches oneTwoThree) as H2
    by (vm_compute; do 2 right; left).
  assert (Id (mkRobustId 2 1) < 3)%Z as H3 by (simpl; lia).
  split; [exact H1|]. split; [exact H2|]. split; [exact H3|].
  exact (GetNext_returns_earliest_successor oneTwoThree (mkRobustId 2 1)
           (3%Z, [mkMessage (mkRobustId 3 1) ""]) H1 H2 H3).
Defined.

(** The calls of [GetNext] in [TestDeleteMiddle]: with 2 deleted, a reader
    that last saw the deleted id and a reader that last saw the id before it
    both get batch 3. *)
Example GetNext_after_deleting_2 :
  ∃ os, Delete oneTwoThree (mkRobustId 2 0) = Some os
        ∧ GetNext os (mkRobustId 2 1) = Some [mkMessage (mkRobustId 3 1) ""]
        ∧ GetNext os (mkRobustId 1 1) = Some [mkMessage (mkRobustId 3 1) ""].
Proof. eexists. split; [reflexivity|]. split; reflexivity. Qed.

(** [Delete] on a stored id. *)
Lemma Get_filter_other (l : list (Z * list Message)) (d j : Z) :
  j ≠ d →
  List.find (λ b, (b.1 =? j)%Z) (List.filter (λ b, negb (b.1 =? d)%Z) l)
  = List.find (λ b, (b.1 =? j)%Z) l.
Proof.
  intros Hne. induction l as [|x l IH]; [done|].
  cbn [List.filter List.find].
  destruct (x.1 =? d)%Z eqn:Hd; cbn [negb].
  - apply Z.eqb_eq in Hd.
    assert ((x.1 =? j)%Z = false) as -> by (apply Z.eqb_neq; lia). exact IH.
  - cbn [List.find]. destruct (x.1 =? j)%Z; [done|exact IH].
Qed.

Lemma Get_filter_same (l : list (Z * list Message)) (d : Z) :
  List.find (λ b, (b.1 =? d)%Z) (List.filter (λ b, negb (b.1 =? d)%Z) l) = None.
Proof.
  induction l as [|x l IH]; [done|].
  cbn [List.filter]. destruct (x.1 =? d)%Z eqn:Hd; cbn [negb]; [exact IH|].
  cbn [List.find]. by rewrite Hd.
Qed.

Lemma stored_filter_same (l : list (Z * list Message)) (d : Z) :
  d ∉ (List.filter (λ b, negb (b.1 =? d)%Z) l).*1.
Proof.
  intros H. apply list_elem_of_fmap in H as (b & -> & Hb).
  apply list_elem_of_In, filter_In in Hb as [_ Hb].
  apply negb_true_iff, Z.eqb_neq in Hb. done.
Qed.

(** C3, as the code has it. [Delete] of an id at which a batch is stored,
    head of the retained window or not, removes that batch and no other, and
    leaves the last id as it is; [Delete] of an id at which nothing is
    stored is fatal, which is the case of the second [Delete] of an id. *)
Theorem Delete_removes_the_stored_batch (os : OutputStream) (id : RobustId) :
  (stored os id = true →
   ∃ os', Delete os id = Some os'
          ∧ Get os' id = None
          ∧ (∀ other, Id other ≠ Id id → Get os' other = Get os other)
          ∧ LastSeen os' = LastSeen os
          ∧ Delete os' id = None)
  ∧ (stored os id = false → Delete os id = None).
Proof.
  split; intros Hs; unfold Delete; rewrite Hs; [|done].
  eexists. split; [reflexivity|]. unfold Get, stored, keys. cbn [batches].
  split; [by rewrite Get_filter_same|].
  split; [by intros other Hne; rewrite Get_filter_other|].
  split; [done|].
  rewrite bool_decide_eq_false_2; [done|]. apply stored_filter_same.
Qed.

Lemma Delete_removes_the_stored_batch_witness :
  stored oneTwoThree (mkRobustId 2 0) = true
  ∧ ∃ os', Delete oneTwoThree (mkRobustId 2 0) = Some os'
           ∧ Get os' (mkRobustId 2 0) = None
           ∧ (∀ other, Id other ≠ 2%Z → Get os' other = Get oneTwoThree other)
           ∧ LastSeen os' = LastSeen oneTwoThree
           ∧ Delete os' (mkRobustId 2 0) = None.
Proof.
  assert (stored oneTwoThree (mkRobustId 2 0) = true) as H by reflexivity.
  split; [exact H|].
  exact (proj1 (Delete_removes_the_stored_batch oneTwoThree (mkRobustId 2 0)) H).
Defined.

(** The repository's test passes on [Delete], deleting 2, then 3, then 1. *)
Lemma TestDeleteMiddle_passes : TestDeleteMiddle Delete = Passed.
Proof. reflexivity. Qed.

(** Any implementation that obeys the head-only rule ends the repository's
    test with a panic at its first [Delete], that of the middle id 2. *)
Lemma head_only_rule_fails_TestDeleteMiddle
    (del : OutputStream → RobustId → option OutputStream) :
  fatalUnlessHead del → TestDeleteMiddle del = Panic 97.
Proof.
  intros Hrule. unfold TestDeleteMiddle.
  change (addEmptyMsg (addEmptyMsg (addEmptyMsg NewOutputStream 1 1) 2 1) 3 1)
    with oneTwoThree.
  by rewrite (Hrule oneTwoThree (mkRobustId 2 0)).
Qed.

(** C3, as the claim states it, fails: with 1, 2 and 3 stored the head of the
    retained window is 1, and the [Delete] of 2 that opens
    [TestDeleteMiddle] is not fatal; the head-only rule would end that test
    at line 97. *)
Lemma Delete_of_a_middle_id_is_not_fatal :
  head oneTwoThree = Some 1%Z
  ∧ Delete oneTwoThree (mkRobustId 2 0)
    = Some (mkOutputStream [(1%Z, [mkMessage (mkRobustId 1 1) ""]);
                            (3%Z, [mkMessage (mkRobustId 3 1) ""])]
              (mkRobustId 3 1))
  ∧ ¬ fatalUnlessHead Delete
  ∧ TestDeleteMiddle Delete = Passed
  ∧ TestDeleteMiddle DeleteHeadOnly = Panic 97.
Proof.
  split; [reflexivity|]. split; [reflexivity|].
  split; [|split; reflexivity].
  intros Hrule. specialize (Hrule oneTwoThree (mkRobustId 2 0)).
  discriminate Hrule. vm_compute. discriminate.
Qed.

End Stream.

(** ** Channel MODE *)

Section ChannelMode.

Context {E : Env}.

Lemma runesFrom_nonempty (skip : nat) (s : string) :
  Forall (λ r, r ≠ "") (utf8.runesFrom skip s).
Proof.
  revert skip. induction s as [|b rest IH]; intros skip; [constructor|].
  cbn [utf8.runesFrom]. destruct skip as [|k]; [|apply IH].
  destruct (utf8.width (String b rest)) as [|k]; constructor; try apply IH; done.
Qed.

Lemma normalizeStep_wf (params : list string) (st : bool * nat * list modeCmd)
    (char : string) :
  char ≠ "" → Forall wfMode st.2 →
  Forall wfMode (normalizeStep params st char).2.
Proof.
  destruct st as [[adding modearg] results]. intros Hchar Hwf.
  unfold normalizeStep.
  destruct (bool_decide (char = "+") || bool_decide (char = "-")); [exact Hwf|].
  cbn [snd]. apply Forall_app. split; [exact Hwf|]. constructor; [|constructor].
  destruct char as [|b rest]; [done|].
  exists (if adding then "+"%char else "-"%char), b, rest.
  by destruct adding.
Qed.

Lemma normalizeModes_wf (msg : irc.Message) : Forall wfMode (normalizeModes msg).
Proof.
  unfold normalizeModes.
  destruct (irc.Params msg) as [|p0 [|modestr ps]]; try constructor.
  unfold utf8.runes.
  pose proof (runesFrom_nonempty 0 modestr) as Hne.
  assert (∀ st : bool * nat * list modeCmd, Forall wfMode st.2 →
            Forall wfMode (fold_left (normalizeStep (p0 :: modestr :: ps))
                             (utf8.runesFrom 0 modestr) st).2) as Hfold.
  { induction Hne as [|r rs Hr _ IH]; intros st Hst; [exact Hst|].
    cbn [fold_left]. apply IH. by apply normalizeStep_wf. }
  apply Hfold. constructor.
Qed.

Lemma flag_setFlag (ch ch' : ascii) (v : bool) (m : gset ascii) :
  flag (setFlag ch v m) ch' = if Ascii.eqb ch ch' then v else flag m ch'.
Proof.
  unfold flag, setFlag.
  destruct (Ascii.eqb ch ch') eqn:Heq.
  - apply Ascii.eqb_eq in Heq. subst ch'.
    destruct v.
    + apply bool_decide_eq_true. apply elem_of_union. left.
      by apply elem_of_singleton.
    + apply bool_decide_eq_false. intros Hin.
      apply elem_of_difference in Hin as [_ Hin]. apply Hin.
      by apply elem_of_singleton.
  - apply Ascii.eqb_neq in Heq.
    destruct v; apply bool_decide_ext.
    + rewrite elem_of_union, elem_of_singleton.
      split; [intros [Hin|Hin]; [congruence|exact Hin]|by right].
    + rewrite elem_of_difference, elem_of_singleton.
      split; [by intros [Hin _]|intros Hin; split; [exact Hin|congruence]].
Qed.

Lemma sameBut_refl (k : lcChan) (i : IRCServer) : sameBut k i i.
Proof. repeat split. Qed.

Lemma sameBut_trans (k : lcChan) (i1 i2 i3 : IRCServer) :
  sameBut k i1 i2 → sameBut k i2 i3 → sameBut k i1 i3.
Proof.
  intros (Ha1&Ha2&Ha3&Ha4&Ha5&Ha6&Ha7&Ha8) (Hb1&Hb2&Hb3&Hb4&Hb5&Hb6&Hb7&Hb8).
  repeat split; try congruence.
  intros k' Hk. rewrite Hb8, Ha8; done.
Qed.

Lemma sameBut_updChannel (k : lcChan) (f : channel → channel) (i : IRCServer) :
  sameBut k i (updChannel k f i).
Proof.
  repeat split. intros k' Hk. cbn. by rewrite lookup_alter_ne.
Qed.

Lemma updChannel_lookup (k : lcChan) (f : channel → channel) (i : IRCServer)
    (c : channel) :
  channels i !! k = Some c → channels (updChannel k f i) !! k = Some (f c).
Proof. intros H. cbn. by rewrite lookup_alter_eq, H. Qed.

Lemma isFlagLetter_not_x_o (b : ascii) :
  isFlagLetter b = true → Ascii.eqb b "x" = false ∧ Ascii.eqb b "o" = false.
Proof.
  unfold isFlagLetter. intros H.
  repeat (apply orb_true_iff in H as [H|H]);
    apply Ascii.eqb_eq in H; subst b; done.
Qed.

(** One change, requested by a channel operator. *)
Lemma modeStep_chanop (s : RobustId) (nick channelname : string) (k : lcChan)
    (i : IRCServer) (reply : Replyctx) (q : bool) (m : modeCmd) (c : channel) :
  wfMode m → channels i !! k = Some c →
  ∃ i' reply' q' c' added,
    modeStep s nick channelname k true (i, reply, q) m
    = Some (Next (i', reply', q'))
    ∧ channels i' !! k = Some c'
    ∧ sameBut k i i'
    ∧ msgid reply' = msgid reply
    ∧ Messages reply' = (Messages reply ++ added)%list
    ∧ repliesWith irc.ERR_UNKNOWNMODE added
      = (if isUnknownMode m then [unknownModeReply i s nick m] else [])
    ∧ name c' = name c
    ∧ (∀ ch, flag (cmodes c') ch
             = if settable ch then default (flag (cmodes c) ch) (changeOf ch m)
               else flag (cmodes c) ch)
    ∧ (∀ n, cnicks c' !! n
            = (λ v, default v (opChangeOf n m)) <$> cnicks c !! n).
Proof.
  intros (sign & b & rest & HM) Hc.
  unfold modeStep, changeOf, opChangeOf, isUnknownMode, unknownModeReply,
    isQuery, letterOf, signOf, byteAt.
  rewrite HM. cbn [String.get option_bind mbind default id negb].
  destruct (bool_decide (String sign (String b rest) = "+b")) eqn:Hq;
    cbn [negb andb].
  - (* the query +b *)
    apply bool_decide_eq_true in Hq. injection Hq as -> -> ->.
    exists i, (sendUser s reply (srvMsg i irc.RPL_ENDOFBANLIST
                 [nick; channelname; "End of Channel Ban List"])), q, c.
    eexists [_]. cbn.
    repeat split; try done.
    + intros ch. by destruct (settable ch).
    + intros n. by destruct (cnicks c !! n).
  - apply bool_decide_eq_false in Hq.
    destruct (isFlagLetter b) eqn:Hfl; cbn [orb negb].
    { (* t, s, i, n *)
      destruct (isFlagLetter_not_x_o b Hfl) as [Hx Ho]. rewrite Ho. cbn [andb].
      eexists _, reply, false, _, []. split; [reflexivity|].
      split; [by apply updChannel_lookup|].
      split; [apply sameBut_updChannel|].
      split; [done|]. split; [by rewrite app_nil_r|].
      split; [done|]. split; [done|]. split.
      - intros ch. cbn [cmodes setCmodes]. rewrite flag_setFlag.
        destruct (Ascii.eqb b ch) eqn:Hch; [|by destruct (settable ch)].
        apply Ascii.eqb_eq in Hch as <-. unfold settable. by rewrite Hfl.
      - intros n. cbn [cnicks setCmodes]. by destruct (cnicks c !! n). }
    destruct (Ascii.eqb b "x") eqn:Hx; cbn [orb negb].
    { (* x *)
      assert (Ascii.eqb b "o" = false) as Ho
        by (apply Ascii.eqb_eq in Hx; by subst b).
      rewrite Ho. cbn [andb].
      destruct captchaConfigured eqn:Hcap.
      - eexists _, reply, false, _, []. split; [reflexivity|].
        split; [by apply updChannel_lookup|].
        split; [apply sameBut_updChannel|].
        split; [done|]. split; [by rewrite app_nil_r|].
        split; [done|]. split; [done|]. split.
        + intros ch. cbn [cmodes setCmodes]. rewrite flag_setFlag.
          destruct (Ascii.eqb b ch) eqn:Hch; [|by destruct (settable ch)].
          apply Ascii.eqb_eq in Hch as <-. unfold settable.
          by rewrite Hx, Hcap, orb_true_r.
        + intros n. cbn. by destruct (cnicks c !! n).
      - exists i. eexists _, false, c, [_]. split; [reflexivity|].
        split; [done|]. split; [apply sameBut_refl|].
        split; [done|]. split; [done|]. split; [done|]. split; [done|]. split.
        + intros ch. unfold settable. rewrite Hcap, andb_false_r, orb_false_r.
          destruct (Ascii.eqb b ch) eqn:Hch.
          * apply Ascii.eqb_eq in Hch as <-. by rewrite Hfl.
          * by destruct (isFlagLetter ch).
        + intros n. cbn. by destruct (cnicks c !! n). }
    destruct (Ascii.eqb b "o") eqn:Ho; cbn [orb negb andb].
    { (* o *)
      rewrite Hc. cbn [option_bind mbind].
      assert (∀ ch, flag (cmodes c) ch
                    = if settable ch
                      then default (flag (cmodes c) ch)
                             (if Ascii.eqb b ch
                              then Some (Ascii.eqb sign "+") else None)
                      else flag (cmodes c) ch) as Hflags.
      { intros ch. destruct (settable ch) eqn:Hs; [|done].
        destruct (Ascii.eqb b ch) eqn:Hch; [|done].
        apply Ascii.eqb_eq in Hch as <-. unfold settable in Hs.
        by rewrite Hfl, Hx in Hs. }
      destruct (cnicks c !! NickToLower (Param m)) as [perms|] eqn:Hmem.
      - destruct (Bool.eqb perms (Ascii.eqb sign "+")) eqn:Hsame; cbn [negb].
        + apply Bool.eqb_prop in Hsame. subst perms.
          exists i, reply, false, c, []. split; [done|].
          split; [done|]. split; [apply sameBut_refl|].
          split; [done|]. split; [by rewrite app_nil_r|].
          split; [done|]. split; [done|]. split; [exact Hflags|].
          intros n. case_bool_decide as Hn; [|by destruct (cnicks c !! n)].
          subst n. by rewrite Hmem.
        + eexists _, reply, false, _, []. split; [reflexivity|].
          split; [by apply updChannel_lookup|].
          split; [apply sameBut_updChannel|].
          split; [done|]. split; [by rewrite app_nil_r|].
          split; [done|]. split; [done|]. split; [exact Hflags|].
          intros n. cbn [cnicks setCnicks].
          case_bool_decide as Hn.
          * subst n. by rewrite lookup_insert_eq, Hmem.
          * rewrite lookup_insert_ne by done. by destruct (cnicks c !! n).
      - exists i. eexists _, false, c, [_]. split; [reflexivity|].
        split; [done|]. split; [apply sameBut_refl|].
        split; [done|]. split; [done|]. split; [done|]. split; [done|].
        split; [exact Hflags|].
        intros n. case_bool_decide as Hn; [|by destruct (cnicks c !! n)].
        subst n. by rewrite Hmem. }
    (* an unknown letter *)
    exists i. eexists _, false, c, [_]. split; [reflexivity|].
    split; [done|]. split; [apply sameBut_refl|].
    split; [done|]. split; [done|]. split; [done|]. split; [done|]. split.
    + intros ch. destruct (settable ch) eqn:Hs; [|done].
      destruct (Ascii.eqb b ch) eqn:Hch; [|done].
      apply Ascii.eqb_eq in Hch as <-. unfold settable in Hs.
      rewrite Hfl, Hx in Hs. done.
    + intros n. by destruct (cnicks c !! n).
Qed.

Lemma unknownModeReply_sameBut (k : lcChan) (i i' : IRCServer) (s : RobustId)
    (nick : string) (m : modeCmd) :
  sameBut k i i' → unknownModeReply i' s nick m = unknownModeReply i s nick m.
Proof.
  intros (_&_&_&_&Hp&_). unfold unknownModeReply, srvMsg. by rewrite Hp.
Qed.

Lemma repliesWith_app (cmd : string) (l1 l2 : list OutputMessage) :
  repliesWith cmd (l1 ++ l2) = (repliesWith cmd l1 ++ repliesWith cmd l2)%list.
Proof. unfold repliesWith. by rewrite List.filter_app, fmap_app. Qed.

(** The whole loop, requested by a channel operator: it runs to its end. *)
Lemma modeLoop_chanop (s : RobustId) (nick channelname : string) (k : lcChan)
    (modes : list modeCmd) :
  Forall wfMode modes →
  ∀ (i : IRCServer) (reply : Replyctx) (q : bool) (c : channel),
    channels i !! k = Some c →
    ∃ i' reply' q' c' added,
      forEachCtl (modeStep s nick channelname k true) modes (i, reply, q)
      = Some (Next (i', reply', q'))
      ∧ channels i' !! k = Some c'
      ∧ sameBut k i i'
      ∧ msgid reply' = msgid reply
      ∧ Messages reply' = (Messages reply ++ added)%list
      ∧ repliesWith irc.ERR_UNKNOWNMODE added
        = unknownModeReply i s nick <$> List.filter isUnknownMode modes
      ∧ name c' = name c
      ∧ (∀ ch, flag (cmodes c') ch
               = if settable ch then flagAfter ch modes (flag (cmodes c) ch)
                 else flag (cmodes c) ch)
      ∧ (∀ n, cnicks c' !! n = opAfter n modes <$> cnicks c !! n).
Proof.
  induction 1 as [|m modes Hm _ IH]; intros i reply q c Hc.
  - exists i, reply, q, c, []. cbn. rewrite app_nil_r.
    repeat split; try done.
    + intros ch. by destruct (settable ch).
    + intros n. by destruct (cnicks c !! n).
  - destruct (modeStep_chanop s nick channelname k i reply q m c Hm Hc)
      as (i1 & reply1 & q1 & c1 & added1 & Hstep & Hc1 & Hsame1 & Hid1 & Hmsgs1
          & Hrep1 & Hname1 & Hflag1 & Hop1).
    destruct (IH i1 reply1 q1 c1 Hc1)
      as (i2 & reply2 & q2 & c2 & added2 & Hloop & Hc2 & Hsame2 & Hid2 & Hmsgs2
          & Hrep2 & Hname2 & Hflag2 & Hop2).
    exists i2, reply2, q2, c2, (added1 ++ added2)%list.
    split. { cbn [forEachCtl]. rewrite Hstep. cbn. exact Hloop. }
    split; [exact Hc2|].
    split; [by eapply sameBut_trans|].
    split; [congruence|].
    split. { rewrite Hmsgs2, Hmsgs1. by rewrite app_assoc. }
    split.
    { rewrite repliesWith_app, Hrep1, Hrep2. cbn [List.filter].
      rewrite (list_fmap_ext _ (unknownModeReply i s nick) (List.filter isUnknownMode modes)
                 (λ _ x _, unknownModeReply_sameBut k i i1 s nick x Hsame1)).
      by destruct (isUnknownMode m). }
    split; [congruence|].
    split.
    + intros ch. rewrite Hflag2, Hflag1. by destruct (settable ch).
    + intros n. rewrite Hop2, Hop1. by destruct (cnicks c !! n).
Qed.

Lemma IRCParams_wf (modes : list modeCmd) :
  Forall wfMode modes → is_Some (IRCParams modes).
Proof.
  intros Hwf. unfold IRCParams.
  assert (is_Some (mapM (λ m, byteAt 0 (Mode m)) modes)) as [signs ->].
  { apply mapM_is_Some. eapply Forall_impl; [exact Hwf|].
    intros m (sign & b & rest & HM). unfold compose. rewrite HM. by eexists. }
  assert (is_Some (mapM (λ m, byteAt 1 (Mode m)) modes)) as [letters ->].
  { apply mapM_is_Some. eapply Forall_impl; [exact Hwf|].
    intros m (sign & b & rest & HM). unfold compose. rewrite HM. by eexists. }
  cbn. repeat case_match; by eexists.
Qed.

(** C2. A channel MODE with changes, from a member who is channel operator
    (or IRC operator), runs through all its changes in order: every flag the
    handler writes ([t], [s], [i], [n], and [x] when captcha is configured)
    ends with the value of its last change, every member ends with the
    operator bit of the last [o] change that names it, and the replies hold
    exactly one ERR_UNKNOWNMODE per unknown letter, in order, each addressed
    to the requester; the changes after an unknown letter are applied like
    the others. *)
Theorem channel_mode_applies_every_change (i : IRCServer) (s : RobustId)
    (sess : Session) (reply : Replyctx) (msg : irc.Message)
    (channelname : string) (c : channel) (perms : bool) :
  heap i !! s = Some sess →
  irc.Params msg !! 0%nat = Some channelname →
  ChanToLower channelname ∈ Channels sess →
  channels i !! ChanToLower channelname = Some c →
  cnicks c !! NickToLower (Nick sess) = Some perms →
  perms || Operator sess = true →
  normalizeModes msg ≠ [] →
  ∃ i' reply' c' added,
    cmdMode i s reply msg = Some (i', reply')
    ∧ channels i' !! ChanToLower channelname = Some c'
    ∧ Messages reply' = (Messages reply ++ added)%list
    ∧ (∀ ch, flag (cmodes c') ch
             = if settable ch
               then flagAfter ch (normalizeModes msg) (flag (cmodes c) ch)
               else flag (cmodes c) ch)
    ∧ (∀ n, cnicks c' !! n = opAfter n (normalizeModes msg) <$> cnicks c !! n)
    ∧ repliesWith irc.ERR_UNKNOWNMODE added
      = unknownModeReply i s (Nick sess)
        <$> List.filter isUnknownMode (normalizeModes msg).
Proof.
  intros Hs Hp0 Hon Hc Hperms Hop Hmodes.
  pose proof (normalizeModes_wf msg) as Hwf.
  destruct (modeLoop_chanop s (Nick sess) channelname (ChanToLower channelname)
              (normalizeModes msg) Hwf i reply true c Hc)
    as (i' & reply' & q' & c' & added & Hloop & Hc' & Hsame & Hid & Hmsgs
        & Hrep & Hname & Hflag & Hnicks).
  destruct (IRCParams_wf _ Hwf) as [params Hparams].
  unfold cmdMode. rewrite Hs, Hp0. cbn [mbind option_bind].
  rewrite bool_decide_eq_true_2 by exact Hon. rewrite Hc. cbn [mbind option_bind].
  rewrite bool_decide_eq_false_2
    by (destruct (normalizeModes msg); [done|discriminate]).
  rewrite Hperms. cbn [mbind option_bind]. rewrite Hop, Hloop.
  cbn [mbind option_bind].
  destruct q'.
  { exists i', reply', c', added. by repeat split. }
  destruct (0 <? replyid reply')%Z.
  { exists i', reply', c', added. by repeat split. }
  rewrite Hc', Hparams. cbn [mbind option_bind].
  eexists i', _, c', (added ++ [_; _])%list.
  split; [reflexivity|]. split; [exact Hc'|].
  split. { cbn. rewrite Hmsgs. by rewrite <- !app_assoc. }
  split; [exact Hflag|]. split; [exact Hnicks|].
  rewrite repliesWith_app, Hrep. cbn. by rewrite app_nil_r.
Qed.

End ChannelMode.

Lemma channel_mode_applies_every_change_witness :
  let msg := Example.line "MODE" ["#Test"; "+iz-t+o"; "BOB"] in
  let sess := Example.user Example.alice "Alice" {["#test"]} ∅ in
  let c := mkChannel "#test" {["alice" := true; "bob" := false]}
             {["n"%char; "t"%char]} "" time.zero "" in
  heap Example.both !! Example.alice = Some sess
  ∧ irc.Params msg !! 0%nat = Some "#Test"
  ∧ ChanToLower (Env := Example.env) "#Test" ∈ Channels sess
  ∧ channels Example.both !! ChanToLower (Env := Example.env) "#Test" = Some c
  ∧ cnicks c !! NickToLower (Env := Example.env) (Nick sess) = Some true
  ∧ true || Operator sess = true
  ∧ normalizeModes msg ≠ []
  ∧ ∃ i' reply' c' added,
      cmdMode (E := Example.env) Example.both Example.alice Example.reply0 msg
      = Some (i', reply')
      ∧ channels i' !! ChanToLower (Env := Example.env) "#Test" = Some c'
      ∧ Messages reply' = (Messages Example.reply0 ++ added)%list
      ∧ (∀ ch, flag (cmodes c') ch
               = if settable (E := Example.env) ch
                 then flagAfter ch (normalizeModes msg) (flag (cmodes c) ch)
                 else flag (cmodes c) ch)
      ∧ (∀ n, cnicks c' !! n
              = opAfter (E := Example.env) n (normalizeModes msg) <$> cnicks c !! n)
      ∧ repliesWith irc.ERR_UNKNOWNMODE added
        = unknownModeReply Example.both Example.alice (Nick sess)
          <$> List.filter isUnknownMode (normalizeModes msg).
Proof.
  intros msg sess c.
  assert (heap Example.both !! Example.alice = Some sess) as H1 by reflexivity.
  assert (irc.Params msg !! 0%nat = Some "#Test") as H2 by reflexivity.
  assert (ChanToLower (Env := Example.env) "#Test" ∈ Channels sess) as H3
    by (vm_compute; reflexivity).
  assert (channels Example.both !! ChanToLower (Env := Example.env) "#Test"
          = Some c) as H4 by reflexivity.
  assert (cnicks c !! NickToLower (Env := Example.env) (Nick sess) = Some true)
    as H5 by reflexivity.
  assert (true || Operator sess = true) as H6 by reflexivity.
  assert (normalizeModes msg ≠ []) as H7 by (vm_compute; discriminate).
  repeat (split; [assumption|]).
  exact (channel_mode_applies_every_change (E := Example.env) Example.both
           Example.alice sess Example.reply0 msg "#Test" c true
           H1 H2 H3 H4 H5 H6 H7).
Defined.

(** On that input: [i] is set, [t] is cleared, bob becomes operator, and the
    one reply is the unknown-mode error for [z]. *)
Example channel_mode_mixed_letters :
  ∃ i' reply' c',
    cmdMode (E := Example.env) Example.both Example.alice Example.reply0
      (Example.line "MODE" ["#Test"; "+iz-t+o"; "BOB"]) = Some (i', reply')
    ∧ channels i' !! "#test" = Some c'
    ∧ cmodes c' = {["i"%char; "n"%char]}
    ∧ cnicks c' = {["alice" := true; "bob" := true]}
    ∧ delivery <$> Messages reply'
      = [(ForSessions {[Example.alice]},
          irc.mkMessage (Some Example.serverPrefix) "472"
            ["Alice"; "z"; "is unknown mode char to me"])].
Proof.
  eexists _, _, _. split; [vm_compute; reflexivity|].
  split; [vm_compute; reflexivity|]. split; [by vm_compute|].
  split; by vm_compute.
Qed.

(** ** NICK *)

Section Nick.

Context {E : Env}.

Lemma sameNames_refl (i : IRCServer) : sameNames i i.
Proof. by repeat split. Qed.

Lemma sameNames_trans (i1 i2 i3 : IRCServer) :
  sameNames i1 i2 → sameNames i2 i3 → sameNames i1 i3.
Proof.
  intros (Ha1&Ha2&Ha3&Ha4) (Hb1&Hb2&Hb3&Hb4).
  do 3 (split; [congruence|]). intros t. by rewrite Hb4, Ha4.
Qed.

Lemma sameNames_updSession (i : IRCServer) (s : RobustId)
    (f : Session → Session) :
  (∀ x, Nick (f x) = Nick x) → sameNames i (updSession s f i).
Proof.
  intros Hf. repeat split. intros t. cbn.
  destruct (decide (t = s)) as [->|Hne].
  - rewrite lookup_alter_eq. destruct (heap i !! s); cbn; [|done].
    by rewrite Hf.
  - by rewrite lookup_alter_ne.
Qed.

Lemma sameNames_lookup (i i' : IRCServer) (s : RobustId) (sess : Session) :
  sameNames i i' → heap i !! s = Some sess →
  ∃ sess', heap i' !! s = Some sess' ∧ Nick sess' = Nick sess.
Proof.
  intros (_&_&_&Hn) Hs. specialize (Hn s). rewrite Hs in Hn.
  destruct (heap i' !! s) as [sess'|]; [|done].
  exists sess'. split; [done|]. by injection Hn.
Qed.

Lemma updSession_lookup (i : IRCServer) (s : RobustId) (f : Session → Session)
    (sess : Session) :
  heap i !! s = Some sess → heap (updSession s f i) !! s = Some (f sess).
Proof. intros H. cbn. by rewrite lookup_alter_eq, H. Qed.

Lemma updSession_lookup_ne (i : IRCServer) (s t : RobustId)
    (f : Session → Session) :
  t ≠ s → heap (updSession s f i) !! t = heap i !! t.
Proof. intros H. cbn. by rewrite lookup_alter_ne. Qed.

Lemma cmdMotd_frame (i : IRCServer) (s : RobustId) (reply : Replyctx)
    (msg : irc.Message) (sess : Session) :
  heap i !! s = Some sess →
  ∃ reply', cmdMotd i s reply msg = Some (i, reply').
Proof. intros Hs. unfold cmdMotd. rewrite Hs. by eexists. Qed.

Lemma cmdOper_frame (i : IRCServer) (s : RobustId) (reply : Replyctx)
    (msg : irc.Message) (sess : Session) :
  heap i !! s = Some sess → (1 < length (irc.Params msg))%nat →
  ∃ i' reply', cmdOper i s reply msg = Some (i', reply') ∧ sameNames i i'.
Proof.
  intros Hs Hlen. unfold cmdOper. rewrite Hs.
  destruct (irc.Params msg) as [|name [|password rest]]; cbn in Hlen; try lia.
  cbn [lookup list_lookup mbind option_bind].
  destruct (existsb _ _); cbn [negb].
  - rewrite (updSession_lookup _ _ _ _ Hs). cbn [mbind option_bind].
    eexists _, _. split; [reflexivity|].
    by apply (sameNames_updSession i s).
  - eexists _, _. split; [reflexivity|]. apply sameNames_refl.
Qed.

(** The login sequence returns, and leaves the names as they are. *)
Lemma maybeLogin_frame (i : IRCServer) (s : RobustId) (reply : Replyctx)
    (msg : irc.Message) (sess : Session) :
  heap i !! s = Some sess →
  ∃ i' reply', maybeLogin i s reply msg = Some (i', reply') ∧ sameNames i i'.
Proof.
  intros Hs. unfold maybeLogin. rewrite Hs. cbn [mbind option_bind].
  destruct (loggedIn sess).
  { eexists _, _. split; [reflexivity|]. apply sameNames_refl. }
  destruct (bool_decide (Nick sess = "") || bool_decide (Username sess = "")).
  { eexists _, _. split; [reflexivity|]. apply sameNames_refl. }
  destruct (captchaRequiredForLogin && _).
  { eexists _, _. split; [reflexivity|]. apply sameNames_refl. }
  set (i1 := updSession s (setLoggedIn true) i).
  assert (sameNames i i1) as H1 by (by apply sameNames_updSession).
  destruct (sameNames_lookup _ _ _ _ H1 Hs) as (sess1 & Hs1 & _).
  match goal with
  | |- ∃ i' reply', (?oper ≫= _) = _ ∧ _ =>
      assert (∃ i2 reply2, oper = Some (i2, reply2) ∧ sameNames i1 i2)
        as (i2 & reply2 & -> & H2)
  end.
  { destruct (bool_decide (extractPassword (Pass sess) "oper" = "")).
    { eexists _, _. split; [reflexivity|]. apply sameNames_refl. }
    case_bool_decide as Hlen.
    - by eapply cmdOper_frame.
    - eexists _, _. split; [reflexivity|]. apply sameNames_refl. }
  cbn [mbind option_bind].
  destruct (sameNames_lookup _ _ _ _ H2 Hs1) as (sess2 & Hs2 & _).
  set (i3 := updSession s (setPass "") i2).
  assert (sameNames i2 i3) as H3 by (by apply sameNames_updSession).
  destruct (sameNames_lookup _ _ _ _ H3 Hs2) as (sess3 & Hs3 & _).
  destruct (cmdMotd_frame i3 s reply2 msg sess3 Hs3) as [reply3 Hmotd].
  rewrite Hmotd. eexists _, _. split; [reflexivity|].
  eauto using sameNames_trans.
Qed.

(** What an accepted NICK does: the result when the nickname passes the
    validity check, the in-use check and the hold check. *)
Lemma cmdNick_accepted (i : IRCServer) (s : RobustId) (sess : Session)
    (reply : Replyctx) (msg : irc.Message) (nick : string) :
  heap i !! s = Some sess →
  irc.Params msg !! 0%nat = Some nick →
  nick ≠ "" →
  IsValidNickname nick = true →
  IsServicesNickname nick = false →
  bool_decide (is_Some (nicks i !! NickToLower nick))
  && negb (loggedIn sess
           && bool_decide (NickToLower nick
                           = NickToLower (if loggedIn sess then Nick sess else "*")))
  = false →
  (∀ hold, svsholds i !! NickToLower nick = Some hold →
           time.After (LastActivity sess)
             (time.Add (added hold) (duration hold)) = true) →
  ∃ i' reply',
    cmdNick i s reply msg = Some (i', reply')
    ∧ Nick <$> heap i' !! s = Some nick
    ∧ svsholds i' = delete (NickToLower nick) (svsholds i)
    ∧ nicks i'
      = (if negb (bool_decide (NickToLower (Nick sess) = ""))
            && negb (loggedIn sess
                     && bool_decide (NickToLower nick
                          = NickToLower (if loggedIn sess then Nick sess else "*")))
         then delete (NickToLower (Nick sess))
                (<[NickToLower nick := s]> (nicks i))
         else <[NickToLower nick := s]> (nicks i))
    ∧ channels i'
      = (if negb (bool_decide (NickToLower (Nick sess) = ""))
            && negb (loggedIn sess
                     && bool_decide (NickToLower nick
                          = NickToLower (if loggedIn sess then Nick sess else "*")))
         then rekeyMember (NickToLower (Nick sess)) (NickToLower nick)
              <$> channels i
         else channels i)
    ∧ (loggedIn sess = true →
       ∃ added, Messages reply' = (Messages reply ++ added)%list
                ∧ Forall (λ o, irc.Command (Data o) = irc.NICK) added).
Proof.
  intros Hs Hp0 Hnick Hvalid Hserv Hfree Hhold.
  unfold cmdNick. rewrite Hs, Hp0. cbn [mbind option_bind default id].
  rewrite bool_decide_eq_false_2 by exact Hnick.
  rewrite Hvalid, Hserv, Hfree. cbn [negb orb].
  set (caps := loggedIn sess && bool_decide _) in *.
  set (old := NickToLower (Nick sess)).
  assert (match svsholds i !! NickToLower nick with
          | Some hold =>
              if negb (time.After (LastActivity sess)
                         (time.Add (added hold) (duration hold)))
              then Some hold else None
          | None => None
          end = None) as ->.
  { destruct (svsholds i !! NickToLower nick) as [hold|] eqn:Hh; [|done].
    by rewrite (Hhold hold eq_refl). }
  set (i0 := match svsholds i !! NickToLower nick with
             | Some _ => setSvsholds (delete (NickToLower nick) (svsholds i)) i
             | None => i
             end).
  assert (heap i0 = heap i ∧ nicks i0 = nicks i ∧ channels i0 = channels i
          ∧ svsholds i0 = delete (NickToLower nick) (svsholds i))
    as (Hh0 & Hn0 & Hc0 & Hs0).
  { subst i0. destruct (svsholds i !! NickToLower nick) eqn:Hh; [done|].
    by rewrite delete_id. }
  match goal with
  | |- context [updSession s updateIrcPrefix ?x] =>
      set (i1 := updSession s updateIrcPrefix x)
  end.
  assert (heap i1 !! s = Some (updateIrcPrefix (setNick nick sess))) as Hs1.
  { subst i1. apply updSession_lookup.
    assert (heap (updSession s (setNick nick) i0) !! s
            = Some (setNick nick sess)) as Hs'
      by (apply updSession_lookup; by rewrite Hh0).
    destruct (negb (bool_decide (old = "")) && negb caps); exact Hs'. }
  assert (svsholds i1 = delete (NickToLower nick) (svsholds i)) as Hsv1.
  { subst i1. destruct (negb (bool_decide (old = "")) && negb caps); exact Hs0. }
  assert (nicks i1
          = if negb (bool_decide (old = "")) && negb caps
            then delete old (<[NickToLower nick := s]> (nicks i))
            else <[NickToLower nick := s]> (nicks i)) as Hn1.
  { subst i1. destruct (negb (bool_decide (old = "")) && negb caps);
      cbn; by rewrite Hn0. }
  assert (channels i1
          = if negb (bool_decide (old = "")) && negb caps
            then rekeyMember old (NickToLower nick) <$> channels i
            else channels i) as Hc1.
  { subst i1. destruct (negb (bool_decide (old = "")) && negb caps);
      cbn; by rewrite Hc0. }
  clearbody i1.
  destruct (negb (bool_decide (old = ""))) eqn:Hold.
  - rewrite Hs1. cbn [mbind option_bind].
    eexists i1, _. split; [reflexivity|]. rewrite Hs1.
    split; [done|]. split; [done|]. split; [done|]. split; [done|].
    intros _. eexists [_; _; _]. split; [cbn; by rewrite <- !app_assoc|].
    by repeat constructor.
  - destruct (maybeLogin_frame i1 s reply msg _ Hs1)
      as (i2 & reply2 & Hlogin & Hn2 & Hc2 & Hsv2 & Hnames).
    exists i2, reply2. split; [exact Hlogin|].
    split; [by rewrite Hnames, Hs1|].
    split; [congruence|]. split; [congruence|]. split; [congruence|].
    intros Hlogged. exists []. split; [|constructor].
    unfold maybeLogin in Hlogin. rewrite Hs1 in Hlogin.
    cbn in Hlogin. rewrite Hlogged in Hlogin. injection Hlogin as _ <-.
    by rewrite app_nil_r.
Qed.



(** C8. For a NICK with a valid, non-empty nickname that is free and is not a
    services name, and on which a hold is placed: (1) while the last activity
    of the requester is not after the hold's added time plus its duration,
    the NICK is answered with the one reply ERR_ERRONEUSNICKNAME that carries
    the reason of the hold, and nothing changes; (2) once the last activity
    is after that time, the NICK succeeds: the session has the nickname, the
    index maps the name to the session, and the hold is deleted. *)
Theorem nick_under_hold (i : IRCServer) (s : RobustId) (sess : Session)
    (reply : Replyctx) (msg : irc.Message) (nick : string) (hold : svshold) :
  heap i !! s = Some sess →
  irc.Params msg !! 0%nat = Some nick →
  nick ≠ "" →
  IsValidNickname nick = true →
  IsServicesNickname nick = false →
  nicks i !! NickToLower nick = None →
  svsholds i !! NickToLower nick = Some hold →
  ((LastActivity sess ≤ added hold + duration hold)%Z →
   cmdNick i s reply msg
   = Some (i, mkReplyctx (msgid reply) (nextReplyid (replyid reply))
                (Messages reply ++
                   [mkOutputMessage
                      (mkRobustId (msgid reply) (nextReplyid (replyid reply)))
                      (ForSessions {[s]})
                      (srvMsg i irc.ERR_ERRONEUSNICKNAME
                         [if loggedIn sess then Nick sess else "*"; nick;
                          "Erroneous Nickname: " +:+ reason hold])])))
  ∧ ((added hold + duration hold < LastActivity sess)%Z →
     (NickToLower (Nick sess) ≠ "" →
      nicks i !! NickToLower (Nick sess) = Some s) →
     ∃ i' reply',
       cmdNick i s reply msg = Some (i', reply')
       ∧ Nick <$> heap i' !! s = Some nick
       ∧ nicks i' !! NickToLower nick = Some s
       ∧ svsholds i' = delete (NickToLower nick) (svsholds i)
       ∧ svsholds i' !! NickToLower nick = None).
Proof.
  intros Hs Hp0 Hnick Hvalid Hserv Hfree Hheld. split.
  - intros Hactive.
    unfold cmdNick. rewrite Hs, Hp0. cbn [mbind option_bind default id].
    rewrite bool_decide_eq_false_2 by exact Hnick.
    rewrite Hvalid, Hserv, Hfree. cbn [negb].
    rewrite (bool_decide_eq_false_2 (is_Some None)) by (by intros [? ?]).
    cbn [andb orb]. rewrite Hheld.
    unfold time.After, time.Add.
    assert ((added hold + duration hold <? LastActivity sess)%Z = false) as ->
      by (apply Z.ltb_ge; lia).
    reflexivity.
  - intros Hexpired Hindex.
    destruct (cmdNick_accepted i s sess reply msg nick Hs Hp0 Hnick Hvalid Hserv)
      as (i' & reply' & Hrun & Hname & Hsv & Hnicks & _).
    { rewrite Hfree. by rewrite (bool_decide_eq_false_2 (is_Some None))
        by (by intros [? ?]). }
    { intros hold' Hhold'. rewrite Hheld in Hhold'. injection Hhold' as <-.
      unfold time.After, time.Add. apply Z.ltb_lt. lia. }
    exists i', reply'. split; [exact Hrun|]. split; [exact Hname|].
    split; [|split; [exact Hsv|by rewrite Hsv, lookup_delete_eq]].
    rewrite Hnicks.
    destruct (negb (bool_decide (NickToLower (Nick sess) = "")) && _) eqn:Hcond.
    + apply andb_true_iff in Hcond as [Hold _].
      apply negb_true_iff, bool_decide_eq_false in Hold.
      rewrite lookup_delete_ne; [by rewrite lookup_insert_eq|].
      intros Heq. specialize (Hindex Hold). rewrite Heq, Hfree in Hindex.
      discriminate.
    + by rewrite lookup_insert_eq.
Qed.

End Nick.


Lemma nick_under_hold_witness :
  let msg := Example.line "NICK" ["Carol"] in
  let a := Example.user Example.alice "Alice" ∅ ∅ in
  (heap (Example.lobbyWithHold 50%Z 100%Z) !! Example.alice = Some a
   ∧ nicks (Example.lobbyWithHold 50%Z 100%Z) !! NickToLower (Env := Example.env) "Carol"
     = None
   ∧ svsholds (Example.lobbyWithHold 50%Z 100%Z) !! NickToLower (Env := Example.env) "Carol"
     = Some (mkSvshold 50%Z 100%Z "reserved")
   ∧ (LastActivity a ≤ 50 + 100)%Z
   ∧ cmdNick (E := Example.env) (Example.lobbyWithHold 50%Z 100%Z) Example.alice
       Example.reply0 msg
     = Some (Example.lobbyWithHold 50%Z 100%Z,
             mkReplyctx 7 1
               [mkOutputMessage (mkRobustId 7 1) (ForSessions {[Example.alice]})
                  (irc.mkMessage (Some Example.serverPrefix) "432"
                     ["Alice"; "Carol"; "Erroneous Nickname: reserved"])]))
  ∧ (heap (Example.lobbyWithHold 10%Z 20%Z) !! Example.alice = Some a
     ∧ svsholds (Example.lobbyWithHold 10%Z 20%Z) !! NickToLower (Env := Example.env) "Carol"
       = Some (mkSvshold 10%Z 20%Z "reserved")
     ∧ (10 + 20 < LastActivity a)%Z
     ∧ ∃ i' reply',
         cmdNick (E := Example.env) (Example.lobbyWithHold 10%Z 20%Z) Example.alice
           Example.reply0 msg = Some (i', reply')
         ∧ Nick <$> heap i' !! Example.alice = Some "Carol"
         ∧ nicks i' !! NickToLower (Env := Example.env) "Carol" = Some Example.alice
         ∧ svsholds i'
           = delete (NickToLower (Env := Example.env) "Carol")
               (svsholds (Example.lobbyWithHold 10%Z 20%Z))
         ∧ svsholds i' !! NickToLower (Env := Example.env) "Carol" = None).
Proof.
  intros msg a.
  assert (irc.Params msg !! 0%nat = Some "Carol") as Hp by reflexivity.
  assert ("Carol" ≠ "") as Hne by discriminate.
  assert (IsValidNickname (Env := Example.env) "Carol" = true) as Hv
    by reflexivity.
  assert (IsServicesNickname (Env := Example.env) "Carol" = false) as Hsv
    by reflexivity.
  split.
  - assert (heap (Example.lobbyWithHold 50%Z 100%Z) !! Example.alice = Some a)
      as H1 by reflexivity.
    assert (nicks (Example.lobbyWithHold 50%Z 100%Z)
              !! NickToLower (Env := Example.env) "Carol" = None) as H2
      by reflexivity.
    assert (svsholds (Example.lobbyWithHold 50%Z 100%Z)
              !! NickToLower (Env := Example.env) "Carol"
            = Some (mkSvshold 50%Z 100%Z "reserved")) as H3 by reflexivity.
    assert (LastActivity a ≤ 50 + 100)%Z as H4 by (simpl; lia).
    repeat (split; [assumption|]).
    exact (proj1 (nick_under_hold (E := Example.env) (Example.lobbyWithHold 50%Z 100%Z)
                    Example.alice a Example.reply0 msg "Carol"
                    (mkSvshold 50%Z 100%Z "reserved") H1 Hp Hne Hv Hsv H2 H3) H4).
  - assert (heap (Example.lobbyWithHold 10%Z 20%Z) !! Example.alice = Some a)
      as H1 by reflexivity.
    assert (nicks (Example.lobbyWithHold 10%Z 20%Z)
              !! NickToLower (Env := Example.env) "Carol" = None) as H2
      by reflexivity.
    assert (svsholds (Example.lobbyWithHold 10%Z 20%Z)
              !! NickToLower (Env := Example.env) "Carol"
            = Some (mkSvshold 10%Z 20%Z "reserved")) as H3 by reflexivity.
    assert (10 + 20 < LastActivity a)%Z as H4 by (simpl; lia).
    repeat (split; [assumption|]).
    exact (proj2 (nick_under_hold (E := Example.env) (Example.lobbyWithHold 10%Z 20%Z)
                    Example.alice a Example.reply0 msg "Carol"
                    (mkSvshold 10%Z 20%Z "reserved") H1 Hp Hne Hv Hsv H2 H3) H4
             (λ _, eq_refl)).
Defined.

(** ** JOIN *)

Section Join.

Context {E : Env}.

Lemma cmdMode_query (i : IRCServer) (s : RobustId) (sess : Session)
    (reply : Replyctx) (channelname : string) (c : channel) :
  heap i !! s = Some sess →
  ChanToLower channelname ∈ Channels sess →
  channels i !! ChanToLower channelname = Some c →
  ∃ reply',
    cmdMode i s reply (irc.mkMessage None irc.MODE [channelname])
    = Some (i, reply').
Proof.
  intros Hs Hon Hc. unfold cmdMode. rewrite Hs. cbn [irc.Params lookup
    list_lookup mbind option_bind].
  rewrite (bool_decide_eq_true_2 _ Hon), Hc. cbn. by eexists.
Qed.

Lemma cmdTopic_query (i : IRCServer) (s : RobustId) (sess : Session)
    (reply : Replyctx) (channelname : string) (c : channel) :
  heap i !! s = Some sess →
  ChanToLower channelname ∈ Channels sess →
  channels i !! ChanToLower channelname = Some c →
  ∃ reply',
    cmdTopic i s reply (irc.mkMessage None irc.TOPIC [channelname])
    = Some (i, reply').
Proof.
  intros Hs Hon Hc. unfold cmdTopic. rewrite Hs. cbn [irc.Params lookup
    list_lookup mbind option_bind length].
  rewrite Hc. rewrite (bool_decide_eq_false_2 (1%nat = 2%nat)) by done.
  rewrite andb_false_r. rewrite (bool_decide_eq_true_2 _ Hon). cbn [negb].
  rewrite (bool_decide_eq_true_2 (1%nat = 1%nat)) by done.
  destruct (time.IsZero (topicTime c)); by eexists.
Qed.

Lemma cmdNames_query (i : IRCServer) (s : RobustId) (sess : Session)
    (reply : Replyctx) (channelname : string) (c : channel) :
  heap i !! s = Some sess →
  channels i !! ChanToLower channelname = Some c →
  membersKnown i c →
  ∃ reply',
    cmdNames i s reply (irc.mkMessage None irc.NAMES [channelname])
    = Some (i, reply').
Proof.
  intros Hs Hc Hknown. unfold cmdNames. rewrite Hs. cbn [irc.Params mbind
    option_bind]. rewrite Hc.
  match goal with
  | |- ∃ _, (?m ≫= _) = _ => assert (is_Some m) as [names ->]
  end.
  { apply mapM_is_Some. apply map_Forall_to_list in Hknown.
    eapply Forall_impl; [exact Hknown|].
    intros [n perms] Hn. unfold resolves in Hn. cbn in Hn. unfold compose. cbn.
    destruct (nicks i !! n) as [id|]; cbn in *; [|by destruct Hn].
    destruct (heap i !! id); cbn in *; [by eexists|by destruct Hn]. }
  cbn. by eexists.
Qed.

Lemma resolves_same (i i' : IRCServer) (n : lcNick) :
  nicks i' = nicks i → (∀ t, is_Some (heap i !! t) → is_Some (heap i' !! t)) →
  resolves i n → resolves i' n.
Proof.
  unfold resolves. intros -> Hheap.
  destruct (nicks i !! n) as [id|]; cbn; [apply Hheap|done].
Qed.

Lemma heap_updSession_is_Some (i : IRCServer) (s t : RobustId)
    (f : Session → Session) :
  is_Some (heap i !! t) → is_Some (heap (updSession s f i) !! t).
Proof. cbn. rewrite lookup_alter_is_Some. done. Qed.

(** What entering the channel does, in a directory whose members resolve. *)
Lemma joinEnter_spec (i : IRCServer) (s : RobustId) (sess : Session)
    (reply : Replyctx) (channelname : string) (ok : bool)
    (modesmsg : option irc.Message) (c : channel) :
  heap i !! s = Some sess →
  channels i !! ChanToLower channelname = Some c →
  nicks i !! NickToLower (Nick sess) = Some s →
  membersKnown i c →
  ∃ i' reply' sess',
    joinEnter i s reply channelname ok modesmsg = Some (i', reply')
    ∧ nicks i' = nicks i
    ∧ (∀ k', k' ≠ ChanToLower channelname →
             channels i' !! k' = channels i !! k')
    ∧ channels i' !! ChanToLower channelname
      = Some (if bool_decide (is_Some (cnicks c !! NickToLower (Nick sess)))
              then c
              else setCnicks (<[NickToLower (Nick sess) := negb ok]> (cnicks c)) c)
    ∧ heap i' !! s = Some sess'
    ∧ (∀ t, t ≠ s → heap i' !! t = heap i !! t)
    ∧ Nick sess' = Nick sess
    ∧ invitedTo sess'
      = (if flag (cmodes c) "i" || flag (cmodes c) "x"
         then invitedTo sess ∖ {[ChanToLower channelname]} else invitedTo sess)
    ∧ Channels sess'
      = (if bool_decide (is_Some (cnicks c !! NickToLower (Nick sess)))
         then Channels sess
         else {[ChanToLower channelname]} ∪ Channels sess).
Proof.
  intros Hs Hc Hindex Hknown.
  set (k := ChanToLower channelname) in *.
  set (n := NickToLower (Nick sess)) in *.
  unfold joinEnter. fold k. rewrite Hs. cbn [mbind option_bind].
  rewrite Hc. cbn [mbind option_bind]. fold n.
  set (inv := if flag (cmodes c) "i" || flag (cmodes c) "x"
              then invitedTo sess ∖ {[k]} else invitedTo sess).
  set (i1 := if flag (cmodes c) "i" || flag (cmodes c) "x"
             then updSession s (λ x, setInvitedTo (invitedTo x ∖ {[k]}) x) i
             else i).
  assert (heap i1 !! s = Some (setInvitedTo inv sess)
          ∧ (∀ t, t ≠ s → heap i1 !! t = heap i !! t)
          ∧ nicks i1 = nicks i ∧ channels i1 = channels i)
    as (Hs1 & Hother1 & Hn1 & Hc1).
  { subst i1 inv. destruct (flag (cmodes c) "i" || flag (cmodes c) "x").
    - split; [exact (updSession_lookup i s _ sess Hs)|]. split; [|done].
      intros t Ht. by apply updSession_lookup_ne.
    - split; [by destruct sess|]. done. }
  clearbody i1.
  destruct (bool_decide (is_Some (cnicks c !! n))) eqn:Hmem.
  { exists i1, reply, (setInvitedTo inv sess).
    split; [done|]. split; [done|].
    split; [by intros k' _; rewrite Hc1|].
    split; [by rewrite Hc1|]. by repeat split. }
  apply bool_decide_eq_false in Hmem.
  set (c' := setCnicks (<[n := negb ok]> (cnicks c)) c).
  match goal with
  | |- context [updSession s (λ y, setChannels ({[k]} ∪ Channels y) y) ?srv] =>
      set (i4 := updSession s (λ y, setChannels ({[k]} ∪ Channels y) y) srv)
  end.
  set (sess' := setChannels ({[k]} ∪ Channels sess) (setInvitedTo inv sess)).
  assert (heap i4 !! s = Some sess') as Hs4.
  { subst i4 sess'.
    match goal with
    | |- heap (updSession s ?f ?srv) !! s = _ =>
        rewrite (updSession_lookup srv s f (setInvitedTo inv sess)); [done|]
    end.
    by destruct ok. }
  assert (∀ t, t ≠ s → heap i4 !! t = heap i !! t) as Hother4.
  { intros t Ht. subst i4. rewrite updSession_lookup_ne by done.
    destruct ok; cbn; by apply Hother1. }
  assert (nicks i4 = nicks i) as Hn4 by (subst i4; by destruct ok).
  assert (channels i4 !! k = Some c') as Hc4.
  { subst i4 c'. destruct ok; cbn [negb channels updSession setHeap].
    - cbn. by rewrite lookup_alter_eq, Hc1, Hc.
    - cbn. rewrite !lookup_alter_eq, Hc1, Hc. cbn.
      by rewrite insert_insert_eq. }
  assert (∀ k', k' ≠ k → channels i4 !! k' = channels i !! k') as Hck4.
  { intros k' Hk'. subst i4. destruct ok; cbn.
    - by rewrite lookup_alter_ne, Hc1.
    - by rewrite !lookup_alter_ne, Hc1. }
  clearbody i4.
  assert (membersKnown i4 c') as Hknown4.
  { subst c'. cbn [cnicks setCnicks]. apply map_Forall_insert_2.
    - unfold resolves. rewrite Hn4, Hindex. cbn.
      by rewrite Hs4.
    - eapply map_Forall_impl; [exact Hknown|]. intros m perm Hm. cbn beta in Hm.
      eapply resolves_same; [exact Hn4| |exact Hm].
      intros t Ht. destruct (decide (t = s)) as [->|Hne].
      + by rewrite Hs4.
      + by rewrite Hother4. }
  rewrite Hc4, Hs4. cbn [mbind option_bind].
  assert (cnicks c' !! n = Some (negb ok)) as ->
    by (subst c'; cbn; by rewrite lookup_insert_eq).
  cbn [mbind option_bind].
  assert (ChanToLower channelname ∈ Channels sess') as Hon.
  { subst sess'. cbn. apply elem_of_union. left. by apply elem_of_singleton. }
  match goal with
  | |- context [cmdMode i4 s ?r ?m] =>
      destruct (cmdMode_query i4 s sess' r channelname c' Hs4 Hon Hc4)
        as [r1 ->]
  end.
  cbn [mbind option_bind].
  destruct (cmdTopic_query i4 s sess' r1 channelname c' Hs4 Hon Hc4) as [r2 ->].
  cbn [mbind option_bind].
  destruct (cmdNames_query i4 s sess' r2 channelname c' Hs4 Hc4 Hknown4)
    as [r3 ->].
  exists i4, r3, sess'. by repeat split.
Qed.

(** [membersKnown], checked by evaluation. *)
Lemma membersKnown_check (i : IRCServer) (c : channel) :
  forallb (λ np : lcNick * bool,
             match nicks i !! np.1 with
             | Some id => bool_decide (is_Some (heap i !! id))
             | None => false
             end) (map_to_list (cnicks c)) = true →
  membersKnown i c.
Proof.
  intros H. apply map_Forall_to_list, Forall_forall.
  intros [n p] Hin. apply list_elem_of_In in Hin.
  eapply forallb_forall in H; [|exact Hin]. cbn in H. unfold resolves. cbn.
  destruct (nicks i !! n); [|done]. cbn. by apply bool_decide_eq_true in H.
Qed.

Lemma cmdJoin_single (i : IRCServer) (s : RobustId) (reply : Replyctx)
    (msg : irc.Message) (channelname : string) :
  irc.Params msg !! 0%nat = Some channelname →
  strings.Split channelname "," = [channelname] →
  ∃ keys, cmdJoin i s reply msg = joinOne s keys (i, reply) (0%nat, channelname).
Proof.
  intros Hp Hsplit. unfold cmdJoin. rewrite Hp. cbn [mbind option_bind].
  rewrite Hsplit.
  exists (match irc.Params msg with
          | _ :: ks :: _ => strings.Split ks ","
          | _ => []
          end).
  cbn [imap forEach]. by destruct (joinOne _ _ _ _).
Qed.

(** The JOIN of a valid name that is not in the channel table, while the
    channel limit leaves room, creates the channel with the joiner as its
    only member, marked operator. *)
Lemma joinOne_creates (i : IRCServer) (s : RobustId) (sess : Session)
    (reply : Replyctx) (keys : list string) (idx : nat) (channelname : string) :
  heap i !! s = Some sess →
  IsValidChannel channelname = true →
  nicks i !! NickToLower (Nick sess) = Some s →
  channels i !! ChanToLower channelname = None →
  ChannelLimit = 0%N ∨ (N.of_nat (size (channels i)) < ChannelLimit)%N →
  ∃ i' reply' c',
    joinOne s keys (i, reply) (idx, channelname) = Some (i', reply')
    ∧ channels i' !! ChanToLower channelname = Some c'
    ∧ name c' = channelname
    ∧ cnicks c' = {[NickToLower (Nick sess) := true]}
    ∧ nicks i' = nicks i
    ∧ (∀ k', k' ≠ ChanToLower channelname →
             channels i' !! k' = channels i !! k').
Proof.
  intros Hs Hvalid Hindex Hnone Hlimit.
  unfold joinOne. rewrite Hs. cbn [mbind option_bind]. rewrite Hvalid.
  cbn [negb]. unfold joinGate. rewrite Hnone.
  assert ((ChannelLimit <=? N.of_nat (size (channels i)))%N
          && (0 <? ChannelLimit)%N = false) as ->.
  { destruct Hlimit as [->|Hlt]; [apply andb_false_r|].
    apply andb_false_iff. left. apply N.leb_gt. exact Hlt. }
  rewrite (bool_decide_eq_false_2 (is_Some None)) by (by intros [? ?]).
  set (i0 := setChannelMap _ i).
  assert (channels i0 !! ChanToLower channelname
          = Some (newChannel channelname)) as Hc0
    by (subst i0; cbn; by rewrite lookup_insert_eq).
  assert (membersKnown i0 (newChannel channelname)) as Hknown0
    by apply map_Forall_empty.
  destruct (joinEnter_spec i0 s sess reply channelname false
              (Some (srvMsg i "MODE" [channelname; "+nt"]))
              (newChannel channelname) Hs Hc0 Hindex Hknown0)
    as (i' & reply' & sess' & Hrun & Hn & Hother & Hk & _).
  rewrite (bool_decide_eq_false_2 (is_Some _)) in Hk
    by (cbn; rewrite lookup_empty; by intros [? ?]).
  exists i', reply'. eexists. split; [exact Hrun|].
  split; [exact Hk|].
  split; [done|]. split; [by cbn; rewrite insert_empty|].
  split; [exact Hn|].
  intros k' Hk'. rewrite (Hother k' Hk'). subst i0. cbn.
  by rewrite lookup_insert_ne.
Qed.

(** C5. A JOIN that names one valid channel, by a session that the nickname
    index resolves: (1) when the channel does not exist and the channel
    limit leaves room, the JOIN creates it, under the name given, with the
    joiner as its only member, holding the operator bit; (2) when the
    channel exists, the JOIN returns and the membership of the channel is
    either what it was (the join was refused, or the session was a member
    already) or what it was plus the joiner without the operator bit: no
    operator bit is granted. *)
Theorem first_joiner_is_operator (i : IRCServer) (s : RobustId)
    (sess : Session) (reply : Replyctx) (msg : irc.Message)
    (channelname : string) :
  heap i !! s = Some sess →
  irc.Params msg !! 0%nat = Some channelname →
  strings.Split channelname "," = [channelname] →
  IsValidChannel channelname = true →
  nicks i !! NickToLower (Nick sess) = Some s →
  (channels i !! ChanToLower channelname = None →
   ChannelLimit = 0%N ∨ (N.of_nat (size (channels i)) < ChannelLimit)%N →
   ∃ i' reply' c',
     cmdJoin i s reply msg = Some (i', reply')
     ∧ channels i' !! ChanToLower channelname = Some c'
     ∧ name c' = channelname
     ∧ cnicks c' = {[NickToLower (Nick sess) := true]})
  ∧ (∀ c,
       channels i !! ChanToLower channelname = Some c →
       membersKnown i c →
       ∃ i' reply' c',
         cmdJoin i s reply msg = Some (i', reply')
         ∧ channels i' !! ChanToLower channelname = Some c'
         ∧ (cnicks c' = cnicks c
            ∨ (cnicks c !! NickToLower (Nick sess) = None
               ∧ cnicks c' = <[NickToLower (Nick sess) := false]> (cnicks c)))).
Proof.
  intros Hs Hp Hsplit Hvalid Hindex.
  destruct (cmdJoin_single i s reply msg channelname Hp Hsplit) as [keys ->].
  split.
  - intros Hnone Hlimit.
    destruct (joinOne_creates i s sess reply keys 0 channelname
                Hs Hvalid Hindex Hnone Hlimit)
      as (i' & reply' & c' & Hrun & Hk & Hname & Hmem & _).
    by exists i', reply', c'.
  - intros c Hc Hknown.
    unfold joinOne. rewrite Hs. cbn [mbind option_bind]. rewrite Hvalid.
    cbn [negb]. rewrite (bool_decide_eq_true_2 (is_Some _))
      by (rewrite Hc; by eexists).
    assert (∀ r : Replyctx, ∃ i' reply' c',
              Some (i, r) = Some (i', reply')
              ∧ channels i' !! ChanToLower channelname = Some c'
              ∧ (cnicks c' = cnicks c
                 ∨ (cnicks c !! NickToLower (Nick sess) = None
                    ∧ cnicks c'
                      = <[NickToLower (Nick sess) := false]> (cnicks c))))
      as Hrefused.
    { intros r. exists i, r, c. split; [done|]. split; [done|]. by left. }
    assert (∃ i' reply' c',
              joinEnter i s reply channelname true None = Some (i', reply')
              ∧ channels i' !! ChanToLower channelname = Some c'
              ∧ (cnicks c' = cnicks c
                 ∨ (cnicks c !! NickToLower (Nick sess) = None
                    ∧ cnicks c'
                      = <[NickToLower (Nick sess) := false]> (cnicks c))))
      as Hentered.
    { destruct (joinEnter_spec i s sess reply channelname true None c
                  Hs Hc Hindex Hknown)
        as (i' & reply' & sess' & Hrun & _ & _ & Hk & _).
      exists i', reply'. eexists. split; [exact Hrun|]. split; [exact Hk|].
      case_bool_decide as Hmem; [by left|]. right. split; [|done].
      by apply eq_None_not_Some. }
    unfold joinGate. rewrite Hc.
    destruct (flag (cmodes c) "i" && _); [apply Hrefused|].
    destruct (flag (cmodes c) "x" && _); [|exact Hentered].
    destruct (negb (verifyCaptcha sess _)); [apply Hrefused|exact Hentered].
Qed.

End Join.

Lemma first_joiner_is_operator_witness :
  let a := Example.user Example.alice "Alice" ∅ ∅ in
  let b := Example.user Example.bob "bob" ∅ ∅ in
  let c := mkChannel "#test" {["alice" := true]} {["n"%char; "t"%char]}
             "" time.zero "" in
  (heap Example.lobby !! Example.alice = Some a
   ∧ strings.Split "#Test" "," = ["#Test"]
   ∧ IsValidChannel (Env := Example.env) "#Test" = true
   ∧ nicks Example.lobby !! NickToLower (Env := Example.env) (Nick a)
     = Some Example.alice
   ∧ channels Example.lobby !! ChanToLower (Env := Example.env) "#Test" = None
   ∧ ∃ i' reply' c',
       cmdJoin (E := Example.env) Example.lobby Example.alice Example.reply0
         (Example.line "JOIN" ["#Test"]) = Some (i', reply')
       ∧ channels i' !! ChanToLower (Env := Example.env) "#Test" = Some c'
       ∧ name c' = "#Test"
       ∧ cnicks c' = {[NickToLower (Env := Example.env) (Nick a) := true]})
  ∧ (heap Example.aliceAlone !! Example.bob = Some b
     ∧ channels Example.aliceAlone !! ChanToLower (Env := Example.env) "#test"
       = Some c
     ∧ membersKnown Example.aliceAlone c
     ∧ ∃ i' reply' c',
         cmdJoin (E := Example.env) Example.aliceAlone Example.bob
           Example.reply0 (Example.line "JOIN" ["#test"]) = Some (i', reply')
         ∧ channels i' !! ChanToLower (Env := Example.env) "#test" = Some c'
         ∧ (cnicks c' = cnicks c
            ∨ (cnicks c !! NickToLower (Env := Example.env) (Nick b) = None
               ∧ cnicks c'
                 = <[NickToLower (Env := Example.env) (Nick b) := false]>
                     (cnicks c)))).
Proof.
  intros a b c. split.
  - assert (heap Example.lobby !! Example.alice = Some a) as H1 by reflexivity.
    assert (strings.Split "#Test" "," = ["#Test"]) as H2 by reflexivity.
    assert (IsValidChannel (Env := Example.env) "#Test" = true) as H3
      by reflexivity.
    assert (nicks Example.lobby !! NickToLower (Env := Example.env) (Nick a)
            = Some Example.alice) as H4 by reflexivity.
    assert (channels Example.lobby !! ChanToLower (Env := Example.env) "#Test"
            = None) as H5 by reflexivity.
    repeat (split; [assumption|]).
    exact (proj1 (first_joiner_is_operator (E := Example.env) Example.lobby
                    Example.alice a Example.reply0
                    (Example.line "JOIN" ["#Test"]) "#Test"
                    H1 eq_refl H2 H3 H4) H5 (or_introl eq_refl)).
  - assert (heap Example.aliceAlone !! Example.bob = Some b) as H1
      by reflexivity.
    assert (channels Example.aliceAlone !! ChanToLower (Env := Example.env) "#test"
            = Some c) as H2 by reflexivity.
    assert (membersKnown Example.aliceAlone c) as H3
      by (apply membersKnown_check; vm_compute; reflexivity).
    repeat (split; [assumption|]).
    exact (proj2 (first_joiner_is_operator (E := Example.env) Example.aliceAlone
                    Example.bob b Example.reply0
                    (Example.line "JOIN" ["#test"]) "#test"
                    H1 eq_refl eq_refl eq_refl eq_refl) c H2 H3).
Defined.

(** The two joins on the example network: Alice creates #Test and is its
    operator, bob then joins it without the operator bit. *)
Example first_and_second_joiner :
  ∃ i1 r1 i2 r2 c,
    cmdJoin (E := Example.env) Example.lobby Example.alice Example.reply0
      (Example.line "JOIN" ["#Test"]) = Some (i1, r1)
    ∧ cmdJoin (E := Example.env) i1 Example.bob Example.reply0
        (Example.line "JOIN" ["#test"]) = Some (i2, r2)
    ∧ channels i2 !! "#test" = Some c
    ∧ name c = "#Test"
    ∧ cnicks c = {["alice" := true; "bob" := false]}.
Proof.
  eexists _, _, _, _, _. split; [vm_compute; reflexivity|].
  split; [vm_compute; reflexivity|]. split; [vm_compute; reflexivity|].
  split; by vm_compute.
Qed.

(** With the channel limit reached, the JOIN of a new name is refused with
    ERR_NOSUCHCHANNEL and creates nothing. *)
Example join_refused_at_channel_limit :
  cmdJoin (E := Example.envLimit1) Example.aliceAlone Example.bob
    Example.reply0 (Example.line "JOIN" ["#other"])
  = Some (Example.aliceAlone,
          mkReplyctx 7 1
            [mkOutputMessage (mkRobustId 7 1) (ForSessions {[Example.bob]})
               (irc.mkMessage (Some Example.serverPrefix) "403"
                  ["bob"; "#other"; "No such channel"])]).
Proof. by vm_compute. Qed.

Section Invitation.

Context {E : Env}.

(** C10. A JOIN that names one valid channel which exists and has mode [i] or
    [x] set, by a session that passes the gate (it has been invited, or the
    channel is not invite-only and the captcha verifies): the JOIN returns,
    and afterwards the channel is not in the invited-to set of the session.
    When the channel is invite-only, the same JOIN sent again, with no
    INVITE in between, changes nothing and is answered with the one reply
    ERR_INVITEONLYCHAN. *)
Theorem invitation_is_used_up (i : IRCServer) (s : RobustId) (sess : Session)
    (reply : Replyctx) (msg : irc.Message) (channelname : string)
    (c : channel) :
  let k := ChanToLower channelname in
  let keys := match irc.Params msg with
              | _ :: ks :: _ => strings.Split ks ","
              | _ => []
              end in
  let key := default "" (keys !! 0%nat) in
  heap i !! s = Some sess →
  irc.Params msg !! 0%nat = Some channelname →
  strings.Split channelname "," = [channelname] →
  IsValidChannel channelname = true →
  nicks i !! NickToLower (Nick sess) = Some s →
  channels i !! k = Some c →
  membersKnown i c →
  flag (cmodes c) "i" || flag (cmodes c) "x" = true →
  k ∈ invitedTo sess
  ∨ (flag (cmodes c) "i" = false ∧ verifyCaptcha sess key = true) →
  ∃ i' reply' sess',
    cmdJoin i s reply msg = Some (i', reply')
    ∧ heap i' !! s = Some sess'
    ∧ (k ∉ invitedTo sess')
    ∧ (flag (cmodes c) "i" = true →
       ∀ reply2,
         cmdJoin i' s reply2 msg
         = Some (i', mkReplyctx (msgid reply2) (nextReplyid (replyid reply2))
                       (Messages reply2 ++
                          [mkOutputMessage
                             (mkRobustId (msgid reply2)
                                (nextReplyid (replyid reply2)))
                             (ForSessions {[s]})
                             (srvMsg i' irc.ERR_INVITEONLYCHAN
                                [Nick sess; name c;
                                 "Cannot join channel (+i)"])]))).
Proof.
  intros k keys key Hs Hp Hsplit Hvalid Hindex Hc Hknown Hmode Hgate.
  assert (∀ (j : IRCServer) (r : Replyctx),
            cmdJoin j s r msg = joinOne s keys (j, r) (0%nat, channelname))
    as Hsingle.
  { intros j r. unfold cmdJoin. rewrite Hp. cbn [mbind option_bind].
    rewrite Hsplit. cbn [imap forEach]. by destruct (joinOne _ _ _ _). }
  destruct (joinEnter_spec i s sess reply channelname true None c
              Hs Hc Hindex Hknown)
    as (i' & reply' & sess' & Hrun & _ & _ & Hk' & Hs' & _ & Hnick' & Hinv' & _).
  rewrite Hmode in Hinv'.
  exists i', reply', sess'. split.
  { rewrite Hsingle. unfold joinOne. rewrite Hs. cbn [mbind option_bind].
    rewrite Hvalid. cbn [negb].
    rewrite (bool_decide_eq_true_2 (is_Some _)) by (fold k; rewrite Hc; by eexists).
    unfold joinGate. fold k. rewrite Hc. fold key.
    destruct Hgate as [Hinvited|[Hi Hverify]].
    - rewrite (bool_decide_eq_true_2 _ Hinvited). cbn [negb].
      rewrite !andb_false_r. exact Hrun.
    - rewrite Hi, Hverify. cbn [andb negb].
      destruct (flag (cmodes c) "x" && _); exact Hrun. }
  split; [exact Hs'|].
  split. { rewrite Hinv'. intros Hin. apply elem_of_difference in Hin as [_ Hin].
           apply Hin. by apply elem_of_singleton. }
  intros Hi reply2. rewrite Hsingle. unfold joinOne. rewrite Hs'.
  cbn [mbind option_bind]. rewrite Hvalid. cbn [negb].
  fold k in Hk'. unfold joinGate. fold k. rewrite Hk'.
  destruct (bool_decide (is_Some (cnicks c !! NickToLower (Nick sess)))).
  - rewrite Hi, Hnick'. cbn [andb].
    rewrite (bool_decide_eq_false_2 (k ∈ invitedTo sess')).
    + reflexivity.
    + rewrite Hinv'. intros Hin. apply elem_of_difference in Hin as [_ Hin].
      apply Hin. by apply elem_of_singleton.
  - cbn [cmodes setCnicks name]. rewrite Hi, Hnick'. cbn [andb].
    rewrite (bool_decide_eq_false_2 (k ∈ invitedTo sess')).
    + reflexivity.
    + rewrite Hinv'. intros Hin. apply elem_of_difference in Hin as [_ Hin].
      apply Hin. by apply elem_of_singleton.
Qed.

End Invitation.

Lemma invitation_is_used_up_witness :
  let b := Example.user Example.bob "bob" ∅ {["#test"]} in
  let c := mkChannel "#test" {["alice" := true]}
             {["i"%char; "n"%char; "t"%char]} "" time.zero "" in
  let msg := Example.line "JOIN" ["#test"] in
  heap Example.inviteOnly !! Example.bob = Some b
  ∧ channels Example.inviteOnly !! ChanToLower (Env := Example.env) "#test"
    = Some c
  ∧ membersKnown Example.inviteOnly c
  ∧ flag (cmodes c) "i" || flag (cmodes c) "x" = true
  ∧ ChanToLower (Env := Example.env) "#test" ∈ invitedTo b
  ∧ ∃ i' reply' sess',
      cmdJoin (E := Example.env) Example.inviteOnly Example.bob Example.reply0
        msg = Some (i', reply')
      ∧ heap i' !! Example.bob = Some sess'
      ∧ (ChanToLower (Env := Example.env) "#test" ∉ invitedTo sess')
      ∧ (flag (cmodes c) "i" = true →
         ∀ reply2,
           cmdJoin (E := Example.env) i' Example.bob reply2 msg
           = Some (i', mkReplyctx (msgid reply2)
                         (nextReplyid (Env := Example.env) (replyid reply2))
                         (Messages reply2 ++
                            [mkOutputMessage
                               (mkRobustId (msgid reply2)
                                  (nextReplyid (Env := Example.env)
                                     (replyid reply2)))
                               (ForSessions {[Example.bob]})
                               (srvMsg i' irc.ERR_INVITEONLYCHAN
                                  [Nick b; name c;
                                   "Cannot join channel (+i)"])]))).
Proof.
  intros b c msg.
  assert (heap Example.inviteOnly !! Example.bob = Some b) as H1 by reflexivity.
  assert (channels Example.inviteOnly !! ChanToLower (Env := Example.env) "#test"
          = Some c) as H2 by reflexivity.
  assert (membersKnown Example.inviteOnly c) as H3
    by (apply membersKnown_check; vm_compute; reflexivity).
  assert (flag (cmodes c) "i" || flag (cmodes c) "x" = true) as H4
    by (vm_compute; reflexivity).
  assert (ChanToLower (Env := Example.env) "#test" ∈ invitedTo b) as H5
    by (vm_compute; reflexivity).
  repeat (split; [assumption|]).
  exact (invitation_is_used_up (E := Example.env) Example.inviteOnly
           Example.bob b Example.reply0 msg "#test" c
           H1 eq_refl eq_refl eq_refl eq_refl H2 H3 H4 (or_introl H5)).
Defined.

(** On the example network: invited, bob joins the invite-only channel;
    having left it, his next JOIN is refused. *)
Example second_join_needs_a_new_invitation :
  ∃ i1 r1 i2 r2,
    cmdJoin (E := Example.env) Example.inviteOnly Example.bob Example.reply0
      (Example.line "JOIN" ["#test"]) = Some (i1, r1)
    ∧ cmdPart (E := Example.env) i1 Example.bob Example.reply0
        (Example.line "PART" ["#test"]) = Some (i2, r2)
    ∧ cmdJoin (E := Example.env) i2 Example.bob Example.reply0
        (Example.line "JOIN" ["#test"])
      = Some (i2, mkReplyctx 7 1
                    [mkOutputMessage (mkRobustId 7 1) (ForSessions {[Example.bob]})
                       (irc.mkMessage (Some Example.serverPrefix) "473"
                          ["bob"; "#test"; "Cannot join channel (+i)"])]).
Proof.
  eexists _, _, _, _. split; [vm_compute; reflexivity|].
  split; [vm_compute; reflexivity|]. by vm_compute.
Qed.

(** ** PART and KICK: channels without members *)

Section Removal.

Context {E : Env}.

(** Taking a member out of the channel under [k] and running
    [maybeDeleteChannel]: the other channels stay, the channel itself goes
    when it is left without members. *)
Lemma remove_member_lookup (i : IRCServer) (k : lcChan) (n : lcNick)
    (c : channel) :
  channels i !! k = Some c →
  let i' := maybeDeleteChannel
              (updChannel k (λ c, setCnicks (delete n (cnicks c)) c) i) k in
  heap i' = heap i ∧ nicks i' = nicks i
  ∧ (∀ k', k' ≠ k → channels i' !! k' = channels i !! k')
  ∧ channels i' !! k
    = (if decide (delete n (cnicks c) = ∅) then None
       else Some (setCnicks (delete n (cnicks c)) c))
  ∧ (delete n (cnicks c) = ∅ → channels i' = delete k (channels i)).
Proof.
  intros Hc. cbn zeta. unfold maybeDeleteChannel.
  rewrite (updChannel_lookup k _ i c Hc). cbn [cnicks setCnicks].
  destruct (decide (delete n (cnicks c) = ∅)) as [Hempty|Hne].
  - split; [done|]. split; [done|]. split.
    + intros k' Hk'. cbn. by rewrite lookup_delete_ne, lookup_alter_ne.
    + split; [cbn; by rewrite lookup_delete_eq|].
      intros _. cbn. by rewrite delete_alter_eq.
  - split; [done|]. split; [done|]. split.
    + intros k' Hk'. cbn. by rewrite lookup_alter_ne.
    + split; [exact (updChannel_lookup k _ i c Hc)|]. done.
Qed.







End Removal.



(** ** KICK, PART, QUIT, KILL: when the notification is synthesized *)

Section Notification.

Context {E : Env}.

Lemma firstNew_app (reply reply' : Replyctx) (o : OutputMessage)
    (rest : list OutputMessage) :
  Messages reply' = (Messages reply ++ o :: rest)%list →
  firstNew reply reply' = Some o.
Proof.
  intros Hm. unfold firstNew. rewrite Hm.
  rewrite lookup_app_r by lia. by rewrite Nat.sub_diag.
Qed.



End Notification.


(** The recipients in these two cases, and those of a PART on the same
    channel, which include the parting member. *)
Example recipients_of_quit_kill_part :
  ∃ i1 r1 o1 i2 r2 o2 i3 r3 o3,
    cmdQuit (E := Example.env) Example.both Example.alice Example.reply0
      (Example.line "QUIT" ["bye"]) = Some (i1, r1)
    ∧ firstNew Example.reply0 r1 = Some o1
    ∧ InterestingFor o1 = ForSessions {[Example.bob]}
    ∧ cmdKill (E := Example.env) Example.bothWithOper Example.alice
        Example.reply0 (Example.line "KILL" ["bob"; "bye"]) = Some (i2, r2)
    ∧ firstNew Example.reply0 r2 = Some o2
    ∧ InterestingFor o2 = ForSessions {[Example.alice]}
    ∧ cmdPart (E := Example.env) Example.both Example.alice Example.reply0
        (Example.line "PART" ["#test"]) = Some (i3, r3)
    ∧ firstNew Example.reply0 r3 = Some o3
    ∧ InterestingFor o3 = ForSessions {[Example.alice; Example.bob]}.
Proof.
  eexists _, _, _, _, _, _, _, _, _.
  split; [vm_compute; reflexivity|]. split; [vm_compute; reflexivity|].
  split; [by vm_compute|].
  split; [vm_compute; reflexivity|]. split; [vm_compute; reflexivity|].
  split; [by vm_compute|].
  split; [vm_compute; reflexivity|]. split; [vm_compute; reflexivity|].
  by vm_compute.
Qed.


(** * Further properties *)

(** ** Mode strings *)

Section ModeStrings.

Lemma isSign_cases (r : string) : isSign r = true → r = "+" ∨ r = "-".
Proof.
  unfold isSign. intros H. apply orb_true_iff in H as [H|H];
    apply bool_decide_eq_true in H; auto.
Qed.

(** The loop of [normalizeModes] appends the changes [changesFrom] reads. *)
Lemma fold_normalizeStep (params : list string) (l : list string) :
  ∀ (sign : string) (n : nat) (res : list modeCmd),
    sign = "+" ∨ sign = "-" →
    (fold_left (normalizeStep params) l (bool_decide (sign = "+"), n, res)).2
    = (res ++ changesFrom params l sign n)%list.
Proof.
  induction l as [|r l IH]; intros sign n res Hsign.
  - cbn. by rewrite app_nil_r.
  - cbn [fold_left changesFrom]. unfold normalizeStep at 2.
    fold (isSign r). destruct (isSign r) eqn:Hr.
    + apply (IH r n res). by apply isSign_cases.
    + assert ((if bool_decide (sign = "+") then "+" else "-") = sign) as ->.
      { destruct Hsign as [-> | ->]; reflexivity. }
      destruct (bool_decide (r = "o") || bool_decide (r = "d")).
      * rewrite (IH sign (S n) _ Hsign). by rewrite <- app_assoc.
      * rewrite (IH sign n _ Hsign). by rewrite <- app_assoc.
Qed.

Lemma normalizeModes_changesFrom (msg : irc.Message) (target modestr : string)
    (rest : list string) :
  irc.Params msg = target :: modestr :: rest →
  normalizeModes msg
  = changesFrom (irc.Params msg) (utf8.runes modestr) "+" 2.
Proof.
  intros HP. unfold normalizeModes. rewrite HP.
  exact (fold_normalizeStep _ _ "+" 2%nat [] (or_introl eq_refl)).
Qed.

Lemma takesParam_signed (sign r p : string) :
  sign = "+" ∨ sign = "-" →
  takesParam (mkModeCmd (sign +:+ r) p)
  = bool_decide (r = "o") || bool_decide (r = "d").
Proof.
  intros [-> | ->]; unfold takesParam; cbn [Mode];
    repeat case_bool_decide; cbv [append] in *; simplify_eq; done.
Qed.

Lemma changesFrom_params (params : list string) (l : list string) :
  ∀ (sign : string) (n : nat),
    sign = "+" ∨ sign = "-" →
    (∀ m, m ∈ changesFrom params l sign n → takesParam m = false → Param m = "")
    ∧ (∀ j m, List.filter takesParam (changesFrom params l sign n) !! j = Some m →
              Param m = default "" (params !! (n + j)%nat)).
Proof.
  induction l as [|r l IH]; intros sign n Hsign.
  - split; [intros m Hm; by apply elem_of_nil in Hm|]. intros j m H. done.
  - cbn [changesFrom]. destruct (isSign r) eqn:Hr.
    { apply IH. by apply isSign_cases. }
    destruct (bool_decide (r = "o") || bool_decide (r = "d")) eqn:Hod.
    + destruct (IH sign (S n) Hsign) as [IH1 IH2]. split.
      * intros m Hm Hf. apply elem_of_cons in Hm as [-> | Hm]; [|by apply IH1].
        rewrite (takesParam_signed _ _ _ Hsign), Hod in Hf. done.
      * intros j m. cbn [List.filter].
        rewrite (takesParam_signed _ _ _ Hsign), Hod.
        destruct j as [|j]; cbn.
        -- intros [= <-]. cbn. by rewrite Nat.add_0_r.
        -- intros H. rewrite (IH2 j m H). f_equal. f_equal. lia.
    + destruct (IH sign n Hsign) as [IH1 IH2]. split.
      * intros m Hm Hf. apply elem_of_cons in Hm as [-> | Hm]; [done|by apply IH1].
      * intros j m. cbn [List.filter].
        rewrite (takesParam_signed _ _ _ Hsign), Hod. apply IH2.
Qed.

(** X1. [normalizeModes] gives the parameters of the MODE line to the
    changes of letter [o] or [d], in their order, starting with the third
    parameter; a change for which no parameter is left has the empty
    parameter, and so has every change of another letter. *)
Theorem normalizeModes_parameters_in_order (msg : irc.Message)
    (target modestr : string) (rest : list string) :
  irc.Params msg = target :: modestr :: rest →
  (∀ m, m ∈ normalizeModes msg → takesParam m = false → Param m = "")
  ∧ (∀ j m, List.filter takesParam (normalizeModes msg) !! j = Some m →
            Param m = default "" (rest !! j)).
Proof.
  intros HP. rewrite (normalizeModes_changesFrom _ _ _ _ HP).
  destruct (changesFrom_params (irc.Params msg) (utf8.runes modestr) "+" 2
              (or_introl eq_refl)) as [H1 H2].
  split; [exact H1|]. intros j m H. rewrite (H2 j m H). by rewrite HP.
Qed.

Lemma signFrom_sign (sign : string) (pre : list string) :
  sign = "+" ∨ sign = "-" → signFrom sign pre = "+" ∨ signFrom sign pre = "-".
Proof.
  revert sign. induction pre as [|r pre IH]; intros sign Hsign; [exact Hsign|].
  unfold signFrom. cbn [fold_left]. destruct (isSign r) eqn:Hr.
  - apply IH. by apply isSign_cases.
  - by apply IH.
Qed.

Lemma changesFrom_length (params : list string) (l : list string) :
  ∀ (sign : string) (n : nat),
    length (changesFrom params l sign n)
    = length (List.filter (λ r, negb (isSign r)) l).
Proof.
  induction l as [|r l IH]; intros sign n; [done|].
  cbn [changesFrom List.filter]. destruct (isSign r); cbn [negb]; [apply IH|].
  destruct (bool_decide (r = "o") || bool_decide (r = "d")); cbn [length];
    by rewrite IH.
Qed.

Lemma changesFrom_lookup (params : list string) (pre : list string) :
  ∀ (sign : string) (n : nat) (r : string) (post : list string),
    isSign r = false →
    Mode <$> changesFrom params (pre ++ r :: post) sign n
               !! length (List.filter (λ r, negb (isSign r)) pre)
    = Some (signFrom sign pre +:+ r).
Proof.
  induction pre as [|q pre IH]; intros sign n r post Hr.
  - cbn [app changesFrom List.filter length]. rewrite Hr.
    by destruct (bool_decide (r = "o") || bool_decide (r = "d")).
  - cbn [app changesFrom List.filter]. unfold signFrom. cbn [fold_left].
    destruct (isSign q) eqn:Hq; cbn [negb].
    + by apply IH.
    + destruct (bool_decide (q = "o") || bool_decide (q = "d"));
        cbn [length lookup]; by apply IH.
Qed.

(** X2. [normalizeModes] reads the mode string rune by rune: every rune other
    than [+] and [-] gives one change, in order, made of the sign in force
    (that of the last sign rune before it, [+] at the start) followed by the
    rune; sign runes give no change. Every change so has the two bytes
    [IRCParams] indexes, which therefore returns on these changes. *)
Theorem normalizeModes_reads_every_rune (msg : irc.Message)
    (target modestr : string) (rest : list string) :
  irc.Params msg = target :: modestr :: rest →
  length (normalizeModes msg)
  = length (List.filter (λ r, negb (isSign r)) (utf8.runes modestr))
  ∧ (∀ pre r post,
       utf8.runes modestr = (pre ++ r :: post)%list → isSign r = false →
       Mode <$> normalizeModes msg
                  !! length (List.filter (λ r, negb (isSign r)) pre)
       = Some (signAfter pre +:+ r))
  ∧ is_Some (IRCParams (normalizeModes msg)).
Proof.
  intros HP. split; [|split].
  - rewrite (normalizeModes_changesFrom _ _ _ _ HP). apply changesFrom_length.
  - intros pre r post Hrunes Hr.
    rewrite (normalizeModes_changesFrom _ _ _ _ HP), Hrunes.
    by apply changesFrom_lookup.
  - apply IRCParams_wf, normalizeModes_wf.
Qed.

End ModeStrings.

Section ModeStringsOnTheNetwork.

#[local] Existing Instance Example.env.
#[local] Existing Instance Scenario.outside.

Lemma normalizeModes_parameters_in_order_witness :
  let msg := Example.line "MODE" ["#test"; "+o-i+o"; "alice"; "bob"] in
  let target := "#test" in
  let modestr := "+o-i+o" in
  let rest := ["alice"; "bob"] in
  irc.Params msg = target :: modestr :: rest
  ∧ ((∀ m, m ∈ normalizeModes msg → takesParam m = false → Param m = "")
     ∧ (∀ j m, List.filter takesParam (normalizeModes msg) !! j = Some m →
               Param m = default "" (rest !! j))).
Proof.
  intros msg target modestr rest.
  assert (irc.Params msg = target :: modestr :: rest) as H1
    by (reflexivity).
  repeat (split; [assumption|]).
  exact (normalizeModes_parameters_in_order msg target modestr rest H1).
Defined.

Lemma normalizeModes_reads_every_rune_witness :
  let msg := Example.line "MODE" ["#test"; "+o-i+o"; "alice"; "bob"] in
  let target := "#test" in
  let modestr := "+o-i+o" in
  let rest := ["alice"; "bob"] in
  irc.Params msg = target :: modestr :: rest
  ∧ (length (normalizeModes msg)
     = length (List.filter (λ r, negb (isSign r)) (utf8.runes modestr))
     ∧ (∀ pre r post,
          utf8.runes modestr = (pre ++ r :: post)%list → isSign r = false →
          Mode <$> normalizeModes msg
                     !! length (List.filter (λ r, negb (isSign r)) pre)
          = Some (signAfter pre +:+ r))
     ∧ is_Some (IRCParams (normalizeModes msg))).
Proof.
  intros msg target modestr rest.
  assert (irc.Params msg = target :: modestr :: rest) as H1
    by (reflexivity).
  repeat (split; [assumption|]).
  exact (normalizeModes_reads_every_rune msg target modestr rest H1).
Defined.

End ModeStringsOnTheNetwork.

Section ModeRoundTrip.


Lemma canonical_inv (m : modeCmd) :
  canonical m = true →
  ∃ sign b,
    m = mkModeCmd (String sign (String b "")) (Param m)
    ∧ (sign = "+"%char ∨ sign = "-"%char)
    ∧ (N_of_ascii b < 128)%N ∧ b ≠ "+"%char ∧ b ≠ "-"%char
    ∧ (if Ascii.eqb b "o" || Ascii.eqb b "d" then Param m ≠ "" else Param m = "").
Proof.
  destruct m as [mode param]. unfold canonical. cbn [Mode Param].
  destruct mode as [|sign [|b [|? ?]]]; try done.
  intros H. repeat (apply andb_true_iff in H as [H ?]).
  exists sign, b. split; [done|]. split.
  { apply orb_true_iff in H as [H|H]; apply Ascii.eqb_eq in H; auto. }
  split; [by apply N.ltb_lt|].
  split; [intros ->; done|]. split; [intros ->; done|].
  destruct (Ascii.eqb b "o" || Ascii.eqb b "d").
  - by apply negb_true_iff, bool_decide_eq_false in H0.
  - by apply bool_decide_eq_true in H0.
Qed.

Lemma mapM_default {A B} (f : A → option B) (d : B) (l : list A) :
  Forall (λ x, is_Some (f x)) l →
  mapM f l = Some (List.map (λ x, default d (f x)) l).
Proof.
  induction 1 as [|x l [y Hy] _ IH]; [done|].
  cbn. rewrite Hy, IH. done.
Qed.

Lemma zip_map_self {A B C} (f : A → B) (g : A → C) (l : list A) :
  zip (List.map f l) (zip (List.map g l) l) = List.map (λ x, (f x, (g x, x))) l.
Proof. induction l as [|x l IH]; [done|]. cbn. by rewrite IH. Qed.

Lemma filter_map_comm {A B} (P : B → bool) (h : A → B) (l : list A) :
  List.filter P (List.map h l) = List.map h (List.filter (λ x, P (h x)) l).
Proof.
  induction l as [|x l IH]; [done|]. cbn. destruct (P (h x)); cbn; by rewrite IH.
Qed.

Lemma concat_single_cons (b : ascii) (l : list string) :
  String.concat "" (String b "" :: l) = String b (String.concat "" l).
Proof. destruct l; reflexivity. Qed.

Lemma concat_singles (l : list modeCmd) :
  Forall (λ m, canonical m = true) l →
  String.concat "" (List.map (λ m, stringOfByte (letterOf m)) l)
  = string_of_list_ascii (List.map letterOf l).
Proof.
  induction 1 as [|m l Hm Hl IH]; [done|].
  destruct (canonical_inv m Hm) as (sign & b & Heq & _ & Hb & _).
  assert (letterOf m = b) as Hltr by (unfold letterOf; rewrite Heq; done).
  cbn [List.map string_of_list_ascii]. rewrite Hltr.
  assert (stringOfByte b = String b "") as ->.
  { unfold stringOfByte. apply N.ltb_lt in Hb. by rewrite Hb. }
  by rewrite concat_single_cons, IH.
Qed.


Lemma IRCParams_canonical (cmds : list modeCmd) :
  Forall (λ m, canonical m = true) cmds →
  IRCParams cmds
  = Some ((modeBlock "+" (List.filter isAdd cmds)
           +:+ modeBlock "-" (List.filter (λ m, negb (isAdd m)) cmds))
          :: (writtenParams (List.filter isAdd cmds)
              ++ writtenParams (List.filter (λ m, negb (isAdd m)) cmds))%list).
Proof.
  intros Hc. unfold IRCParams.
  assert (Forall (λ m, is_Some (byteAt 0 (Mode m))) cmds) as H0.
  { eapply Forall_impl; [exact Hc|]. intros m Hm.
    destruct (canonical_inv m Hm) as (sign & b & Heq & _). rewrite Heq. by eexists. }
  assert (Forall (λ m, is_Some (byteAt 1 (Mode m))) cmds) as H1.
  { eapply Forall_impl; [exact Hc|]. intros m Hm.
    destruct (canonical_inv m Hm) as (sign & b & Heq & _). rewrite Heq. by eexists. }
  rewrite (mapM_default _ "000"%char _ H0). cbn [mbind option_bind].
  rewrite (mapM_default _ "000"%char _ H1). cbn [mbind option_bind].
  fold signByte letterOf. rewrite zip_map_self.
  rewrite (filter_map_comm (λ x : ascii * (ascii * modeCmd), Ascii.eqb x.1 "+")
             (λ x, (signByte x, (letterOf x, x))) cmds).
  rewrite (filter_map_comm (λ x : ascii * (ascii * modeCmd), negb (Ascii.eqb x.1 "+"))
             (λ x, (signByte x, (letterOf x, x))) cmds).
  cbn [fst].
  assert (∀ m, Ascii.eqb (signByte m) "+" = isAdd m) as Hadd.
  { intros m. unfold signByte, isAdd. by destruct (byteAt 0 (Mode m)). }
  rewrite (List.filter_ext _ _ Hadd cmds).
  rewrite (List.filter_ext (λ x, negb (Ascii.eqb (signByte x) "+")) (λ m, negb (isAdd m))
             (λ m, f_equal negb (Hadd m)) cmds).
  assert (∀ l, Forall (λ m, canonical m = true) l →
            ∀ sign,
            match List.map (λ x, (signByte x, (letterOf x, x))) l with
            | [] => ("", [])
            | _ :: _ =>
                (sign +:+ String.concat ""
                            (List.map (λ x : ascii * (ascii * modeCmd), stringOfByte x.2.1)
                               (List.map (λ x, (signByte x, (letterOf x, x))) l)),
                 List.filter (λ p, negb (bool_decide (p = "")))
                   (List.map (λ x : ascii * (ascii * modeCmd), Param x.2.2)
                      (List.map (λ x, (signByte x, (letterOf x, x))) l)))
            end = (modeBlock sign l, writtenParams l)) as Hrender.
  { intros l Hl sign. destruct l as [|m l]; [done|].
    cbn [List.map]. rewrite !List.map_map. cbn [fst snd].
    pose proof (concat_singles (m :: l) Hl) as Hcs. cbn [List.map] in Hcs.
    rewrite Hcs. reflexivity. }
  assert (∀ P : modeCmd → bool, Forall (λ m, canonical m = true) (List.filter P cmds))
    as Hf.
  { intros P. apply List.Forall_forall. intros m Hm.
    apply List.filter_In in Hm as [Hm _].
    rewrite List.Forall_forall in Hc. by apply Hc. }
  rewrite (Hrender _ (Hf isAdd) "+"), (Hrender _ (Hf (λ m, negb (isAdd m))) "-").
  reflexivity.
Qed.


Lemma runes_ascii (l : list ascii) :
  Forall (λ b, (N_of_ascii b < 128)%N) l →
  utf8.runes (string_of_list_ascii l) = List.map oneByte l.
Proof.
  unfold utf8.runes. induction 1 as [|b l Hb _ IH]; [done|].
  cbn [string_of_list_ascii utf8.runesFrom utf8.width].
  assert (utf8.between 0 127 b = true) as ->.
  { unfold utf8.between. apply andb_true_iff. split.
    - apply N.leb_le. lia.
    - apply N.leb_le. lia. }
  cbn [utf8.take List.map]. by rewrite IH.
Qed.

Lemma runes_app_ascii (l1 l2 : list ascii) :
  Forall (λ b, (N_of_ascii b < 128)%N) (l1 ++ l2) →
  utf8.runes (string_of_list_ascii l1 +:+ string_of_list_ascii l2)
  = (List.map oneByte l1 ++ List.map oneByte l2)%list.
Proof.
  intros H.
  assert (string_of_list_ascii l1 +:+ string_of_list_ascii l2
          = string_of_list_ascii (l1 ++ l2)) as ->.
  { induction l1 as [|b l1 IH]; [done|].
    cbn [string_of_list_ascii app]. apply Forall_inv_tail in H.
    rewrite <- (IH H). reflexivity. }
  rewrite (runes_ascii _ H). by rewrite List.map_app.
Qed.

(** Reading back the letters of the changes [l], all of the sign in force,
    gives [l] when the parameters from index [n] on start with those of
    [l]. *)
Lemma changesFrom_block (params : list string) (l : list modeCmd) :
  ∀ (sign : ascii) (n : nat) (rest : list string) (pre post : list string),
    sign = "+"%char ∨ sign = "-"%char →
    Forall (λ m, canonical m = true ∧ signByte m = sign) l →
    params = (pre ++ writtenParams l ++ post)%list → length pre = n →
    changesFrom params (List.map oneByte (List.map letterOf l) ++ rest) (oneByte sign) n
    = (l ++ changesFrom params rest (oneByte sign) (n + length (writtenParams l)))%list.
Proof.
  induction l as [|m l IH]; intros sign n rest pre post Hsign Hl Hparams Hn.
  - cbn. by rewrite Nat.add_0_r.
  - apply Forall_cons in Hl as [[Hm Hs] Hl].
    destruct (canonical_inv m Hm) as (sign' & b & Heq & _ & Hb & Hplus & Hminus & Hpar).
    assert (letterOf m = b) as Hltr by (unfold letterOf; rewrite Heq; done).
    assert (sign' = sign) as -> by (unfold signByte in Hs; rewrite Heq in Hs; done).
    cbn [List.map app changesFrom]. rewrite Hltr.
    assert (isSign (oneByte b) = false) as ->.
    { unfold isSign, oneByte. apply orb_false_iff.
      split; apply bool_decide_eq_false; congruence. }
    assert (bool_decide (oneByte b = "o") = Ascii.eqb b "o") as ->.
    { unfold oneByte. destruct (Ascii.eqb_spec b "o") as [-> | Hne].
      - by apply bool_decide_eq_true.
      - apply bool_decide_eq_false. congruence. }
    assert (bool_decide (oneByte b = "d") = Ascii.eqb b "d") as ->.
    { unfold oneByte. destruct (Ascii.eqb_spec b "d") as [-> | Hne].
      - by apply bool_decide_eq_true.
      - apply bool_decide_eq_false. congruence. }
    assert (oneByte sign +:+ oneByte b = Mode m) as HM by (rewrite Heq; reflexivity).
    destruct (Ascii.eqb b "o" || Ascii.eqb b "d") eqn:Hod.
    + assert (writtenParams (m :: l) = Param m :: writtenParams l) as HP.
      { unfold writtenParams. cbn [List.map List.filter].
        by rewrite (bool_decide_eq_false_2 _ Hpar). }
      rewrite HP in Hparams |- *.
      assert (params !! n = Some (Param m)) as ->.
      { rewrite Hparams, <- Hn. by rewrite lookup_app_r, Nat.sub_diag by lia. }
      cbn [default length].
      rewrite (IH sign (S n) rest (pre ++ [Param m])%list post Hsign Hl).
      * rewrite HM.
        replace (S n + length (writtenParams l))%nat
          with (n + S (length (writtenParams l)))%nat by lia.
        by destruct m.
      * rewrite Hparams. by rewrite <- app_assoc.
      * rewrite length_app. cbn. lia.
    + assert (writtenParams (m :: l) = writtenParams l) as HP.
      { unfold writtenParams. cbn [List.map List.filter].
        by rewrite (bool_decide_eq_true_2 _ Hpar). }
      rewrite HP in Hparams |- *.
      rewrite (IH sign n rest pre post Hsign Hl Hparams Hn).
      rewrite HM. destruct m; cbn in *. by rewrite Hpar.
Qed.

Lemma canonical_ascii (sign : ascii) (l : list modeCmd) :
  Forall (λ m, canonical m = true ∧ signByte m = sign) l →
  Forall (λ b, (N_of_ascii b < 128)%N) (List.map letterOf l).
Proof.
  intros Hl. apply Forall_fmap. eapply Forall_impl; [exact Hl|].
  intros m [Hm _]. destruct (canonical_inv m Hm) as (sign' & b & Heq & _ & Hb & _).
  unfold compose, letterOf. by rewrite Heq.
Qed.


Lemma block_bytes (sign : ascii) (l : list modeCmd) :
  modeBlock (oneByte sign) l = string_of_list_ascii (blockBytes sign l).
Proof. by destruct l. Qed.

Lemma bytes_ascii (sign : ascii) (l : list modeCmd) :
  sign = "+"%char ∨ sign = "-"%char →
  Forall (λ m, canonical m = true ∧ signByte m = sign) l →
  Forall (λ b, (N_of_ascii b < 128)%N) (blockBytes sign l).
Proof.
  intros Hsign Hl. destruct l as [|m l]; [constructor|].
  unfold blockBytes. constructor; [|by apply (canonical_ascii sign)].
  destruct Hsign as [-> | ->]; cbn; lia.
Qed.

Lemma changesFrom_sign (params : list string) (r : string) (rest : list string)
    (sign0 : string) (n : nat) :
  isSign r = true →
  changesFrom params (r :: rest) sign0 n = changesFrom params rest r n.
Proof. intros H. cbn [changesFrom]. by rewrite H. Qed.

Lemma changesFrom_bytes (params : list string) (sign : ascii)
    (l : list modeCmd) (sign0 : string) (n : nat) (rest pre post : list string) :
  sign = "+"%char ∨ sign = "-"%char →
  Forall (λ m, canonical m = true ∧ signByte m = sign) l →
  params = (pre ++ writtenParams l ++ post)%list → length pre = n →
  changesFrom params (List.map oneByte (blockBytes sign l) ++ rest) sign0 n
  = (l ++ changesFrom params rest (match l with [] => sign0 | _ => oneByte sign end)
            (n + length (writtenParams l)))%list.
Proof.
  intros Hsign Hl Hp Hn. destruct l as [|m l'].
  { cbn. by rewrite Nat.add_0_r. }
  change (blockBytes sign (m :: l')) with (sign :: List.map letterOf (m :: l')).
  rewrite List.map_cons, <- app_comm_cons.
  rewrite changesFrom_sign by (by destruct Hsign as [-> | ->]).
  exact (changesFrom_block params (m :: l') sign n rest pre post Hsign Hl Hp Hn).
Qed.

Lemma reads_back_blocks (adds removes : list modeCmd) (target : string) :
  Forall (λ m, canonical m = true ∧ signByte m = "+"%char) adds →
  Forall (λ m, canonical m = true ∧ signByte m = "-"%char) removes →
  changesFrom
    (target :: (modeBlock "+" adds +:+ modeBlock "-" removes)
     :: (writtenParams adds ++ writtenParams removes)%list)
    (utf8.runes (modeBlock "+" adds +:+ modeBlock "-" removes)) "+" 2
  = (adds ++ removes)%list.
Proof.
  intros Hadds Hrem.
  set (params := target :: _).
  change "+" with (oneByte "+"). change "-" with (oneByte "-").
  rewrite !block_bytes.
  rewrite runes_app_ascii.
  2:{ apply Forall_app. split; apply bytes_ascii; auto. }
  rewrite (changesFrom_bytes params "+"%char adds (oneByte "+") 2 _
             [target; modeBlock (oneByte "+") adds +:+ modeBlock (oneByte "-") removes]
             (writtenParams removes) (or_introl eq_refl) Hadds);
    [| reflexivity | done].
  f_equal.
  pose proof (changesFrom_bytes params "-"%char removes
                (match adds with [] => oneByte "+" | _ => oneByte "+" end)
                (2 + length (writtenParams adds)) []
                ([target; modeBlock (oneByte "+") adds +:+ modeBlock (oneByte "-") removes]
                 ++ writtenParams adds)%list [] (or_intror eq_refl) Hrem) as Hb.
  rewrite !app_nil_r in Hb. rewrite Hb.
  - reflexivity.
  - reflexivity.
  - rewrite length_app. reflexivity.
Qed.

(** X3. The mode line [IRCParams] writes reads back, through
    [normalizeModes], as the changes it was written from, the adding changes
    before the removing ones: for changes of one ASCII letter each, with a
    parameter exactly for the letters [o] and [d], [IRCParams] returns and
    nothing of the changes is lost or altered on the way. *)
Theorem IRCParams_reads_back (cmds : list modeCmd) (from : option irc.Prefix)
    (command target : string) :
  Forall (λ m, canonical m = true) cmds →
  ∃ params,
    IRCParams cmds = Some params
    ∧ normalizeModes (irc.mkMessage from command (target :: params))
      = (List.filter isAdd cmds ++ List.filter (λ m, negb (isAdd m)) cmds)%list.
Proof.
  intros Hc. eexists. split; [exact (IRCParams_canonical cmds Hc)|].
  erewrite normalizeModes_changesFrom by reflexivity.
  cbn [irc.Params]. apply reads_back_blocks.
  - apply List.Forall_forall. intros m Hm.
    apply List.filter_In in Hm as [Hm Hadd].
    rewrite List.Forall_forall in Hc. split; [by apply Hc|].
    destruct (canonical_inv m (Hc m Hm)) as (sign & b & Heq & _).
    unfold isAdd in Hadd. unfold signByte. rewrite Heq in Hadd |- *.
    cbn in Hadd |- *. by apply Ascii.eqb_eq in Hadd.
  - apply List.Forall_forall. intros m Hm.
    apply List.filter_In in Hm as [Hm Hadd].
    rewrite List.Forall_forall in Hc. split; [by apply Hc|].
    destruct (canonical_inv m (Hc m Hm)) as (sign & b & Heq & Hsign & _).
    unfold isAdd in Hadd. unfold signByte. rewrite Heq in Hadd |- *.
    cbn in Hadd |- *. destruct Hsign as [-> | ->]; done.
Qed.

End ModeRoundTrip.

Section ModeRoundTripOnTheNetwork.

#[local] Existing Instance Example.env.
#[local] Existing Instance Scenario.outside.

Lemma IRCParams_reads_back_witness :
  let cmds := [mkModeCmd "-i" ""; mkModeCmd "+o" "alice"; mkModeCmd "+t" ""] in
  let from := None in
  let command := "MODE" in
  let target := "#test" in
  Forall (λ m, canonical m = true) cmds
  ∧ (∃ params,
       IRCParams cmds = Some params
       ∧ normalizeModes (irc.mkMessage from command (target :: params))
         = (List.filter isAdd cmds ++ List.filter (λ m, negb (isAdd m)) cmds)%list).
Proof.
  intros cmds from command target.
  assert (Forall (λ m, canonical m = true) cmds) as H1
    by (repeat constructor).
  repeat (split; [assumption|]).
  exact (IRCParams_reads_back cmds from command target H1).
Defined.

End ModeRoundTripOnTheNetwork.

(** ** The topic *)

Section Topic.

Context {E : Env}.

(** What a TOPIC query answers, by the stored topic. *)
Lemma cmdTopic_get (i : IRCServer) (t : RobustId) (member : Session)
    (reply : Replyctx) (from : option irc.Prefix) (chname : string) (c : channel) :
  heap i !! t = Some member →
  channels i !! ChanToLower chname = Some c →
  ChanToLower chname ∈ Channels member →
  cmdTopic i t reply (irc.mkMessage from irc.TOPIC [chname])
  = Some (i,
      if time.IsZero (topicTime c) then
        sendUser t reply (srvMsg i irc.RPL_NOTOPIC
          [Nick member; chname; "No topic is set"])
      else
        sendUser t
          (sendUser t reply (srvMsg i irc.RPL_TOPIC [Nick member; chname; topic c]))
          (srvMsg i "333"
             [Nick member; chname; topicNick c;
              strconv.FormatInt (time.Unix (topicTime c))])).
Proof.
  intros Ht Hc Hin. unfold cmdTopic. rewrite Ht. cbn [irc.Params].
  cbn [lookup list_lookup mbind option_bind]. rewrite Hc.
  assert (bool_decide (irc.Trailing (irc.mkMessage from irc.TOPIC [chname]) = "")
          && bool_decide (length [chname] = 2%nat) = false) as ->.
  { apply andb_false_iff. right. by apply bool_decide_eq_false. }
  rewrite (bool_decide_eq_true_2 _ Hin). cbn [negb].
  rewrite (bool_decide_eq_true_2 (length [chname] = 1%nat) eq_refl).
  by destruct (time.IsZero (topicTime c)).
Qed.

(** X4. The topic a member sets is the topic a member is told: after
    [TOPIC #c :text] from a member allowed to set it (the channel is not
    [+t], or the member is channel operator), [TOPIC #c] from any member is
    answered with RPL_TOPIC carrying the text and with reply 333 carrying the
    setter and the time of setting, the last activity of the setter; after
    [TOPIC #c :] the answer is RPL_NOTOPIC. *)
Theorem topic_set_then_get (i : IRCServer) (s : RobustId) (sess : Session)
    (reply : Replyctx) (from : option irc.Prefix) (chname text : string)
    (c : channel) (perms : bool) :
  heap i !! s = Some sess →
  channels i !! ChanToLower chname = Some c →
  ChanToLower chname ∈ Channels sess →
  cnicks c !! NickToLower (Nick sess) = Some perms →
  (flag (cmodes c) "t" = true → perms = true) →
  text ≠ "" →
  time.IsZero (LastActivity sess) = false →
  ∃ i1 reply1 i2 reply2,
    cmdTopic i s reply (irc.mkMessage from irc.TOPIC [chname; text])
    = Some (i1, reply1)
    ∧ cmdTopic i1 s reply1 (irc.mkMessage from irc.TOPIC [chname; ""])
      = Some (i2, reply2)
    ∧ ∀ (t : RobustId) (member : Session) (r : Replyctx)
        (from' : option irc.Prefix),
        heap i !! t = Some member →
        ChanToLower chname ∈ Channels member →
        cmdTopic i1 t r (irc.mkMessage from' irc.TOPIC [chname])
        = Some (i1,
            sendUser t
              (sendUser t r (srvMsg i irc.RPL_TOPIC [Nick member; chname; text]))
              (srvMsg i "333"
                 [Nick member; chname; Nick sess;
                  strconv.FormatInt (time.Unix (LastActivity sess))]))
        ∧ cmdTopic i2 t r (irc.mkMessage from' irc.TOPIC [chname])
          = Some (i2, sendUser t r (srvMsg i irc.RPL_NOTOPIC
                        [Nick member; chname; "No topic is set"])).
Proof.
  intros Hs Hc Hin Hperms Hlock Htext Hzero.
  set (k := ChanToLower chname) in *.
  assert (topicLocked c (NickToLower (Nick sess)) = Some false) as Hfree.
  { unfold topicLocked. destruct (flag (cmodes c) "t") eqn:Ht; [|done].
    rewrite Hperms. cbn. by rewrite (Hlock eq_refl). }
  set (c1 := setTopic (Nick sess) (LastActivity sess) text c).
  set (i1 := updChannel k (setTopic (Nick sess) (LastActivity sess) text) i).
  assert (channels i1 !! k = Some c1) as Hc1
    by exact (updChannel_lookup k _ i c Hc).
  set (c2 := setTopic "" time.zero "" c1).
  set (i2 := updChannel k (setTopic "" time.zero "") i1).
  assert (channels i2 !! k = Some c2) as Hc2
    by exact (updChannel_lookup k _ i1 c1 Hc1).
  eexists i1, _, i2, _. split; [|split].
  - unfold cmdTopic. rewrite Hs. cbn [irc.Params].
    cbn [lookup list_lookup mbind option_bind]. fold k. rewrite Hc.
    assert (bool_decide (irc.Trailing (irc.mkMessage from irc.TOPIC [chname; text]) = "")
            = false) as -> by (by apply bool_decide_eq_false).
    cbn [andb]. rewrite (bool_decide_eq_true_2 _ Hin). cbn [negb].
    rewrite (bool_decide_eq_false_2 (length [chname; text] = 1%nat)) by done.
    rewrite Hfree. cbn [mbind option_bind].
    change (irc.Trailing (irc.mkMessage from irc.TOPIC [chname; text])) with text.
    fold i1. rewrite Hc1. cbn [mbind option_bind]. reflexivity.
  - unfold cmdTopic.
    assert (heap i1 !! s = Some sess) as -> by exact Hs.
    cbn [irc.Params]. cbn [lookup list_lookup mbind option_bind]. fold k.
    rewrite Hc1.
    rewrite (bool_decide_eq_true_2
               (irc.Trailing (irc.mkMessage from irc.TOPIC [chname; ""]) = "") eq_refl).
    rewrite (bool_decide_eq_true_2 (length [chname; ""] = 2%nat) eq_refl).
    cbn [andb].
    assert (topicLocked c1 (NickToLower (Nick sess)) = Some false) as ->
      by exact Hfree.
    cbn [mbind option_bind]. fold i2. rewrite Hc2. cbn [mbind option_bind].
    reflexivity.
  - intros t member r from' Ht Hmem. split.
    + rewrite (cmdTopic_get i1 t member r from' chname c1 Ht Hc1 Hmem).
      cbn [topicTime c1 setTopic]. rewrite Hzero. reflexivity.
    + rewrite (cmdTopic_get i2 t member r from' chname c2 Ht Hc2 Hmem).
      reflexivity.
Qed.

(** X5. On a channel with mode [t], a member who is not channel operator can
    neither set nor unset the topic: whatever the text, the request is
    answered with ERR_CHANOPRIVSNEEDED to the requester alone and the server
    is left as it was. *)
Theorem topic_is_locked_for_non_operators (i : IRCServer) (s : RobustId)
    (sess : Session) (reply : Replyctx) (from : option irc.Prefix)
    (chname text : string) (c : channel) :
  heap i !! s = Some sess →
  channels i !! ChanToLower chname = Some c →
  ChanToLower chname ∈ Channels sess →
  cnicks c !! NickToLower (Nick sess) = Some false →
  flag (cmodes c) "t" = true →
  cmdTopic i s reply (irc.mkMessage from irc.TOPIC [chname; text])
  = Some (i, sendUser s reply (srvMsg i irc.ERR_CHANOPRIVSNEEDED
                [Nick sess; chname; "You're not channel operator"])).
Proof.
  intros Hs Hc Hin Hperms Ht.
  assert (topicLocked c (NickToLower (Nick sess)) = Some true) as Hlocked.
  { unfold topicLocked. by rewrite Ht, Hperms. }
  unfold cmdTopic. rewrite Hs. cbn [irc.Params].
  cbn [lookup list_lookup mbind option_bind]. rewrite Hc.
  rewrite (bool_decide_eq_true_2 (length [chname; text] = 2%nat) eq_refl).
  rewrite andb_true_r.
  destruct (bool_decide (irc.Trailing (irc.mkMessage from irc.TOPIC [chname; text]) = "")).
  - rewrite Hlocked. reflexivity.
  - rewrite (bool_decide_eq_true_2 _ Hin). cbn [negb].
    rewrite (bool_decide_eq_false_2 (length [chname; text] = 1%nat)) by done.
    rewrite Hlocked. reflexivity.
Qed.

End Topic.

Section TopicOnTheNetwork.

#[local] Existing Instance Example.env.
#[local] Existing Instance Scenario.outside.

Lemma topic_set_then_get_witness :
  let i := Example.both in
  let s := Example.alice in
  let sess := Example.user Example.alice "Alice" {["#test"]} ∅ in
  let reply := Example.reply0 in
  let from := None in
  let chname := "#test" in
  let text := "hello" in
  let c := mkChannel "#test" {["alice" := true; "bob" := false]}
    {["n"%char; "t"%char]} "" time.zero "" in
  let perms := true in
  heap i !! s = Some sess
  ∧ channels i !! ChanToLower chname = Some c
  ∧ ChanToLower chname ∈ Channels sess
  ∧ cnicks c !! NickToLower (Nick sess) = Some perms
  ∧ ((flag (cmodes c) "t" = true → perms = true))
  ∧ text ≠ ""
  ∧ time.IsZero (LastActivity sess) = false
  ∧ (∃ i1 reply1 i2 reply2,
       cmdTopic i s reply (irc.mkMessage from irc.TOPIC [chname; text])
       = Some (i1, reply1)
       ∧ cmdTopic i1 s reply1 (irc.mkMessage from irc.TOPIC [chname; ""])
         = Some (i2, reply2)
       ∧ ∀ (t : RobustId) (member : Session) (r : Replyctx)
           (from' : option irc.Prefix),
           heap i !! t = Some member →
           ChanToLower chname ∈ Channels member →
           cmdTopic i1 t r (irc.mkMessage from' irc.TOPIC [chname])
           = Some (i1,
               sendUser t
                 (sendUser t r (srvMsg i irc.RPL_TOPIC [Nick member; chname; text]))
                 (srvMsg i "333"
                    [Nick member; chname; Nick sess;
                     strconv.FormatInt (time.Unix (LastActivity sess))]))
           ∧ cmdTopic i2 t r (irc.mkMessage from' irc.TOPIC [chname])
             = Some (i2, sendUser t r (srvMsg i irc.RPL_NOTOPIC
                           [Nick member; chname; "No topic is set"]))).
Proof.
  intros i s sess reply from chname text c perms.
  assert (heap i !! s = Some sess) as H1
    by (reflexivity).
  assert (channels i !! ChanToLower chname = Some c) as H2
    by (reflexivity).
  assert (ChanToLower chname ∈ Channels sess) as H3
    by (apply (bool_decide_unpack _); vm_compute; exact I).
  assert (cnicks c !! NickToLower (Nick sess) = Some perms) as H4
    by (reflexivity).
  assert ((flag (cmodes c) "t" = true → perms = true)) as H5
    by (intros _; reflexivity).
  assert (text ≠ "") as H6
    by (discriminate).
  assert (time.IsZero (LastActivity sess) = false) as H7
    by (reflexivity).
  repeat (split; [assumption|]).
  exact (topic_set_then_get i s sess reply from chname text c perms H1 H2 H3 H4 H5 H6 H7).
Defined.

Lemma topic_is_locked_for_non_operators_witness :
  let i := Example.both in
  let s := Example.bob in
  let sess := Example.user Example.bob "bob" {["#test"]} ∅ in
  let reply := Example.reply0 in
  let from := None in
  let chname := "#test" in
  let text := "hello" in
  let c := mkChannel "#test" {["alice" := true; "bob" := false]}
    {["n"%char; "t"%char]} "" time.zero "" in
  heap i !! s = Some sess
  ∧ channels i !! ChanToLower chname = Some c
  ∧ ChanToLower chname ∈ Channels sess
  ∧ cnicks c !! NickToLower (Nick sess) = Some false
  ∧ flag (cmodes c) "t" = true
  ∧ (cmdTopic i s reply (irc.mkMessage from irc.TOPIC [chname; text])
     = Some (i, sendUser s reply (srvMsg i irc.ERR_CHANOPRIVSNEEDED
                   [Nick sess; chname; "You're not channel operator"]))).
Proof.
  intros i s sess reply from chname text c.
  assert (heap i !! s = Some sess) as H1
    by (reflexivity).
  assert (channels i !! ChanToLower chname = Some c) as H2
    by (reflexivity).
  assert (ChanToLower chname ∈ Channels sess) as H3
    by (apply (bool_decide_unpack _); vm_compute; exact I).
  assert (cnicks c !! NickToLower (Nick sess) = Some false) as H4
    by (reflexivity).
  assert (flag (cmodes c) "t" = true) as H5
    by (reflexivity).
  repeat (split; [assumption|]).
  exact (topic_is_locked_for_non_operators i s sess reply from chname text c H1 H2 H3 H4 H5).
Defined.

End TopicOnTheNetwork.

(** ** Who may do what *)

Section Privileges.

Context {E : Env}.

Lemma maybeDeleteChannel_sessions (i : IRCServer) (k : lcChan) :
  sessions (maybeDeleteChannel i k) = sessions i.
Proof.
  unfold maybeDeleteChannel. destruct (channels i !! k) as [c|]; [|done].
  by destruct (decide (cnicks c = ∅)).
Qed.

(** X6. KICK is for channel operators, and takes exactly the named member
    off the channel. A KICK from a session that is not on the channel, or is
    on it without the operator bit, is answered with ERR_NOTONCHANNEL or
    ERR_CHANOPRIVSNEEDED to the requester alone and leaves the server as it
    was, whoever is named and whether or not the requester is an IRC
    operator. A KICK from a channel operator, for a member the nickname index
    resolves, returns: the member key is gone from the channel (and the
    channel from the table when that was its last member), the channel is
    gone from the channel set of the kicked session, and no other channel,
    session or index entry has changed. *)
Theorem kick_is_for_channel_operators (i : IRCServer) (s : RobustId)
    (sess : Session) (reply : Replyctx) (msg : irc.Message)
    (channelname : string) (c : channel) :
  heap i !! s = Some sess →
  irc.Params msg !! 0%nat = Some channelname →
  channels i !! ChanToLower channelname = Some c →
  (cnicks c !! NickToLower (Nick sess) ≠ Some true →
   cmdKick i s reply msg
   = Some (i, sendUser s reply
                (match cnicks c !! NickToLower (Nick sess) with
                 | None =>
                     srvMsg i irc.ERR_NOTONCHANNEL
                       [Nick sess; channelname; "You're not on that channel"]
                 | Some _ =>
                     srvMsg i irc.ERR_CHANOPRIVSNEEDED
                       [Nick sess; channelname; "You're not channel operator"]
                 end)))
  ∧ (cnicks c !! NickToLower (Nick sess) = Some true →
     ∀ target kicked session,
       irc.Params msg !! 1%nat = Some target →
       is_Some (cnicks c !! NickToLower target) →
       nicks i !! NickToLower target = Some kicked →
       heap i !! kicked = Some session →
       ∃ i' reply',
         cmdKick i s reply msg = Some (i', reply')
         ∧ channels i' !! ChanToLower channelname
           = (if decide (delete (NickToLower target) (cnicks c) = ∅) then None
              else Some (setCnicks (delete (NickToLower target) (cnicks c)) c))
         ∧ (∀ k', k' ≠ ChanToLower channelname →
                  channels i' !! k' = channels i !! k')
         ∧ heap i' !! kicked
           = Some (setChannels (Channels session ∖ {[ChanToLower channelname]})
                     session)
         ∧ (∀ t, t ≠ kicked → heap i' !! t = heap i !! t)
         ∧ nicks i' = nicks i ∧ sessions i' = sessions i).
Proof.
  intros Hs Hp Hc. split.
  - intros Hperms. unfold cmdKick. rewrite Hs, Hp.
    cbn [mbind option_bind]. rewrite Hc.
    destruct (cnicks c !! NickToLower (Nick sess)) as [[|]|]; done.
  - intros Hop target kicked session Ht Hon Hindex Hkicked.
    destruct (remove_member_lookup i (ChanToLower channelname)
                (NickToLower target) c Hc) as (Hh & Hn & Hother & Hk & _).
    cbn zeta in Hh, Hn, Hother, Hk.
    unfold cmdKick. rewrite Hs, Hp. cbn [mbind option_bind].
    rewrite Hc, Hop. cbn [negb]. rewrite Ht. cbn [mbind option_bind].
    rewrite (bool_decide_eq_true_2 _ Hon). cbn [negb]. rewrite Hindex.
    cbn [mbind option_bind].
    set (i1 := maybeDeleteChannel _ _) in *.
    assert (heap i1 !! kicked = Some session) as Hk1 by by rewrite Hh.
    rewrite Hk1. cbn [mbind option_bind].
    eexists _, _. split; [reflexivity|].
    split; [exact Hk|]. split; [exact Hother|]. split.
    { exact (updSession_lookup i1 kicked _ session Hk1). }
    split. { intros t Hne. rewrite <- Hh. by apply updSession_lookup_ne. }
    split; [exact Hn|].
    subst i1. cbn. by rewrite maybeDeleteChannel_sessions.
Qed.

(** A KILL from a session without the operator flag. *)
Lemma cmdKill_unprivileged (i : IRCServer) (s : RobustId)
    (sess : Session) (reply : Replyctx) (msg : irc.Message) :
  heap i !! s = Some sess →
  Operator sess = false →
  cmdKill i s reply msg
  = Some (i, sendUser s reply
               (if bool_decide (length (irc.Params msg) < 2)%nat then
                  srvMsg i irc.ERR_NEEDMOREPARAMS
                    [Nick sess; irc.Command msg; "Not enough parameters"]
                else
                  srvMsg i irc.ERR_NOPRIVILEGES
                    [Nick sess; "Permission Denied - You're not an IRC operator"])).
Proof.
  intros Hs Hop. unfold cmdKill. rewrite Hs. cbn [mbind option_bind].
  destruct (bool_decide (length (irc.Params msg) < 2)%nat); [done|].
  by rewrite Hop.
Qed.

Lemma existsb_operators (ops : list (string * string)) (name password : string) :
  existsb (λ op, bool_decide (op.1 = name) && bool_decide (op.2 = password)) ops
  = bool_decide ((name, password) ∈ ops).
Proof.
  induction ops as [|[n p] ops IH].
  - cbn. symmetry. apply bool_decide_eq_false. by intros ?%elem_of_nil.
  - cbn [existsb fst snd]. rewrite IH.
    destruct (decide (n = name ∧ p = password)) as [[-> ->]|Hne].
    + rewrite !bool_decide_eq_true_2 by done. cbn. symmetry.
      apply bool_decide_eq_true. by left.
    + assert (bool_decide (n = name) && bool_decide (p = password) = false) as ->.
      { apply andb_false_iff.
        destruct (decide (n = name)) as [->|?]; [right|left];
          apply bool_decide_eq_false; [intros ->; by apply Hne|done]. }
      cbn. apply bool_decide_ext. rewrite elem_of_cons.
      split; [by right|]. intros [[= <- <-]|H]; [by destruct Hne|done].
Qed.

(** X7. KILL is for IRC operators, and OPER makes one of exactly the
    sessions that give a name and password of the configured list. From a
    session without the operator flag a KILL, whatever the message, changes
    nothing and is answered to the requester alone with ERR_NOPRIVILEGES
    (ERR_NEEDMOREPARAMS when it has fewer than two parameters). OPER with a
    pair that is not listed leaves the server as it was and is answered with
    ERR_PASSWDMISMATCH. With a listed pair the session gets the operator flag
    and user mode [o], nothing else of the server changes, and a KILL from it
    is no longer refused for lack of privilege (for a nickname nobody has,
    the answer is ERR_NOSUCHNICK). *)
Theorem oper_needs_listed_credentials (i : IRCServer) (s : RobustId)
    (sess : Session) (reply : Replyctx) (from : option irc.Prefix)
    (name password : string) :
  heap i !! s = Some sess →
  (Operator sess = false →
   ∀ (r : Replyctx) (msg : irc.Message),
     cmdKill i s r msg
     = Some (i, sendUser s r
                  (if bool_decide (length (irc.Params msg) < 2)%nat then
                     srvMsg i irc.ERR_NEEDMOREPARAMS
                       [Nick sess; irc.Command msg; "Not enough parameters"]
                   else
                     srvMsg i irc.ERR_NOPRIVILEGES
                       [Nick sess;
                        "Permission Denied - You're not an IRC operator"])))
  ∧ ((name, password) ∉ Operators i →
     cmdOper i s reply (irc.mkMessage from "OPER" [name; password])
     = Some (i, sendUser s reply (srvMsg i irc.ERR_PASSWDMISMATCH
                   [Nick sess; "Password incorrect"])))
  ∧ ((name, password) ∈ Operators i →
     ∃ i' reply' sess',
       cmdOper i s reply (irc.mkMessage from "OPER" [name; password])
       = Some (i', reply')
       ∧ heap i' !! s = Some sess'
       ∧ Operator sess' = true ∧ flag (smodes sess') "o" = true
       ∧ Nick sess' = Nick sess ∧ Channels sess' = Channels sess
       ∧ (∀ t, t ≠ s → heap i' !! t = heap i !! t)
       ∧ sessions i' = sessions i ∧ nicks i' = nicks i
       ∧ channels i' = channels i ∧ svsholds i' = svsholds i
       ∧ ∀ (r : Replyctx) (target why : string),
           nicks i !! NickToLower target = None →
           cmdKill i' s r (irc.mkMessage from "KILL" [target; why])
           = Some (i', sendUser s r (srvMsg i irc.ERR_NOSUCHNICK
                         [Nick sess; target; "No such nick/channel"]))).
Proof.
  intros Hs. split.
  { intros Hop r msg. by apply cmdKill_unprivileged. }
  split.
  - intros Hnot. unfold cmdOper. rewrite Hs. cbn [irc.Params].
    cbn [lookup list_lookup mbind option_bind].
    rewrite existsb_operators, (bool_decide_eq_false_2 _ Hnot). reflexivity.
  - intros Hin.
    set (f := λ x, setSmodes (setFlag "o" true (smodes x)) (setOperator true x)).
    assert (heap (updSession s f i) !! s = Some (f sess)) as Hs'
      by exact (updSession_lookup i s f sess Hs).
    exists (updSession s f i). eexists. exists (f sess).
    split; [|split; [exact Hs'|]].
    { unfold cmdOper. rewrite Hs. cbn [irc.Params].
      cbn [lookup list_lookup mbind option_bind].
      rewrite existsb_operators, (bool_decide_eq_true_2 _ Hin). cbn [negb].
      fold f. rewrite Hs'. reflexivity. }
    split; [reflexivity|]. split.
    { unfold f, flag. cbn. apply bool_decide_eq_true. set_solver. }
    split; [reflexivity|]. split; [reflexivity|]. split.
    { intros t Ht. by apply updSession_lookup_ne. }
    do 4 (split; [reflexivity|]).
    intros r target why Hfree. unfold cmdKill. rewrite Hs'.
    cbn [mbind option_bind irc.Params length].
    rewrite bool_decide_eq_false_2 by lia.
    cbn [lookup list_lookup mbind option_bind Operator f setSmodes setOperator negb].
    assert (nicks (updSession s f i) !! NickToLower target = None) as ->
      by exact Hfree.
    reflexivity.
Qed.

(** X8. An invitation opens an invite-only channel to the invited session,
    and only a channel operator gives one. On a channel with mode [i], the
    INVITE of a member without the operator bit is refused with
    ERR_CHANOPRIVSNEEDED and changes nothing; the INVITE of a channel operator
    for a session that is not on the channel adds the channel to the
    invitations of that session and to nothing else, after which the checks
    [cmdJoin] makes on an existing channel let that session through. *)
Theorem invite_opens_the_channel (i : IRCServer) (s invited : RobustId)
    (sess session : Session) (reply : Replyctx) (from : option irc.Prefix)
    (nickname channelname : string) (c : channel) (perms : bool) :
  heap i !! s = Some sess →
  channels i !! ChanToLower channelname = Some c →
  flag (cmodes c) "i" = true →
  cnicks c !! NickToLower (Nick sess) = Some perms →
  nicks i !! NickToLower nickname = Some invited →
  heap i !! invited = Some session →
  cnicks c !! NickToLower nickname = None →
  (perms = false →
   cmdInvite i s reply (irc.mkMessage from irc.INVITE [nickname; channelname])
   = Some (i, sendUser s reply (srvMsg i irc.ERR_CHANOPRIVSNEEDED
                 [Nick sess; name c; "You're not channel operator"])))
  ∧ (perms = true →
     ∃ i' reply' session',
       cmdInvite i s reply (irc.mkMessage from irc.INVITE [nickname; channelname])
       = Some (i', reply')
       ∧ heap i' !! invited = Some session'
       ∧ invitedTo session' = {[ChanToLower channelname]} ∪ invitedTo session
       ∧ Channels session' = Channels session
       ∧ (∀ t, t ≠ invited → heap i' !! t = heap i !! t)
       ∧ nicks i' = nicks i ∧ channels i' = channels i
       ∧ ∀ (r : Replyctx) (key : string),
           joinGate i' invited session' r key channelname = inr (i', None)).
Proof.
  intros Hs Hc Hi Hperms Hnick Hinv Hnot.
  split.
  - intros ->. unfold cmdInvite. rewrite Hs. cbn [irc.Params].
    cbn [lookup list_lookup mbind option_bind]. rewrite Hc, Hperms, Hnick, Hinv.
    cbn [mbind option_bind]. rewrite Hnot.
    rewrite bool_decide_eq_false_2 by (by intros [? ?]).
    rewrite Hi. reflexivity.
  - intros ->.
    set (k := ChanToLower channelname) in *.
    set (f := λ x, setInvitedTo ({[k]} ∪ invitedTo x) x).
    assert (heap (updSession invited f i) !! invited = Some (f session)) as Hinv'
      by exact (updSession_lookup i invited f session Hinv).
    exists (updSession invited f i). eexists. exists (f session).
    split; [|split; [exact Hinv'|]].
    { unfold cmdInvite. rewrite Hs. cbn [irc.Params].
      cbn [lookup list_lookup mbind option_bind]. fold k.
      rewrite Hc, Hperms, Hnick, Hinv. cbn [mbind option_bind]. rewrite Hnot.
      rewrite bool_decide_eq_false_2 by (by intros [? ?]).
      rewrite Hi. cbn [negb andb]. fold f. reflexivity. }
    split; [reflexivity|]. split; [reflexivity|]. split.
    { intros t Ht. by apply updSession_lookup_ne. }
    split; [reflexivity|]. split; [reflexivity|].
    intros r key. unfold joinGate. fold k.
    assert (channels (updSession invited f i) !! k = Some c) as -> by exact Hc.
    assert (bool_decide (k ∈ invitedTo (f session)) = true) as ->.
    { apply bool_decide_eq_true. unfold f. cbn. set_solver. }
    cbn [negb]. by rewrite !andb_false_r.
Qed.

End Privileges.

Section PrivilegesOnTheNetwork.

#[local] Existing Instance Example.env.
#[local] Existing Instance Scenario.outside.

Lemma kick_is_for_channel_operators_witness :
  let i := Example.both in
  let s := Example.alice in
  let sess := Example.user Example.alice "Alice" {["#test"]} ∅ in
  let reply := Example.reply0 in
  let msg := Example.line "KICK" ["#test"; "Bob"; "bye"] in
  let channelname := "#test" in
  let c := mkChannel "#test" {["alice" := true; "bob" := false]}
    {["n"%char; "t"%char]} "" time.zero "" in
  let target := "Bob" in
  let kicked := Example.bob in
  let session := Example.user Example.bob "bob" {["#test"]} ∅ in
  heap i !! s = Some sess
  ∧ irc.Params msg !! 0%nat = Some channelname
  ∧ channels i !! ChanToLower channelname = Some c
  ∧ cnicks c !! NickToLower (Nick sess) = Some true
  ∧ irc.Params msg !! 1%nat = Some target
  ∧ is_Some (cnicks c !! NickToLower target)
  ∧ nicks i !! NickToLower target = Some kicked
  ∧ heap i !! kicked = Some session
  ∧ ((cnicks c !! NickToLower (Nick sess) ≠ Some true →
      cmdKick i s reply msg
      = Some (i, sendUser s reply
                   (match cnicks c !! NickToLower (Nick sess) with
                    | None =>
                        srvMsg i irc.ERR_NOTONCHANNEL
                          [Nick sess; channelname; "You're not on that channel"]
                    | Some _ =>
                        srvMsg i irc.ERR_CHANOPRIVSNEEDED
                          [Nick sess; channelname; "You're not channel operator"]
                    end)))
     ∧ (cnicks c !! NickToLower (Nick sess) = Some true →
        ∀ target kicked session,
          irc.Params msg !! 1%nat = Some target →
          is_Some (cnicks c !! NickToLower target) →
          nicks i !! NickToLower target = Some kicked →
          heap i !! kicked = Some session →
          ∃ i' reply',
            cmdKick i s reply msg = Some (i', reply')
            ∧ channels i' !! ChanToLower channelname
              = (if decide (delete (NickToLower target) (cnicks c) = ∅) then None
                 else Some (setCnicks (delete (NickToLower target) (cnicks c)) c))
            ∧ (∀ k', k' ≠ ChanToLower channelname →
                     channels i' !! k' = channels i !! k')
            ∧ heap i' !! kicked
              = Some (setChannels (Channels session ∖ {[ChanToLower channelname]})
                        session)
            ∧ (∀ t, t ≠ kicked → heap i' !! t = heap i !! t)
            ∧ nicks i' = nicks i ∧ sessions i' = sessions i)).
Proof.
  intros i s sess reply msg channelname c target kicked session.
  assert (heap i !! s = Some sess) as H1
    by (reflexivity).
  assert (irc.Params msg !! 0%nat = Some channelname) as H2
    by (reflexivity).
  assert (channels i !! ChanToLower channelname = Some c) as H3
    by (reflexivity).
  assert (cnicks c !! NickToLower (Nick sess) = Some true) as I1
    by (reflexivity).
  assert (irc.Params msg !! 1%nat = Some target) as I2
    by (reflexivity).
  assert (is_Some (cnicks c !! NickToLower target)) as I3
    by (vm_compute; eexists; reflexivity).
  assert (nicks i !! NickToLower target = Some kicked) as I4
    by (reflexivity).
  assert (heap i !! kicked = Some session) as I5
    by (reflexivity).
  repeat (split; [assumption|]).
  exact (kick_is_for_channel_operators i s sess reply msg channelname c H1 H2 H3).
Defined.

Lemma oper_needs_listed_credentials_witness :
  let i := Scenario.staffed in
  let s := Example.alice in
  let sess := Example.user Example.alice "Alice" ∅ ∅ in
  let reply := Example.reply0 in
  let from := None in
  let name := "root" in
  let password := "secret" in
  let target := "carol" in
  heap i !! s = Some sess
  ∧ Operator sess = false
  ∧ (name, password) ∈ Operators i
  ∧ nicks i !! NickToLower target = None
  ∧ ((Operator sess = false →
      ∀ (r : Replyctx) (msg : irc.Message),
        cmdKill i s r msg
        = Some (i, sendUser s r
                     (if bool_decide (length (irc.Params msg) < 2)%nat then
                        srvMsg i irc.ERR_NEEDMOREPARAMS
                          [Nick sess; irc.Command msg; "Not enough parameters"]
                      else
                        srvMsg i irc.ERR_NOPRIVILEGES
                          [Nick sess;
                           "Permission Denied - You're not an IRC operator"])))
     ∧ ((name, password) ∉ Operators i →
        cmdOper i s reply (irc.mkMessage from "OPER" [name; password])
        = Some (i, sendUser s reply (srvMsg i irc.ERR_PASSWDMISMATCH
                      [Nick sess; "Password incorrect"])))
     ∧ ((name, password) ∈ Operators i →
        ∃ i' reply' sess',
          cmdOper i s reply (irc.mkMessage from "OPER" [name; password])
          = Some (i', reply')
          ∧ heap i' !! s = Some sess'
          ∧ Operator sess' = true ∧ flag (smodes sess') "o" = true
          ∧ Nick sess' = Nick sess ∧ Channels sess' = Channels sess
          ∧ (∀ t, t ≠ s → heap i' !! t = heap i !! t)
          ∧ sessions i' = sessions i ∧ nicks i' = nicks i
          ∧ channels i' = channels i ∧ svsholds i' = svsholds i
          ∧ ∀ (r : Replyctx) (target why : string),
              nicks i !! NickToLower target = None →
              cmdKill i' s r (irc.mkMessage from "KILL" [target; why])
              = Some (i', sendUser s r (srvMsg i irc.ERR_NOSUCHNICK
                            [Nick sess; target; "No such nick/channel"])))).
Proof.
  intros i s sess reply from name password target.
  assert (heap i !! s = Some sess) as H1
    by (reflexivity).
  assert (Operator sess = false) as I1
    by (reflexivity).
  assert ((name, password) ∈ Operators i) as I2
    by (repeat constructor).
  assert (nicks i !! NickToLower target = None) as I3
    by (reflexivity).
  repeat (split; [assumption|]).
  exact (oper_needs_listed_credentials i s sess reply from name password H1).
Defined.

Lemma invite_opens_the_channel_witness :
  let i := Example.inviteOnly in
  let s := Example.alice in
  let invited := Example.bob in
  let sess := Example.user Example.alice "Alice" {["#test"]} ∅ in
  let session := Example.user Example.bob "bob" ∅ {["#test"]} in
  let reply := Example.reply0 in
  let from := None in
  let nickname := "bob" in
  let channelname := "#test" in
  let c := mkChannel "#test" {["alice" := true]}
    {["i"%char; "n"%char; "t"%char]} "" time.zero "" in
  let perms := true in
  heap i !! s = Some sess
  ∧ channels i !! ChanToLower channelname = Some c
  ∧ flag (cmodes c) "i" = true
  ∧ cnicks c !! NickToLower (Nick sess) = Some perms
  ∧ nicks i !! NickToLower nickname = Some invited
  ∧ heap i !! invited = Some session
  ∧ cnicks c !! NickToLower nickname = None
  ∧ perms = true
  ∧ ((perms = false →
      cmdInvite i s reply (irc.mkMessage from irc.INVITE [nickname; channelname])
      = Some (i, sendUser s reply (srvMsg i irc.ERR_CHANOPRIVSNEEDED
                    [Nick sess; name c; "You're not channel operator"])))
     ∧ (perms = true →
        ∃ i' reply' session',
          cmdInvite i s reply (irc.mkMessage from irc.INVITE [nickname; channelname])
          = Some (i', reply')
          ∧ heap i' !! invited = Some session'
          ∧ invitedTo session' = {[ChanToLower channelname]} ∪ invitedTo session
          ∧ Channels session' = Channels session
          ∧ (∀ t, t ≠ invited → heap i' !! t = heap i !! t)
          ∧ nicks i' = nicks i ∧ channels i' = channels i
          ∧ ∀ (r : Replyctx) (key : string),
              joinGate i' invited session' r key channelname = inr (i', None))).
Proof.
  intros i s invited sess session reply from nickname channelname c perms.
  assert (heap i !! s = Some sess) as H1
    by (reflexivity).
  assert (channels i !! ChanToLower channelname = Some c) as H2
    by (reflexivity).
  assert (flag (cmodes c) "i" = true) as H3
    by (vm_compute; reflexivity).
  assert (cnicks c !! NickToLower (Nick sess) = Some perms) as H4
    by (reflexivity).
  assert (nicks i !! NickToLower nickname = Some invited) as H5
    by (reflexivity).
  assert (heap i !! invited = Some session) as H6
    by (reflexivity).
  assert (cnicks c !! NickToLower nickname = None) as H7
    by (reflexivity).
  assert (perms = true) as I1
    by (reflexivity).
  repeat (split; [assumption|]).
  exact (invite_opens_the_channel i s invited sess session reply from nickname channelname c perms H1 H2 H3 H4 H5 H6 H7).
Defined.

End PrivilegesOnTheNetwork.

(** ** Queries *)

Section Queries.

Context {E : Env} {O : Outside}.

Lemma insertSorted_elem (x y : string) (l : list string) :
  y ∈ strings.insertSorted x l ↔ y = x ∨ y ∈ l.
Proof.
  induction l as [|z l IH]; cbn.
  - rewrite list_elem_of_singleton, elem_of_nil. tauto.
  - destruct (String.leb x z).
    + by rewrite elem_of_cons.
    + rewrite !elem_of_cons, IH. tauto.
Qed.

Lemma Sort_elem (y : string) (l : list string) : y ∈ strings.Sort l ↔ y ∈ l.
Proof.
  induction l as [|x l IH]; [done|].
  unfold strings.Sort. cbn [fold_right]. fold (strings.Sort l).
  rewrite insertSorted_elem, elem_of_cons, IH. tauto.
Qed.

Lemma insertSorted_length (x : string) (l : list string) :
  length (strings.insertSorted x l) = S (length l).
Proof.
  induction l as [|z l IH]; [done|]. cbn.
  destruct (String.leb x z); cbn; [done|]. by rewrite IH.
Qed.

Lemma Sort_length (l : list string) : length (strings.Sort l) = length l.
Proof.
  induction l as [|x l IH]; [done|].
  unfold strings.Sort. cbn [fold_right]. fold (strings.Sort l).
  by rewrite insertSorted_length, IH.
Qed.

Lemma send_Messages (reply : Replyctx) (interest : Interest) (m : irc.Message) :
  ∃ o, Messages (send reply interest m) = (Messages reply ++ [o])%list
       ∧ InterestingFor o = interest ∧ Data o = m.
Proof. eexists. split; [reflexivity|]. done. Qed.

(** A loop whose body adds messages with the property [P] adds messages with
    the property [P]. *)
Lemma forEach_adds {B} (P : OutputMessage → Prop)
    (body : Replyctx → B → option Replyctx) (l : list B) :
  (∀ r x r', x ∈ l → body r x = Some r' →
     ∃ added, Messages r' = (Messages r ++ added)%list ∧ Forall P added) →
  ∀ r r', forEach body l r = Some r' →
    ∃ added, Messages r' = (Messages r ++ added)%list ∧ Forall P added.
Proof.
  induction l as [|x l IH]; intros Hbody r r' Hrun.
  - injection Hrun as <-. exists []. by rewrite app_nil_r.
  - cbn [forEach] in Hrun.
    destruct (body r x) as [r1|] eqn:Hx; [|done]. cbn in Hrun.
    destruct (Hbody r x r1 ltac:(by left) Hx) as (a1 & Ha1 & HP1).
    destruct (IH (λ r x r' Hin, Hbody r x r' ltac:(by right)) r1 r' Hrun)
      as (a2 & Ha2 & HP2).
    exists (a1 ++ a2)%list. split.
    + by rewrite Ha2, Ha1, <- app_assoc.
    + by apply Forall_app.
Qed.

(** Every channel [cmdList] goes through exists. *)
Lemma listed_exist (i : IRCServer) (params : list string) (k : lcChan) :
  k ∈ listed i params → is_Some (channels i !! k).
Proof.
  unfold listed. destruct params as [|names rest].
  - rewrite Sort_elem. intros Hk.
    apply list_elem_of_fmap in Hk as ([k' c] & -> & Hk).
    apply elem_of_map_to_list in Hk. by eexists.
  - intros Hk. apply list_elem_of_In, List.filter_In in Hk as [_ Hk].
    by apply bool_decide_eq_true in Hk.
Qed.

Lemma listReply_eq (i : IRCServer) (s : RobustId) (sess : Session)
    (r : Replyctx) (k : lcChan) (c : channel) :
  channels i !! k = Some c →
  listReply i s sess r k
  = Some (if flag (cmodes c) "s" && negb (Operator sess)
             && negb (bool_decide (k ∈ Channels sess))
          then r
          else sendUser s r (srvMsg i RPL_LIST
                 [Nick sess; name c;
                  strconv.FormatInt (Z.of_nat (size (cnicks c))); topic c])).
Proof. intros Hc. unfold listReply. rewrite Hc. cbn. by destruct (_ && _). Qed.

(** The loop of [cmdList]: it returns, and what it adds are RPL_LIST replies
    to the requester, one for each visible channel of the list. *)
Lemma listLoop (i : IRCServer) (s : RobustId) (sess : Session)
    (ks : list lcChan) :
  (∀ k, k ∈ ks → is_Some (channels i !! k)) →
  ∀ r, ∃ r' added,
    forEach (listReply i s sess) ks r = Some r'
    ∧ Messages r' = (Messages r ++ added)%list
    ∧ Forall (λ o, InterestingFor o = ForSessions {[s]}
                   ∧ ∃ k c, channels i !! k = Some c ∧ visibleTo sess k c
                            ∧ Data o = srvMsg i RPL_LIST
                                 [Nick sess; name c;
                                  strconv.FormatInt (Z.of_nat (size (cnicks c)));
                                  topic c]) added
    ∧ ∀ k c, k ∈ ks → channels i !! k = Some c → visibleTo sess k c →
        ∃ o, o ∈ added
             ∧ Data o = srvMsg i RPL_LIST
                  [Nick sess; name c;
                   strconv.FormatInt (Z.of_nat (size (cnicks c))); topic c].
Proof.
  induction ks as [|k ks IH]; intros Hex r.
  - exists r, []. split; [done|]. split; [by rewrite app_nil_r|].
    split; [constructor|]. intros k c Hk. by apply elem_of_nil in Hk.
  - destruct (Hex k ltac:(by left)) as [c Hc].
    cbn [forEach]. rewrite (listReply_eq i s sess r k c Hc).
    destruct (flag (cmodes c) "s" && negb (Operator sess)
              && negb (bool_decide (k ∈ Channels sess))) eqn:Hhide.
    + cbn [mbind option_bind].
      destruct (IH (λ k' Hk', Hex k' ltac:(by right)) r)
        as (r' & added & Hrun & Hadd & HP & Hall).
      exists r', added. split; [exact Hrun|]. split; [exact Hadd|].
      split; [exact HP|]. intros k' c' Hk' Hc' Hvis.
      apply elem_of_cons in Hk' as [->|Hk']; [|by eapply Hall].
      rewrite Hc in Hc'. injection Hc' as <-.
      apply andb_true_iff in Hhide as [Hhide Hnot].
      apply andb_true_iff in Hhide as [Hs Hop].
      apply negb_true_iff in Hop. apply negb_true_iff, bool_decide_eq_false in Hnot.
      destruct Hvis as [Hv|[Hv|Hv]]; congruence.
    + cbn [mbind option_bind].
      set (m := srvMsg i RPL_LIST _).
      destruct (IH (λ k' Hk', Hex k' ltac:(by right)) (sendUser s r m))
        as (r' & added & Hrun & Hadd & HP & Hall).
      assert (visibleTo sess k c) as Hvis.
      { unfold visibleTo.
        destruct (flag (cmodes c) "s"); [|by left].
        destruct (Operator sess); [by right; left|].
        right; right. cbn in Hhide. apply negb_false_iff in Hhide.
        by apply bool_decide_eq_true in Hhide. }
      eexists r', (_ :: added). split; [exact Hrun|]. split.
      { rewrite Hadd. cbn. by rewrite <- app_assoc. }
      split.
      { constructor; [|exact HP]. split; [reflexivity|]. by exists k, c. }
      intros k' c' Hk' Hc' Hvis'.
      apply elem_of_cons in Hk' as [->|Hk'].
      * rewrite Hc in Hc'. injection Hc' as <-. eexists. split; [by left|].
        reflexivity.
      * destruct (Hall k' c' Hk' Hc' Hvis') as (o & Ho & Hd).
        exists o. split; [by right|exact Hd].
Qed.

(** X9. LIST does not give away a secret channel. It always returns, leaves
    the server as it was and answers the requester alone; each RPL_LIST reply
    it sends describes a channel of the table (name, number of members,
    topic) that is not secret, or that the requester is on, or the requester
    is an IRC operator; and a LIST without parameters has such a reply for
    every such channel. *)
Theorem list_hides_secret_channels (i : IRCServer) (s : RobustId)
    (sess : Session) (reply : Replyctx) (msg : irc.Message) :
  heap i !! s = Some sess →
  ∃ reply' added,
    cmdList i s reply msg = Some (i, reply')
    ∧ Messages reply' = (Messages reply ++ added)%list
    ∧ onlyTo s added
    ∧ (∀ o, o ∈ added → irc.Command (Data o) = RPL_LIST →
         ∃ k c, channels i !! k = Some c ∧ visibleTo sess k c
                ∧ Data o = srvMsg i RPL_LIST
                     [Nick sess; name c;
                      strconv.FormatInt (Z.of_nat (size (cnicks c))); topic c])
    ∧ (irc.Params msg = [] →
       ∀ k c, channels i !! k = Some c → visibleTo sess k c →
         ∃ o, o ∈ added
              ∧ Data o = srvMsg i RPL_LIST
                   [Nick sess; name c;
                    strconv.FormatInt (Z.of_nat (size (cnicks c))); topic c]).
Proof.
  intros Hs.
  destruct (listLoop i s sess (listed i (irc.Params msg))
              (listed_exist i (irc.Params msg)) reply)
    as (r' & added & Hrun & Hadd & HP & Hall).
  eexists _, (added ++ [_])%list. split.
  { unfold cmdList. rewrite Hs. cbn [mbind option_bind]. rewrite Hrun.
    reflexivity. }
  split. { cbn. rewrite Hadd. by rewrite <- app_assoc. }
  split.
  { apply Forall_app. split; [|by repeat constructor].
    eapply Forall_impl; [exact HP|]. by intros o [Ho _]. }
  split.
  { intros o Ho Hcmd. apply elem_of_app in Ho as [Ho|Ho].
    - rewrite Forall_forall in HP. by destruct (HP o Ho) as [_ H].
    - apply list_elem_of_singleton in Ho. subst o. done. }
  intros Hnone k c Hc Hvis.
  destruct (Hall k c) as (o & Ho & Hd); [|exact Hc|exact Hvis|].
  { rewrite Hnone. unfold listed. apply Sort_elem.
    apply list_elem_of_fmap. exists (k, c). split; [done|].
    by apply elem_of_map_to_list. }
  exists o. split; [|exact Hd]. apply elem_of_app. by left.
Qed.

End Queries.

Section QueriesOnTheNetwork.

#[local] Existing Instance Example.env.
#[local] Existing Instance Scenario.outside.

Lemma list_hides_secret_channels_witness :
  let i := Scenario.hidden in
  let s := Example.bob in
  let sess := Example.user Example.bob "bob" {["#test"]} ∅ in
  let reply := Example.reply0 in
  let msg := Example.line "LIST" [] in
  heap i !! s = Some sess
  ∧ irc.Params msg = []
  ∧ (∃ reply' added,
       cmdList i s reply msg = Some (i, reply')
       ∧ Messages reply' = (Messages reply ++ added)%list
       ∧ onlyTo s added
       ∧ (∀ o, o ∈ added → irc.Command (Data o) = RPL_LIST →
            ∃ k c, channels i !! k = Some c ∧ visibleTo sess k c
                   ∧ Data o = srvMsg i RPL_LIST
                        [Nick sess; name c;
                         strconv.FormatInt (Z.of_nat (size (cnicks c))); topic c])
       ∧ (irc.Params msg = [] →
          ∀ k c, channels i !! k = Some c → visibleTo sess k c →
            ∃ o, o ∈ added
                 ∧ Data o = srvMsg i RPL_LIST
                      [Nick sess; name c;
                       strconv.FormatInt (Z.of_nat (size (cnicks c))); topic c])).
Proof.
  intros i s sess reply msg.
  assert (heap i !! s = Some sess) as H1
    by (reflexivity).
  assert (irc.Params msg = []) as I1
    by (reflexivity).
  repeat (split; [assumption|]).
  exact (list_hides_secret_channels i s sess reply msg H1).
Defined.

End QueriesOnTheNetwork.

Section Who.

Context {E : Env} {O : Outside}.

Lemma whoReply_is_Some (i : IRCServer) (s : RobustId) (nick channelname : string)
    (r : Replyctx) (y : string) :
  resolves i (NickToLower y) →
  ∃ m, whoReply i s nick channelname r y = Some (sendUser s r m)
       ∧ irc.Command m = RPL_WHOREPLY.
Proof.
  intros [member Hy]. unfold whoReply.
  destruct (nicks i !! NickToLower y) as [id|]; [|done].
  cbn in Hy |- *. rewrite Hy. cbn. by eexists.
Qed.

(** The second loop of [cmdWho]: one RPL_WHOREPLY to the requester for each
    nickname, when the nicknames resolve. *)
Lemma whoLoop (i : IRCServer) (s : RobustId) (nick channelname : string)
    (names : list string) :
  (∀ y, y ∈ names → resolves i (NickToLower y)) →
  ∀ r, ∃ r' added,
    forEach (whoReply i s nick channelname) names r = Some r'
    ∧ Messages r' = (Messages r ++ added)%list
    ∧ length added = length names
    ∧ Forall (λ o, InterestingFor o = ForSessions {[s]}
                   ∧ irc.Command (Data o) = RPL_WHOREPLY) added.
Proof.
  induction names as [|y names IH]; intros Hres r.
  - exists r, []. split; [done|]. split; [by rewrite app_nil_r|]. done.
  - destruct (whoReply_is_Some i s nick channelname r y (Hres y ltac:(by left)))
      as (m & Hstep & Hm).
    cbn [forEach]. rewrite Hstep. cbn [mbind option_bind].
    destruct (IH (λ y' Hy', Hres y' ltac:(by right)) (sendUser s r m))
      as (r' & added & Hrun & Hadd & Hlen & HP).
    eexists r', (_ :: added). split; [exact Hrun|]. split.
    { rewrite Hadd. cbn. by rewrite <- app_assoc. }
    split; [cbn; by rewrite Hlen|]. constructor; [|exact HP]. done.
Qed.

(** The first loop of [cmdWho]: the nicknames of the members. *)
Lemma whoNames (i : IRCServer) (c : channel) :
  membersKnown i c → indexed i →
  ∃ names,
    mapM (λ np : lcNick * bool,
            id ← nicks i !! np.1; member ← heap i !! id; Some (Nick member))
      (map_to_list (cnicks c)) = Some names
    ∧ length names = size (cnicks c)
    ∧ ∀ y, y ∈ names → resolves i (NickToLower y).
Proof.
  intros Hknown Hidx.
  set (f := λ np : lcNick * bool,
              id ← nicks i !! np.1; member ← heap i !! id; Some (Nick member)).
  assert (Forall (λ np, is_Some (f np)) (map_to_list (cnicks c))) as Hall.
  { apply Forall_forall. intros [n p] Hnp. apply elem_of_map_to_list in Hnp.
    specialize (Hknown n p Hnp). cbn in Hknown. unfold resolves in Hknown.
    unfold f. cbn [fst]. destruct (nicks i !! n) as [id|]; [|by destruct Hknown].
    cbn in Hknown |- *. destruct (heap i !! id); [by eexists|by destruct Hknown]. }
  apply mapM_is_Some in Hall as [names Hnames]. exists names.
  split; [exact Hnames|]. apply mapM_Some in Hnames. split.
  { rewrite <- (Forall2_length _ _ _ Hnames). by rewrite length_map_to_list. }
  intros y Hy.
  destruct (proj1 (list_elem_of_lookup _ _) Hy) as [j Hj].
  destruct (Forall2_lookup_r _ _ _ _ _ Hnames Hj) as ([n p] & _ & Hf).
  unfold f in Hf. cbn [fst] in Hf.
  destruct (nicks i !! n) as [id|] eqn:Hid; [|done]. cbn in Hf.
  destruct (heap i !! id) as [member|] eqn:Hm; [|done]. cbn in Hf.
  injection Hf as <-. unfold resolves.
  rewrite (Hidx n id member Hid Hm), Hid. cbn. by rewrite Hm.
Qed.

(** X10. WHO on a channel shows its members to those who may see them. On a
    secret channel a session that is not a member gets the end-of-list reply
    and nothing else (an IRC operator too). Otherwise, in a directory whose
    members resolve, WHO returns, leaves the server as it was and answers the
    requester alone with one RPL_WHOREPLY for each member of the channel,
    followed by RPL_ENDOFWHO. *)
Theorem who_lists_the_members (i : IRCServer) (s : RobustId) (sess : Session)
    (reply : Replyctx) (msg : irc.Message) (channelname : string)
    (rest : list string) (c : channel) :
  heap i !! s = Some sess →
  irc.Params msg = channelname :: rest →
  channels i !! ChanToLower channelname = Some c →
  (flag (cmodes c) "s" = true →
   cnicks c !! NickToLower (Nick sess) = None →
   cmdWho i s reply msg
   = Some (i, sendUser s reply (srvMsg i RPL_ENDOFWHO
                 [Nick sess; channelname; "End of /WHO list"])))
  ∧ (flag (cmodes c) "s" = false
     ∨ is_Some (cnicks c !! NickToLower (Nick sess)) →
     membersKnown i c → indexed i →
     ∃ reply' added,
       cmdWho i s reply msg
       = Some (i, sendUser s reply' (srvMsg i RPL_ENDOFWHO
                     [Nick sess; channelname; "End of /WHO list"]))
       ∧ Messages reply' = (Messages reply ++ added)%list
       ∧ length added = size (cnicks c)
       ∧ Forall (λ o, InterestingFor o = ForSessions {[s]}
                      ∧ irc.Command (Data o) = RPL_WHOREPLY) added).
Proof.
  intros Hs Hp Hc. split.
  - intros Hsecret Hnot. unfold cmdWho. rewrite Hs, Hp.
    cbn [mbind option_bind]. rewrite Hc, Hsecret, Hnot.
    rewrite bool_decide_eq_false_2 by (by intros [? ?]). reflexivity.
  - intros Hsee Hknown Hidx.
    destruct (whoNames i c Hknown Hidx) as (names & Hnames & Hlen & Hres).
    destruct (whoLoop i s (Nick sess) channelname (strings.Sort names)
                (λ y Hy, Hres y (proj1 (Sort_elem y names) Hy)) reply)
      as (r' & added & Hrun & Hadd & Hlen' & HP).
    exists r', added. split; [|split; [exact Hadd|split; [|exact HP]]].
    + unfold cmdWho. rewrite Hs, Hp. cbn [mbind option_bind]. rewrite Hc.
      assert (flag (cmodes c) "s"
              && negb (bool_decide (is_Some (cnicks c !! NickToLower (Nick sess))))
              = false) as ->.
      { destruct Hsee as [->|Hmem]; [done|].
        rewrite (bool_decide_eq_true_2 _ Hmem). apply andb_false_r. }
      rewrite Hnames. cbn [mbind option_bind]. rewrite Hrun. reflexivity.
    + by rewrite Hlen', Sort_length.
Qed.

(** Whatever [cmdWhois] adds is addressed to the requester. *)
Lemma cmdWhois_frame (i i' : IRCServer) (s : RobustId)
    (reply reply' : Replyctx) (msg : irc.Message) :
  cmdWhois i s reply msg = Some (i', reply') →
  i' = i
  ∧ ∃ added,
      Messages reply' = (Messages reply ++ added)%list
      ∧ added ≠ [] ∧ onlyTo s added.
Proof.
  unfold cmdWhois. destruct (heap i !! s) as [sess|]; [|done].
  cbn [mbind option_bind].
  destruct (irc.Params msg !! 0%nat) as [target|]; [|done].
  cbn [mbind option_bind].
  destruct (nicks i !! NickToLower target) as [id|].
  2:{ intros [= <- <-]. split; [done|]. eexists [_].
      split; [reflexivity|]. split; [done|]. by repeat constructor. }
  destruct (heap i !! id) as [session|]; [|done]. cbn [mbind option_bind].
  destruct (mapM _ _) as [found|]; [|done]. cbn [mbind option_bind].
  intros [= <- <-]. split; [done|].
  destruct (bool_decide (0 < _)%nat), (Operator session),
    (negb (bool_decide (AwayMsg session = ""))), (flag (smodes session) "r");
    (eexists; split;
     [cbn [sendUser send Messages]; rewrite <- ?app_assoc; reflexivity|];
     split; [done|]; by repeat constructor).
Qed.

(** X11. The queries PING, WHO, WHOIS, LIST, USERHOST, ISON, NAMES and MOTD
    read the directory and answer the requester: whenever one of them
    returns, the server is as it was, at least one reply has been added, and
    every reply added is addressed to the requesting session alone. *)
Theorem queries_answer_the_requester_only (h : handlerFn) (i i' : IRCServer)
    (s : RobustId) (reply reply' : Replyctx) (msg : irc.Message) :
  h ∈ [cmdPing; cmdWho; cmdWhois; cmdList; cmdUserhost; cmdIson; cmdNames;
       cmdMotd] →
  h i s reply msg = Some (i', reply') →
  i' = i
  ∧ ∃ added,
      Messages reply' = (Messages reply ++ added)%list
      ∧ added ≠ [] ∧ onlyTo s added.
Proof.
  assert (∀ r m, ∃ added,
            Messages (sendUser s r m) = (Messages r ++ added)%list
            ∧ added ≠ [] ∧ onlyTo s added) as Hone.
  { intros r m. eexists [_]. split; [reflexivity|]. split; [done|].
    by repeat constructor. }
  assert (∀ r r1 m added,
            Messages r1 = (Messages r ++ added)%list → onlyTo s added →
            ∃ added', Messages (sendUser s r1 m) = (Messages r ++ added')%list
                      ∧ added' ≠ [] ∧ onlyTo s added') as Hlast.
  { intros r r1 m added Hadd Honly. eexists (added ++ [_])%list. split.
    - cbn. rewrite Hadd. by rewrite <- app_assoc.
    - split; [by destruct added|].
      apply Forall_app. split; [exact Honly|]. by repeat constructor. }
  intros Hh Hrun.
  repeat (apply elem_of_cons in Hh as [->|Hh]); [..|by apply elem_of_nil in Hh].
  - (* PING *)
    unfold cmdPing in Hrun. destruct (heap i !! s) as [sess|]; [|done].
    cbn in Hrun. destruct (irc.Params msg); injection Hrun as <- <-;
      (split; [done|apply Hone]).
  - (* WHO *)
    unfold cmdWho in Hrun. destruct (heap i !! s) as [sess|]; [|done].
    cbn in Hrun. destruct (irc.Params msg) as [|channelname rest].
    { injection Hrun as <- <-. split; [done|apply Hone]. }
    destruct (channels i !! ChanToLower channelname) as [c|].
    2:{ injection Hrun as <- <-. split; [done|apply Hone]. }
    destruct (_ && _).
    { injection Hrun as <- <-. split; [done|apply Hone]. }
    destruct (mapM _ _) as [names|]; [|done]. cbn in Hrun.
    destruct (forEach _ _ _) as [r1|] eqn:Hloop; [|done]. cbn in Hrun.
    injection Hrun as <- <-. split; [done|].
    destruct (forEach_adds (λ o, InterestingFor o = ForSessions {[s]})
                (whoReply i s (Nick sess) channelname) (strings.Sort names))
      with (r := reply) (r' := r1) as (added & Hadd & Honly); [|exact Hloop|].
    { intros r x r' _ Hx. unfold whoReply in Hx.
      destruct (nicks i !! NickToLower x) as [id|]; [|done]. cbn in Hx.
      destruct (heap i !! id) as [session|]; [|done]. cbn in Hx.
      injection Hx as <-. eexists [_]. split; [reflexivity|].
      by repeat constructor. }
    by eapply Hlast.
  - (* WHOIS *)
    by eapply cmdWhois_frame.
  - (* LIST *)
    unfold cmdList in Hrun. destruct (heap i !! s) as [sess|]; [|done].
    cbn in Hrun. destruct (forEach _ _ _) as [r1|] eqn:Hloop; [|done].
    cbn in Hrun. injection Hrun as <- <-. split; [done|].
    destruct (forEach_adds (λ o, InterestingFor o = ForSessions {[s]})
                (listReply i s sess) (listed i (irc.Params msg)))
      with (r := reply) (r' := r1) as (added & Hadd & Honly); [|exact Hloop|].
    { intros r x r' _ Hx. unfold listReply in Hx.
      destruct (channels i !! x) as [c|]; [|done]. cbn in Hx.
      destruct (_ && _); injection Hx as <-.
      - exists []. by rewrite app_nil_r.
      - eexists [_]. split; [reflexivity|]. by repeat constructor. }
    by eapply Hlast.
  - (* USERHOST *)
    unfold cmdUserhost in Hrun. destruct (heap i !! s) as [sess|]; [|done].
    cbn in Hrun. destruct (mapM _ _); [|done]. cbn in Hrun.
    injection Hrun as <- <-. split; [done|apply Hone].
  - (* ISON *)
    unfold cmdIson in Hrun. destruct (heap i !! s) as [sess|]; [|done].
    cbn in Hrun. destruct (mapM _ _); [|done]. cbn in Hrun.
    injection Hrun as <- <-. split; [done|apply Hone].
  - (* NAMES *)
    unfold cmdNames in Hrun. destruct (heap i !! s) as [sess|]; [|done].
    cbn in Hrun.
    destruct (match irc.Params msg with
              | [] => None
              | channelname :: _ =>
                  match channels i !! ChanToLower channelname with
                  | Some c => Some (channelname, c)
                  | None => None
                  end
              end) as [[channelname c]|].
    2:{ injection Hrun as <- <-. split; [done|apply Hone]. }
    destruct (mapM _ _); [|done]. cbn in Hrun.
    injection Hrun as <- <-. split; [done|].
    destruct (Hone reply (srvMsg i irc.RPL_NAMREPLY
                [Nick sess; "="; channelname;
                 strings.Join (strings.Sort l) " "])) as (added & Hadd & _ & Honly).
    by eapply Hlast.
  - (* MOTD *)
    unfold cmdMotd in Hrun. destruct (heap i !! s) as [sess|]; [|done].
    cbn in Hrun. injection Hrun as <- <-. split; [done|].
    eexists [_; _; _]. split; [cbn; by rewrite <- !app_assoc|].
    split; [done|]. by repeat constructor.
Qed.

End Who.

(** [indexed], checked by evaluation. *)
Lemma indexed_check `{Env} (i : IRCServer) :
  forallb (λ np : lcNick * RobustId,
             match heap i !! np.2 with
             | Some member => bool_decide (NickToLower (Nick member) = np.1)
             | None => true
             end) (map_to_list (nicks i)) = true →
  indexed i.
Proof.
  intros Hall n id member Hn Hid.
  apply elem_of_map_to_list, list_elem_of_In in Hn.
  eapply forallb_forall in Hall; [|exact Hn]. cbn in Hall.
  rewrite Hid in Hall. by apply bool_decide_eq_true in Hall.
Qed.

Section WhoOnTheNetwork.

#[local] Existing Instance Example.env.
#[local] Existing Instance Scenario.outside.

Lemma who_lists_the_members_witness :
  let i := Scenario.hidden in
  let s := Example.bob in
  let sess := Example.user Example.bob "bob" {["#test"]} ∅ in
  let reply := Example.reply0 in
  let msg := Example.line "WHO" ["#test"] in
  let channelname := "#test" in
  let rest := [] in
  let c := mkChannel "#test" {["alice" := true; "bob" := false]}
    {["n"%char; "t"%char]} "" time.zero "" in
  heap i !! s = Some sess
  ∧ irc.Params msg = channelname :: rest
  ∧ channels i !! ChanToLower channelname = Some c
  ∧ (flag (cmodes c) "s" = false
     ∨ is_Some (cnicks c !! NickToLower (Nick sess)))
  ∧ membersKnown i c
  ∧ indexed i
  ∧ ((flag (cmodes c) "s" = true →
      cnicks c !! NickToLower (Nick sess) = None →
      cmdWho i s reply msg
      = Some (i, sendUser s reply (srvMsg i RPL_ENDOFWHO
                    [Nick sess; channelname; "End of /WHO list"])))
     ∧ (flag (cmodes c) "s" = false
        ∨ is_Some (cnicks c !! NickToLower (Nick sess)) →
        membersKnown i c → indexed i →
        ∃ reply' added,
          cmdWho i s reply msg
          = Some (i, sendUser s reply' (srvMsg i RPL_ENDOFWHO
                        [Nick sess; channelname; "End of /WHO list"]))
          ∧ Messages reply' = (Messages reply ++ added)%list
          ∧ length added = size (cnicks c)
          ∧ Forall (λ o, InterestingFor o = ForSessions {[s]}
                         ∧ irc.Command (Data o) = RPL_WHOREPLY) added)).
Proof.
  intros i s sess reply msg channelname rest c.
  assert (heap i !! s = Some sess) as H1
    by (reflexivity).
  assert (irc.Params msg = channelname :: rest) as H2
    by (reflexivity).
  assert (channels i !! ChanToLower channelname = Some c) as H3
    by (reflexivity).
  assert (flag (cmodes c) "s" = false
          ∨ is_Some (cnicks c !! NickToLower (Nick sess))) as I1
    by (left; vm_compute; reflexivity).
  assert (membersKnown i c) as I2
    by (apply membersKnown_check; vm_compute; reflexivity).
  assert (indexed i) as I3
    by (apply indexed_check; vm_compute; reflexivity).
  repeat (split; [assumption|]).
  exact (who_lists_the_members i s sess reply msg channelname rest c H1 H2 H3).
Defined.

Lemma queries_answer_the_requester_only_witness :
  let h := cmdIson in
  let i := Example.lobby in
  let i' := default Example.lobby
    (fst <$> cmdIson Example.lobby Example.alice
    Example.reply0
    (Example.line "ISON" ["bob"; "carol"])) in
  let s := Example.alice in
  let reply := Example.reply0 in
  let reply' := default Example.reply0
    (snd <$> cmdIson Example.lobby Example.alice
    Example.reply0
    (Example.line "ISON" ["bob"; "carol"])) in
  let msg := Example.line "ISON" ["bob"; "carol"] in
  h ∈ [cmdPing; cmdWho; cmdWhois; cmdList; cmdUserhost; cmdIson; cmdNames;
          cmdMotd]
  ∧ h i s reply msg = Some (i', reply')
  ∧ (i' = i
     ∧ ∃ added,
         Messages reply' = (Messages reply ++ added)%list
         ∧ added ≠ [] ∧ onlyTo s added).
Proof.
  intros h i i' s reply reply' msg.
  assert (h ∈ [cmdPing; cmdWho; cmdWhois; cmdList; cmdUserhost; cmdIson; cmdNames;
               cmdMotd]) as H1
    by (repeat constructor).
  assert (h i s reply msg = Some (i', reply')) as H2
    by (vm_compute; reflexivity).
  repeat (split; [assumption|]).
  exact (queries_answer_the_requester_only h i i' s reply reply' msg H1 H2).
Defined.

End WhoOnTheNetwork.

Section Whois.

Context {E : Env} {O : Outside}.

(** What [whoisChannel] gives for a channel of the session asked about. *)
Lemma whoisChannel_spec (i : IRCServer) (sess session : Session) (k : lcChan)
    (c : channel) (perms : bool) :
  channels i !! k = Some c →
  cnicks c !! NickToLower (Nick session) = Some perms →
  (visibleTo sess k c →
   whoisChannel i sess session k
   = Some (Some ((if perms then "@" else "") +:+ name c)))
  ∧ (¬ visibleTo sess k c → whoisChannel i sess session k = Some None).
Proof.
  intros Hc Hp. unfold whoisChannel, visibleTo. rewrite Hc.
  cbn [mbind option_bind]. rewrite Hp. cbn [mbind option_bind].
  destruct (flag (cmodes c) "s"), (Operator sess),
    (bool_decide_reflect (k ∈ Channels sess)); cbn; split; try done;
    intros H; exfalso; try (apply H; auto; fail);
    destruct H as [H|[H|H]]; done.
Qed.

(** A reply of [cmdWhois] whose command is not RPL_WHOISCHANNELS. *)
Ltac other_reply H :=
  cbv [irc.Command Data srvMsg RPL_WHOISCHANNELS RPL_WHOISUSER
       RPL_WHOISSERVER RPL_WHOISOPERATOR irc.RPL_AWAY RPL_WHOISIDLE
       RPL_ENDOFWHOIS] in H;
  discriminate H.

(** X12. WHOIS does not give away a secret channel. In a directory in which
    the session asked about is a member of each channel of its channel set,
    WHOIS returns, leaves the server as it was and answers the requester
    alone; the one RPL_WHOISCHANNELS reply it may send lists, each behind [@]
    for a channel operator, exactly the channels of the session asked about
    that are not secret, or that the requester is on, or the requester is an
    IRC operator; and it is sent whenever there is such a channel. *)
Theorem whois_hides_secret_channels (i : IRCServer) (s id : RobustId)
    (sess session : Session) (reply : Replyctx) (msg : irc.Message)
    (target : string) :
  heap i !! s = Some sess →
  irc.Params msg !! 0%nat = Some target →
  nicks i !! NickToLower target = Some id →
  heap i !! id = Some session →
  (∀ k, k ∈ Channels session →
     ∃ c, channels i !! k = Some c
          ∧ is_Some (cnicks c !! NickToLower (Nick session))) →
  ∃ reply' added names,
    cmdWhois i s reply msg = Some (i, reply')
    ∧ Messages reply' = (Messages reply ++ added)%list
    ∧ onlyTo s added
    ∧ (∀ nm, nm ∈ names ↔
         ∃ k c perms,
           k ∈ Channels session ∧ channels i !! k = Some c
           ∧ visibleTo sess k c
           ∧ cnicks c !! NickToLower (Nick session) = Some perms
           ∧ nm = (if perms : bool then "@" else "") +:+ name c)
    ∧ (∀ o, o ∈ added → irc.Command (Data o) = RPL_WHOISCHANNELS →
         Data o = srvMsg i RPL_WHOISCHANNELS
                    [Nick sess; Nick session; strings.Join names " "])
    ∧ (names ≠ [] →
       ∃ o, o ∈ added
            ∧ Data o = srvMsg i RPL_WHOISCHANNELS
                         [Nick sess; Nick session; strings.Join names " "]).
Proof.
  intros Hs Hp Hindex Hid Hon.
  assert (is_Some (mapM (whoisChannel i sess session)
                     (elements (Channels session)))) as [found Hfound].
  { apply mapM_is_Some, Forall_forall. intros k Hk. apply elem_of_elements in Hk.
    destruct (Hon k Hk) as (c & Hc & [perms Hperms]). unfold compose.
    destruct (whoisChannel_spec i sess session k c perms Hc Hperms) as [Hv Hh].
    destruct (decide (visibleTo sess k c)) as [Hvis|Hhid].
    - rewrite (Hv Hvis). by eexists.
    - rewrite (Hh Hhid). by eexists. }
  set (names := strings.Sort (omap (λ x, x) found)).
  assert (∀ nm, nm ∈ names ↔
            ∃ k c perms,
              k ∈ Channels session ∧ channels i !! k = Some c
              ∧ visibleTo sess k c
              ∧ cnicks c !! NickToLower (Nick session) = Some perms
              ∧ nm = (if perms : bool then "@" else "") +:+ name c) as Hnames.
  { intros nm. subst names. rewrite Sort_elem, list_elem_of_omap.
    apply mapM_Some in Hfound. split.
    - intros (x & Hx & ->).
      apply list_elem_of_lookup in Hx as [j Hj].
      destruct (Forall2_lookup_r _ _ _ _ _ Hfound Hj) as (k & Hk & Hrun).
      assert (k ∈ Channels session) as Hin
        by (apply elem_of_elements, list_elem_of_lookup; by eexists).
      destruct (Hon k Hin) as (c & Hc & [perms Hperms]).
      destruct (whoisChannel_spec i sess session k c perms Hc Hperms)
        as [Hv Hh].
      destruct (decide (visibleTo sess k c)) as [Hvis|Hhid].
      + rewrite (Hv Hvis) in Hrun. injection Hrun as <-.
        by exists k, c, perms.
      + by rewrite (Hh Hhid) in Hrun.
    - intros (k & c & perms & Hin & Hc & Hvis & Hperms & ->).
      apply elem_of_elements, list_elem_of_lookup in Hin as [j Hj].
      destruct (Forall2_lookup_l _ _ _ _ _ Hfound Hj) as (x & Hx & Hrun).
      rewrite (proj1 (whoisChannel_spec i sess session k c perms Hc Hperms)
                 Hvis) in Hrun.
      injection Hrun as <-. eexists. split; [|reflexivity].
      apply list_elem_of_lookup. by eexists. }
  unfold cmdWhois. rewrite Hs. cbn [mbind option_bind]. rewrite Hp.
  cbn [mbind option_bind]. rewrite Hindex, Hid. cbn [mbind option_bind].
  rewrite Hfound. cbn [mbind option_bind]. fold names.
  destruct (bool_decide (0 < length names)%nat) eqn:Hsome.
  - destruct (Operator session),
      (negb (bool_decide (AwayMsg session = ""))), (flag (smodes session) "r");
      (eexists _, _, names; split; [reflexivity|]; split;
       [cbn [sendUser send Messages]; rewrite <- ?app_assoc; reflexivity|];
       split; [by repeat constructor|]; split; [exact Hnames|]; split;
       [intros o Ho Hcmd; cbn [app] in Ho;
        repeat (apply elem_of_cons in Ho as [->|Ho];
                [first [reflexivity | other_reply Hcmd]|]);
        by apply elem_of_nil in Ho
       |intros _; eexists; split;
        [cbn [app]; apply elem_of_cons; right; apply elem_of_cons; by left
        |reflexivity]]).
  - assert (names = []) as Hnone.
    { destruct names as [|n l]; [done|]. cbn in Hsome.
      apply bool_decide_eq_false in Hsome. lia. }
    destruct (Operator session),
      (negb (bool_decide (AwayMsg session = ""))), (flag (smodes session) "r");
      (eexists _, _, names; split; [reflexivity|]; split;
       [cbn [sendUser send Messages]; rewrite <- ?app_assoc; reflexivity|];
       split; [by repeat constructor|]; split; [exact Hnames|]; split;
       [intros o Ho Hcmd; cbn [app] in Ho;
        repeat (apply elem_of_cons in Ho as [->|Ho]; [other_reply Hcmd|]);
        by apply elem_of_nil in Ho
       |by intros ?]).
Qed.

End Whois.

(** The hypothesis of the statement on WHOIS, checked by evaluation. *)
Lemma whois_check `{Env} (i : IRCServer) (session : Session) :
  forallb (λ k, match channels i !! k with
                | Some c =>
                    bool_decide (is_Some (cnicks c !! NickToLower (Nick session)))
                | None => false
                end) (elements (Channels session)) = true →
  ∀ k, k ∈ Channels session →
    ∃ c, channels i !! k = Some c
         ∧ is_Some (cnicks c !! NickToLower (Nick session)).
Proof.
  intros Hall k Hk. apply elem_of_elements, list_elem_of_In in Hk.
  eapply forallb_forall in Hall; [|exact Hk].
  destruct (channels i !! k) as [c|]; [|done].
  exists c. split; [done|]. by apply bool_decide_eq_true in Hall.
Qed.

Section WhoisOnTheNetwork.

#[local] Existing Instance Example.env.
#[local] Existing Instance Scenario.outside.

Lemma whois_hides_secret_channels_witness :
  let i := Scenario.hidden in
  let s := Example.bob in
  let id := Example.alice in
  let sess := Example.user Example.bob "bob" {["#test"]} ∅ in
  let session := Example.user Example.alice "Alice" {["#ops"; "#test"]} ∅ in
  let reply := Example.reply0 in
  let msg := Example.line "WHOIS" ["alice"] in
  let target := "alice" in
  heap i !! s = Some sess
  ∧ irc.Params msg !! 0%nat = Some target
  ∧ nicks i !! NickToLower target = Some id
  ∧ heap i !! id = Some session
  ∧ ((∀ k, k ∈ Channels session →
        ∃ c, channels i !! k = Some c
             ∧ is_Some (cnicks c !! NickToLower (Nick session))))
  ∧ (∃ reply' added names,
       cmdWhois i s reply msg = Some (i, reply')
       ∧ Messages reply' = (Messages reply ++ added)%list
       ∧ onlyTo s added
       ∧ (∀ nm, nm ∈ names ↔
            ∃ k c perms,
              k ∈ Channels session ∧ channels i !! k = Some c
              ∧ visibleTo sess k c
              ∧ cnicks c !! NickToLower (Nick session) = Some perms
              ∧ nm = (if perms : bool then "@" else "") +:+ name c)
       ∧ (∀ o, o ∈ added → irc.Command (Data o) = RPL_WHOISCHANNELS →
            Data o = srvMsg i RPL_WHOISCHANNELS
                       [Nick sess; Nick session; strings.Join names " "])
       ∧ (names ≠ [] →
          ∃ o, o ∈ added
               ∧ Data o = srvMsg i RPL_WHOISCHANNELS
                            [Nick sess; Nick session; strings.Join names " "])).
Proof.
  intros i s id sess session reply msg target.
  assert (heap i !! s = Some sess) as H1
    by (reflexivity).
  assert (irc.Params msg !! 0%nat = Some target) as H2
    by (reflexivity).
  assert (nicks i !! NickToLower target = Some id) as H3
    by (reflexivity).
  assert (heap i !! id = Some session) as H4
    by (reflexivity).
  assert ((∀ k, k ∈ Channels session →
             ∃ c, channels i !! k = Some c
                  ∧ is_Some (cnicks c !! NickToLower (Nick session)))) as H5
    by (apply whois_check; vm_compute; reflexivity).
  repeat (split; [assumption|]).
  exact (whois_hides_secret_channels i s id sess session reply msg target H1 H2 H3 H4 H5).
Defined.

End WhoisOnTheNetwork.

(** ** Messages between sessions *)

Section Messaging.

Context {E : Env} {O : Outside}.

(** The loop of [cmdPrivmsg] over the channels of the addressee finds a
    channel the sender is on exactly when there is one. *)
Lemma shareChannel_spec (session s : Session) :
  shareChannel session s = true
  ↔ ∃ k, k ∈ Channels session ∧ k ∈ Channels s.
Proof.
  unfold shareChannel. rewrite existsb_exists. split.
  - intros (k & Hk & Hin). apply list_elem_of_In, elem_of_elements in Hk.
    apply bool_decide_eq_true in Hin. by exists k.
  - intros (k & Hk & Hin). exists k. split.
    + by apply list_elem_of_In, elem_of_elements.
    + by apply bool_decide_eq_true.
Qed.

(** X13. An away message is told to those who write to the session. AWAY
    stores the trimmed text in the session, changes nothing else and answers
    RPL_NOWAWAY, or RPL_UNAWAY when the text is empty. Afterwards a PRIVMSG
    to the (visible) session is delivered to it and, when the stored text is
    not empty, answered to the sender with RPL_AWAY carrying the text; a
    NOTICE is delivered and never answered. *)
Theorem away_is_told_to_senders (i : IRCServer) (s : RobustId) (sess : Session)
    (reply : Replyctx) (from : option irc.Prefix) (text : string) :
  heap i !! s = Some sess →
  flag (smodes sess) "i" = false →
  ∃ i1 sess1,
    cmdAway i s reply (irc.mkMessage from "AWAY" [text])
    = Some (i1, sendUser s reply
                  (if bool_decide (TrimSpace text = "") then
                     srvMsg i RPL_UNAWAY
                       [Nick sess; "You are no longer marked as being away"]
                   else
                     srvMsg i RPL_NOWAWAY
                       [Nick sess; "You have been marked as being away"]))
    ∧ heap i1 !! s = Some sess1
    ∧ sess1 = setAwayMsg (TrimSpace text) sess
    ∧ (∀ t, t ≠ s → heap i1 !! t = heap i !! t)
    ∧ nicks i1 = nicks i ∧ channels i1 = channels i
    ∧ ∀ (sender : RobustId) (snd : Session) (r : Replyctx)
        (from' : option irc.Prefix) (target body : string),
        heap i1 !! sender = Some snd →
        String.prefix "#" target = false →
        nicks i !! NickToLower target = Some s →
        cmdPrivmsg i1 sender r (irc.mkMessage from' irc.PRIVMSG [target; body])
        = Some (i1,
            let delivered :=
              sendUser s r (irc.mkMessage (Some (ircPrefix snd)) irc.PRIVMSG
                              [target; body]) in
            if bool_decide (TrimSpace text = "") then delivered
            else sendUser sender delivered (srvMsg i irc.RPL_AWAY
                   [Nick snd; target; TrimSpace text]))
        ∧ cmdPrivmsg i1 sender r (irc.mkMessage from' irc.NOTICE [target; body])
          = Some (i1, sendUser s r (irc.mkMessage (Some (ircPrefix snd))
                                      irc.NOTICE [target; body])).
Proof.
  intros Hs Hvis.
  set (f := setAwayMsg (TrimSpace text)).
  assert (heap (updSession s f i) !! s = Some (f sess)) as Hs1
    by exact (updSession_lookup i s f sess Hs).
  exists (updSession s f i), (f sess). split; [|split; [exact Hs1|]].
  { unfold cmdAway. rewrite Hs. cbn [mbind option_bind].
    change (irc.Trailing (irc.mkMessage from "AWAY" [text])) with text.
    fold f. rewrite Hs1. cbn [mbind option_bind AwayMsg f setAwayMsg].
    by destruct (bool_decide (TrimSpace text = "")). }
  split; [reflexivity|]. split.
  { intros t Ht. by apply updSession_lookup_ne. }
  split; [reflexivity|]. split; [reflexivity|].
  intros sender snd r from' target body Hsnd Hprefix Hnick.
  assert (∀ cmd, cmdPrivmsg (updSession s f i) sender r
                   (irc.mkMessage from' cmd [target; body])
                 = Some (updSession s f i,
                     let delivered :=
                       sendUser s r (irc.mkMessage (Some (ircPrefix snd)) cmd
                                       [target; body]) in
                     if negb (bool_decide (TrimSpace text = ""))
                        && bool_decide (cmd = irc.PRIVMSG)
                     then sendUser sender delivered (srvMsg i irc.RPL_AWAY
                            [Nick snd; target; TrimSpace text])
                     else delivered)) as Hsend.
  { intros cmd. unfold cmdPrivmsg. rewrite Hsnd.
    cbn [mbind option_bind irc.Params]. rewrite Hprefix.
    assert (nicks (updSession s f i) !! NickToLower target = Some s) as ->
      by exact Hnick.
    rewrite Hs1. cbn [mbind option_bind].
    assert (flag (smodes (f sess)) "i" = false) as -> by exact Hvis.
    cbn [andb AwayMsg f setAwayMsg irc.Command].
    by destruct (negb _ && _). }
  split.
  - rewrite Hsend. rewrite (bool_decide_eq_true_2 (irc.PRIVMSG = irc.PRIVMSG) eq_refl).
    rewrite andb_true_r. by destruct (bool_decide (TrimSpace text = "")).
  - rewrite Hsend.
    rewrite (bool_decide_eq_false_2 (irc.NOTICE = irc.PRIVMSG)) by done.
    by rewrite andb_false_r.
Qed.

(** X14. Who gets a PRIVMSG or NOTICE, and who does not. The handler leaves
    the server as it was. A message to a nickname of the index goes to that
    session and is dropped without any reply exactly when the session is
    invisible (user mode [i]) and shares no channel with the sender; a
    message to a channel with mode [n] from a session that is not on it is
    refused with ERR_CANNOTSENDTOCHAN, to the sender alone. *)
Theorem privmsg_reaches_whom_it_may (i : IRCServer) (s : RobustId)
    (sess : Session) (reply : Replyctx) (msg : irc.Message)
    (target text : string) (rest : list string) :
  heap i !! s = Some sess →
  irc.Params msg = target :: text :: rest →
  (∀ to session,
     String.prefix "#" target = false →
     nicks i !! NickToLower target = Some to →
     heap i !! to = Some session →
     ∃ reply',
       cmdPrivmsg i s reply msg = Some (i, reply')
       ∧ (flag (smodes session) "i" = true
          ∧ ¬ (∃ k, k ∈ Channels session ∧ k ∈ Channels sess) →
          reply' = reply)
       ∧ (¬ (flag (smodes session) "i" = true
             ∧ ¬ (∃ k, k ∈ Channels session ∧ k ∈ Channels sess)) →
          ∃ o, firstNew reply reply' = Some o
               ∧ InterestingFor o = ForSessions {[to]}
               ∧ Data o = irc.mkMessage (Some (ircPrefix sess)) (irc.Command msg)
                            [target; irc.Trailing msg]))
  ∧ (∀ c,
       String.prefix "#" target = true →
       channels i !! ChanToLower target = Some c →
       flag (cmodes c) "n" = true →
       cnicks c !! NickToLower (Nick sess) = None →
       cmdPrivmsg i s reply msg
       = Some (i, sendUser s reply (srvMsg i ERR_CANNOTSENDTOCHAN
                     [Nick sess; name c; "Cannot send to channel"]))).
Proof.
  intros Hs Hp. split.
  - intros to session Hprefix Hto Hsession.
    unfold cmdPrivmsg. rewrite Hs, Hp. cbn [mbind option_bind].
    rewrite Hprefix, Hto, Hsession. cbn [mbind option_bind].
    match goal with
    | |- ∃ reply', (if ?inv then _ else ?deliver) = _ ∧ _ =>
        assert (∃ reply',
                  deliver = Some (i, reply')
                  ∧ ∃ o, firstNew reply reply' = Some o
                         ∧ InterestingFor o = ForSessions {[to]}
                         ∧ Data o = irc.mkMessage (Some (ircPrefix sess))
                                      (irc.Command msg) [target; irc.Trailing msg])
          as (r1 & Hdeliver & Hfirst)
    end.
    { destruct (negb _ && _); eexists; (split; [reflexivity|]); eexists.
      - split; [eapply firstNew_app; cbn; rewrite <- app_assoc; reflexivity|done].
      - split; [eapply firstNew_app; cbn; reflexivity|done]. }
    rewrite Hdeliver.
    destruct (flag (smodes session) "i") eqn:Hi;
      [destruct (shareChannel session sess) eqn:Hshare|]; cbn [andb negb].
    + exists r1. split; [reflexivity|]. split; [|done].
      intros [_ Hno]. destruct Hno. by apply shareChannel_spec.
    + exists reply. split; [reflexivity|]. split; [done|].
      intros Hno. destruct Hno. split; [done|].
      intros Hk. apply shareChannel_spec in Hk. congruence.
    + exists r1. split; [reflexivity|]. split; [by intros [? _]|done].
  - intros c Hprefix Hc Hn Hnot.
    unfold cmdPrivmsg. rewrite Hs, Hp. cbn [mbind option_bind].
    rewrite Hprefix, Hc, Hnot, Hn.
    rewrite bool_decide_eq_false_2 by (by intros [? ?]). reflexivity.
Qed.

End Messaging.

Section MessagingOnTheNetwork.

#[local] Existing Instance Example.env.
#[local] Existing Instance Scenario.outside.

Lemma away_is_told_to_senders_witness :
  let i := Example.both in
  let s := Example.alice in
  let sess := Example.user Example.alice "Alice" {["#test"]} ∅ in
  let reply := Example.reply0 in
  let from := None in
  let text := " gone fishing " in
  let sender := Example.bob in
  let snd := Example.user Example.bob "bob" {["#test"]} ∅ in
  let target := "Alice" in
  heap i !! s = Some sess
  ∧ flag (smodes sess) "i" = false
  ∧ heap i !! sender = Some snd
  ∧ String.prefix "#" target = false
  ∧ nicks i !! NickToLower target = Some s
  ∧ (∃ i1 sess1,
       cmdAway i s reply (irc.mkMessage from "AWAY" [text])
       = Some (i1, sendUser s reply
                     (if bool_decide (TrimSpace text = "") then
                        srvMsg i RPL_UNAWAY
                          [Nick sess; "You are no longer marked as being away"]
                      else
                        srvMsg i RPL_NOWAWAY
                          [Nick sess; "You have been marked as being away"]))
       ∧ heap i1 !! s = Some sess1
       ∧ sess1 = setAwayMsg (TrimSpace text) sess
       ∧ (∀ t, t ≠ s → heap i1 !! t = heap i !! t)
       ∧ nicks i1 = nicks i ∧ channels i1 = channels i
       ∧ ∀ (sender : RobustId) (snd : Session) (r : Replyctx)
           (from' : option irc.Prefix) (target body : string),
           heap i1 !! sender = Some snd →
           String.prefix "#" target = false →
           nicks i !! NickToLower target = Some s →
           cmdPrivmsg i1 sender r (irc.mkMessage from' irc.PRIVMSG [target; body])
           = Some (i1,
               let delivered :=
                 sendUser s r (irc.mkMessage (Some (ircPrefix snd)) irc.PRIVMSG
                                 [target; body]) in
               if bool_decide (TrimSpace text = "") then delivered
               else sendUser sender delivered (srvMsg i irc.RPL_AWAY
                      [Nick snd; target; TrimSpace text]))
           ∧ cmdPrivmsg i1 sender r (irc.mkMessage from' irc.NOTICE [target; body])
             = Some (i1, sendUser s r (irc.mkMessage (Some (ircPrefix snd))
                                         irc.NOTICE [target; body]))).
Proof.
  intros i s sess reply from text sender snd target.
  assert (heap i !! s = Some sess) as H1
    by (reflexivity).
  assert (flag (smodes sess) "i" = false) as H2
    by (vm_compute; reflexivity).
  assert (heap i !! sender = Some snd) as I1
    by (reflexivity).
  assert (String.prefix "#" target = false) as I2
    by (reflexivity).
  assert (nicks i !! NickToLower target = Some s) as I3
    by (reflexivity).
  repeat (split; [assumption|]).
  exact (away_is_told_to_senders i s sess reply from text H1 H2).
Defined.

Lemma privmsg_reaches_whom_it_may_witness :
  let i := Example.both in
  let s := Example.alice in
  let sess := Example.user Example.alice "Alice" {["#test"]} ∅ in
  let reply := Example.reply0 in
  let msg := Example.line "PRIVMSG" ["bob"; "hello"] in
  let target := "bob" in
  let text := "hello" in
  let rest := [] in
  let to := Example.bob in
  let session := Example.user Example.bob "bob" {["#test"]} ∅ in
  heap i !! s = Some sess
  ∧ irc.Params msg = target :: text :: rest
  ∧ String.prefix "#" target = false
  ∧ nicks i !! NickToLower target = Some to
  ∧ heap i !! to = Some session
  ∧ ((∀ to session,
        String.prefix "#" target = false →
        nicks i !! NickToLower target = Some to →
        heap i !! to = Some session →
        ∃ reply',
          cmdPrivmsg i s reply msg = Some (i, reply')
          ∧ (flag (smodes session) "i" = true
             ∧ ¬ (∃ k, k ∈ Channels session ∧ k ∈ Channels sess) →
             reply' = reply)
          ∧ (¬ (flag (smodes session) "i" = true
                ∧ ¬ (∃ k, k ∈ Channels session ∧ k ∈ Channels sess)) →
             ∃ o, firstNew reply reply' = Some o
                  ∧ InterestingFor o = ForSessions {[to]}
                  ∧ Data o = irc.mkMessage (Some (ircPrefix sess)) (irc.Command msg)
                               [target; irc.Trailing msg]))
     ∧ (∀ c,
          String.prefix "#" target = true →
          channels i !! ChanToLower target = Some c →
          flag (cmodes c) "n" = true →
          cnicks c !! NickToLower (Nick sess) = None →
          cmdPrivmsg i s reply msg
          = Some (i, sendUser s reply (srvMsg i ERR_CANNOTSENDTOCHAN
                        [Nick sess; name c; "Cannot send to channel"])))).
Proof.
  intros i s sess reply msg target text rest to session.
  assert (heap i !! s = Some sess) as H1
    by (reflexivity).
  assert (irc.Params msg = target :: text :: rest) as H2
    by (reflexivity).
  assert (String.prefix "#" target = false) as I1
    by (reflexivity).
  assert (nicks i !! NickToLower target = Some to) as I2
    by (reflexivity).
  assert (heap i !! to = Some session) as I3
    by (reflexivity).
  repeat (split; [assumption|]).
  exact (privmsg_reaches_whom_it_may i s sess reply msg target text rest H1 H2).
Defined.

End MessagingOnTheNetwork.

(** ** Registration *)

Section Registration.

Context {E : Env} {O : Outside}.

Lemma prefix_nickserv (p : string) :
  String.prefix "nickserv=" ("nickserv=" +:+ p) = true.
Proof. cbv [append]. cbn. by destruct p. Qed.

Lemma keyedPass_keyed (old : string) (params : list string) :
  ∃ key, key ∈ passKeys ∧ String.prefix key (keyedPass old params) = true.
Proof.
  unfold keyedPass.
  set (pass := if bool_decide (0 < length params)%nat
               then strings.Join params " " else old).
  destruct (forallb (λ key, negb (String.prefix key pass)) passKeys) eqn:Hall.
  - exists "nickserv=". split; [by left|]. apply prefix_nickserv.
  - apply not_true_iff_false in Hall. rewrite forallb_forall in Hall.
    destruct (existsb (λ key, String.prefix key pass) passKeys) eqn:Hex.
    + apply existsb_exists in Hex as (key & Hkey & Hp).
      exists key. split; [by apply list_elem_of_In|exact Hp].
    + destruct Hall. intros key Hkey. apply negb_true_iff.
      apply not_true_iff_false. intros Hp.
      apply not_true_iff_false in Hex. apply Hex.
      apply existsb_exists. by exists key.
Qed.

(** X15. The password PASS stores always names its purpose. The parameters
    of PASS, joined by spaces (the password already stored when there is no
    parameter), are stored as they are when they start with one of the keys
    [nickserv=], [services=], [network=], [oper=], [session=], [captcha=],
    and behind [nickserv=] otherwise; so the stored password starts with one
    of the keys. For a session that cannot log in yet (no nickname or no
    username) or is logged in already, PASS does nothing else and sends
    nothing. *)
Theorem pass_is_stored_under_a_key (i : IRCServer) (s : RobustId)
    (sess : Session) (reply : Replyctx) (msg : irc.Message) :
  heap i !! s = Some sess →
  loggedIn sess = true ∨ Nick sess = "" ∨ Username sess = "" →
  let given :=
    if bool_decide (0 < length (irc.Params msg))%nat
    then strings.Join (irc.Params msg) " " else Pass sess in
  let stored := keyedPass (Pass sess) (irc.Params msg) in
  cmdPass i s reply msg = Some (updSession s (setPass stored) i, reply)
  ∧ (∃ key, key ∈ passKeys ∧ String.prefix key stored = true)
  ∧ ((∃ key, key ∈ passKeys ∧ String.prefix key given = true) → stored = given)
  ∧ ((∀ key, key ∈ passKeys → String.prefix key given = false) →
     stored = "nickserv=" +:+ given).
Proof.
  intros Hs Hcannot given stored. split; [|split; [|split]].
  - unfold cmdPass. rewrite Hs. cbn [mbind option_bind]. fold stored.
    unfold maybeLogin.
    rewrite (updSession_lookup i s (setPass stored) sess Hs).
    cbn [mbind option_bind loggedIn Nick Username setPass].
    destruct (loggedIn sess); [reflexivity|].
    destruct Hcannot as [?|[Hn|Hu]]; [done| |].
    + by rewrite (bool_decide_eq_true_2 _ Hn).
    + rewrite (bool_decide_eq_true_2 _ Hu). by rewrite orb_true_r.
  - apply keyedPass_keyed.
  - intros (key & Hkey & Hp). unfold stored, keyedPass. fold given.
    destruct (forallb _ _) eqn:Hall; [|reflexivity].
    rewrite forallb_forall in Hall.
    specialize (Hall key (proj1 (list_elem_of_In _ _) Hkey)).
    by rewrite Hp in Hall.
  - intros Hnone. unfold stored, keyedPass. fold given.
    destruct (forallb _ _) eqn:Hall; [reflexivity|].
    apply not_true_iff_false in Hall. destruct Hall.
    apply forallb_forall. intros key Hkey.
    by rewrite (Hnone key (proj2 (list_elem_of_In _ _) Hkey)).
Qed.

(** What a successful OPER inside the login sequence keeps. *)
Lemma cmdOper_keeps (i : IRCServer) (s : RobustId) (reply : Replyctx)
    (msg : irc.Message) (sess : Session) :
  heap i !! s = Some sess → (1 < length (irc.Params msg))%nat →
  ∃ i' reply' sess' added,
    cmdOper i s reply msg = Some (i', reply')
    ∧ heap i' !! s = Some sess'
    ∧ loggedIn sess' = loggedIn sess
    ∧ Username sess' = Username sess ∧ Realname sess' = Realname sess
    ∧ Messages reply' = (Messages reply ++ added)%list.
Proof.
  intros Hs Hlen. unfold cmdOper. rewrite Hs.
  destruct (irc.Params msg) as [|name [|password rest]]; cbn in Hlen; try lia.
  cbn [lookup list_lookup mbind option_bind].
  destruct (existsb _ _); cbn [negb].
  - rewrite (updSession_lookup _ _ _ _ Hs). cbn [mbind option_bind].
    eexists _, _, _, [_; _; _]. split; [reflexivity|].
    split; [exact (updSession_lookup _ _ _ _ Hs)|].
    do 3 (split; [reflexivity|]).
    cbn. by rewrite <- !app_assoc.
  - eexists _, _, _, [_]. split; [reflexivity|]. split; [exact Hs|].
    by repeat split.
Qed.

(** X16. A session is logged in once it has a nickname and a username, not
    before. USER from a session without a nickname records the username and
    the real name and sends nothing, and the session stays logged out; so
    does NICK from a session without a username. USER from a session that
    has a nickname (no captcha being required) logs the session in: the
    first reply is RPL_WELCOME to the session, and the stored password is
    cleared. *)
Theorem login_needs_nick_and_user (i : IRCServer) (s : RobustId)
    (sess : Session) (reply : Replyctx) (from : option irc.Prefix) :
  heap i !! s = Some sess →
  loggedIn sess = false →
  (∀ username mode unused realname,
     Nick sess = "" →
     ∃ i' sess',
       cmdUser i s reply
         (irc.mkMessage from "USER" [username; mode; unused; realname])
       = Some (i', reply)
       ∧ heap i' !! s = Some sess'
       ∧ loggedIn sess' = false
       ∧ Username sess' = username ∧ Realname sess' = realname)
  ∧ (∀ nick,
       Nick sess = "" → Username sess = "" → NickToLower "" = "" →
       nick ≠ "" → IsValidNickname nick = true →
       IsServicesNickname nick = false →
       nicks i !! NickToLower nick = None →
       svsholds i !! NickToLower nick = None →
       ∃ i' sess',
         cmdNick i s reply (irc.mkMessage from "NICK" [nick]) = Some (i', reply)
         ∧ heap i' !! s = Some sess'
         ∧ loggedIn sess' = false ∧ Nick sess' = nick
         ∧ nicks i' !! NickToLower nick = Some s)
  ∧ (∀ username mode unused realname,
       Nick sess ≠ "" → username ≠ "" → captchaRequiredForLogin = false →
       ∃ i' reply' sess' welcome,
         cmdUser i s reply
           (irc.mkMessage from "USER" [username; mode; unused; realname])
         = Some (i', reply')
         ∧ heap i' !! s = Some sess'
         ∧ loggedIn sess' = true ∧ Pass sess' = ""
         ∧ Username sess' = username ∧ Realname sess' = realname
         ∧ firstNew reply reply' = Some welcome
         ∧ InterestingFor welcome = ForSessions {[s]}
         ∧ Data welcome = srvMsg i irc.RPL_WELCOME
                            [Nick sess; "Welcome to RobustIRC!"]).
Proof.
  intros Hs Hout.
  assert (∀ username realname,
            let j := updSession s updateIrcPrefix
                       (updSession s (setRealname realname)
                          (updSession s (setUsername username) i)) in
            heap j !! s
            = Some (updateIrcPrefix (setRealname realname (setUsername username sess))))
    as Hrec.
  { intros username realname. cbn. by rewrite !lookup_alter_eq, Hs. }
  split; [|split].
  - intros username mode unused realname Hnick.
    eexists _, _. split; [|split; [exact (Hrec username realname)|by split]].
    unfold cmdUser. rewrite Hs. cbn [irc.Params].
    cbn [lookup list_lookup mbind option_bind].
    change (irc.Trailing (irc.mkMessage from "USER" [username; mode; unused; realname]))
      with realname.
    unfold maybeLogin. rewrite (Hrec username realname).
    cbn [mbind option_bind].
    change (loggedIn (updateIrcPrefix _)) with (loggedIn sess).
    change (Nick (updateIrcPrefix _)) with (Nick sess).
    rewrite Hout, Hnick. reflexivity.
  - intros nick Hnick Huser Hfold Hne Hvalid Hserv Hfree Hhold.
    set (j := updSession s updateIrcPrefix
                (setNicks (<[NickToLower nick := s]> (nicks (updSession s (setNick nick) i)))
                   (updSession s (setNick nick) i))).
    assert (heap j !! s = Some (updateIrcPrefix (setNick nick sess))) as Hj.
    { cbn. by rewrite !lookup_alter_eq, Hs. }
    exists j, (updateIrcPrefix (setNick nick sess)).
    split; [|split; [exact Hj|]].
    + unfold cmdNick. rewrite Hs. cbn [irc.Params].
      cbn [lookup list_lookup mbind option_bind from_option id].
      rewrite (bool_decide_eq_false_2 _ Hne), Hvalid, Hserv, Hout, Hfree.
      cbn [negb andb orb]. rewrite bool_decide_eq_false_2 by (by intros [? ?]).
      cbn [andb orb]. rewrite Hhold, Hnick, Hfold.
      rewrite (bool_decide_eq_true_2 ("" = "") eq_refl). cbn [negb andb].
      fold j. unfold maybeLogin. rewrite Hj. cbn [mbind option_bind].
      change (loggedIn (updateIrcPrefix _)) with (loggedIn sess).
      change (Username (updateIrcPrefix _)) with (Username sess).
      rewrite Hout, Huser.
      rewrite (bool_decide_eq_true_2 ("" = "") eq_refl), orb_true_r.
      reflexivity.
    + split; [exact Hout|]. split; [reflexivity|]. cbn.
      by rewrite lookup_insert_eq.
  - intros username mode unused realname Hnick Huser Hcaptcha.
    set (sess1 := updateIrcPrefix (setRealname realname (setUsername username sess))).
    set (i1 := updSession s updateIrcPrefix
                 (updSession s (setRealname realname)
                    (updSession s (setUsername username) i))).
    assert (heap i1 !! s = Some sess1) as Hs1 by exact (Hrec username realname).
    set (i2 := updSession s (setLoggedIn true) i1).
    assert (heap i2 !! s = Some (setLoggedIn true sess1)) as Hs2
      by exact (updSession_lookup i1 s _ _ Hs1).
    unfold cmdUser. rewrite Hs. cbn [irc.Params].
    cbn [lookup list_lookup mbind option_bind].
    change (irc.Trailing (irc.mkMessage from "USER" [username; mode; unused; realname]))
      with realname.
    fold i1. unfold maybeLogin. rewrite Hs1.
    cbn [mbind option_bind].
    change (loggedIn sess1) with (loggedIn sess).
    change (Nick sess1) with (Nick sess).
    change (Username sess1) with username.
    rewrite Hout.
    rewrite (bool_decide_eq_false_2 _ Hnick), (bool_decide_eq_false_2 _ Huser).
    rewrite Hcaptcha. cbn [orb andb]. fold i2.
    match goal with
    | |- ∃ i' reply' sess' welcome, (?oper ≫= _) = _ ∧ _ =>
        assert (∃ i3 reply3 sess3 added,
                  oper = Some (i3, reply3)
                  ∧ heap i3 !! s = Some sess3
                  ∧ loggedIn sess3 = true
                  ∧ Username sess3 = username ∧ Realname sess3 = realname
                  ∧ Messages reply3
                    = (Messages reply
                       ++ mkOutputMessage
                            (mkRobustId (msgid reply) (nextReplyid (replyid reply)))
                            (ForSessions {[s]})
                            (srvMsg i irc.RPL_WELCOME
                               [Nick sess; "Welcome to RobustIRC!"])
                       :: added)%list)
          as (i3 & reply3 & sess3 & added & -> & Hs3 & Hin3 & Hu3 & Hr3 & Hm3)
    end.
    { set (nickserv := if bool_decide (extractPassword (Pass sess1) "nickserv" = "")
                       then _ else _).
      assert (∃ added, Messages nickserv
                = (Messages reply
                   ++ mkOutputMessage
                        (mkRobustId (msgid reply) (nextReplyid (replyid reply)))
                        (ForSessions {[s]})
                        (srvMsg i irc.RPL_WELCOME [Nick sess; "Welcome to RobustIRC!"])
                   :: added)%list) as [added1 Hadded1].
      { unfold nickserv. destruct (bool_decide _); eexists; cbn;
          rewrite <- !app_assoc; reflexivity. }
      destruct (bool_decide (extractPassword (Pass sess1) "oper" = "")).
      { eexists i2, nickserv, _, added1. split; [reflexivity|].
        split; [exact Hs2|]. by repeat split. }
      case_bool_decide as Hlen.
      - destruct (cmdOper_keeps i2 s nickserv
                    (ParseMessage ("OPER " +:+ extractPassword (Pass sess1) "oper"))
                    _ Hs2 Hlen)
          as (i3 & reply3 & sess3 & added & Hrun & Hs3 & Hin3 & Hu3 & Hr3 & Hm3).
        exists i3, reply3, sess3, (added1 ++ added)%list.
        split; [exact Hrun|]. split; [exact Hs3|]. split; [by rewrite Hin3|].
        split; [by rewrite Hu3|]. split; [by rewrite Hr3|].
        rewrite Hm3, Hadded1. by rewrite <- app_assoc.
      - eexists i2, nickserv, _, added1. split; [reflexivity|].
        split; [exact Hs2|]. by repeat split. }
    cbn [mbind option_bind].
    set (i4 := updSession s (setPass "") i3).
    assert (heap i4 !! s = Some (setPass "" sess3)) as Hs4
      by exact (updSession_lookup i3 s _ _ Hs3).
    unfold cmdMotd. rewrite Hs4. cbn [mbind option_bind].
    eexists i4, _, (setPass "" sess3), _.
    split; [reflexivity|]. split; [exact Hs4|].
    split; [exact Hin3|]. split; [reflexivity|].
    split; [exact Hu3|]. split; [exact Hr3|].
    split; [eapply firstNew_app; cbn; rewrite Hm3, <- !app_assoc; reflexivity|].
    done.
Qed.

End Registration.

Section RegistrationOnTheNetwork.

#[local] Existing Instance Example.env.
#[local] Existing Instance Scenario.outside.

Lemma pass_is_stored_under_a_key_witness :
  let i := Example.both in
  let s := Example.alice in
  let sess := Example.user Example.alice "Alice" {["#test"]} ∅ in
  let reply := Example.reply0 in
  let msg := Example.line "PASS" ["secret"] in
  heap i !! s = Some sess
  ∧ (loggedIn sess = true ∨ Nick sess = "" ∨ Username sess = "")
  ∧ (let given :=
       if bool_decide (0 < length (irc.Params msg))%nat
       then strings.Join (irc.Params msg) " " else Pass sess in
     let stored := keyedPass (Pass sess) (irc.Params msg) in
     cmdPass i s reply msg = Some (updSession s (setPass stored) i, reply)
     ∧ (∃ key, key ∈ passKeys ∧ String.prefix key stored = true)
     ∧ ((∃ key, key ∈ passKeys ∧ String.prefix key given = true) → stored = given)
     ∧ ((∀ key, key ∈ passKeys → String.prefix key given = false) →
        stored = "nickserv=" +:+ given)).
Proof.
  intros i s sess reply msg.
  assert (heap i !! s = Some sess) as H1
    by (reflexivity).
  assert (loggedIn sess = true ∨ Nick sess = "" ∨ Username sess = "") as H2
    by (left; reflexivity).
  repeat (split; [assumption|]).
  exact (pass_is_stored_under_a_key i s sess reply msg H1 H2).
Defined.

Lemma login_needs_nick_and_user_witness :
  let i := Scenario.arrival in
  let s := Scenario.carol in
  let sess := Scenario.newcomer Scenario.carol in
  let reply := Example.reply0 in
  let from := None in
  let nick := "Carol" in
  heap i !! s = Some sess
  ∧ loggedIn sess = false
  ∧ Nick sess = ""
  ∧ Username sess = ""
  ∧ NickToLower "" = ""
  ∧ nick ≠ ""
  ∧ IsValidNickname nick = true
  ∧ IsServicesNickname nick = false
  ∧ nicks i !! NickToLower nick = None
  ∧ svsholds i !! NickToLower nick = None
  ∧ ((∀ username mode unused realname,
        Nick sess = "" →
        ∃ i' sess',
          cmdUser i s reply
            (irc.mkMessage from "USER" [username; mode; unused; realname])
          = Some (i', reply)
          ∧ heap i' !! s = Some sess'
          ∧ loggedIn sess' = false
          ∧ Username sess' = username ∧ Realname sess' = realname)
     ∧ (∀ nick,
          Nick sess = "" → Username sess = "" → NickToLower "" = "" →
          nick ≠ "" → IsValidNickname nick = true →
          IsServicesNickname nick = false →
          nicks i !! NickToLower nick = None →
          svsholds i !! NickToLower nick = None →
          ∃ i' sess',
            cmdNick i s reply (irc.mkMessage from "NICK" [nick]) = Some (i', reply)
            ∧ heap i' !! s = Some sess'
            ∧ loggedIn sess' = false ∧ Nick sess' = nick
            ∧ nicks i' !! NickToLower nick = Some s)
     ∧ (∀ username mode unused realname,
          Nick sess ≠ "" → username ≠ "" → captchaRequiredForLogin = false →
          ∃ i' reply' sess' welcome,
            cmdUser i s reply
              (irc.mkMessage from "USER" [username; mode; unused; realname])
            = Some (i', reply')
            ∧ heap i' !! s = Some sess'
            ∧ loggedIn sess' = true ∧ Pass sess' = ""
            ∧ Username sess' = username ∧ Realname sess' = realname
            ∧ firstNew reply reply' = Some welcome
            ∧ InterestingFor welcome = ForSessions {[s]}
            ∧ Data welcome = srvMsg i irc.RPL_WELCOME
                               [Nick sess; "Welcome to RobustIRC!"])).
Proof.
  intros i s sess reply from nick.
  assert (heap i !! s = Some sess) as H1
    by (reflexivity).
  assert (loggedIn sess = false) as H2
    by (reflexivity).
  assert (Nick sess = "") as I1
    by (reflexivity).
  assert (Username sess = "") as I2
    by (reflexivity).
  assert (NickToLower "" = "") as I3
    by (reflexivity).
  assert (nick ≠ "") as I4
    by (discriminate).
  assert (IsValidNickname nick = true) as I5
    by (reflexivity).
  assert (IsServicesNickname nick = false) as I6
    by (reflexivity).
  assert (nicks i !! NickToLower nick = None) as I7
    by (reflexivity).
  assert (svsholds i !! NickToLower nick = None) as I8
    by (reflexivity).
  repeat (split; [assumption|]).
  exact (login_needs_nick_and_user i s sess reply from H1 H2).
Defined.

End RegistrationOnTheNetwork.

Section Aliases.

Context {E : Env} {O : Outside}.

(** X17. Every service alias of the command table is expanded. For each verb
    the table gives to [cmdServiceAlias] (NICKSERV, NS, CHANSERV, CS, ...; the
    table holds them in upper case, which [strings.ToUpper] leaves as it is),
    the handler finds the verb in its alias map and hands PRIVMSG to the
    service, with the parameters joined by spaces as text, to [cmdPrivmsg]:
    no alias of the table is ignored. *)
Theorem service_aliases_are_expanded (panicCommand : bool) (i : IRCServer)
    (s : RobustId) (reply : Replyctx) (msg : irc.Message) (cmd : ircCommand) :
  Commands panicCommand !! irc.Command msg = Some cmd →
  Func cmd = M_cmdServiceAlias →
  ToUpper (irc.Command msg) = irc.Command msg →
  ∃ service,
    service ∈ ["NickServ"; "ChanServ"; "OperServ"; "MemoServ"; "HostServ";
               "BotServ"]
    ∧ cmdServiceAlias i s reply msg
      = cmdPrivmsg i s reply
          (ParseMessage ("PRIVMSG " +:+ service +:+ " :"
                         +:+ strings.Join (irc.Params msg) " ")).
Proof.
  intros Hcmd Hfunc Hupper. unfold cmdServiceAlias. rewrite Hupper.
  unfold Commands in Hcmd. apply elem_of_list_to_map_2 in Hcmd.
  assert (irc.Command msg
          ∈ ["NICKSERV"; "CHANSERV"; "OPERSERV"; "MEMOSERV"; "HOSTSERV";
             "BOTSERV"; "NS"; "CS"; "OS"; "MS"; "HS"; "BS"]) as Hverb.
  { destruct panicCommand; cbn in Hcmd;
      repeat (apply elem_of_cons in Hcmd as [Hcmd|Hcmd];
              [injection Hcmd as Hverb ->; cbn in Hfunc;
               first [discriminate Hfunc
                     | rewrite Hverb;
                       repeat (apply elem_of_cons; first [left; reflexivity | right])]|]);
      by apply elem_of_nil in Hcmd. }
  repeat (apply elem_of_cons in Hverb as [->|Hverb]);
    [..|by apply elem_of_nil in Hverb];
    [exists "NickServ" | exists "ChanServ" | exists "OperServ"
     | exists "MemoServ" | exists "HostServ" | exists "BotServ"
     | exists "NickServ" | exists "ChanServ" | exists "OperServ"
     | exists "MemoServ" | exists "HostServ" | exists "BotServ"];
    (split; [repeat (apply elem_of_cons; first [left; reflexivity | right])
            |reflexivity]).
Qed.

End Aliases.

Section AliasesOnTheNetwork.

#[local] Existing Instance Example.env.
#[local] Existing Instance Scenario.outside.

Lemma service_aliases_are_expanded_witness :
  let panicCommand := false in
  let i := Example.both in
  let s := Example.alice in
  let reply := Example.reply0 in
  let msg := Example.line "NS" ["identify"; "secret"] in
  let cmd := mkIrcCommand M_cmdServiceAlias 0 in
  Commands panicCommand !! irc.Command msg = Some cmd
  ∧ Func cmd = M_cmdServiceAlias
  ∧ ToUpper (irc.Command msg) = irc.Command msg
  ∧ (∃ service,
       service ∈ ["NickServ"; "ChanServ"; "OperServ"; "MemoServ"; "HostServ";
                  "BotServ"]
       ∧ cmdServiceAlias i s reply msg
         = cmdPrivmsg i s reply
             (ParseMessage ("PRIVMSG " +:+ service +:+ " :"
                            +:+ strings.Join (irc.Params msg) " "))).
Proof.
  intros panicCommand i s reply msg cmd.
  assert (Commands panicCommand !! irc.Command msg = Some cmd) as H1
    by (vm_compute; reflexivity).
  assert (Func cmd = M_cmdServiceAlias) as H2
    by (reflexivity).
  assert (ToUpper (irc.Command msg) = irc.Command msg) as H3
    by (reflexivity).
  repeat (split; [assumption|]).
  exact (service_aliases_are_expanded panicCommand i s reply msg cmd H1 H2 H3).
Defined.

End AliasesOnTheNetwork.

(** ** The services link *)

Section Services.

Context {E : Env} {O : Outside}.

(** X18. SVSHOLD reserves a nickname and releases it. With a duration that
    parses, the hold is stored under the folded nickname with the last
    activity of the services session as its start and the last parameter as
    its reason, nothing else changes and nothing is sent; from then on a NICK
    to that nickname, from a session last active no later than the start plus
    the duration, is refused with ERR_ERRONEUSNICKNAME carrying the reason.
    With the nickname alone SVSHOLD deletes the hold. A duration that does
    not parse changes nothing and is reported to the services link. *)
Theorem svshold_reserves_a_nickname (i : IRCServer) (s : RobustId)
    (serv : Session) (reply : Replyctx) (from : option irc.Prefix)
    (name seconds why : string) :
  heap i !! s = Some serv →
  (∀ err,
     ParseDuration (seconds +:+ "s") = inr err →
     cmdServerSvshold i s reply (irc.mkMessage from "SVSHOLD" [name; seconds; why])
     = Some (i, sendServices reply (srvMsg i irc.NOTICE
                   [irc.Name (ircPrefix serv); "Invalid duration: " +:+ err])))
  ∧ (∀ d,
       ParseDuration (seconds +:+ "s") = inl d →
       ∃ i1 i2,
         cmdServerSvshold i s reply
           (irc.mkMessage from "SVSHOLD" [name; seconds; why])
         = Some (i1, reply)
         ∧ svsholds i1 !! NickToLower name
           = Some (mkSvshold (LastActivity serv) d why)
         ∧ (∀ n, n ≠ NickToLower name → svsholds i1 !! n = svsholds i !! n)
         ∧ heap i1 = heap i ∧ nicks i1 = nicks i ∧ channels i1 = channels i
         ∧ (∀ (t : RobustId) (sess : Session) (r : Replyctx)
              (from' : option irc.Prefix) (nick : string),
              heap i !! t = Some sess →
              NickToLower nick = NickToLower name → nick ≠ "" →
              IsValidNickname nick = true → IsServicesNickname nick = false →
              nicks i !! NickToLower nick = None →
              (LastActivity sess ≤ LastActivity serv + d)%Z →
              cmdNick i1 t r (irc.mkMessage from' "NICK" [nick])
              = Some (i1, sendUser t r (srvMsg i irc.ERR_ERRONEUSNICKNAME
                            [if loggedIn sess then Nick sess else "*"; nick;
                             "Erroneous Nickname: " +:+ why])))
         ∧ cmdServerSvshold i1 s reply (irc.mkMessage from "SVSHOLD" [name])
           = Some (i2, reply)
         ∧ svsholds i2 !! NickToLower name = None
         ∧ (∀ n, n ≠ NickToLower name → svsholds i2 !! n = svsholds i !! n)).
Proof.
  intros Hs. split.
  - intros err Herr. unfold cmdServerSvshold. rewrite Hs.
    cbn [irc.Params length mbind option_bind lookup list_lookup].
    rewrite bool_decide_eq_true_2 by lia. cbn [mbind option_bind].
    by rewrite Herr.
  - intros d Hd.
    set (n := NickToLower name).
    set (hold := mkSvshold (LastActivity serv) d why).
    set (i1 := setSvsholds (<[n := hold]> (svsholds i)) i).
    set (i2 := setSvsholds (delete n (svsholds i1)) i1).
    exists i1, i2. split; [|split; [|split; [|split; [|split; [|split; [|split;
                    [|split; [|split]]]]]]]].
    + unfold cmdServerSvshold. rewrite Hs.
      cbn [irc.Params length mbind option_bind lookup list_lookup].
      rewrite bool_decide_eq_true_2 by lia. cbn [mbind option_bind].
      by rewrite Hd.
    + cbn. by rewrite lookup_insert_eq.
    + intros n' Hn'. cbn. by rewrite lookup_insert_ne.
    + reflexivity.
    + reflexivity.
    + reflexivity.
    + intros t sess r from' nick Ht Hsame Hne Hvalid Hserv Hfree Hlate.
      unfold cmdNick.
      assert (heap i1 !! t = Some sess) as -> by exact Ht.
      cbn [irc.Params lookup list_lookup mbind option_bind from_option id].
      rewrite (bool_decide_eq_false_2 _ Hne), Hvalid, Hserv.
      assert (nicks i1 !! NickToLower nick = None) as -> by exact Hfree.
      cbn [negb]. rewrite bool_decide_eq_false_2 by (by intros [? ?]).
      cbn [andb orb].
      assert (svsholds i1 !! NickToLower nick = Some hold) as ->.
      { rewrite Hsame. cbn. by rewrite lookup_insert_eq. }
      assert (time.After (LastActivity sess)
                (time.Add (added hold) (duration hold)) = false) as ->.
      { unfold time.After, time.Add. cbn. apply Z.ltb_ge. lia. }
      reflexivity.
    + unfold cmdServerSvshold.
      assert (heap i1 !! s = Some serv) as -> by exact Hs.
      cbn [irc.Params length mbind option_bind lookup list_lookup].
      rewrite bool_decide_eq_false_2 by lia. reflexivity.
    + cbn. by rewrite lookup_delete_eq.
    + intros n' Hn'. cbn. by rewrite lookup_delete_ne, lookup_insert_ne.
Qed.

(** X19. What SVSNICK does to the directory. For a valid new nickname and an
    old nickname of the index, SVSNICK returns; the session has the new
    nickname, the index has no entry under the folded old nickname and, when
    the folded new nickname is another key, leads from it to the session;
    every channel has lost the member key of the old nickname and, when the
    session was on it and the keys differ, holds its permissions under the
    new key. When old and new nickname fold to the same key (a change of
    letter case only), index entry and memberships are deleted and not put
    back. *)
Theorem svsnick_moves_the_nickname (i : IRCServer) (s : RobustId)
    (reply : Replyctx) (from : option irc.Prefix) (oldName newName : string)
    (renamed : RobustId) (session : Session) :
  IsValidNickname newName = true →
  nicks i !! NickToLower oldName = Some renamed →
  heap i !! renamed = Some session →
  ∃ i' reply' session',
    cmdServerSvsnick i s reply (irc.mkMessage from "SVSNICK" [oldName; newName])
    = Some (i', reply')
    ∧ heap i' !! renamed = Some session'
    ∧ Nick session' = newName ∧ Channels session' = Channels session
    ∧ (∀ t, t ≠ renamed → heap i' !! t = heap i !! t)
    ∧ nicks i' !! NickToLower oldName = None
    ∧ (NickToLower newName ≠ NickToLower oldName →
       nicks i' !! NickToLower newName = Some renamed)
    ∧ (∀ n, n ≠ NickToLower oldName → n ≠ NickToLower newName →
            nicks i' !! n = nicks i !! n)
    ∧ ∀ k c,
        channels i !! k = Some c →
        ∃ c',
          channels i' !! k = Some c'
          ∧ cnicks c' !! NickToLower oldName = None
          ∧ (NickToLower newName ≠ NickToLower oldName →
             is_Some (cnicks c !! NickToLower oldName) →
             cnicks c' !! NickToLower newName = cnicks c !! NickToLower oldName)
          ∧ (∀ n, n ≠ NickToLower oldName → n ≠ NickToLower newName →
                  cnicks c' !! n = cnicks c !! n).
Proof.
  intros Hvalid Hnick Hsession.
  set (old := NickToLower oldName) in *. set (new := NickToLower newName).
  set (i1 := updSession renamed (setNick newName) i).
  set (i2 := setNicks (<[new := renamed]> (nicks i1)) i1).
  set (i3 := setNicks (delete old (nicks i2)) i2).
  set (i4 := setChannelMap (rekeyMember old new <$> channels i3) i3).
  set (i5 := updSession renamed updateIrcPrefix i4).
  assert (heap i5 !! renamed = Some (updateIrcPrefix (setNick newName session)))
    as H5.
  { cbn. by rewrite !lookup_alter_eq, Hsession. }
  exists i5. eexists. exists (updateIrcPrefix (setNick newName session)).
  split; [|split; [exact H5|]].
  { unfold cmdServerSvsnick.
    cbn [irc.Params lookup list_lookup mbind option_bind].
    rewrite Hvalid. cbn [negb]. fold old. rewrite Hnick, Hsession.
    cbn [mbind option_bind]. fold new i1 i2 i3 i4 i5. rewrite H5.
    reflexivity. }
  split; [reflexivity|]. split; [reflexivity|]. split.
  { intros t Ht. cbn. by rewrite !lookup_alter_ne. }
  split; [cbn; by rewrite lookup_delete_eq|]. split.
  { intros Hne. cbn. by rewrite lookup_delete_ne, lookup_insert_eq. }
  split.
  { intros n Ho Hn. cbn. by rewrite lookup_delete_ne, lookup_insert_ne. }
  intros k c Hc. exists (rekeyMember old new c). split.
  { cbn. rewrite lookup_fmap. change (channels i !! k) with (channels i !! k).
    by rewrite Hc. }
  unfold rekeyMember. cbn [cnicks setCnicks].
  split; [by rewrite lookup_delete_eq|]. split.
  - intros Hne [perms Hperms]. rewrite Hperms.
    by rewrite lookup_delete_ne, lookup_insert_eq.
  - intros n Ho Hn. rewrite lookup_delete_ne by done.
    destruct (cnicks c !! old); [by rewrite lookup_insert_ne|done].
Qed.

(** X20. The topic the services set is the topic the members are told.
    TOPIC from the services link, with a timestamp that parses (and is not
    the zero time), stores setter, time and text in the channel and changes
    nothing else; afterwards [TOPIC #c] from any member is answered with
    RPL_TOPIC carrying the text and with reply 333 carrying the setter and
    the timestamp as it was given. A timestamp that does not parse changes
    nothing and is reported to the services link. *)
Theorem services_topic_is_told_to_members (i : IRCServer) (s : RobustId)
    (reply : Replyctx) (from : irc.Prefix) (chname setter stamp text : string)
    (c : channel) :
  channels i !! ChanToLower chname = Some c →
  text ≠ "" →
  (∀ err,
     ParseInt stamp = inr err →
     cmdServerTopic i s reply
       (irc.mkMessage (Some from) irc.TOPIC [chname; setter; stamp; text])
     = Some (i, sendServices reply (srvMsg i irc.ERR_NEEDMOREPARAMS
                   ["*"; chname; "Could not parse timestamp: " +:+ err])))
  ∧ (∀ ts,
       ParseInt stamp = inl ts →
       time.IsZero (timeOfUnix ts) = false →
       ∃ i1 reply1,
         cmdServerTopic i s reply
           (irc.mkMessage (Some from) irc.TOPIC [chname; setter; stamp; text])
         = Some (i1, reply1)
         ∧ sameBut (ChanToLower chname) i i1
         ∧ ∀ (t : RobustId) (member : Session) (r : Replyctx)
             (from' : option irc.Prefix),
             heap i !! t = Some member →
             ChanToLower chname ∈ Channels member →
             cmdTopic i1 t r (irc.mkMessage from' irc.TOPIC [chname])
             = Some (i1,
                 sendUser t
                   (sendUser t r (srvMsg i irc.RPL_TOPIC
                                    [Nick member; chname; text]))
                   (srvMsg i "333"
                      [Nick member; chname; setter; strconv.FormatInt ts]))).
Proof.
  intros Hc Htext. set (k := ChanToLower chname) in *. split.
  - intros err Herr. unfold cmdServerTopic.
    cbn [irc.Params lookup list_lookup mbind option_bind]. fold k. rewrite Hc.
    assert (bool_decide (irc.Trailing (irc.mkMessage (Some from) irc.TOPIC
                           [chname; setter; stamp; text]) = "") = false) as ->
      by (by apply bool_decide_eq_false).
    cbn [andb]. by rewrite Herr.
  - intros ts Hts Hzero.
    set (c1 := setTopic setter (timeOfUnix ts) text c).
    set (i1 := updChannel k (setTopic setter (timeOfUnix ts) text) i).
    assert (channels i1 !! k = Some c1) as Hc1
      by exact (updChannel_lookup k _ i c Hc).
    exists i1. eexists. split; [|split].
    + unfold cmdServerTopic.
      cbn [irc.Params lookup list_lookup mbind option_bind]. fold k. rewrite Hc.
      assert (bool_decide (irc.Trailing (irc.mkMessage (Some from) irc.TOPIC
                             [chname; setter; stamp; text]) = "") = false) as ->
        by (by apply bool_decide_eq_false).
      cbn [andb]. rewrite Hts. cbn [mbind option_bind].
      change (irc.Trailing (irc.mkMessage (Some from) irc.TOPIC
                [chname; setter; stamp; text])) with text.
      fold i1. rewrite Hc1. cbn [mbind option_bind irc.prefix]. reflexivity.
    + apply sameBut_updChannel.
    + intros t member r from' Ht Hmem.
      rewrite (cmdTopic_get i1 t member r from' chname c1 Ht Hc1 Hmem).
      cbn [topicTime c1 setTopic]. rewrite Hzero.
      cbn [topic topicNick].
      assert (time.Unix (timeOfUnix ts) = ts) as ->.
      { unfold time.Unix, timeOfUnix. by rewrite Z.div_mul. }
      reflexivity.
Qed.

(** X21. The services invite without being on the channel. INVITE from the
    services link, for a session of the index that is not on the channel,
    makes no check of who asks: it adds the channel to the invitations of
    that session, changes nothing else, and tells the services link, the
    session and the channel; afterwards the checks [cmdJoin] makes on an
    existing channel let that session through, whatever the modes of the
    channel. *)
Theorem services_invite_opens_the_channel (i : IRCServer) (s invited : RobustId)
    (session : Session) (reply : Replyctx) (from : irc.Prefix)
    (nickname channelname : string) (c : channel) :
  nicks i !! NickToLower nickname = Some invited →
  heap i !! invited = Some session →
  channels i !! ChanToLower channelname = Some c →
  cnicks c !! NickToLower nickname = None →
  ∃ i' session',
    cmdServerInvite i s reply
      (irc.mkMessage (Some from) irc.INVITE [nickname; channelname])
    = Some (i',
        sendChannel i c
          (sendUser invited
             (sendServices reply (srvMsg i irc.RPL_INVITING
                [irc.Name from; nickname; name c]))
             (irc.mkMessage (Some (servicesPrefix from)) irc.INVITE
                [Nick session; name c]))
          (srvMsg i irc.NOTICE
             [name c; irc.Name from +:+ " invited " +:+ nickname
                      +:+ " into the channel."]))
    ∧ heap i' !! invited = Some session'
    ∧ invitedTo session' = {[ChanToLower channelname]} ∪ invitedTo session
    ∧ Channels session' = Channels session
    ∧ (∀ t, t ≠ invited → heap i' !! t = heap i !! t)
    ∧ nicks i' = nicks i ∧ channels i' = channels i
    ∧ ∀ (r : Replyctx) (key : string),
        joinGate i' invited session' r key channelname = inr (i', None).
Proof.
  intros Hnick Hinv Hc Hnot.
  set (k := ChanToLower channelname) in *.
  set (f := λ x, setInvitedTo ({[k]} ∪ invitedTo x) x).
  exists (updSession invited f i), (f session). split; [|split].
  { unfold cmdServerInvite.
    cbn [irc.Params lookup list_lookup mbind option_bind]. fold k.
    rewrite Hnick, Hc, Hinv. cbn [mbind option_bind]. rewrite Hnot.
    rewrite bool_decide_eq_false_2 by (by intros [? ?]). reflexivity. }
  { exact (updSession_lookup i invited f session Hinv). }
  split; [reflexivity|]. split; [reflexivity|]. split.
  { intros t Ht. by apply updSession_lookup_ne. }
  split; [reflexivity|]. split; [reflexivity|].
  intros r key. unfold joinGate. fold k.
  assert (channels (updSession invited f i) !! k = Some c) as -> by exact Hc.
  assert (bool_decide (k ∈ invitedTo (f session)) = true) as ->.
  { apply bool_decide_eq_true. unfold f. cbn. set_solver. }
  cbn [negb]. by rewrite !andb_false_r.
Qed.

End Services.

Section ServicesOnTheNetwork.

#[local] Existing Instance Example.env.
#[local] Existing Instance Scenario.outside.

Lemma svshold_reserves_a_nickname_witness :
  let i := Example.lobby in
  let s := Example.alice in
  let serv := Example.user Example.alice "Alice" ∅ ∅ in
  let reply := Example.reply0 in
  let from := None in
  let name := "Carol" in
  let seconds := "60" in
  let why := "reserved" in
  let d := 60000000000%Z in
  let t := Example.bob in
  let sess := Example.user Example.bob "bob" ∅ ∅ in
  let nick := "carol" in
  heap i !! s = Some serv
  ∧ ParseDuration (seconds +:+ "s") = inl d
  ∧ heap i !! t = Some sess
  ∧ NickToLower nick = NickToLower name
  ∧ nick ≠ ""
  ∧ IsValidNickname nick = true
  ∧ IsServicesNickname nick = false
  ∧ nicks i !! NickToLower nick = None
  ∧ (LastActivity sess ≤ LastActivity serv + d)%Z
  ∧ ((∀ err,
        ParseDuration (seconds +:+ "s") = inr err →
        cmdServerSvshold i s reply (irc.mkMessage from "SVSHOLD" [name; seconds; why])
        = Some (i, sendServices reply (srvMsg i irc.NOTICE
                      [irc.Name (ircPrefix serv); "Invalid duration: " +:+ err])))
     ∧ (∀ d,
          ParseDuration (seconds +:+ "s") = inl d →
          ∃ i1 i2,
            cmdServerSvshold i s reply
              (irc.mkMessage from "SVSHOLD" [name; seconds; why])
            = Some (i1, reply)
            ∧ svsholds i1 !! NickToLower name
              = Some (mkSvshold (LastActivity serv) d why)
            ∧ (∀ n, n ≠ NickToLower name → svsholds i1 !! n = svsholds i !! n)
            ∧ heap i1 = heap i ∧ nicks i1 = nicks i ∧ channels i1 = channels i
            ∧ (∀ (t : RobustId) (sess : Session) (r : Replyctx)
                 (from' : option irc.Prefix) (nick : string),
                 heap i !! t = Some sess →
                 NickToLower nick = NickToLower name → nick ≠ "" →
                 IsValidNickname nick = true → IsServicesNickname nick = false →
                 nicks i !! NickToLower nick = None →
                 (LastActivity sess ≤ LastActivity serv + d)%Z →
                 cmdNick i1 t r (irc.mkMessage from' "NICK" [nick])
                 = Some (i1, sendUser t r (srvMsg i irc.ERR_ERRONEUSNICKNAME
                               [if loggedIn sess then Nick sess else "*"; nick;
                                "Erroneous Nickname: " +:+ why])))
            ∧ cmdServerSvshold i1 s reply (irc.mkMessage from "SVSHOLD" [name])
              = Some (i2, reply)
            ∧ svsholds i2 !! NickToLower name = None
            ∧ (∀ n, n ≠ NickToLower name → svsholds i2 !! n = svsholds i !! n))).
Proof.
  intros i s serv reply from name seconds why d t sess nick.
  assert (heap i !! s = Some serv) as H1
    by (reflexivity).
  assert (ParseDuration (seconds +:+ "s") = inl d) as I1
    by (vm_compute; reflexivity).
  assert (heap i !! t = Some sess) as I2
    by (reflexivity).
  assert (NickToLower nick = NickToLower name) as I3
    by (reflexivity).
  assert (nick ≠ "") as I4
    by (discriminate).
  assert (IsValidNickname nick = true) as I5
    by (reflexivity).
  assert (IsServicesNickname nick = false) as I6
    by (reflexivity).
  assert (nicks i !! NickToLower nick = None) as I7
    by (reflexivity).
  assert ((LastActivity sess ≤ LastActivity serv + d)%Z) as I8
    by (vm_compute; discriminate).
  repeat (split; [assumption|]).
  exact (svshold_reserves_a_nickname i s serv reply from name seconds why H1).
Defined.

Lemma svsnick_moves_the_nickname_witness :
  let i := Example.both in
  let s := Example.alice in
  let reply := Example.reply0 in
  let from := None in
  let oldName := "bob" in
  let newName := "Robert" in
  let renamed := Example.bob in
  let session := Example.user Example.bob "bob" {["#test"]} ∅ in
  IsValidNickname newName = true
  ∧ nicks i !! NickToLower oldName = Some renamed
  ∧ heap i !! renamed = Some session
  ∧ (∃ i' reply' session',
       cmdServerSvsnick i s reply (irc.mkMessage from "SVSNICK" [oldName; newName])
       = Some (i', reply')
       ∧ heap i' !! renamed = Some session'
       ∧ Nick session' = newName ∧ Channels session' = Channels session
       ∧ (∀ t, t ≠ renamed → heap i' !! t = heap i !! t)
       ∧ nicks i' !! NickToLower oldName = None
       ∧ (NickToLower newName ≠ NickToLower oldName →
          nicks i' !! NickToLower newName = Some renamed)
       ∧ (∀ n, n ≠ NickToLower oldName → n ≠ NickToLower newName →
               nicks i' !! n = nicks i !! n)
       ∧ ∀ k c,
           channels i !! k = Some c →
           ∃ c',
             channels i' !! k = Some c'
             ∧ cnicks c' !! NickToLower oldName = None
             ∧ (NickToLower newName ≠ NickToLower oldName →
                is_Some (cnicks c !! NickToLower oldName) →
                cnicks c' !! NickToLower newName = cnicks c !! NickToLower oldName)
             ∧ (∀ n, n ≠ NickToLower oldName → n ≠ NickToLower newName →
                     cnicks c' !! n = cnicks c !! n)).
Proof.
  intros i s reply from oldName newName renamed session.
  assert (IsValidNickname newName = true) as H1
    by (reflexivity).
  assert (nicks i !! NickToLower oldName = Some renamed) as H2
    by (reflexivity).
  assert (heap i !! renamed = Some session) as H3
    by (reflexivity).
  repeat (split; [assumption|]).
  exact (svsnick_moves_the_nickname i s reply from oldName newName renamed session H1 H2 H3).
Defined.

Lemma services_topic_is_told_to_members_witness :
  let i := Example.both in
  let s := Example.alice in
  let reply := Example.reply0 in
  let from := Scenario.chanserv in
  let chname := "#test" in
  let setter := "ChanServ" in
  let stamp := "1425036445" in
  let text := "welcome" in
  let c := mkChannel "#test" {["alice" := true; "bob" := false]}
    {["n"%char; "t"%char]} "" time.zero "" in
  let ts := 1425036445%Z in
  channels i !! ChanToLower chname = Some c
  ∧ text ≠ ""
  ∧ ParseInt stamp = inl ts
  ∧ time.IsZero (timeOfUnix ts) = false
  ∧ ((∀ err,
        ParseInt stamp = inr err →
        cmdServerTopic i s reply
          (irc.mkMessage (Some from) irc.TOPIC [chname; setter; stamp; text])
        = Some (i, sendServices reply (srvMsg i irc.ERR_NEEDMOREPARAMS
                      ["*"; chname; "Could not parse timestamp: " +:+ err])))
     ∧ (∀ ts,
          ParseInt stamp = inl ts →
          time.IsZero (timeOfUnix ts) = false →
          ∃ i1 reply1,
            cmdServerTopic i s reply
              (irc.mkMessage (Some from) irc.TOPIC [chname; setter; stamp; text])
            = Some (i1, reply1)
            ∧ sameBut (ChanToLower chname) i i1
            ∧ ∀ (t : RobustId) (member : Session) (r : Replyctx)
                (from' : option irc.Prefix),
                heap i !! t = Some member →
                ChanToLower chname ∈ Channels member →
                cmdTopic i1 t r (irc.mkMessage from' irc.TOPIC [chname])
                = Some (i1,
                    sendUser t
                      (sendUser t r (srvMsg i irc.RPL_TOPIC
                                       [Nick member; chname; text]))
                      (srvMsg i "333"
                         [Nick member; chname; setter; strconv.FormatInt ts])))).
Proof.
  intros i s reply from chname setter stamp text c ts.
  assert (channels i !! ChanToLower chname = Some c) as H1
    by (reflexivity).
  assert (text ≠ "") as H2
    by (discriminate).
  assert (ParseInt stamp = inl ts) as I1
    by (vm_compute; reflexivity).
  assert (time.IsZero (timeOfUnix ts) = false) as I2
    by (vm_compute; reflexivity).
  repeat (split; [assumption|]).
  exact (services_topic_is_told_to_members i s reply from chname setter stamp text c H1 H2).
Defined.

Lemma services_invite_opens_the_channel_witness :
  let i := Example.aliceAlone in
  let s := Example.alice in
  let invited := Example.bob in
  let session := Example.user Example.bob "bob" ∅ ∅ in
  let reply := Example.reply0 in
  let from := Scenario.chanserv in
  let nickname := "bob" in
  let channelname := "#test" in
  let c := mkChannel "#test" {["alice" := true]} {["n"%char; "t"%char]}
    "" time.zero "" in
  nicks i !! NickToLower nickname = Some invited
  ∧ heap i !! invited = Some session
  ∧ channels i !! ChanToLower channelname = Some c
  ∧ cnicks c !! NickToLower nickname = None
  ∧ (∃ i' session',
       cmdServerInvite i s reply
         (irc.mkMessage (Some from) irc.INVITE [nickname; channelname])
       = Some (i',
           sendChannel i c
             (sendUser invited
                (sendServices reply (srvMsg i irc.RPL_INVITING
                   [irc.Name from; nickname; name c]))
                (irc.mkMessage (Some (servicesPrefix from)) irc.INVITE
                   [Nick session; name c]))
             (srvMsg i irc.NOTICE
                [name c; irc.Name from +:+ " invited " +:+ nickname
                         +:+ " into the channel."]))
       ∧ heap i' !! invited = Some session'
       ∧ invitedTo session' = {[ChanToLower channelname]} ∪ invitedTo session
       ∧ Channels session' = Channels session
       ∧ (∀ t, t ≠ invited → heap i' !! t = heap i !! t)
       ∧ nicks i' = nicks i ∧ channels i' = channels i
       ∧ ∀ (r : Replyctx) (key : string),
           joinGate i' invited session' r key channelname = inr (i', None)).
Proof.
  intros i s invited session reply from nickname channelname c.
  assert (nicks i !! NickToLower nickname = Some invited) as H1
    by (reflexivity).
  assert (heap i !! invited = Some session) as H2
    by (reflexivity).
  assert (channels i !! ChanToLower channelname = Some c) as H3
    by (reflexivity).
  assert (cnicks c !! NickToLower nickname = None) as H4
    by (reflexivity).
  repeat (split; [assumption|]).
  exact (services_invite_opens_the_channel i s invited session reply from nickname channelname c H1 H2 H3 H4).
Defined.

End ServicesOnTheNetwork.

Section ServicesMode.

Context {E : Env} {O : Outside}.

(** One change of a MODE of the services link. *)
Lemma serverModeStep_spec (k : lcChan) (channelname : string)
    (msg : irc.Message) (from : irc.Prefix) (i : IRCServer) (reply : Replyctx)
    (m : modeCmd) (c : channel) :
  irc.prefix msg = Some from →
  wfMode m → channels i !! k = Some c →
  ∃ i' reply' c',
    serverModeStep k channelname msg (i, reply) m = Some (i', reply')
    ∧ channels i' !! k = Some c'
    ∧ sameBut k i i'
    ∧ name c' = name c ∧ topic c' = topic c
    ∧ (∀ ch, flag (cmodes c') ch
             = if servicesFlag ch
               then default (flag (cmodes c) ch) (changeOf ch m)
               else flag (cmodes c) ch)
    ∧ (∀ n, cnicks c' !! n
            = (λ v, default v (opChangeOf n m)) <$> cnicks c !! n).
Proof.
  intros Hfrom (sign & b & rest & HM) Hc.
  unfold serverModeStep, prefixName, changeOf, opChangeOf, isQuery, letterOf,
    signOf, byteAt.
  rewrite HM, Hfrom.
  cbn [String.get option_bind mbind default id fmap option_fmap option_map].
  fold (servicesFlag b).
  assert (∀ ch, servicesFlag ch = true →
            negb (bool_decide (String sign (String b rest) = "+b"))
            && Ascii.eqb b ch = Ascii.eqb b ch) as Hquery.
  { intros ch Hch. destruct (Ascii.eqb b ch) eqn:Hb; [|apply andb_false_r].
    apply Ascii.eqb_eq in Hb as <-. rewrite andb_true_r.
    apply negb_true_iff, bool_decide_eq_false. intros [= -> -> ->]. done. }
  destruct (servicesFlag b) eqn:Hfl.
  { (* t, s, r, i *)
    assert (Ascii.eqb b "o" = false) as Ho.
    { unfold servicesFlag in Hfl.
      repeat (apply orb_true_iff in Hfl as [Hfl|Hfl]);
        apply Ascii.eqb_eq in Hfl; by subst b. }
    eexists _, reply, _. split; [reflexivity|].
    split; [by apply updChannel_lookup|].
    split; [apply sameBut_updChannel|].
    split; [done|]. split; [done|]. split.
    - intros ch. cbn [cmodes setCmodes]. rewrite flag_setFlag.
      destruct (servicesFlag ch) eqn:Hch.
      + rewrite (Hquery ch Hch). by destruct (Ascii.eqb b ch).
      + destruct (Ascii.eqb b ch) eqn:Hb; [|done].
        apply Ascii.eqb_eq in Hb as <-. by rewrite Hfl in Hch.
    - intros n. cbn [cnicks setCmodes]. rewrite Ho, andb_false_r.
      cbn [andb]. by destruct (cnicks c !! n). }
  assert (∀ ch, flag (cmodes c) ch
                = if servicesFlag ch
                  then default (flag (cmodes c) ch)
                         (if negb (bool_decide
                                     (String sign (String b rest) = "+b"))
                             && Ascii.eqb b ch
                          then Some (Ascii.eqb sign "+") else None)
                  else flag (cmodes c) ch) as Hflags.
  { intros ch. destruct (servicesFlag ch) eqn:Hch; [|done].
    rewrite (Hquery ch Hch). destruct (Ascii.eqb b ch) eqn:Hb; [|done].
    apply Ascii.eqb_eq in Hb as <-. by rewrite Hfl in Hch. }
  destruct (Ascii.eqb b "o") eqn:Ho.
  { (* o *)
    assert (negb (bool_decide (String sign (String b rest) = "+b")) = true)
      as Hq.
    { apply negb_true_iff, bool_decide_eq_false. intros [= -> -> ->]. done. }
    rewrite Hq in Hflags |- *. clear Hq Hquery.
    cbn [andb]. rewrite Hc. cbn [option_bind mbind].
    destruct (cnicks c !! NickToLower (Param m)) as [perms|] eqn:Hmem.
    - destruct (Bool.eqb perms (Ascii.eqb sign "+")) eqn:Hsame; cbn [negb].
      + apply Bool.eqb_prop in Hsame. subst perms.
        exists i, reply, c. split; [done|]. split; [done|].
        split; [apply sameBut_refl|]. split; [done|]. split; [done|].
        split; [exact Hflags|].
        intros n. case_bool_decide as Hn; [|by destruct (cnicks c !! n)].
        subst n. by rewrite Hmem.
      + eexists _, reply, _. split; [reflexivity|].
        split; [by apply updChannel_lookup|].
        split; [apply sameBut_updChannel|]. split; [done|]. split; [done|].
        split; [exact Hflags|].
        intros n. cbn [cnicks setCnicks].
        case_bool_decide as Hn.
        * subst n. by rewrite lookup_insert_eq, Hmem.
        * rewrite lookup_insert_ne by done. by destruct (cnicks c !! n).
    - exists i. eexists _, c. split; [reflexivity|]. split; [done|].
      split; [apply sameBut_refl|]. split; [done|]. split; [done|].
      split; [exact Hflags|].
      intros n. case_bool_decide as Hn; [|by destruct (cnicks c !! n)].
      subst n. by rewrite Hmem. }
  (* any other letter *)
  exists i. eexists _, c. split; [reflexivity|]. split; [done|].
  split; [apply sameBut_refl|]. split; [done|]. split; [done|].
  split; [exact Hflags|].
  intros n. rewrite andb_false_r. cbn [andb]. by destruct (cnicks c !! n).
Qed.

Lemma serverModeLoop (k : lcChan) (channelname : string) (msg : irc.Message)
    (from : irc.Prefix) (modes : list modeCmd) :
  irc.prefix msg = Some from →
  Forall wfMode modes →
  ∀ (i : IRCServer) (reply : Replyctx) (c : channel),
    channels i !! k = Some c →
    ∃ i' reply' c',
      forEach (serverModeStep k channelname msg) modes (i, reply)
      = Some (i', reply')
      ∧ channels i' !! k = Some c'
      ∧ sameBut k i i'
      ∧ name c' = name c ∧ topic c' = topic c
      ∧ (∀ ch, flag (cmodes c') ch
               = if servicesFlag ch
                 then flagAfter ch modes (flag (cmodes c) ch)
                 else flag (cmodes c) ch)
      ∧ (∀ n, cnicks c' !! n = opAfter n modes <$> cnicks c !! n).
Proof.
  intros Hfrom. induction 1 as [|m modes Hm _ IH]; intros i reply c Hc.
  - exists i, reply, c. cbn. split; [done|]. split; [done|].
    split; [apply sameBut_refl|]. split; [done|]. split; [done|]. split.
    + intros ch. by destruct (servicesFlag ch).
    + intros n. by destruct (cnicks c !! n).
  - destruct (serverModeStep_spec k channelname msg from i reply m c
                Hfrom Hm Hc)
      as (i1 & reply1 & c1 & Hstep & Hc1 & Hsame1 & Hname1 & Htopic1 & Hflag1
          & Hop1).
    destruct (IH i1 reply1 c1 Hc1)
      as (i2 & reply2 & c2 & Hloop & Hc2 & Hsame2 & Hname2 & Htopic2 & Hflag2
          & Hop2).
    exists i2, reply2, c2.
    split. { cbn [forEach]. rewrite Hstep. cbn. exact Hloop. }
    split; [exact Hc2|]. split; [by eapply sameBut_trans|].
    split; [congruence|]. split; [congruence|]. split.
    + intros ch. rewrite Hflag2, Hflag1. by destruct (servicesFlag ch).
    + intros n. rewrite Hop2, Hop1. by destruct (cnicks c !! n).
Qed.

(** X22. A MODE of the services link runs through all its changes without
    asking who sends it. On an existing channel it returns; every flag it
    writes ([t], [s], [r] and [i]; not [n], which a client may set) ends with
    the value of its last change, every member ends with the operator bit of
    the last [o] change that names it, and nothing else of the server
    changes: no other channel, no session, not the name or topic of the
    channel. *)
Theorem services_mode_applies_every_change (i : IRCServer) (s : RobustId)
    (reply : Replyctx) (msg : irc.Message) (from : irc.Prefix)
    (channelname : string) (c : channel) :
  irc.prefix msg = Some from →
  irc.Params msg !! 0%nat = Some channelname →
  channels i !! ChanToLower channelname = Some c →
  ∃ i' reply' c',
    cmdServerMode i s reply msg = Some (i', reply')
    ∧ channels i' !! ChanToLower channelname = Some c'
    ∧ sameBut (ChanToLower channelname) i i'
    ∧ name c' = name c ∧ topic c' = topic c
    ∧ (∀ ch, flag (cmodes c') ch
             = if servicesFlag ch
               then flagAfter ch (normalizeModes msg) (flag (cmodes c) ch)
               else flag (cmodes c) ch)
    ∧ (∀ n, cnicks c' !! n = opAfter n (normalizeModes msg) <$> cnicks c !! n).
Proof.
  intros Hfrom Hp Hc.
  pose proof (normalizeModes_wf msg) as Hwf.
  destruct (serverModeLoop (ChanToLower channelname) channelname msg from
              (normalizeModes msg) Hfrom Hwf i reply c Hc)
    as (i' & reply' & c' & Hloop & Hc' & Hrest).
  destruct (IRCParams_wf _ Hwf) as [params Hparams].
  unfold cmdServerMode. rewrite Hp. cbn [mbind option_bind]. rewrite Hc, Hloop.
  cbn [mbind option_bind].
  destruct (0 <? replyid reply')%Z.
  { by exists i', reply', c'. }
  rewrite Hc', Hfrom, Hparams. cbn [mbind option_bind].
  eexists i', _, c'. split; [reflexivity|]. by split.
Qed.

End ServicesMode.

Section ServicesModeOnTheNetwork.

#[local] Existing Instance Example.env.
#[local] Existing Instance Scenario.outside.

Lemma services_mode_applies_every_change_witness :
  let i := Example.both in
  let s := Example.alice in
  let reply := Example.reply0 in
  let msg := irc.mkMessage (Some Scenario.chanserv) "MODE"
    ["#test"; "+ri-t+o"; "bob"] in
  let from := Scenario.chanserv in
  let channelname := "#test" in
  let c := mkChannel "#test" {["alice" := true; "bob" := false]}
    {["n"%char; "t"%char]} "" time.zero "" in
  irc.prefix msg = Some from
  ∧ irc.Params msg !! 0%nat = Some channelname
  ∧ channels i !! ChanToLower channelname = Some c
  ∧ (∃ i' reply' c',
       cmdServerMode i s reply msg = Some (i', reply')
       ∧ channels i' !! ChanToLower channelname = Some c'
       ∧ sameBut (ChanToLower channelname) i i'
       ∧ name c' = name c ∧ topic c' = topic c
       ∧ (∀ ch, flag (cmodes c') ch
                = if servicesFlag ch
                  then flagAfter ch (normalizeModes msg) (flag (cmodes c) ch)
                  else flag (cmodes c) ch)
       ∧ (∀ n, cnicks c' !! n = opAfter n (normalizeModes msg) <$> cnicks c !! n)).
Proof.
  intros i s reply msg from channelname c.
  assert (irc.prefix msg = Some from) as H1
    by (reflexivity).
  assert (irc.Params msg !! 0%nat = Some channelname) as H2
    by (reflexivity).
  assert (channels i !! ChanToLower channelname = Some c) as H3
    by (reflexivity).
  repeat (split; [assumption|]).
  exact (services_mode_applies_every_change i s reply msg from channelname c H1 H2 H3).
Defined.

End ServicesModeOnTheNetwork.

(** ** Entering and leaving *)

Section RoundTrip.

Context {E : Env}.

(** The server in which [joinOne] enters the channel: the one it was called
    in, with the channel created when it did not exist. *)
Lemma joinGate_lets_in (i : IRCServer) (s : RobustId) (sess : Session)
    (reply : Replyctx) (key channelname : string) :
  match channels i !! ChanToLower channelname with
  | None =>
      ChannelLimit = 0%N ∨ (N.of_nat (size (channels i)) < ChannelLimit)%N
  | Some c =>
      ChanToLower channelname ∈ invitedTo sess
      ∨ flag (cmodes c) "i" = false ∧ flag (cmodes c) "x" = false
  end →
  ∃ i0 modesmsg,
    joinGate i s sess reply key channelname = inr (i0, modesmsg)
    ∧ heap i0 = heap i ∧ nicks i0 = nicks i
    ∧ (∀ k', k' ≠ ChanToLower channelname →
             channels i0 !! k' = channels i !! k')
    ∧ channels i0 !! ChanToLower channelname
      = Some (default (newChannel channelname)
                (channels i !! ChanToLower channelname)).
Proof.
  unfold joinGate. destruct (channels i !! ChanToLower channelname) as [c|] eqn:Hc.
  - intros Hlet0. exists i, None. split.
    + destruct Hlet0 as [Hinv|[-> ->]]; [|done].
      rewrite (bool_decide_eq_true_2 _ Hinv). cbn [negb].
      by rewrite !andb_false_r.
    + by rewrite Hc.
  - intros Hlimit. eexists _, _. split.
    + assert ((ChannelLimit <=? N.of_nat (size (channels i)))%N
              && (0 <? ChannelLimit)%N = false) as ->; [|reflexivity].
      destruct Hlimit as [->|Hlt]; [apply andb_false_r|].
      apply andb_false_iff. left. apply N.leb_gt. exact Hlt.
    + split; [done|]. split; [done|]. split.
      * intros k' Hk'. cbn. by rewrite lookup_insert_ne.
      * cbn. by rewrite lookup_insert_eq.
Qed.

(** X23. Leaving undoes entering. A JOIN of one valid channel name by a
    session that is not on the channel, and is let in (the channel does not
    exist and the channel limit leaves room, or it exists, has members and is
    not closed to the session), puts the session on the channel; the PART
    that follows returns and leaves the channel table and the nickname index
    exactly as they were before the JOIN (a channel the JOIN created is gone
    again, an older channel has its record back), the session with its
    nickname and the channel set it had, and every other session as it
    was. *)
Theorem part_undoes_join (i : IRCServer) (s : RobustId) (sess : Session)
    (reply reply2 : Replyctx) (from from2 : option irc.Prefix)
    (channelname : string) :
  heap i !! s = Some sess →
  nicks i !! NickToLower (Nick sess) = Some s →
  strings.Split channelname "," = [channelname] →
  IsValidChannel channelname = true →
  ChanToLower channelname ∉ Channels sess →
  match channels i !! ChanToLower channelname with
  | None =>
      ChannelLimit = 0%N ∨ (N.of_nat (size (channels i)) < ChannelLimit)%N
  | Some c =>
      cnicks c ≠ ∅
      ∧ cnicks c !! NickToLower (Nick sess) = None
      ∧ membersKnown i c
      ∧ (ChanToLower channelname ∈ invitedTo sess
         ∨ flag (cmodes c) "i" = false ∧ flag (cmodes c) "x" = false)
  end →
  ∃ i1 reply1 c1 i2 reply3 sess2,
    cmdJoin i s reply (irc.mkMessage from irc.JOIN [channelname])
    = Some (i1, reply1)
    ∧ channels i1 !! ChanToLower channelname = Some c1
    ∧ is_Some (cnicks c1 !! NickToLower (Nick sess))
    ∧ cmdPart i1 s reply2 (irc.mkMessage from2 irc.PART [channelname])
      = Some (i2, reply3)
    ∧ channels i2 = channels i
    ∧ nicks i2 = nicks i
    ∧ heap i2 !! s = Some sess2
    ∧ Channels sess2 = Channels sess ∧ Nick sess2 = Nick sess
    ∧ ∀ t, t ≠ s → heap i2 !! t = heap i !! t.
Proof.
  intros Hs Hindex Hsplit Hvalid Hoff Hlet.
  set (k := ChanToLower channelname) in *.
  set (n := NickToLower (Nick sess)) in *.
  (* The checks of the JOIN. *)
  destruct (cmdJoin_single i s reply
              (irc.mkMessage from irc.JOIN [channelname]) channelname
              eq_refl Hsplit) as [keys Hone].
  destruct (joinGate_lets_in i s sess reply (default "" (keys !! 0%nat))
              channelname) as
    (i0 & modesmsg & Hgate & Hh0 & Hn0 & Hother0 & Hk0).
  { fold k. destruct (channels i !! k); [tauto|done]. }
  fold k in Hother0, Hk0.
  set (c0 := default (newChannel channelname) (channels i !! k)) in *.
  assert (cnicks c0 !! n = None) as Hnew.
  { subst c0. destruct (channels i !! k); cbn; [tauto|apply lookup_empty]. }
  assert (membersKnown i0 c0) as Hknown0.
  { subst c0. destruct (channels i !! k) as [c|]; cbn.
    - destruct Hlet as (_ & _ & Hknown & _).
      intros m p Hm. specialize (Hknown m p Hm). unfold resolves in *.
      by rewrite Hn0, Hh0.
    - apply map_Forall_empty. }
  assert (heap i0 !! s = Some sess) as Hs0 by by rewrite Hh0.
  assert (nicks i0 !! n = Some s) as Hindex0 by by rewrite Hn0.
  (* Entering. *)
  destruct (joinEnter_spec i0 s sess reply channelname
              (bool_decide (is_Some (channels i !! k))) modesmsg c0
              Hs0 Hk0 Hindex0 Hknown0)
    as (i1 & reply1 & sess1 & Hrun1 & Hn1 & Hother1 & Hk1 & Hs1 & Hrest1
        & Hnick1 & _ & Hch1).
  fold k n in Hother1, Hk1, Hch1.
  rewrite (bool_decide_eq_false_2 (is_Some (cnicks c0 !! n))) in Hk1, Hch1
    by (rewrite Hnew; by intros [? ?]).
  set (c1 := setCnicks _ c0) in Hk1.
  assert (cmdJoin i s reply (irc.mkMessage from irc.JOIN [channelname])
          = Some (i1, reply1)) as Hjoin.
  { rewrite Hone. unfold joinOne. rewrite Hs. cbn [mbind option_bind].
    rewrite Hvalid. cbn [negb]. fold k. rewrite Hgate. exact Hrun1. }
  (* Leaving. *)
  destruct (remove_member_lookup i1 k n c1 Hk1) as (Hh2 & Hn2 & Hother2 & Hk2 & _).
  cbn zeta in Hh2, Hn2, Hother2, Hk2.
  set (j := maybeDeleteChannel _ k) in *.
  assert (delete n (cnicks c1) = cnicks c0) as Hback.
  { subst c1. cbn [cnicks setCnicks]. by apply delete_insert_id. }
  rewrite Hback in Hk2.
  exists i1, reply1, c1. eexists _, _, _.
  split; [exact Hjoin|]. split; [exact Hk1|]. split.
  { subst c1. cbn [cnicks setCnicks]. rewrite lookup_insert_eq. by eexists. }
  split.
  { unfold cmdPart. cbn [irc.Params lookup list_lookup mbind option_bind].
    rewrite Hsplit. cbn [forEach]. unfold partOne. rewrite Hs1.
    cbn [mbind option_bind]. fold k. rewrite Hk1, Hnick1. fold n.
    rewrite (bool_decide_eq_true_2 (is_Some (cnicks c1 !! n))).
    2:{ subst c1. cbn [cnicks setCnicks]. rewrite lookup_insert_eq. by eexists. }
    cbn [negb mbind option_bind]. reflexivity. }
  split.
  { (* the channel table *)
    cbn [channels updSession setHeap]. fold j. apply map_eq. intros k'.
    destruct (decide (k' = k)) as [->|Hne].
    - rewrite Hk2. subst c0 c1.
      destruct (channels i !! k) as [c|] eqn:Hc; cbn [default from_option id].
      + destruct Hlet as (Hmembers & _).
        rewrite decide_False by done. by destruct c.
      + by rewrite decide_True.
    - by rewrite Hother2, Hother1, Hother0. }
  split. { cbn. fold j. by rewrite Hn2, Hn1, Hn0. }
  split.
  { apply updSession_lookup. fold j. rewrite Hh2. exact Hs1. }
  split.
  { cbn [Channels setChannels]. rewrite Hch1. apply set_eq. intros x.
    rewrite elem_of_difference, elem_of_union, elem_of_singleton. split.
    - by intros [[->|Hx] Hne].
    - intros Hx. split; [by right|]. by intros ->. }
  split; [exact Hnick1|].
  intros t Hne. rewrite updSession_lookup_ne by done. fold j.
  by rewrite Hh2, Hrest1, Hh0.
Qed.

End RoundTrip.

Section RoundTripOnTheNetwork.

#[local] Existing Instance Example.env.
#[local] Existing Instance Scenario.outside.

Lemma part_undoes_join_witness :
  let i := Example.aliceAlone in
  let s := Example.bob in
  let sess := Example.user Example.bob "bob" ∅ ∅ in
  let reply := Example.reply0 in
  let reply2 := Example.reply0 in
  let from := None in
  let from2 := None in
  let channelname := "#test" in
  heap i !! s = Some sess
  ∧ nicks i !! NickToLower (Nick sess) = Some s
  ∧ strings.Split channelname "," = [channelname]
  ∧ IsValidChannel channelname = true
  ∧ (ChanToLower channelname ∉ Channels sess)
  ∧ (match channels i !! ChanToLower channelname with
     | None =>
         ChannelLimit = 0%N ∨ (N.of_nat (size (channels i)) < ChannelLimit)%N
     | Some c =>
         cnicks c ≠ ∅
         ∧ cnicks c !! NickToLower (Nick sess) = None
         ∧ membersKnown i c
         ∧ (ChanToLower channelname ∈ invitedTo sess
            ∨ flag (cmodes c) "i" = false ∧ flag (cmodes c) "x" = false)
     end)
  ∧ (∃ i1 reply1 c1 i2 reply3 sess2,
       cmdJoin i s reply (irc.mkMessage from irc.JOIN [channelname])
       = Some (i1, reply1)
       ∧ channels i1 !! ChanToLower channelname = Some c1
       ∧ is_Some (cnicks c1 !! NickToLower (Nick sess))
       ∧ cmdPart i1 s reply2 (irc.mkMessage from2 irc.PART [channelname])
         = Some (i2, reply3)
       ∧ channels i2 = channels i
       ∧ nicks i2 = nicks i
       ∧ heap i2 !! s = Some sess2
       ∧ Channels sess2 = Channels sess ∧ Nick sess2 = Nick sess
       ∧ ∀ t, t ≠ s → heap i2 !! t = heap i !! t).
Proof.
  intros i s sess reply reply2 from from2 channelname.
  assert (heap i !! s = Some sess) as H1
    by (reflexivity).
  assert (nicks i !! NickToLower (Nick sess) = Some s) as H2
    by (reflexivity).
  assert (strings.Split channelname "," = [channelname]) as H3
    by (reflexivity).
  assert (IsValidChannel channelname = true) as H4
    by (reflexivity).
  assert (ChanToLower channelname ∉ Channels sess) as H5
    by (apply (bool_decide_unpack _); vm_compute; exact I).
  assert (match channels i !! ChanToLower channelname with
          | None =>
              ChannelLimit = 0%N ∨ (N.of_nat (size (channels i)) < ChannelLimit)%N
          | Some c =>
              cnicks c ≠ ∅
              ∧ cnicks c !! NickToLower (Nick sess) = None
              ∧ membersKnown i c
              ∧ (ChanToLower channelname ∈ invitedTo sess
                 ∨ flag (cmodes c) "i" = false ∧ flag (cmodes c) "x" = false)
          end) as H6
    by (replace (channels i !! ChanToLower channelname)
          with (Some (mkChannel "#test" {["alice" := true]} {["n"%char; "t"%char]}   "" time.zero ""))
          by reflexivity;
        split; [apply (bool_decide_unpack _); vm_compute; exact I|];
        split; [reflexivity|];
        split; [apply membersKnown_check; vm_compute; reflexivity|];
        right; split; vm_compute; reflexivity).
  repeat (split; [assumption|]).
  exact (part_undoes_join i s sess reply reply2 from from2 channelname H1 H2 H3 H4 H5 H6).
Defined.

End RoundTripOnTheNetwork.

(** ** Who is on which channel *)

Section Membership.

Context {E : Env} {O : Outside}.

Lemma sameMembership_refl (i : IRCServer) : sameMembership i i.
Proof. by repeat split. Qed.

Lemma sameMembership_trans (i1 i2 i3 : IRCServer) :
  sameMembership i1 i2 → sameMembership i2 i3 → sameMembership i1 i3.
Proof.
  intros (Hn & Hs & Hc & Hh & Hk) (Hn' & Hs' & Hc' & Hh' & Hk').
  split; [congruence|]. split; [congruence|]. split; [|split].
  - intros k. by rewrite Hc', Hc.
  - intros t. by rewrite Hh', Hh.
  - intros t. by rewrite Hk', Hk.
Qed.

Lemma sameMembership_updSession (i : IRCServer) (s : RobustId)
    (f : Session → Session) :
  (∀ x, Channels (f x) = Channels x ∧ Nick (f x) = Nick x) →
  sameMembership i (updSession s f i).
Proof.
  intros Hf. split; [done|]. split; [done|]. split; [done|].
  split; intros t; cbn; (destruct (decide (t = s)) as [->|Hne];
    [rewrite lookup_alter_eq; destruct (heap i !! s) as [x|]; cbn; [|done];
     by rewrite (proj1 (Hf x)) || by rewrite (proj2 (Hf x))
    |by rewrite lookup_alter_ne]).
Qed.

Lemma sameMembership_updChannel (i : IRCServer) (k : lcChan)
    (f : channel → channel) :
  (∀ c, channels i !! k = Some c → dom (cnicks (f c)) = dom (cnicks c)) →
  sameMembership i (updChannel k f i).
Proof.
  intros Hf. split; [done|]. split; [done|]. split; [|done].
  intros k'. cbn. destruct (decide (k' = k)) as [->|Hne].
  - rewrite lookup_alter_eq. destruct (channels i !! k) as [c|] eqn:Hc; cbn; [|done].
    by rewrite (Hf c eq_refl).
  - by rewrite lookup_alter_ne.
Qed.

Lemma sameMembership_svsholds (i : IRCServer) (v : gmap lcNick svshold) :
  sameMembership i (setSvsholds v i).
Proof. by repeat split. Qed.

Lemma dom_insert_member (m : gmap lcNick bool) (n : lcNick) (v p : bool) :
  m !! n = Some p → dom (<[n := v]> m) = dom m.
Proof.
  intros Hn. rewrite dom_insert_L.
  assert (n ∈ dom m) as Hin by (apply elem_of_dom; by eexists).
  apply set_eq. intros x. rewrite elem_of_union, elem_of_singleton.
  split; [intros [->|Hx]; done|by right].
Qed.


Ltac same_step :=
  first
    [ apply sameMembership_refl
    | apply sameMembership_updSession; intros ?; split; reflexivity
    | apply sameMembership_svsholds ].

Lemma cmdMotd_same (i i' : IRCServer) (s : RobustId) (reply reply' : Replyctx)
    (msg : irc.Message) :
  cmdMotd i s reply msg = Some (i', reply') → sameMembership i i'.
Proof.
  unfold cmdMotd. destruct (heap i !! s); [|done]. cbn [mbind option_bind].
  intros [= <- _]. same_step.
Qed.

Lemma cmdOper_same (i i' : IRCServer) (s : RobustId) (reply reply' : Replyctx)
    (msg : irc.Message) :
  cmdOper i s reply msg = Some (i', reply') → sameMembership i i'.
Proof.
  unfold cmdOper. destruct (heap i !! s) as [sess|] eqn:Hs; [|done].
  cbn [mbind option_bind].
  destruct (irc.Params msg !! 0%nat); [|done]. cbn [mbind option_bind].
  destruct (irc.Params msg !! 1%nat); [|done]. cbn [mbind option_bind].
  destruct (existsb _ _); cbn [negb].
  - rewrite (updSession_lookup _ _ _ _ Hs). cbn [mbind option_bind].
    intros [= <- _]. same_step.
  - intros [= <- _]. same_step.
Qed.

Lemma maybeLogin_same (i i' : IRCServer) (s : RobustId)
    (reply reply' : Replyctx) (msg : irc.Message) :
  maybeLogin i s reply msg = Some (i', reply') → sameMembership i i'.
Proof.
  unfold maybeLogin. destruct (heap i !! s) as [sess|] eqn:Hs; [|done].
  cbn [mbind option_bind].
  destruct (loggedIn sess); [intros [= <- _]; same_step|].
  destruct (_ || _); [intros [= <- _]; same_step|].
  destruct (_ && _); [intros [= <- _]; same_step|].
  set (i1 := updSession s (setLoggedIn true) i).
  assert (sameMembership i i1) as H1 by (unfold i1; same_step).
  match goal with
  | |- (?oper ≫= _) = _ → _ => destruct oper as [[i2 reply2]|] eqn:Hoper
  end; [|done].
  cbn [mbind option_bind]. intros Hmotd.
  assert (sameMembership i1 i2) as H2.
  { destruct (bool_decide (extractPassword (Pass sess) "oper" = "")).
    { injection Hoper as <- _. same_step. }
    destruct (bool_decide _).
    - by eapply cmdOper_same.
    - injection Hoper as <- _. same_step. }
  apply cmdMotd_same in Hmotd.
  eapply sameMembership_trans; [exact H1|].
  eapply sameMembership_trans; [exact H2|].
  eapply sameMembership_trans; [|exact Hmotd]. same_step.
Qed.

Lemma cmdTopic_same (i i' : IRCServer) (s : RobustId) (reply reply' : Replyctx)
    (msg : irc.Message) :
  cmdTopic i s reply msg = Some (i', reply') → sameMembership i i'.
Proof.
  unfold cmdTopic. destruct (heap i !! s) as [sess|]; [|done].
  cbn [mbind option_bind].
  destruct (irc.Params msg !! 0%nat) as [chname|]; [|done].
  cbn [mbind option_bind].
  destruct (channels i !! ChanToLower chname) as [c|] eqn:Hc;
    [|intros [= <- _]; same_step].
  assert (∀ f, (∀ c, cnicks (f c) = cnicks c) →
            sameMembership i (updChannel (ChanToLower chname) f i)) as Hupd.
  { intros f Hf. apply sameMembership_updChannel. intros c0 _. by rewrite Hf. }
  destruct (_ && _).
  { destruct (topicLocked _ _) as [locked|]; [|done]. cbn [mbind option_bind].
    destruct locked; [intros [= <- _]; same_step|].
    rewrite (updChannel_lookup _ _ i c Hc). cbn [mbind option_bind].
    intros [= <- _]. by apply Hupd. }
  destruct (negb _); [intros [= <- _]; same_step|].
  destruct (bool_decide _).
  { destruct (time.IsZero _); intros [= <- _]; same_step. }
  destruct (topicLocked _ _) as [locked|]; [|done]. cbn [mbind option_bind].
  destruct locked; [intros [= <- _]; same_step|].
  rewrite (updChannel_lookup _ _ i c Hc). cbn [mbind option_bind].
  intros [= <- _]. by apply Hupd.
Qed.

Lemma cmdNames_same (i i' : IRCServer) (s : RobustId) (reply reply' : Replyctx)
    (msg : irc.Message) :
  cmdNames i s reply msg = Some (i', reply') → sameMembership i i'.
Proof.
  unfold cmdNames. destruct (heap i !! s) as [sess|]; [|done].
  cbn [mbind option_bind].
  match goal with
  | |- match ?found with _ => _ end = _ → _ =>
      destruct found as [[channelname c]|]
  end.
  - destruct (mapM _ _); [|done]. cbn [mbind option_bind].
    intros [= <- _]. same_step.
  - intros [= <- _]. same_step.
Qed.

(** Case analysis of a handler run whose branches leave the memberships as
    they are. *)
Ltac crunch :=
  repeat match goal with
  | |- Some (_, _) = Some (_, _) → _ => intros [= <- _]; same_step
  | |- None = Some _ → _ => discriminate
  | |- (?x ≫= _) = _ → _ =>
      let H := fresh "H" in destruct x eqn:H; cbn [mbind option_bind]
  | |- (match ?x with _ => _ end) = _ → _ =>
      let H := fresh "H" in destruct x eqn:H
  end.

Lemma cmdPing_same (i i' : IRCServer) (s : RobustId) (reply reply' : Replyctx)
    (msg : irc.Message) :
  cmdPing i s reply msg = Some (i', reply') → sameMembership i i'.
Proof. unfold cmdPing. crunch. Qed.

Lemma cmdWho_same (i i' : IRCServer) (s : RobustId) (reply reply' : Replyctx)
    (msg : irc.Message) :
  cmdWho i s reply msg = Some (i', reply') → sameMembership i i'.
Proof. unfold cmdWho. crunch. Qed.

Lemma cmdWhois_same (i i' : IRCServer) (s : RobustId)
    (reply reply' : Replyctx) (msg : irc.Message) :
  cmdWhois i s reply msg = Some (i', reply') → sameMembership i i'.
Proof. intros Hrun. apply cmdWhois_frame in Hrun as [-> _]. same_step. Qed.

Lemma cmdList_same (i i' : IRCServer) (s : RobustId) (reply reply' : Replyctx)
    (msg : irc.Message) :
  cmdList i s reply msg = Some (i', reply') → sameMembership i i'.
Proof. unfold cmdList. crunch. Qed.

Lemma cmdUserhost_same (i i' : IRCServer) (s : RobustId)
    (reply reply' : Replyctx) (msg : irc.Message) :
  cmdUserhost i s reply msg = Some (i', reply') → sameMembership i i'.
Proof. unfold cmdUserhost. crunch. Qed.

Lemma cmdIson_same (i i' : IRCServer) (s : RobustId) (reply reply' : Replyctx)
    (msg : irc.Message) :
  cmdIson i s reply msg = Some (i', reply') → sameMembership i i'.
Proof. unfold cmdIson. crunch. Qed.

Lemma cmdKnock_same (i i' : IRCServer) (s : RobustId) (reply reply' : Replyctx)
    (msg : irc.Message) :
  cmdKnock i s reply msg = Some (i', reply') → sameMembership i i'.
Proof. unfold cmdKnock. crunch. Qed.

Lemma cmdPrivmsg_same (i i' : IRCServer) (s : RobustId)
    (reply reply' : Replyctx) (msg : irc.Message) :
  cmdPrivmsg i s reply msg = Some (i', reply') → sameMembership i i'.
Proof. unfold cmdPrivmsg. crunch. Qed.

Lemma cmdServiceAlias_same (i i' : IRCServer) (s : RobustId)
    (reply reply' : Replyctx) (msg : irc.Message) :
  cmdServiceAlias i s reply msg = Some (i', reply') → sameMembership i i'.
Proof.
  unfold cmdServiceAlias. destruct (_ !! _).
  - apply cmdPrivmsg_same.
  - crunch.
Qed.

Lemma cmdServerPrivmsg_same (i i' : IRCServer) (s : RobustId)
    (reply reply' : Replyctx) (msg : irc.Message) :
  cmdServerPrivmsg i s reply msg = Some (i', reply') → sameMembership i i'.
Proof. unfold cmdServerPrivmsg, prefixName. crunch. Qed.

Lemma cmdAway_same (i i' : IRCServer) (s : RobustId) (reply reply' : Replyctx)
    (msg : irc.Message) :
  cmdAway i s reply msg = Some (i', reply') → sameMembership i i'.
Proof. unfold cmdAway. crunch. Qed.

Lemma cmdUser_same (i i' : IRCServer) (s : RobustId) (reply reply' : Replyctx)
    (msg : irc.Message) :
  cmdUser i s reply msg = Some (i', reply') → sameMembership i i'.
Proof.
  unfold cmdUser. destruct (heap i !! s); [|done]. cbn [mbind option_bind].
  destruct (irc.Params msg !! 0%nat) as [username|]; [|done].
  cbn [mbind option_bind]. intros Hlogin. apply maybeLogin_same in Hlogin.
  eapply sameMembership_trans; [|exact Hlogin].
  eapply (sameMembership_trans _ (updSession s (setUsername username) i));
    [same_step|].
  eapply (sameMembership_trans _
            (updSession s (setRealname (irc.Trailing msg))
               (updSession s (setUsername username) i))); same_step.
Qed.

Lemma cmdPass_same (i i' : IRCServer) (s : RobustId) (reply reply' : Replyctx)
    (msg : irc.Message) :
  cmdPass i s reply msg = Some (i', reply') → sameMembership i i'.
Proof.
  unfold cmdPass. destruct (heap i !! s); [|done]. cbn [mbind option_bind].
  intros Hlogin. apply maybeLogin_same in Hlogin.
  eapply sameMembership_trans; [|exact Hlogin]. same_step.
Qed.

Lemma cmdInvite_same (i i' : IRCServer) (s : RobustId) (reply reply' : Replyctx)
    (msg : irc.Message) :
  cmdInvite i s reply msg = Some (i', reply') → sameMembership i i'.
Proof. unfold cmdInvite. crunch. Qed.

Lemma cmdServerInvite_same (i i' : IRCServer) (s : RobustId)
    (reply reply' : Replyctx) (msg : irc.Message) :
  cmdServerInvite i s reply msg = Some (i', reply') → sameMembership i i'.
Proof. unfold cmdServerInvite, prefixName. crunch. Qed.

Lemma cmdServerSvshold_same (i i' : IRCServer) (s : RobustId)
    (reply reply' : Replyctx) (msg : irc.Message) :
  cmdServerSvshold i s reply msg = Some (i', reply') → sameMembership i i'.
Proof. unfold cmdServerSvshold. crunch. Qed.

Lemma cmdServerTopic_same (i i' : IRCServer) (s : RobustId)
    (reply reply' : Replyctx) (msg : irc.Message) :
  cmdServerTopic i s reply msg = Some (i', reply') → sameMembership i i'.
Proof.
  unfold cmdServerTopic, prefixName.
  assert (∀ k f, (∀ c, cnicks (f c) = cnicks c) →
            sameMembership i (updChannel k f i)) as Hupd.
  { intros k f Hf. apply sameMembership_updChannel. intros c0 _. by rewrite Hf. }
  repeat match goal with
  | |- Some (_, _) = Some (_, _) → _ =>
      intros [= <- _]; first [same_step | by apply Hupd]
  | |- None = Some _ → _ => discriminate
  | |- (?x ≫= _) = _ → _ =>
      let H := fresh "H" in destruct x eqn:H; cbn [mbind option_bind]
  | |- (match ?x with _ => _ end) = _ → _ =>
      let H := fresh "H" in destruct x eqn:H
  end.
Qed.

(** Where a step of a loop with early [return] leaves the loop variables. *)
Lemma forEachCtl_inv {A B} (P : A → Prop) (body : A → B → option (ctl A))
    (l : list B) :
  (∀ a x r, P a → body a x = Some r →
            P (match r with Next a' | Return a' => a' end)) →
  ∀ a r, P a → forEachCtl body l a = Some r →
         P (match r with Next a' | Return a' => a' end).
Proof.
  intros Hbody. induction l as [|x l IH]; intros a r Ha Hrun.
  - by injection Hrun as <-.
  - cbn [forEachCtl] in Hrun.
    destruct (body a x) as [r1|] eqn:Hx; [|done]. cbn in Hrun.
    specialize (Hbody a x r1 Ha Hx). destruct r1 as [a1|a1].
    + exact (IH _ _ Hbody Hrun).
    + by injection Hrun as <-.
Qed.

Lemma forEach_inv {A B} (P : A → Prop) (body : A → B → option A) (l : list B) :
  (∀ a x a', P a → body a x = Some a' → P a') →
  ∀ a a', P a → forEach body l a = Some a' → P a'.
Proof.
  intros Hbody. induction l as [|x l IH]; intros a a' Ha Hrun.
  - by injection Hrun as <-.
  - cbn [forEach] in Hrun.
    destruct (body a x) as [a1|] eqn:Hx; [|done]. cbn in Hrun.
    exact (IH _ _ (Hbody _ _ _ Ha Hx) Hrun).
Qed.

Lemma modeStep_same (i0 : IRCServer) (s : RobustId) (nick channelname : string)
    (k : lcChan) (isChanOp : bool) (st : IRCServer * Replyctx * bool)
    (mode : modeCmd) (r : ctl (IRCServer * Replyctx * bool)) :
  sameMembership i0 st.1.1 →
  modeStep s nick channelname k isChanOp st mode = Some r →
  sameMembership i0 (match r with Next a | Return a => a end).1.1.
Proof.
  destruct st as [[i reply] queryOnly]. cbn [fst]. intros H0 Hrun.
  assert (∀ i', sameMembership i i' → sameMembership i0 i') as Hto.
  { intros i' H. by eapply sameMembership_trans. }
  assert (∀ f, (∀ c, cnicks (f c) = cnicks c) →
            sameMembership i0 (updChannel k f i)) as Hflag.
  { intros f Hf. apply Hto, sameMembership_updChannel.
    intros c0 _. by rewrite Hf. }
  unfold modeStep in Hrun.
  destruct (byteAt 1 (Mode mode)) as [char|]; [|done].
  cbn [mbind option_bind] in Hrun.
  destruct (negb (bool_decide (Mode mode = "+b"))).
  - destruct (negb isChanOp); [by injection Hrun as <-|].
    destruct (byteAt 0 (Mode mode)) as [sign|]; [|done].
    cbn [mbind option_bind] in Hrun.
    destruct (isFlagLetter char).
    { injection Hrun as <-. by apply Hflag. }
    destruct (Ascii.eqb char "x").
    { destruct captchaConfigured; injection Hrun as <-; [by apply Hflag|done]. }
    destruct (Ascii.eqb char "o"); [|by injection Hrun as <-].
    destruct (channels i !! k) as [c|] eqn:Hc; [|done].
    cbn [mbind option_bind] in Hrun.
    destruct (cnicks c !! NickToLower (Param mode)) as [perms|] eqn:Hp;
      [|by injection Hrun as <-].
    destruct (negb _); injection Hrun as <-; [|done].
    apply Hto, sameMembership_updChannel. intros c0 Hc0.
    rewrite Hc in Hc0. injection Hc0 as <-. cbn [cnicks setCnicks].
    by eapply dom_insert_member.
  - destruct (Ascii.eqb char "b"); by injection Hrun as <-.
Qed.

Lemma cmdMode_same (i i' : IRCServer) (s : RobustId) (reply reply' : Replyctx)
    (msg : irc.Message) :
  cmdMode i s reply msg = Some (i', reply') → sameMembership i i'.
Proof.
  unfold cmdMode. destruct (heap i !! s) as [sess|]; [|done].
  cbn [mbind option_bind].
  destruct (irc.Params msg !! 0%nat) as [channelname|]; [|done].
  cbn [mbind option_bind]. destruct (bool_decide _).
  - destruct (channels i !! ChanToLower channelname) as [c|]; [|done].
    cbn [mbind option_bind].
    destruct (bool_decide _); [intros [= <- _]; same_step|].
    destruct (cnicks c !! NickToLower (Nick sess)) as [perms|]; [|done].
    cbn [mbind option_bind].
    destruct (forEachCtl _ _ _) as [r|] eqn:Hloop; [|done].
    cbn [mbind option_bind].
    pose proof (forEachCtl_inv
                  (λ st : IRCServer * Replyctx * bool, sameMembership i st.1.1)
                  _ _ (λ a x r Ha, modeStep_same i s _ _ _ _ a x r Ha)
                  (i, reply, true) r (sameMembership_refl i) Hloop) as Hsame.
    destruct r as [[[i1 reply1] q]|[[i1 reply1] q]]; cbn [fst] in Hsame.
    + destruct q; [by intros [= <- _]|].
      destruct (_ <? _)%Z; [by intros [= <- _]|].
      destruct (channels i1 !! _); [|done]. cbn [mbind option_bind].
      destruct (IRCParams _); [|done]. cbn [mbind option_bind].
      by intros [= <- _].
    + by intros [= <- _].
  - destruct (nicks i !! NickToLower channelname) as [target|];
      [|intros [= <- _]; same_step].
    destruct (heap i !! target); [|done]. cbn [mbind option_bind].
    destruct (_ && _); [intros [= <- _]; same_step|].
    destruct (bool_decide _); [intros [= <- _]; same_step|].
    destruct (forEach _ _ _) as [i1|] eqn:Hloop; [|done].
    cbn [mbind option_bind].
    destruct (IRCParams _) as [params|]; [|done]. cbn [mbind option_bind].
    destruct (params !! 0%nat); [|done]. cbn [mbind option_bind].
    intros [= <- _].
    apply (forEach_inv (sameMembership i) (userModeStep target)
             (normalizeModes msg)) with (a := i); [|same_step|exact Hloop].
    intros a x a' Ha Hx. unfold userModeStep in Hx.
    destruct (byteAt 1 (Mode x)); [|done]. cbn [mbind option_bind] in Hx.
    destruct (byteAt 0 (Mode x)); [|done]. cbn [mbind option_bind] in Hx.
    destruct (Ascii.eqb _ _); injection Hx as <-; [|done].
    eapply sameMembership_trans; [exact Ha|]. same_step.
Qed.

Lemma cmdServerMode_same (i i' : IRCServer) (s : RobustId)
    (reply reply' : Replyctx) (msg : irc.Message) :
  cmdServerMode i s reply msg = Some (i', reply') → sameMembership i i'.
Proof.
  unfold cmdServerMode, prefixName.
  destruct (irc.Params msg !! 0%nat) as [channelname|]; [|done].
  cbn [mbind option_bind].
  destruct (channels i !! ChanToLower channelname) as [c|].
  2:{ destruct (irc.prefix msg); [|done]. intros [= <- _]. same_step. }
  destruct (forEach _ _ _) as [[i1 reply1]|] eqn:Hloop; [|done].
  cbn [mbind option_bind]. intros Hrun.
  assert (i' = i1) as ->.
  { destruct (_ <? _)%Z; [by injection Hrun as <-|].
    destruct (channels i1 !! _); [|done]. cbn [mbind option_bind] in Hrun.
    destruct (irc.prefix msg); [|done]. cbn [mbind option_bind] in Hrun.
    destruct (IRCParams _); [|done]. by injection Hrun as <-. }
  apply (forEach_inv (λ st : IRCServer * Replyctx, sameMembership i st.1)
           (serverModeStep (ChanToLower channelname) channelname msg)
           (normalizeModes msg)) with (a := (i, reply)) (a' := (i1, reply1));
    [|same_step|exact Hloop].
  intros [j r] x [j' r'] Ha Hx. cbn [fst] in Ha |- *.
  assert (∀ f, (∀ c, cnicks (f c) = cnicks c) →
            sameMembership i (updChannel (ChanToLower channelname) f j)) as Hflag.
  { intros f Hf. eapply sameMembership_trans; [exact Ha|].
    apply sameMembership_updChannel. intros c0 _. by rewrite Hf. }
  unfold serverModeStep, prefixName in Hx.
  destruct (byteAt 1 (Mode x)) as [char|]; [|done].
  cbn [mbind option_bind] in Hx.
  destruct (byteAt 0 (Mode x)) as [sign|]; [|done].
  cbn [mbind option_bind] in Hx.
  destruct (_ || _).
  { injection Hx as <- _. by apply Hflag. }
  destruct (Ascii.eqb char "o").
  - destruct (channels j !! _) as [c1|] eqn:Hc1; [|done].
    cbn [mbind option_bind] in Hx.
    destruct (cnicks c1 !! NickToLower (Param x)) as [perms|] eqn:Hp.
    + destruct (negb _); injection Hx as <- _; [|done].
      eapply sameMembership_trans; [exact Ha|].
      apply sameMembership_updChannel. intros c0 Hc0.
      rewrite Hc1 in Hc0. injection Hc0 as <-. cbn [cnicks setCnicks].
      by eapply dom_insert_member.
    + destruct (irc.prefix msg); [|done]. by injection Hx as <- _.
  - destruct (irc.prefix msg); [|done]. by injection Hx as <- _.
Qed.

Lemma cmdServerSvsmode_same (i i' : IRCServer) (s : RobustId)
    (reply reply' : Replyctx) (msg : irc.Message) :
  cmdServerSvsmode i s reply msg = Some (i', reply') → sameMembership i i'.
Proof.
  unfold cmdServerSvsmode.
  destruct (heap i !! s); [|done]. cbn [mbind option_bind].
  destruct (irc.Params msg !! 0%nat) as [name|]; [|done].
  cbn [mbind option_bind].
  destruct (nicks i !! NickToLower name) as [target|];
    [|intros [= <- _]; same_step].
  destruct (irc.Params msg !! 1%nat) as [modestr|]; [|done].
  cbn [mbind option_bind].
  destruct (_ && _); [intros [= <- _]; same_step|].
  destruct (forEach _ _ _) as [[i1 reply1]|] eqn:Hloop; [|done].
  cbn [mbind option_bind].
  destruct (heap i1 !! target); [|done]. cbn [mbind option_bind].
  destruct (heap i1 !! s); [|done]. cbn [mbind option_bind].
  intros [= <- _].
  apply (forEach_inv (λ st : IRCServer * Replyctx, sameMembership i st.1)
           (svsmodeStep target) (normalizeModes msg))
    with (a := (i, reply)) (a' := (i1, reply1)); [|same_step|exact Hloop].
  intros [j r] x [j' r'] Ha Hx. cbn [fst] in Ha |- *.
  unfold svsmodeStep in Hx.
  destruct (byteAt 0 (Mode x)); [|done]. cbn [mbind option_bind] in Hx.
  destruct (byteAt 1 (Mode x)); [|done]. cbn [mbind option_bind] in Hx.
  destruct (Ascii.eqb _ "d").
  { injection Hx as <- _. eapply sameMembership_trans; [exact Ha|]. same_step. }
  destruct (Ascii.eqb _ "r"); injection Hx as <- _; [|done].
  eapply sameMembership_trans; [exact Ha|]. same_step.
Qed.

(** X24. Who is on which channel changes through JOIN, PART, KICK, QUIT,
    KILL and NICK (and what the services do in their place) only. Whenever
    one of the other handlers returns (PING, USER, PASS, AWAY, OPER, MOTD,
    MODE, TOPIC, NAMES, INVITE, WHO, WHOIS, LIST, USERHOST, ISON, KNOCK,
    PRIVMSG and NOTICE, the service aliases, and MODE, TOPIC, INVITE,
    SVSHOLD, SVSMODE, PRIVMSG and NOTICE of the services link), the nickname
    index and the session table are as they were, every channel has the
    members it had (a MODE changes operator bits, not members; no channel
    appears or disappears), and every session has the nickname it had and is
    on the channels it was on. *)
Theorem other_commands_keep_the_memberships (h : handlerFn) (i i' : IRCServer)
    (s : RobustId) (reply reply' : Replyctx) (msg : irc.Message) :
  h ∈ [cmdPing; cmdUser; cmdPass; cmdAway; cmdOper; cmdMotd; cmdMode; cmdTopic;
       cmdNames; cmdInvite; cmdWho; cmdWhois; cmdList; cmdUserhost; cmdIson;
       cmdKnock; cmdPrivmsg; cmdServiceAlias; cmdServerMode; cmdServerTopic;
       cmdServerInvite; cmdServerSvshold; cmdServerSvsmode; cmdServerPrivmsg] →
  h i s reply msg = Some (i', reply') →
  sameMembership i i'.
Proof.
  intros Hh.
  repeat (apply elem_of_cons in Hh as [->|Hh]); [..|by apply elem_of_nil in Hh];
    eauto using cmdPing_same, cmdUser_same, cmdPass_same, cmdAway_same,
      cmdOper_same, cmdMotd_same, cmdMode_same, cmdTopic_same, cmdNames_same,
      cmdInvite_same, cmdWho_same, cmdWhois_same, cmdList_same,
      cmdUserhost_same,
      cmdIson_same, cmdKnock_same, cmdPrivmsg_same, cmdServiceAlias_same,
      cmdServerMode_same, cmdServerTopic_same, cmdServerInvite_same,
      cmdServerSvshold_same, cmdServerSvsmode_same, cmdServerPrivmsg_same.
Qed.

End Membership.

Section MembershipOnTheNetwork.

#[local] Existing Instance Example.env.
#[local] Existing Instance Scenario.outside.

Lemma other_commands_keep_the_memberships_witness :
  let h := cmdMode in
  let i := Example.both in
  let i' := default Example.both
    (fst <$> cmdMode Example.both Example.alice
    Example.reply0
    (Example.line "MODE" ["#test"; "+o-t"; "bob"])) in
  let s := Example.alice in
  let reply := Example.reply0 in
  let reply' := default Example.reply0
    (snd <$> cmdMode Example.both Example.alice
    Example.reply0
    (Example.line "MODE" ["#test"; "+o-t"; "bob"])) in
  let msg := Example.line "MODE" ["#test"; "+o-t"; "bob"] in
  h ∈ [cmdPing; cmdUser; cmdPass; cmdAway; cmdOper; cmdMotd; cmdMode; cmdTopic;
          cmdNames; cmdInvite; cmdWho; cmdWhois; cmdList; cmdUserhost; cmdIson;
          cmdKnock; cmdPrivmsg; cmdServiceAlias; cmdServerMode; cmdServerTopic;
          cmdServerInvite; cmdServerSvshold; cmdServerSvsmode; cmdServerPrivmsg]
  ∧ h i s reply msg = Some (i', reply')
  ∧ (sameMembership i i').
Proof.
  intros h i i' s reply reply' msg.
  assert (h ∈ [cmdPing; cmdUser; cmdPass; cmdAway; cmdOper; cmdMotd; cmdMode; cmdTopic;
               cmdNames; cmdInvite; cmdWho; cmdWhois; cmdList; cmdUserhost; cmdIson;
               cmdKnock; cmdPrivmsg; cmdServiceAlias; cmdServerMode; cmdServerTopic;
               cmdServerInvite; cmdServerSvshold; cmdServerSvsmode; cmdServerPrivmsg]) as H1
    by (repeat constructor).
  assert (h i s reply msg = Some (i', reply')) as H2
    by (vm_compute; reflexivity).
  repeat (split; [assumption|]).
  exact (other_commands_keep_the_memberships h i i' s reply reply' msg H1 H2).
Defined.

End MembershipOnTheNetwork.

(** ** No channel without members *)

Section Invariant.

Context {E : Env} {O : Outside}.






(** The member map of a channel that has members. *)
Lemma member_non_empty (m : gmap lcNick bool) (n : lcNick) :
  is_Some (m !! n) → m ≠ ∅.
Proof. intros [p Hp] ->. by rewrite lookup_empty in Hp. Qed.


















End Invariant.

Section InvariantOnTheNetwork.

#[local] Existing Instance Example.env.
#[local] Existing Instance Scenario.outside.


End InvariantOnTheNetwork.

(** ** The books of the directory *)

Section Books.

Context {E : Env} {O : Outside}.

































End Books.


Section BooksOnTheNetwork.

#[local] Existing Instance Example.env.
#[local] Existing Instance Scenario.outside.


End BooksOnTheNetwork.
